(** * Menu extraction pipeline: staged LLM extraction with bounded retries

    A shallow embedding of the extraction core of the backend
    ([backend/core/extraction/phase1.py] ... [phase4.py]), of the prompt
    builder ([backend/core/prompts/builder.py]), of the concurrency setting
    ([backend/config.py]) and of the item counting of
    [backend/api/routes/jobs.py].

    - Python values that travel as [Dict[str, Any]] are JSON-like values
      ([json]); the dynamic operations the sources apply to them
      (subscription, [.get], iteration, [len], truth value) are written out
      with the exceptions Python raises.
    - An [async def] is a resumption ([coro]): a finite tree whose nodes are
      the two suspension points of the sources, [await self.llm.generate]
      and [await asyncio.sleep].
    - [_bounded_gather] is an interleaving scheduler over such resumptions,
      driven by a schedule (which task advances next) and by the answers of
      the LLM provider.
    - [print] calls only log and are left out. *)

From Stdlib Require Import ZArith String Ascii List Bool Lia DecimalString.
From Stdlib Require QArith.
From stdpp Require Import base tactics option list.
Import ListNotations.

Set Warnings "-register-all".
Local Open Scope string_scope.
Local Open Scope Z_scope.

(** ** Exceptions *)

Inductive exn : Type :=
| ValueError (msg : string)
| KeyError (key : string)
| IndexError
| TypeError
| AttributeError
| ValidationError (msg : string)
| LLMClientError (msg : string)
| TemplateError (msg : string)
| FileNotFoundError (msg : string).

(** The result of a synchronous Python expression: a value or a raised
    exception. *)
Inductive res (A : Type) : Type :=
| Ok (a : A)
| Err (e : exn).
Arguments Ok {A} a.
Arguments Err {A} e.

#[global] Instance res_ret : MRet res := fun A a => Ok a.

#[global] Instance res_bind : MBind res := fun A B f m =>
  match m with
  | Ok a => f a
  | Err e => Err e
  end.

#[global] Instance res_fmap : FMap res := fun A B f m =>
  match m with
  | Ok a => Ok (f a)
  | Err e => Err e
  end.

(** [[f(x) for x in xs]] where [f] may raise: the first exception aborts the
    comprehension. *)
Fixpoint res_map {A B} (f : A -> res B) (xs : list A) : res (list B) :=
  match xs with
  | [] => Ok []
  | x :: xs' =>
      match f x with
      | Err e => Err e
      | Ok y =>
          match res_map f xs' with
          | Err e => Err e
          | Ok ys => Ok (y :: ys)
          end
      end
  end.

(** ** JSON-like values *)

Inductive json : Type :=
| JNull
| JBool (b : bool)
| JInt (z : Z)
| JFloat (q : QArith_base.Q)
| JStr (s : string)
| JArr (items : list json)
| JObj (fields : list (string * json)).

(** A Python [dict] with string keys, in insertion order. *)
Definition pydict : Type := list (string * json).

Fixpoint dict_lookup (key : string) (d : pydict) : option json :=
  match d with
  | [] => None
  | (k, v) :: d' => if String.eqb k key then Some v else dict_lookup key d'
  end.

(** [d.get(key, default)] on a dict. *)
Definition dict_get (d : pydict) (key : string) (default : json) : json :=
  match dict_lookup key d with
  | Some v => v
  | None => default
  end.

(** [v[key]] with a string key. *)
Definition py_getitem (v : json) (key : string) : res json :=
  match v with
  | JObj d =>
      match dict_lookup key d with
      | Some x => Ok x
      | None => Err (KeyError key)
      end
  | _ => Err TypeError
  end.

(** [v.get(key, default)]. *)
Definition py_get (v : json) (key : string) (default : json) : res json :=
  match v with
  | JObj d => Ok (dict_get d key default)
  | _ => Err AttributeError
  end.

Fixpoint chars_of (s : string) : list json :=
  match s with
  | EmptyString => []
  | String c s' => JStr (String c EmptyString) :: chars_of s'
  end.

(** [for x in v]: the elements of a list, the keys of a dict, the characters
    of a string. *)
Definition py_iter (v : json) : res (list json) :=
  match v with
  | JArr l => Ok l
  | JObj d => Ok (map (fun kv => JStr (fst kv)) d)
  | JStr s => Ok (chars_of s)
  | _ => Err TypeError
  end.

(** [len(v)]. *)
Definition py_len (v : json) : res Z :=
  match v with
  | JArr l => Ok (Z.of_nat (length l))
  | JObj d => Ok (Z.of_nat (length d))
  | JStr s => Ok (Z.of_nat (String.length s))
  | _ => Err TypeError
  end.

(** The truth value of [v], as in [if v:]. *)
Definition py_truthy (v : json) : bool :=
  match v with
  | JNull => false
  | JBool b => b
  | JInt z => negb (z =? 0)
  | JFloat q => negb (QArith_base.Qnum q =? 0)
  | JStr s => negb (String.eqb s "")
  | JArr l => negb (Nat.eqb (length l) 0)
  | JObj d => negb (Nat.eqb (length d) 0)
  end.

(** [l[i]] on a Python list: negative indices count from the end. *)
Definition list_index {A} (l : list A) (i : Z) : res A :=
  let n := Z.of_nat (length l) in
  let j := if i <? 0 then i + n else i in
  if (0 <=? j) && (j <? n) then
    match l !! Z.to_nat j with
    | Some x => Ok x
    | None => Err IndexError
    end
  else Err IndexError.

(** [images[page_number - 1]]: the subtraction is defined on [int] (and on
    [bool], a subclass of [int]); a [float] difference is not a list
    index. *)
Definition image_for {A} (images : list A) (page_number : json) : res A :=
  match page_number with
  | JInt z => list_index images (z - 1)
  | JBool b => list_index images ((if b then 1 else 0) - 1)
  | _ => Err TypeError
  end.

Definition string_of_Z (z : Z) : string :=
  NilZero.string_of_int (Z.to_int z).

Definition string_of_nat (n : nat) : string :=
  NilZero.string_of_uint (Nat.to_uint n).

(** [enumerate(xs, start)]. *)
Fixpoint enumerate {A} (start : Z) (xs : list A) : list (Z * A) :=
  match xs with
  | [] => []
  | x :: xs' => (start, x) :: enumerate (start + 1) xs'
  end.

(** ** The LLM provider and coroutines *)

Inductive schema : Type :=
| Categories
| CategoryWithItems
| CategoryBase
| CategoryItemAddons.

(** What [LLMClient.generate] sends: one user message made of the prompt text
    and the page image as a data URL, and the JSON-schema response format of
    a model class. *)
Record request : Type := mk_request {
  req_text : string;
  req_image_url : string;
  req_response_format : schema
}.

(** What [client.chat.completions.create] does: it raises (the text is the
    [str] of the exception), or returns a response whose choices each carry a
    message content, possibly [None]. *)
Inductive api_outcome : Type :=
| ApiError (msg : string)
| ApiResponse (choices : list (option string)).

(** An [async def] body up to its next suspension point. *)
Inductive coro (R : Type) : Type :=
| Ret (r : R)
| Raise (e : exn)
| AwaitGenerate (req : request) (k : api_outcome -> coro R)
| AwaitSleep (secs : nat) (k : coro R).
Arguments Ret {R} r.
Arguments Raise {R} e.
Arguments AwaitGenerate {R} req k.
Arguments AwaitSleep {R} secs k.

(** [LLMClient.generate] wraps any exception of the provider call in an
    [LLMClientError]. *)
Definition api_result (o : api_outcome) : res (list (option string)) :=
  match o with
  | ApiError msg => Err (LLMClientError ("LLM call failed: " ++ msg))
  | ApiResponse choices => Ok choices
  end.

(** [await self.llm.generate(...)], followed by [k]. *)
Definition generate {R} (req : request)
    (k : res (list (option string)) -> coro R) : coro R :=
  AwaitGenerate req (fun o => k (api_result o)).

(** [response.choices[0].message.content], read as the argument of
    [json.loads]: no choice is an [IndexError], a [None] content a
    [TypeError] of [json.loads]. *)
Definition first_content (choices : list (option string)) : res string :=
  match choices with
  | [] => Err IndexError
  | None :: _ => Err TypeError
  | Some raw :: _ => Ok raw
  end.

(** What a coroutine does when it runs alone. *)
Inductive uevent : Type :=
| UCall (req : request)
| USleep (secs : nat).

(** [run_coro api calls c] runs [c] to its end; [api n req] is the provider's
    answer to the call number [n] (counted from [calls]). *)
Fixpoint run_coro {R} (api : nat -> request -> api_outcome) (calls : nat)
    (c : coro R) : res R * list uevent :=
  match c with
  | Ret r => (Ok r, [])
  | Raise e => (Err e, [])
  | AwaitGenerate req k =>
      let '(r, tr) := run_coro api (S calls) (k (api calls req)) in
      (r, UCall req :: tr)
  | AwaitSleep secs k =>
      let '(r, tr) := run_coro api calls k in
      (r, USleep secs :: tr)
  end.

Definition is_call (ev : uevent) : bool :=
  match ev with
  | UCall _ => true
  | USleep _ => false
  end.

(** The number of LLM calls in a trace: one per attempt that reaches the
    call. *)
Definition attempts_made (tr : list uevent) : nat :=
  length (filter (fun ev => is_call ev = true) tr).

(** ** External collaborators

    The extractors call into code that lies outside the files embedded
    here: the four pydantic model classes of [backend/models/domain.py],
    the Jinja2 templates and their renderer, [json.loads], the PDF
    rasterizer and Python's [repr].  Nothing is assumed about what they
    compute; they are the fields of this interface, and every property below
    holds for all of its instances.  [model_validate] either raises or
    returns a model instance, [model_dump] gives its dict, and
    [categories_attr] is the [.categories] attribute of a [Categories]
    instance. *)
Class Collaborators : Type := {
  model : Type;
  model_validate : schema -> json -> res model;
  model_dump : model -> pydict;
  categories_attr : model -> list model;
  json_loads : string -> (nat * string) + json;
  render : string -> list (string * json) -> res string;
  convert_to_images : string -> res (list string);
  py_repr : json -> string
}.

(** ** Formatting and prompts ([backend/core/prompts/builder.py]) *)

Section Prompts.
Context `{Collaborators}.

(** [str(v)], as an f-string interpolates it; containers and floats go
    through [repr]. *)
Definition py_str (v : json) : string :=
  match v with
  | JStr s => s
  | JInt z => string_of_Z z
  | JBool true => "True"
  | JBool false => "False"
  | JNull => "None"
  | _ => py_repr v
  end.

(** [PromptBuilder.phase1_prompt]; [additional_context] keeps its default
    [None], so [additional_context or ""] is the empty string. *)
Definition phase1_prompt (restaurant_name : string) (page_number : json)
    : res string :=
  render "phase1.j2"
    [("restaurant_name", JStr restaurant_name);
     ("page_number", page_number);
     ("additional_context", JStr "")].

Definition phase2_prompt (restaurant_name : string) (page_number : json)
    (category : pydict) : res string :=
  render "phase2.j2"
    [("restaurant_name", JStr restaurant_name);
     ("page_number", page_number);
     ("category_name", dict_get category "name" (JStr ""));
     ("category_description", dict_get category "description" (JStr ""));
     ("categories", JObj category)].

Definition phase3_prompt (restaurant_name : string) (page_number : json)
    (category : pydict) : res string :=
  items_count ← py_len (dict_get category "items" (JArr []));
  render "phase3.j2"
    [("restaurant_name", JStr restaurant_name);
     ("page_number", page_number);
     ("category", JObj category);
     ("items_count", JInt items_count)].

Definition phase4_prompt (restaurant_name : string) (page_number : json)
    (category category_base : pydict) : res string :=
  render "phase4.j2"
    [("restaurant_name", JStr restaurant_name);
     ("page_number", page_number);
     ("category", JObj category);
     ("category_base", JObj category_base);
     ("has_pricing",
      JBool (py_truthy (dict_get category_base "base_price" JNull)))].
End Prompts.

(** ** The retry loop of a unit of work

    [extract_page] of phase 1, [extract_category] of phase 2,
    [extract_category_base] of phase 3 and [extract_category_addons] of
    phase 4 are the same loop, letter for letter, up to the fields of
    [unit_of_work]. *)

Record unit_of_work : Type := {
  max_retries : nat;
  build_prompt : res string;
  page_image : string;
  response_model : schema;
  invalid_json_message : string -> string;
  result_of : pydict -> json
}.

Section RetryLoop.
Context `{Collaborators}.

(** [f"JSON decode error at position {e.pos}: {e.msg}"]. *)
Definition decode_error_msg (pos : nat) (msg : string) : string :=
  "JSON decode error at position " ++ string_of_nat pos ++ ": " ++ msg.

Definition llm_request (u : unit_of_work) (prompt : string) : request :=
  {| req_text := prompt;
     req_image_url := "data:image/png;base64," ++ page_image u;
     req_response_format := response_model u |}.

(** The [except Exception as e] clause at iteration [attempt]: sleep one
    second and go on when attempts remain, re-raise otherwise. *)
Definition on_exception (u : unit_of_work) (attempt : nat)
    (next : option exn -> coro json) (e : exn) : coro json :=
  if (attempt <? max_retries u - 1)%nat
  then AwaitSleep 1 (next (Some e))
  else Raise e.

(** The [except json.JSONDecodeError as e] clause: [continue] after one
    second when attempts remain ([last_error] is not assigned on this
    path); otherwise the [ValueError] it raises is caught by the outer
    clause. *)
Definition on_decode_error (u : unit_of_work) (attempt : nat)
    (last_error : option exn) (next : option exn -> coro json)
    (pos : nat) (msg : string) : coro json :=
  let error_msg := decode_error_msg pos msg in
  if (attempt <? max_retries u - 1)%nat
  then AwaitSleep 1 (next last_error)
  else on_exception u attempt next
         (ValueError (invalid_json_message u error_msg)).

(** The statements after the LLM call of one iteration. *)
Definition after_response (u : unit_of_work) (attempt : nat)
    (last_error : option exn) (next : option exn -> coro json)
    (response : res (list (option string))) : coro json :=
  match response with
  | Err e => on_exception u attempt next e
  | Ok choices =>
      match first_content choices with
      | Err e => on_exception u attempt next e
      | Ok raw =>
          match json_loads raw with
          | inl (pos, msg) =>
              on_decode_error u attempt last_error next pos msg
          | inr data =>
              match model_validate (response_model u) data with
              | Err e => on_exception u attempt next e
              | Ok validated => Ret (result_of u (model_dump validated))
              end
          end
      end
  end.

(** [for attempt in range(max_retries): ...] from iteration [attempt] on,
    with [remaining] iterations left, followed by the statement after the
    loop. *)
Fixpoint attempts_from (u : unit_of_work) (remaining attempt : nat)
    (last_error : option exn) : coro json :=
  match remaining with
  | O =>
      Raise (match last_error with
             | Some e => e
             | None => ValueError "All retry attempts failed"
             end)
  | S remaining' =>
      let next := attempts_from u remaining' (S attempt) in
      match build_prompt u with
      | Err e => on_exception u attempt next e
      | Ok prompt =>
          generate (llm_request u prompt)
            (after_response u attempt last_error next)
      end
  end.

Definition retry_loop (u : unit_of_work) : coro json :=
  attempts_from u (max_retries u) 0 None.
End RetryLoop.

(** ** [_bounded_gather]: a semaphore and [asyncio.gather]

    A task is [_run(coro)]: it waits for the semaphore, runs the coroutine
    while holding a permit, and gives the permit back when the coroutine
    returns or raises. *)

Inductive task (R : Type) : Type :=
| Waiting (c : coro R)
| Running (c : coro R)
| Finished (r : R)
| Failed (e : exn).
Arguments Waiting {R} c.
Arguments Running {R} c.
Arguments Finished {R} r.
Arguments Failed {R} e.

Inductive event : Type :=
| EvGather (units : nat)
| EvAcquire (i : nat)
| EvCall (i : nat) (req : request) (answer : api_outcome)
| EvSleep (i : nat) (secs : nat)
| EvDone (i : nat)
| EvFail (i : nat) (e : exn).

(** The state of one [_bounded_gather] invocation: its tasks in submission
    order, the free permits of its semaphore, the number of provider calls
    made so far by the process, and what happened so far. *)
Record gstate (R : Type) : Type := mk_gstate {
  tasks : list (task R);
  permits : nat;
  gcalls : nat;
  glog : list event
}.
Arguments mk_gstate {R} tasks permits gcalls glog.
Arguments tasks {R} g.
Arguments permits {R} g.
Arguments gcalls {R} g.
Arguments glog {R} g.

(** The result of an [await]: a value, an exception, or no result because
    the awaited tasks never all finish under the schedule at hand. *)
Inductive outcome (A : Type) : Type :=
| Returned (a : A)
| Raised (e : exn)
| Pending.
Arguments Returned {A} a.
Arguments Raised {A} e.
Arguments Pending {A}.

Section Scheduler.
Context {R : Type}.
Variable api : nat -> request -> api_outcome.

(** Task [i] advances to its next suspension point, if it can.  A waiting
    task needs a free permit.  A coroutine that raises makes [gather]
    raise: the exception is handed back. *)
Definition step (i : nat) (g : gstate R) : option exn * gstate R :=
  match tasks g !! i with
  | Some (Waiting c) =>
      match permits g with
      | O => (None, g)
      | S p =>
          (None, mk_gstate (<[i := Running c]> (tasks g)) p (gcalls g)
                   (glog g ++ [EvAcquire i]))
      end
  | Some (Running (Ret r)) =>
      (None, mk_gstate (<[i := Finished r]> (tasks g)) (S (permits g))
               (gcalls g) (glog g ++ [EvDone i]))
  | Some (Running (Raise e)) =>
      (Some e, mk_gstate (<[i := Failed e]> (tasks g)) (S (permits g))
                 (gcalls g) (glog g ++ [EvFail i e]))
  | Some (Running (AwaitGenerate req k)) =>
      let answer := api (gcalls g) req in
      (None, mk_gstate (<[i := Running (k answer)]> (tasks g)) (permits g)
               (S (gcalls g)) (glog g ++ [EvCall i req answer]))
  | Some (Running (AwaitSleep secs k)) =>
      (None, mk_gstate (<[i := Running k]> (tasks g)) (permits g)
               (gcalls g) (glog g ++ [EvSleep i secs]))
  | Some (Finished _) | Some (Failed _) | None => (None, g)
  end.

(** The list [gather] returns once every task has finished: the results in
    the order of the awaitables. *)
Fixpoint results_of (ts : list (task R)) : option (list R) :=
  match ts with
  | [] => Some []
  | Finished r :: ts' =>
      match results_of ts' with
      | Some rs => Some (r :: rs)
      | None => None
      end
  | _ :: _ => None
  end.

(** [await asyncio.gather(...)]: tasks advance in the order the schedule
    names them until all have finished or one raises. *)
Fixpoint run_schedule (sched : list nat) (g : gstate R)
    : outcome (list R) * gstate R * list nat :=
  match results_of (tasks g) with
  | Some rs => (Returned rs, g, sched)
  | None =>
      match sched with
      | [] => (Pending, g, [])
      | i :: sched' =>
          match step i g with
          | (Some e, g') => (Raised e, g', sched')
          | (None, g') => run_schedule sched' g'
          end
      end
  end.
End Scheduler.

(** ** The process: provider and schedule *)

Record world : Type := mk_world {
  provider : nat -> request -> api_outcome;
  calls : nat;
  schedule : list nat
}.

(** An [async def] of a stage driver: from the state of the process to the
    result of awaiting it, the state it leaves, and what happened
    meanwhile. *)
Definition M (A : Type) : Type := world -> outcome A * world * list event.

#[global] Instance M_ret : MRet M := fun A a w => (Returned a, w, []).

#[global] Instance M_bind : MBind M := fun A B f m w =>
  match m w with
  | (Returned a, w', evs) =>
      let '(out, w'', evs') := f a w' in (out, w'', (evs ++ evs')%list)
  | (Raised e, w', evs) => (Raised e, w', evs)
  | (Pending, w', evs) => (Pending, w', evs)
  end.

(** A synchronous expression inside an [async def]. *)
Definition lift {A} (r : res A) : M A := fun w =>
  match r with
  | Ok a => (Returned a, w, [])
  | Err e => (Raised e, w, [])
  end.

(** [asyncio.Semaphore(value)] refuses a negative value. *)
Definition semaphore_error : exn :=
  ValueError "Semaphore initial value must be >= 0".

(** The state in which [_bounded_gather] starts: a semaphore with
    [max_concurrency] permits and one waiting task per coroutine. *)
Definition gather_start {R} (max_concurrency : Z) (coros : list (coro R))
    (calls0 : nat) : gstate R :=
  mk_gstate (map Waiting coros) (Z.to_nat max_concurrency) calls0
    [EvGather (length coros)].

(** [_bounded_gather], the same method in the four extractor classes. *)
Definition _bounded_gather {R} (max_concurrency : Z) (coros : list (coro R))
    : M (list R) := fun w =>
  if max_concurrency <? 0 then (Raised semaphore_error, w, [])
  else
    let g0 := gather_start max_concurrency coros (calls w) in
    let '(out, g, sched') := run_schedule (provider w) (schedule w) g0 in
    (out, mk_world (provider w) (gcalls g) sched', glog g).

(** ** Configuration ([backend/config.py]) *)

Record Settings : Type := { MAX_CONCURRENCY : Z }.

(** [Settings()]: the field keeps its default unless the environment sets
    it. *)
Definition get_settings (env_MAX_CONCURRENCY : option Z) : Settings :=
  {| MAX_CONCURRENCY := default 4 env_MAX_CONCURRENCY |}.

(** [max_concurrency or get_settings().MAX_CONCURRENCY] of the extractor
    constructors. *)
Definition init_max_concurrency (max_concurrency : option Z)
    (settings : Settings) : Z :=
  match max_concurrency with
  | Some z => if z =? 0 then MAX_CONCURRENCY settings else z
  | None => MAX_CONCURRENCY settings
  end.

Definition stage_document (restaurant_name : string) (pages : list json)
    : json :=
  JObj [("restaurant_name", JStr restaurant_name); ("pages", JArr pages)].

Definition page_entry (page_number : json) (key : string)
    (results : list json) : json :=
  JObj [("page_number", page_number); (key, JArr results)].

(** [S.model_validate(v).model_dump()], as the drivers of phases 3 and 4
    re-validate what they loaded. *)
Definition validated_dump `{Collaborators} (s : schema) (v : json)
    : res pydict :=
  model_dump <$> model_validate s v.

(** ** Phase 1 ([backend/core/extraction/phase1.py]) *)

Module Phase1Extractor.
Section Methods.
Context `{Collaborators}.
Variable max_concurrency : Z.

Definition unit_of (restaurant_name : string) (page_number : json)
    (page_image : string) : unit_of_work :=
  {| max_retries := 2;
     build_prompt := phase1_prompt restaurant_name page_number;
     page_image := page_image;
     response_model := Categories;
     invalid_json_message := fun error_msg =>
       "LLM returned invalid JSON for page " ++ py_str page_number
         ++ ": " ++ error_msg;
     result_of := fun dumped =>
       JObj [("page_number", page_number); ("data", JObj dumped)] |}.

Definition extract_page (restaurant_name : string) (page_number : json)
    (page_image : string) : coro json :=
  retry_loop (unit_of restaurant_name page_number page_image).

Definition page_coros (restaurant_name : string) (images : list string)
    : list (coro json) :=
  map (fun '(page_idx, img) =>
         extract_page restaurant_name (JInt page_idx) img)
      (enumerate 1 images).

Definition extract_all_pages (restaurant_name pdf_path : string) : M json :=
  images ← lift (convert_to_images pdf_path);
  pages ← _bounded_gather max_concurrency
             (page_coros restaurant_name images);
  mret (stage_document restaurant_name pages).
End Methods.
End Phase1Extractor.

(** ** Phase 2 ([backend/core/extraction/phase2.py]) *)

Module Phase2Extractor.
Section Methods.
Context `{Collaborators}.
Variable max_concurrency : Z.

(** [category.get('name_raw', category.get('name', 'unknown'))]. *)
Definition category_name (category : pydict) : json :=
  dict_get category "name_raw" (dict_get category "name" (JStr "unknown")).

Definition unit_of (restaurant_name : string) (page_number : json)
    (page_image : string) (category : pydict) : unit_of_work :=
  {| max_retries := 3;
     build_prompt := phase2_prompt restaurant_name page_number category;
     page_image := page_image;
     response_model := CategoryWithItems;
     invalid_json_message := fun error_msg =>
       "LLM returned invalid JSON for category '"
         ++ py_str (category_name category) ++ "' on page "
         ++ py_str page_number ++ ": " ++ error_msg;
     result_of := JObj |}.

Definition extract_category (restaurant_name : string) (page_number : json)
    (page_image : string) (category : pydict) : coro json :=
  retry_loop (unit_of restaurant_name page_number page_image category).

Definition extract_page (restaurant_name : string) (page_number : json)
    (page_image : string) (page_categories : list pydict) : M json :=
  category_results ← _bounded_gather max_concurrency
    (map (extract_category restaurant_name page_number page_image)
         page_categories);
  mret (page_entry page_number "categories" category_results).

(** The synchronous statements of one iteration of
    [for page in categories_payload["pages"]]: the page number, its
    image, and the validated categories. *)
Definition page_inputs (images : list string) (page : json)
    : res (json * string * list pydict) :=
  page_number ← py_getitem page "page_number";
  img_b64 ← image_for images page_number;
  data ← py_getitem page "data";
  page_categories_obj ← model_validate Categories data;
  mret (page_number, img_b64,
        map model_dump (categories_attr page_categories_obj)).

(** The loop over the pages; [all_pages] is the list built so far. *)
Fixpoint pages_loop (restaurant_name : string) (images : list string)
    (pages : list json) (all_pages : list json) : M (list json) :=
  match pages with
  | [] => mret all_pages
  | page :: pages' =>
      '(page_number, img_b64, page_categories) ←
        lift (page_inputs images page);
      page_result ← extract_page restaurant_name page_number img_b64
                      page_categories;
      pages_loop restaurant_name images pages' (all_pages ++ [page_result])
  end.

Definition extract_all_pages (restaurant_name : string)
    (categories_payload : json) (pdf_path : string) : M json :=
  images ← lift (convert_to_images pdf_path);
  pages ← lift (py_getitem categories_payload "pages" ≫= py_iter);
  all_pages ← pages_loop restaurant_name images pages [];
  mret (stage_document restaurant_name all_pages).
End Methods.
End Phase2Extractor.

(** ** Phase 3 ([backend/core/extraction/phase3.py]) *)

Module Phase3Extractor.
Section Methods.
Context `{Collaborators}.
Variable max_concurrency : Z.

(** [category.get('name_raw', 'unknown')]. *)
Definition category_name (category : pydict) : json :=
  dict_get category "name_raw" (JStr "unknown").

Definition unit_of (restaurant_name : string) (page_number : json)
    (page_image : string) (category : pydict) : unit_of_work :=
  let category_wrapper := [("category", JObj category)] in
  {| max_retries := 2;
     build_prompt :=
       phase3_prompt restaurant_name page_number category_wrapper;
     page_image := page_image;
     response_model := CategoryBase;
     invalid_json_message := fun error_msg =>
       "LLM returned invalid JSON for category '"
         ++ py_str (category_name category) ++ "': " ++ error_msg;
     result_of := JObj |}.

Definition extract_category_base (restaurant_name : string)
    (page_number : json) (page_image : string) (category : pydict)
    : coro json :=
  retry_loop (unit_of restaurant_name page_number page_image category).

Definition extract_page (restaurant_name : string) (page_number : json)
    (page_image : string) (page_categories : list pydict) : M json :=
  category_results ← _bounded_gather max_concurrency
    (map (extract_category_base restaurant_name page_number page_image)
         page_categories);
  mret (page_entry page_number "categories" category_results).

(** The synchronous statements of one iteration of
    [for page in items_payload["pages"]]. *)
Definition page_inputs (images : list string) (page : json)
    : res (json * string * list pydict) :=
  page_number ← py_getitem page "page_number";
  img_b64 ← image_for images page_number;
  cats ← py_getitem page "categories" ≫= py_iter;
  page_categories ← res_map (validated_dump CategoryWithItems) cats;
  mret (page_number, img_b64, page_categories).

Fixpoint pages_loop (restaurant_name : string) (images : list string)
    (pages : list json) (all_pages : list json) : M (list json) :=
  match pages with
  | [] => mret all_pages
  | page :: pages' =>
      '(page_number, img_b64, page_categories) ←
        lift (page_inputs images page);
      page_result ← extract_page restaurant_name page_number img_b64
                      page_categories;
      pages_loop restaurant_name images pages' (all_pages ++ [page_result])
  end.

Definition extract_all_pages (restaurant_name : string)
    (items_payload : json) (pdf_path : string) : M json :=
  images ← lift (convert_to_images pdf_path);
  pages ← lift (py_getitem items_payload "pages" ≫= py_iter);
  all_pages ← pages_loop restaurant_name images pages [];
  mret (stage_document restaurant_name all_pages).
End Methods.
End Phase3Extractor.

(** ** Phase 4 ([backend/core/extraction/phase4.py]) *)

Module Phase4Extractor.
Section Methods.
Context `{Collaborators}.
Variable max_concurrency : Z.

Definition category_name (category : pydict) : json :=
  dict_get category "name_raw" (JStr "unknown").

Definition unit_of (restaurant_name : string) (page_number : json)
    (page_image : string) (category category_base : pydict)
    : unit_of_work :=
  let category_wrapper := [("category", JObj category)] in
  let base_wrapper := [("category_base", JObj category_base)] in
  {| max_retries := 2;
     build_prompt :=
       phase4_prompt restaurant_name page_number category_wrapper
         base_wrapper;
     page_image := page_image;
     response_model := CategoryItemAddons;
     invalid_json_message := fun error_msg =>
       "LLM returned invalid JSON for category '"
         ++ py_str (category_name category) ++ "': " ++ error_msg;
     result_of := JObj |}.

Definition extract_category_addons (restaurant_name : string)
    (page_number : json) (page_image : string)
    (category category_base : pydict) : coro json :=
  retry_loop
    (unit_of restaurant_name page_number page_image category category_base).

(** The coroutines of one page: one per pair of
    [zip(page_categories, page_bases)]. *)
Definition page_coros (restaurant_name : string) (page_number : json)
    (page_image : string) (page_categories page_bases : list pydict)
    : list (coro json) :=
  map (fun '(cat, base) =>
         extract_category_addons restaurant_name page_number page_image
           cat base)
      (zip page_categories page_bases).

Definition extract_page (restaurant_name : string) (page_number : json)
    (page_image : string) (page_categories page_bases : list pydict)
    : M json :=
  category_results ← _bounded_gather max_concurrency
    (page_coros restaurant_name page_number page_image page_categories
       page_bases);
  mret (page_entry page_number "categories" category_results).

(** The synchronous statements of one iteration of
    [for page_items, page_bases in zip(...)]. *)
Definition page_inputs (images : list string) (page_items page_bases : json)
    : res (json * string * list pydict * list pydict) :=
  page_number ← py_getitem page_items "page_number";
  img_b64 ← image_for images page_number;
  cats ← py_getitem page_items "categories" ≫= py_iter;
  page_categories ← res_map (validated_dump CategoryWithItems) cats;
  bases ← py_getitem page_bases "categories" ≫= py_iter;
  page_bases_list ← res_map (validated_dump CategoryBase) bases;
  mret (page_number, img_b64, page_categories, page_bases_list).

Fixpoint pages_loop (restaurant_name : string) (images : list string)
    (pages : list (json * json)) (all_pages : list json)
    : M (list json) :=
  match pages with
  | [] => mret all_pages
  | (page_items, page_bases) :: pages' =>
      '(page_number, img_b64, page_categories, page_bases_list) ←
        lift (page_inputs images page_items page_bases);
      page_result ← extract_page restaurant_name page_number img_b64
                      page_categories page_bases_list;
      pages_loop restaurant_name images pages' (all_pages ++ [page_result])
  end.

(** [zip(items_payload["pages"], bases_payload["pages"])]. *)
Definition zipped_pages (items_payload bases_payload : json)
    : res (list (json * json)) :=
  items_pages ← py_getitem items_payload "pages";
  bases_pages ← py_getitem bases_payload "pages";
  items_list ← py_iter items_pages;
  bases_list ← py_iter bases_pages;
  mret (zip items_list bases_list).

Definition extract_all_pages (restaurant_name : string)
    (items_payload bases_payload : json) (pdf_path : string) : M json :=
  images ← lift (convert_to_images pdf_path);
  pages ← lift (zipped_pages items_payload bases_payload);
  all_pages ← pages_loop restaurant_name images pages [];
  mret (stage_document restaurant_name all_pages).
End Methods.
End Phase4Extractor.

(** ** The convenience functions [run_phase1] ... [run_phase4]

    Each builds its extractor without a [max_concurrency] argument, so the
    limit is the setting [MAX_CONCURRENCY]; [env_MAX_CONCURRENCY] is what
    the environment says about it. *)

Section RunPhases.
Context `{Collaborators}.
Variable env_MAX_CONCURRENCY : option Z.

Definition default_limit : Z :=
  init_max_concurrency None (get_settings env_MAX_CONCURRENCY).

Definition run_phase1 (restaurant_name pdf_path : string) : M json :=
  Phase1Extractor.extract_all_pages default_limit restaurant_name pdf_path.

Definition run_phase2 (restaurant_name : string) (categories_payload : json)
    (pdf_path : string) : M json :=
  Phase2Extractor.extract_all_pages default_limit restaurant_name
    categories_payload pdf_path.

Definition run_phase3 (restaurant_name : string) (items_payload : json)
    (pdf_path : string) : M json :=
  Phase3Extractor.extract_all_pages default_limit restaurant_name
    items_payload pdf_path.

Definition run_phase4 (restaurant_name : string)
    (items_payload bases_payload : json) (pdf_path : string) : M json :=
  Phase4Extractor.extract_all_pages default_limit restaurant_name
    items_payload bases_payload pdf_path.
End RunPhases.

(** ** Counting categories and items ([backend/api/routes/jobs.py]) *)

(** [len(group.get("items", []))]. *)
Definition group_size (group : json) : res Z :=
  py_get group "items" (JArr []) ≫= py_len.

(** [for group in groups: item_count += len(group.get("items", []))]. *)
Fixpoint count_groups (groups : list json) (item_count : Z) : res Z :=
  match groups with
  | [] => Ok item_count
  | group :: groups' =>
      n ← group_size group;
      count_groups groups' (item_count + n)
  end.

(** The body of [for cat in categories]: the two inner loops. *)
Definition count_category (cat : json) (item_count : Z) : res Z :=
  category_items ← py_get cat "category_items" (JArr []) ≫= py_iter;
  item_count ← count_groups category_items item_count;
  subcategory_items ← py_get cat "subcategory_items" (JArr []) ≫= py_iter;
  count_groups subcategory_items item_count.

Fixpoint count_categories (cats : list json) (item_count : Z) : res Z :=
  match cats with
  | [] => Ok item_count
  | cat :: cats' =>
      item_count ← count_category cat item_count;
      count_categories cats' item_count
  end.

(** The body of [for page in pages], iterated; the pair is
    [(category_count, item_count)]. *)
Fixpoint count_pages (pages : list json) (category_count item_count : Z)
    : res (Z * Z) :=
  match pages with
  | [] => Ok (category_count, item_count)
  | page :: pages' =>
      categories ← py_get page "categories" (JArr []);
      n ← py_len categories;
      cats ← py_iter categories;
      item_count ← count_categories cats item_count;
      count_pages pages' (category_count + n) item_count
  end.

(** The counts [get_job] reports for [restaurant.json]. *)
Definition get_job_counts (restaurant_json : json) : res (Z * Z) :=
  if py_truthy restaurant_json then
    pages ← py_get restaurant_json "pages" (JArr []) ≫= py_iter;
    count_pages pages 0 0
  else Ok (0, 0).

(** The shape of a category record that [get_job] reads: two lists of item
    groups, each group with its [items], next to any other fields. *)
Record item_group : Type := {
  group_items : list json;
  group_fields : pydict
}.

Record category_record : Type := {
  category_items : list item_group;
  subcategory_items : list item_group;
  category_fields : pydict
}.

Definition group_to_json (g : item_group) : json :=
  JObj (("items", JArr (group_items g)) :: group_fields g).

Definition category_to_json (c : category_record) : json :=
  JObj (("category_items", JArr (map group_to_json (category_items c)))
        :: ("subcategory_items",
            JArr (map group_to_json (subcategory_items c)))
        :: category_fields c).

(** The number of items in a list of item groups. *)
Definition items_in (groups : list item_group) : Z :=
  Z.of_nat (length (concat (map group_items groups))).

(** ** A concrete set of collaborators

    Stubs of the interface, used to run the model on concrete inputs: a
    validator that asks for one required key, a parser that knows three
    documents, and a rasterizer that knows one two-page PDF. *)

Module Demo.
Definition stub_validate (s : schema) (v : json) : res pydict :=
  match v with
  | JObj d =>
      match s with
      | Categories =>
          match dict_lookup "categories" d with
          | Some (JArr _) => Ok d
          | _ => Err (ValidationError "categories: Field required")
          end
      | _ =>
          match dict_lookup "name_raw" d with
          | Some (JStr _) => Ok d
          | _ => Err (ValidationError "name_raw: Field required")
          end
      end
  | _ => Err (ValidationError "Input should be a valid dictionary")
  end.

Definition as_dict (v : json) : option pydict :=
  match v with
  | JObj d => Some d
  | _ => None
  end.

Definition stub_categories (d : pydict) : list pydict :=
  match dict_lookup "categories" d with
  | Some (JArr l) => omap as_dict l
  | _ => []
  end.

Definition pizza : json := JObj [("name_raw", JStr "Pizza")].
Definition pasta : json := JObj [("name_raw", JStr "Pasta")].

Definition stub_loads (raw : string) : (nat * string) + json :=
  if String.eqb raw "CATEGORIES"
  then inr (JObj [("categories", JArr [pizza; pasta])])
  else if String.eqb raw "PIZZA" then inr pizza
  else if String.eqb raw "EMPTY" then inr (JObj [])
  else inl (0%nat, "Expecting value").

Definition stub_images (pdf_path : string) : res (list string) :=
  if String.eqb pdf_path "menu.pdf" then Ok ["page-one"; "page-two"]
  else Err (FileNotFoundError ("PDF not found: " ++ pdf_path)).

#[local] Instance stubs : Collaborators := {|
  model := pydict;
  model_validate := stub_validate;
  model_dump := fun d => d;
  categories_attr := stub_categories;
  json_loads := stub_loads;
  render := fun template _ => Ok template;
  convert_to_images := stub_images;
  py_repr := fun _ => "<repr>"
|}.

(** A provider whose every answer is not JSON. *)
Definition garbage_provider : nat -> request -> api_outcome :=
  fun _ _ => ApiResponse [Some "I am sorry"].

(** A provider that answers every request with a valid document. *)
Definition good_provider : nat -> request -> api_outcome :=
  fun _ req =>
    match req_response_format req with
    | Categories => ApiResponse [Some "CATEGORIES"]
    | _ => ApiResponse [Some "PIZZA"]
    end.

(** A provider whose first answer parses but misses the required key, and
    whose later answers are valid. *)
Definition late_provider : nat -> request -> api_outcome :=
  fun n req =>
    match n with
    | O => ApiResponse [Some "EMPTY"]
    | S _ => good_provider n req
    end.

(** [rounds n k]: [n] rounds over the tasks [0 .. k-1]. *)
Definition rounds (n k : nat) : list nat :=
  concat (replicate n (seq 0 k)).

(** A coroutine that answers [r] after [n] suspensions. *)
Definition latency (n : nat) (r : json) : coro json :=
  Nat.iter n (AwaitSleep 1) (Ret r).

(** Three units whose completion latency is the reverse of their
    submission order. *)
Definition reversed_latency : list (coro json) :=
  [latency 3 (JStr "A"); latency 2 (JStr "B"); latency 1 (JStr "C")].

Definition start (p : nat -> request -> api_outcome) (sched : list nat)
    : world :=
  mk_world p 0 sched.

(** The page images of [menu.pdf]. *)
Definition menu_images : list string := ["page-one"; "page-two"].

(** The documents of the four stages for [menu.pdf] with
    [good_provider]. *)
Definition phase1_page (n : Z) : json :=
  JObj [("page_number", JInt n);
        ("data", JObj [("categories", JArr [pizza; pasta])])].

Definition doc1 : json :=
  stage_document "Luigi" [phase1_page 1; phase1_page 2].

Definition doc2 : json :=
  stage_document "Luigi"
    [page_entry (JInt 1) "categories" [pizza; pizza];
     page_entry (JInt 2) "categories" [pizza; pizza]].

(** A phase 1 document whose second page misses its categories. *)
Definition broken_page : json :=
  JObj [("page_number", JInt 2); ("data", JObj [])].

Definition broken_doc1 : json :=
  stage_document "Luigi" [phase1_page 1; broken_page].

(** A phase 2 document of one page with one category, and a phase 3
    document of two pages: two bases on the first page, and on the second a
    base without its required key. *)
Definition short_items : json :=
  stage_document "Luigi" [page_entry (JInt 1) "categories" [pizza]].

Definition long_bases : json :=
  stage_document "Luigi"
    [page_entry (JInt 1) "categories" [pizza; pasta];
     page_entry (JInt 2) "categories" [JObj []]].

(** A phase 2 document whose second category misses its required key. *)
Definition broken_doc2 : json :=
  stage_document "Luigi" [page_entry (JInt 1) "categories" [pizza; JObj []]].

(** A provider whose every answer parses but misses the required key. *)
Definition invalid_provider : nat -> request -> api_outcome :=
  fun _ _ => ApiResponse [Some "EMPTY"].

Definition good_world : world := start good_provider (rounds 8 2).
Definition garbage_world : world := start garbage_provider (rounds 8 2).

(** The four stages on [menu.pdf], with a provider that answers well and
    with one that never answers JSON. *)
Definition phase1_run : outcome json * world * list event :=
  Phase1Extractor.extract_all_pages 4 "Luigi" "menu.pdf" good_world.
Definition phase2_run : outcome json * world * list event :=
  Phase2Extractor.extract_all_pages 4 "Luigi" doc1 "menu.pdf" good_world.
Definition phase3_run : outcome json * world * list event :=
  Phase3Extractor.extract_all_pages 4 "Luigi" doc2 "menu.pdf" good_world.
Definition phase4_run : outcome json * world * list event :=
  Phase4Extractor.extract_all_pages 4 "Luigi" doc2 doc2 "menu.pdf"
    good_world.

Definition phase1_failure : outcome json * world * list event :=
  Phase1Extractor.extract_all_pages 4 "Luigi" "menu.pdf" garbage_world.
Definition phase2_failure : outcome json * world * list event :=
  Phase2Extractor.extract_all_pages 4 "Luigi" doc1 "menu.pdf" garbage_world.

(** Phase 4 on documents of one and of two pages. *)
Definition mismatch_run : outcome json * world * list event :=
  Phase4Extractor.extract_all_pages 4 "Luigi" short_items long_bases
    "menu.pdf" good_world.

(** Phase 4 on one category and two bases. *)
Definition mismatch_page_run : outcome json * world * list event :=
  Phase4Extractor.extract_page 4 "Luigi" (JInt 1) "page-one"
    [[("name_raw", JStr "Pizza")]]
    [[("name_raw", JStr "Pizza")]; [("name_raw", JStr "Pasta")]] good_world.

(** The unit of phase 2 for the category Pizza of page 1. *)
Definition pizza_unit : unit_of_work :=
  Phase2Extractor.unit_of "Luigi" (JInt 1) "page-one"
    [("name_raw", JStr "Pizza")].

(** A category with two category-level items and one subcategory of three
    items. *)
Definition two_plus_three : category_record :=
  {| category_items :=
       [{| group_items := [JStr "Margherita"; JStr "Marinara"];
           group_fields := [] |}];
     subcategory_items :=
       [{| group_items := [JStr "Cola"; JStr "Water"; JStr "Beer"];
           group_fields := [("name_raw", JStr "Drinks")] |}];
     category_fields := [("name_raw", JStr "Pizza")] |}.
End Demo.

(** ** Notions used to state the properties *)

(** [replay c answers]: the result of [c] when the provider's answers to its
    successive calls are [answers], no more and no fewer. *)
Fixpoint replay {R} (c : coro R) (answers : list api_outcome)
    : option (res R) :=
  match c with
  | Ret r =>
      match answers with
      | [] => Some (Ok r)
      | _ :: _ => None
      end
  | Raise e =>
      match answers with
      | [] => Some (Err e)
      | _ :: _ => None
      end
  | AwaitGenerate _ k =>
      match answers with
      | [] => None
      | answer :: answers' => replay (k answer) answers'
      end
  | AwaitSleep _ k => replay k answers
  end.

Definition answer_to (i : nat) (ev : event) : option api_outcome :=
  match ev with
  | EvCall j _ answer => if Nat.eqb j i then Some answer else None
  | _ => None
  end.

(** The answers task [i] received, in order. *)
Definition answers_of (i : nat) (evs : list event) : list api_outcome :=
  omap (answer_to i) evs.

Definition gather_size (ev : event) : option nat :=
  match ev with
  | EvGather n => Some n
  | _ => None
  end.

(** The [_bounded_gather] invocations of a run: the number of units of
    each, in order. *)
Definition gather_sizes (evs : list event) : list nat :=
  omap gather_size evs.

Definition done_index (ev : event) : option nat :=
  match ev with
  | EvDone i => Some i
  | _ => None
  end.

(** The order in which the units of a run completed. *)
Definition completion_order (evs : list event) : list nat :=
  omap done_index evs.

Definition holds_permit {R} (t : task R) : bool :=
  match t with
  | Running _ => true
  | _ => false
  end.

(** The number of tasks inside [async with sem]. *)
Definition active {R} (ts : list (task R)) : nat :=
  length (filter (fun t => holds_permit t = true) ts).

(** The exception one attempt of a unit ends with, given the provider's
    answer; [None] when the attempt succeeds. *)
Definition attempt_error `{Collaborators} (u : unit_of_work)
    (answer : api_outcome) : option exn :=
  match api_result answer with
  | Err e => Some e
  | Ok choices =>
      match first_content choices with
      | Err e => Some e
      | Ok raw =>
          match json_loads raw with
          | inl (pos, msg) =>
              Some (ValueError
                      (invalid_json_message u (decode_error_msg pos msg)))
          | inr data =>
              match model_validate (response_model u) data with
              | Err e => Some e
              | Ok _ => None
              end
          end
      end
  end.

(** A unit run alone from call number [calls0] on fails after exactly [n]
    calls of the provider, with the error of its last attempt. *)
Definition fails_after `{Collaborators} (api : nat -> request -> api_outcome)
    (calls0 : nat) (c : coro json) (u : unit_of_work) (prompt : string)
    (n : nat) : Prop :=
  exists e tr,
    run_coro api calls0 c = (Err e, tr) /\
    attempts_made tr = n /\
    attempt_error u (api (calls0 + (n - 1))%nat (llm_request u prompt))
      = Some e.

(** What a unit does when each of its [n] attempts fails: [n] calls, one
    second of sleep between two calls. *)
Fixpoint exhausted_trace (req : request) (n : nat) : list uevent :=
  match n with
  | O => []
  | S O => [UCall req]
  | S n' => UCall req :: USleep 1 :: exhausted_trace req n'
  end.

(** The pages of a stage document, when it has the envelope shape. *)
Definition pages_of (doc : json) : option (list json) :=
  match doc with
  | JObj d =>
      match dict_lookup "pages" d with
      | Some (JArr pages) => Some pages
      | _ => None
      end
  | _ => None
  end.

(** Task [t], started as coroutine [c], is where [c] gets when the provider
    has given it [answers]. *)
Definition task_replays {R} (c : coro R) (t : task R)
    (answers : list api_outcome) : Prop :=
  match t with
  | Waiting c' => c' = c /\ answers = []
  | Running c' =>
      forall rest, replay c (answers ++ rest)%list = replay c' rest
  | Finished r => replay c answers = Some (Ok r)
  | Failed e => replay c answers = Some (Err e)
  end.

(** Every task of [g] is where its coroutine of [coros] gets with the
    answers the log of [g] records for it. *)
Definition replays {R} (coros : list (coro R)) (g : gstate R) : Prop :=
  length (tasks g) = length coros /\
  forall i c t,
    coros !! i = Some c -> tasks g !! i = Some t ->
    task_replays c t (answers_of i (glog g)).

(** The permits of the semaphore are either free or held by an active
    task. *)
Definition balanced {R} (limit : nat) (g : gstate R) : Prop :=
  (active (tasks g) + permits g = limit)%nat.

(** *** The common shape of the page loops

    The drivers of phases 2, 3 and 4 run the same loop: the synchronous
    inputs of a page give its page number and its coroutines, the
    coroutines are gathered, and the page entry is appended.  [page_loop]
    is that loop and [stage_run] the driver around it; the drivers of the
    three phases are shown equal to them below. *)

Fixpoint page_loop {P} (max_concurrency : Z)
    (inputs : P -> res (json * list (coro json)))
    (pages : list P) (all_pages : list json) : M (list json) :=
  match pages with
  | [] => mret all_pages
  | page :: pages' =>
      '(page_number, coros) ← lift (inputs page);
      category_results ← _bounded_gather max_concurrency coros;
      page_loop max_concurrency inputs pages'
        (all_pages ++ [page_entry page_number "categories" category_results])
  end.

Definition stage_run {P} (max_concurrency : Z) (restaurant_name : string)
    (images : res (list string)) (pages : res (list P))
    (inputs : list string -> P -> res (json * list (coro json))) : M json :=
  imgs ← lift images;
  ps ← lift pages;
  all_pages ← page_loop max_concurrency (inputs imgs) ps [];
  mret (stage_document restaurant_name all_pages).

(** The page number and the coroutines of a page, per phase. *)
Definition phase2_units `{Collaborators} (restaurant_name : string)
    (images : list string) (page : json) : res (json * list (coro json)) :=
  '(page_number, img_b64, page_categories) ←
    Phase2Extractor.page_inputs images page;
  mret (page_number,
        map (Phase2Extractor.extract_category restaurant_name page_number
               img_b64) page_categories).

Definition phase3_units `{Collaborators} (restaurant_name : string)
    (images : list string) (page : json) : res (json * list (coro json)) :=
  '(page_number, img_b64, page_categories) ←
    Phase3Extractor.page_inputs images page;
  mret (page_number,
        map (Phase3Extractor.extract_category_base restaurant_name
               page_number img_b64) page_categories).

Definition phase4_units `{Collaborators} (restaurant_name : string)
    (images : list string) (pair : json * json)
    : res (json * list (coro json)) :=
  '(page_number, img_b64, page_categories, page_bases) ←
    Phase4Extractor.page_inputs images (fst pair) (snd pair);
  mret (page_number,
        Phase4Extractor.page_coros restaurant_name page_number img_b64
          page_categories page_bases).

(** The number of results in a page entry. *)
Definition entry_size (entry : json) : nat :=
  match py_getitem entry "categories" with
  | Ok (JArr results) => length results
  | _ => O
  end.

(** [results] holds one result per coroutine of [coros], each the result
    its coroutine returned on some answers of the provider: no unit failed
    and none was left out. *)
Definition every_unit_returned (coros : list (coro json))
    (results : list json) : Prop :=
  length results = length coros /\
  forall i c, coros !! i = Some c ->
    exists r answers,
      results !! i = Some r /\ replay c answers = Some (Ok r).

(** Page [p] was processed into entry [q]: its inputs were read, and [q]
    holds its page number and the results of all its units. *)
Definition page_done {P} (inputs : P -> res (json * list (coro json)))
    (p : P) (q : json) : Prop :=
  exists page_number coros results,
    inputs p = Ok (page_number, coros) /\
    q = page_entry page_number "categories" results /\
    every_unit_returned coros results.

(** The pages of [doc] are [n] entries numbered [1 .. n] in order. *)
Definition aligned (n : nat) (doc : json) : Prop :=
  exists pages,
    pages_of doc = Some pages /\
    length pages = n /\
    forall i page, pages !! i = Some page ->
      py_getitem page "page_number" = Ok (JInt (Z.of_nat i + 1)).

(** The entries of [doc] are numbered as the pages [ps]: one entry per
    page, in order, with the [page_number] of its page. *)
Definition numbered_like {P} (page_of : P -> json) (ps : list P)
    (doc : json) : Prop :=
  exists entries,
    pages_of doc = Some entries /\
    Forall2 (fun p entry =>
               exists page_number,
                 py_getitem (page_of p) "page_number" = Ok page_number /\
                 py_getitem entry "page_number" = Ok page_number)
      ps entries.

(** What a unit does while [n] attempts in a row fail and attempts remain:
    each time a call and one second of sleep. *)
Fixpoint retried (req : request) (n : nat) : list uevent :=
  match n with
  | O => []
  | S n' => UCall req :: USleep 1 :: retried req n'
  end.

(** What a stage does when the inputs of its next page raise [e]: it raises
    [e] if it got that far, and otherwise has stopped before. *)
Definition then_raise {A B} (e : exn) (r : outcome A * world * list event)
    : outcome B * world * list event :=
  match r with
  | (Returned _, w, evs) => (Raised e, w, evs)
  | (Raised e', w, evs) => (Raised e', w, evs)
  | (Pending, w, evs) => (Pending, w, evs)
  end.

(** A unit ended with an exception. *)
Definition failed {A} (r : res A) : Prop := exists e, r = Err e.

(** A page of a stage-2 document, with typed categories. *)
Definition page_to_json (page : json * list category_record) : json :=
  page_entry (fst page) "categories" (map category_to_json (snd page)).

(** The number of items of a category: both groupings. *)
Definition category_total (c : category_record) : Z :=
  items_in (category_items c) + items_in (subcategory_items c).

Fixpoint sum_Z (zs : list Z) : Z :=
  match zs with
  | [] => 0
  | z :: zs' => z + sum_Z zs'
  end.

(** ** Notions for the further properties *)

(** Running the coroutines one after the other, each to its end, from call
    number [calls0]: the results in order, or the first exception. *)
Fixpoint run_in_turn {R} (api : nat -> request -> api_outcome) (calls0 : nat)
    (coros : list (coro R)) : res (list R) :=
  match coros with
  | [] => Ok []
  | c :: coros' =>
      match run_coro api calls0 c with
      | (Err e, _) => Err e
      | (Ok r, tr) =>
          match run_in_turn api (calls0 + attempts_made tr)%nat coros' with
          | Err e => Err e
          | Ok rs => Ok (r :: rs)
          end
      end
  end.

(** The schedule that lets task [i] run to its end, then task [i + 1], and
    so on: a task takes one step to acquire the semaphore, one per
    suspension point, and one to finish. *)
Fixpoint turns {R} (api : nat -> request -> api_outcome) (calls0 : nat)
    (i : nat) (coros : list (coro R)) : list nat :=
  match coros with
  | [] => []
  | c :: coros' =>
      let tr := snd (run_coro api calls0 c) in
      (replicate (2 + length tr) i
       ++ turns api (calls0 + attempts_made tr)%nat (S i) coros')%list
  end.

Definition outcome_of {A} (r : res A) : outcome A :=
  match r with
  | Ok a => Returned a
  | Err e => Raised e
  end.

(** [c] calls the provider at most [n] times, whatever the answers. *)
Fixpoint calls_within {R} (n : nat) (c : coro R) : Prop :=
  match c with
  | Ret _ | Raise _ => True
  | AwaitGenerate _ k =>
      match n with
      | O => False
      | S n' => forall answer, calls_within n' (k answer)
      end
  | AwaitSleep _ k => calls_within n k
  end.

(** Every request [c] sends satisfies [Q], whatever the answers. *)
Fixpoint sends_only {R} (Q : request -> Prop) (c : coro R) : Prop :=
  match c with
  | Ret _ | Raise _ => True
  | AwaitGenerate req k => Q req /\ forall answer, sends_only Q (k answer)
  | AwaitSleep _ k => sends_only Q k
  end.

(** The coroutine a task still has to run, if any. *)
Definition pending_coro {R} (t : task R) : option (coro R) :=
  match t with
  | Waiting c | Running c => Some c
  | Finished _ | Failed _ => None
  end.

(** The budgets [bs] cover what the tasks of [g] may still call, and with
    the calls made so far they stay within [bound]. *)
Definition covered {R} (bound : nat) (g : gstate R) : Prop :=
  exists bs,
    Forall2 (fun t b => forall c, pending_coro t = Some c -> calls_within b c)
      (tasks g) bs /\
    (gcalls g + sum_list bs <= bound)%nat.

(** The requests in the log of [g], and those its tasks may still send,
    satisfy [Q] for their task. *)
Definition proper {R} (Q : nat -> request -> Prop) (g : gstate R) : Prop :=
  (forall i t c, tasks g !! i = Some t -> pending_coro t = Some c ->
     sends_only (Q i) c) /\
  (forall i req answer, EvCall i req answer ∈ glog g -> Q i req).

(** The request a unit sends: the one its prompt gives. *)
Definition request_of `{Collaborators} (u : unit_of_work) (req : request)
    : Prop :=
  exists prompt, build_prompt u = Ok prompt /\ req = llm_request u prompt.

(** A synchronous expression evaluated without raising. *)
Definition succeeds {A} (r : res A) : Prop := exists a, r = Ok a.

(** [r] is the dump of an instance that [model_validate] of schema [s]
    returned. *)
Definition dump_of `{Collaborators} (s : schema) (r : json) : Prop :=
  exists data v, model_validate s data = Ok v /\ r = JObj (model_dump v).

(** ** The HTTP layer ([backend/api], [backend/services/storage.py])

    A route raises an exception of the code it calls, a
    [json.JSONDecodeError] of [json.loads], or FastAPI's [HTTPException],
    which is an [Exception] like the others and is caught by
    [except Exception]. *)

Inductive raised : Type :=
| Python (e : exn)
| JSONDecodeError (pos : nat) (msg : string)
| HTTPException (status_code : Z) (detail : string).

Inductive reply (A : Type) : Type :=
| Reply (a : A)
| Throw (r : raised).
Arguments Reply {A} a.
Arguments Throw {A} r.

#[global] Instance reply_ret : MRet reply := fun A a => Reply a.

#[global] Instance reply_bind : MBind reply := fun A B f m =>
  match m with
  | Reply a => f a
  | Throw r => Throw r
  end.

Definition of_res {A} (r : res A) : reply A :=
  match r with
  | Ok a => Reply a
  | Err e => Throw (Python e)
  end.

(** [s.endswith(suffix)]. *)
Fixpoint endswith (s suffix : string) : bool :=
  String.eqb s suffix
  || match s with
     | EmptyString => false
     | String _ s' => endswith s' suffix
     end.

(** [needle in s] for two strings. *)
Fixpoint str_contains (s needle : string) : bool :=
  String.prefix needle s
  || match s with
     | EmptyString => false
     | String _ s' => str_contains s' needle
     end.

(** [key in v] for a string [key]: a key of a dict, an element of a list, a
    substring of a string; other values are not containers. *)
Definition py_contains (key : string) (v : json) : res bool :=
  match v with
  | JObj d =>
      Ok (match dict_lookup key d with
          | Some _ => true
          | None => false
          end)
  | JArr l =>
      Ok (existsb (fun x => match x with
                            | JStr s => String.eqb s key
                            | _ => false
                            end) l)
  | JStr s => Ok (str_contains s key)
  | _ => Err TypeError
  end.

(** *** Uploads ([backend/api/dependencies.py]) *)

(** An [UploadFile]: its name, its bytes and the position of the next
    read. *)
Record UploadFile : Type := mk_upload {
  filename : option string;
  file_bytes : string;
  position : nat
}.

Fixpoint string_drop (n : nat) (s : string) : string :=
  match n, s with
  | O, _ => s
  | S n', String _ s' => string_drop n' s'
  | S _, EmptyString => EmptyString
  end.

(** [await pdf.read()]: the bytes from the position on; the position moves
    to the end. *)
Definition read (pdf : UploadFile) : string * UploadFile :=
  (string_drop (position pdf) (file_bytes pdf),
   mk_upload (filename pdf) (file_bytes pdf)
     (Nat.max (position pdf) (String.length (file_bytes pdf)))).

(** [await pdf.seek(offset)]. *)
Definition seek (pdf : UploadFile) (offset : nat) : UploadFile :=
  mk_upload (filename pdf) (file_bytes pdf) offset.

(** [validate_pdf_upload]; [max_file_size_mb] is
    [settings.MAX_FILE_SIZE_MB], 50 unless the environment sets it.  The
    quotient [len(content) / (1024 * 1024)] is a float that is exact for
    every length below [2^53], and is compared as a rational here. *)
Definition validate_pdf_upload (max_file_size_mb : Z) (pdf : UploadFile)
    : reply UploadFile :=
  match filename pdf with
  | None => Throw (Python AttributeError)
  | Some name =>
      if negb (endswith name ".pdf")
      then Throw (HTTPException 400 "Only PDF files are allowed")
      else
        let '(content, pdf) := read pdf in
        let pdf := seek pdf 0 in
        let size_mb :=
          QArith_base.Qmake (Z.of_nat (String.length content))
            (Z.to_pos (1024 * 1024)) in
        if negb (QArith_base.Qle_bool size_mb
                   (QArith_base.inject_Z max_file_size_mb))
        then Throw (HTTPException 400
                      ("File too large. Max size: "
                       ++ string_of_Z max_file_size_mb ++ "MB"))
        else Reply pdf
  end.

(** *** Storage ([backend/services/storage.py])

    The paths [StorageService] builds: the PDF of a job in [uploads_dir]
    and the files of a job in its folder of [outputs_dir]; a job id is one
    path component, as [new_job_id] makes it.  The content of a file is a
    byte string, and the text of a file is its content: the UTF-8 coding of
    text files is not modelled, nor are the directories, which [job_dir]
    and [save_json] create as needed. *)

Inductive path : Type :=
| UploadsFile (name : string)
| OutputsFile (job_id : string) (name : string).

Definition path_eqb (p q : path) : bool :=
  match p, q with
  | UploadsFile n, UploadsFile m => String.eqb n m
  | OutputsFile j n, OutputsFile k m => String.eqb j k && String.eqb n m
  | _, _ => false
  end.

Definition disk : Type := path -> option string.

Definition write (fs : disk) (p : path) (content : string) : disk :=
  fun q => if path_eqb q p then Some content else fs q.

Definition pdf_path (job_id : string) : path :=
  UploadsFile (job_id ++ ".pdf").

Definition phase1_raw_path (job_id : string) : path :=
  OutputsFile job_id "phase1_categories_raw.json".

Definition phase1_reviewed_path (job_id : string) : path :=
  OutputsFile job_id "phase1_categories_reviewed.json".

Definition phase2_path (job_id : string) : path :=
  OutputsFile job_id "phase2_items.json".

Definition phase3_path (job_id : string) : path :=
  OutputsFile job_id "phase3_bases.json".

Definition phase4_path (job_id : string) : path :=
  OutputsFile job_id "phase4_final.json".

(** [StorageService.exists]. *)
Definition path_exists (fs : disk) (p : path) : bool :=
  match fs p with
  | Some _ => true
  | None => false
  end.

(** [StorageService.save_pdf]: the destination, and the upload and the disk
    after the call. *)
Definition save_pdf (fs : disk) (job_id : string) (pdf : UploadFile)
    : path * UploadFile * disk :=
  let dest := pdf_path job_id in
  let '(content, pdf) := read pdf in
  (dest, pdf, write fs dest content).

(** [validate_job_exists]: a job exists when its PDF does. *)
Definition validate_job_exists (fs : disk) (job_id : string) : reply string :=
  if negb (path_exists fs (pdf_path job_id))
  then Throw (HTTPException 404 ("Job " ++ job_id ++ " not found"))
  else Reply job_id.

Section Storage.
Context `{Collaborators}.

(** [json.dumps(data, indent=2, ensure_ascii=False)] and [str(path)] are
    taken as given. *)
Variable json_dumps : json -> string.
Variable path_str : path -> string.

(** [StorageService.save_json]. *)
Definition save_json (fs : disk) (p : path) (data : json) : disk :=
  write fs p (json_dumps data).

(** [StorageService.load_json]: the check [path.exists()] and the read are
    one lookup. *)
Definition load_json (fs : disk) (p : path) : reply json :=
  match fs p with
  | None =>
      Throw (Python (FileNotFoundError ("File not found: " ++ path_str p)))
  | Some text =>
      match json_loads text with
      | inl (pos, msg) => Throw (JSONDecodeError pos msg)
      | inr data => Reply data
      end
  end.
End Storage.

(** *** Reading and updating the documents ([backend/api/routes],
    [backend/api/schemas.py]) *)

Record GetDataResponse : Type := {
  get_success : bool;
  get_job_id : string;
  get_data : pydict
}.

Record UpdateDataRequest : Type := {
  request_job_id : string;
  request_data : pydict
}.

Record UpdateDataResponse : Type := {
  update_success : bool;
  update_job_id : string;
  update_message : string
}.

Section Routes.
Context `{Collaborators}.
Variable json_dumps : json -> string.
Variable path_str : path -> string.

(** [str(e)] of what was raised, and the message of the validation error
    pydantic raises when the [data] of a response is not a dict. *)
Variable exception_str : raised -> string.
Variable dict_type_error : json -> string.

(** [GetDataResponse(job_id=job_id, data=data)]; [data: Dict[str, Any]]. *)
Definition new_GetDataResponse (job_id : string) (data : json)
    : reply GetDataResponse :=
  match data with
  | JObj d =>
      Reply {| get_success := true; get_job_id := job_id; get_data := d |}
  | _ => Throw (Python (ValidationError (dict_type_error data)))
  end.

(** [UpdateDataResponse(job_id=job_id)]. *)
Definition new_UpdateDataResponse (job_id : string) : UpdateDataResponse :=
  {| update_success := true;
     update_job_id := job_id;
     update_message := "Data updated successfully" |}.

(** The two [except] clauses of a GET route. *)
Definition get_handlers {A} (not_found : string) (body : reply A)
    : reply A :=
  match body with
  | Reply a => Reply a
  | Throw (Python (FileNotFoundError _)) =>
      Throw (HTTPException 404 not_found)
  | Throw r => Throw (HTTPException 500 (exception_str r))
  end.

(** [get_categories] of phase 1: the reviewed file, and the raw file when
    there is no reviewed file. *)
Definition get_categories (fs : disk) (job_id : string)
    : reply GetDataResponse :=
  get_handlers "Phase 1 data not found"
    (data ← match load_json path_str fs (phase1_reviewed_path job_id) with
            | Throw (Python (FileNotFoundError _)) =>
                load_json path_str fs (phase1_raw_path job_id)
            | loaded => loaded
            end;
     new_GetDataResponse job_id data).

Definition get_items (fs : disk) (job_id : string) : reply GetDataResponse :=
  get_handlers "Phase 2 data not found"
    (data ← load_json path_str fs (phase2_path job_id);
     new_GetDataResponse job_id data).

Definition get_bases (fs : disk) (job_id : string) : reply GetDataResponse :=
  get_handlers "Phase 3 data not found"
    (data ← load_json path_str fs (phase3_path job_id);
     new_GetDataResponse job_id data).

Definition get_final_result (fs : disk) (job_id : string)
    : reply GetDataResponse :=
  get_handlers "Phase 4 data not found"
    (data ← load_json path_str fs (phase4_path job_id);
     new_GetDataResponse job_id data).

(** The validation loop of [update_categories]:
    [for page in request.data["pages"]]. *)
Fixpoint validate_data_pages (pages : list json) : reply unit :=
  match pages with
  | [] => Reply tt
  | page :: pages' =>
      has_data ← of_res (py_contains "data" page);
      if negb has_data
      then Throw (HTTPException 400 "Invalid payload structure")
      else
        data ← of_res (py_getitem page "data");
        _ ← of_res (model_validate Categories data);
        validate_data_pages pages'
  end.

(** [for cat in cats: S.model_validate(cat)]. *)
Fixpoint validate_each (s : schema) (cats : list json) : reply unit :=
  match cats with
  | [] => Reply tt
  | cat :: cats' =>
      _ ← of_res (model_validate s cat);
      validate_each s cats'
  end.

(** The validation loop of [update_items] and of [update_bases]: the
    categories of every page, against schema [s]. *)
Fixpoint validate_category_pages (s : schema) (pages : list json)
    : reply unit :=
  match pages with
  | [] => Reply tt
  | page :: pages' =>
      has_categories ← of_res (py_contains "categories" page);
      if negb has_categories
      then Throw (HTTPException 400 "Invalid payload structure")
      else
        cats ← of_res (py_getitem page "categories" ≫= py_iter);
        _ ← validate_each s cats;
        validate_category_pages s pages'
  end.

Definition validate_categories (data : pydict) : reply unit :=
  pages ← of_res (py_getitem (JObj data) "pages" ≫= py_iter);
  validate_data_pages pages.

Definition validate_items (data : pydict) : reply unit :=
  pages ← of_res (py_getitem (JObj data) "pages" ≫= py_iter);
  validate_category_pages CategoryWithItems pages.

(** [update_bases] validates against [CategoryWithItems] as well. *)
Definition validate_bases (data : pydict) : reply unit :=
  pages ← of_res (py_getitem (JObj data) "pages" ≫= py_iter);
  validate_category_pages CategoryWithItems pages.

(** [update_final_result]: [if "categories" in request.data: ...]. *)
Definition validate_final_result (data : pydict) : reply unit :=
  has_categories ← of_res (py_contains "categories" (JObj data));
  if (has_categories : bool)
  then
    cats ← of_res (py_getitem (JObj data) "categories" ≫= py_iter);
    validate_each CategoryItemAddons cats
  else Reply tt.

(** The body of a PUT route and its [except Exception] clause: validate,
    save the data of the request at [target], then update the database.
    [database] stands for the statements on the database session, which do
    not touch the disk: they end normally or raise. *)
Definition update_route (validation : reply unit) (target : path)
    (fs : disk) (job_id : string) (request : UpdateDataRequest)
    (database : reply unit) : reply UpdateDataResponse * disk :=
  let failed (r : raised) : reply UpdateDataResponse :=
    Throw (HTTPException 500 ("Update failed: " ++ exception_str r)) in
  match validation with
  | Throw r => (failed r, fs)
  | Reply _ =>
      let fs := save_json json_dumps fs target (JObj (request_data request))
      in
      match database with
      | Throw r => (failed r, fs)
      | Reply _ => (Reply (new_UpdateDataResponse job_id), fs)
      end
  end.

Definition update_categories (fs : disk) (job_id : string)
    (request : UpdateDataRequest) (database : reply unit)
    : reply UpdateDataResponse * disk :=
  update_route (validate_categories (request_data request))
    (phase1_reviewed_path job_id) fs job_id request database.

Definition update_items (fs : disk) (job_id : string)
    (request : UpdateDataRequest) (database : reply unit)
    : reply UpdateDataResponse * disk :=
  update_route (validate_items (request_data request))
    (phase2_path job_id) fs job_id request database.

Definition update_bases (fs : disk) (job_id : string)
    (request : UpdateDataRequest) (database : reply unit)
    : reply UpdateDataResponse * disk :=
  update_route (validate_bases (request_data request))
    (phase3_path job_id) fs job_id request database.

Definition update_final_result (fs : disk) (job_id : string)
    (request : UpdateDataRequest) (database : reply unit)
    : reply UpdateDataResponse * disk :=
  update_route (validate_final_result (request_data request))
    (phase4_path job_id) fs job_id request database.
End Routes.

(** *** The database ([backend/database/models.py])

    The rows of the four tables, with the columns the routes assign.  The
    keys [id] and the time stamps, which none of the statements embedded
    here reads, are left out.  A session is a transaction: what a route
    changed reaches the database at [db.commit()], and [db.rollback()]
    leaves the database as it was.  The statements are embedded for a
    database that accepts them, that compares the strings of a filter
    character by character, and that returns a document as it was
    stored. *)

Record Restaurant : Type := mk_restaurant {
  r_job_id : string;
  r_name : option string;
  r_phase : Z;
  r_json : json;
  r_status : string
}.

Record PhaseData : Type := mk_phase_data {
  p_job_id : string;
  p_phase : Z;
  p_json : json;
  p_status : string
}.

Record ExtractionHistory : Type := mk_history {
  h_job_id : string;
  h_phase : Z;
  h_action : string;
  h_status : string
}.

Record CategorySizes : Type := mk_category_sizes {
  cs_job_id : string;
  cs_category_name : string;
  cs_sizes_json : json
}.

Record database : Type := mk_database {
  restaurants : list Restaurant;
  phase_rows : list PhaseData;
  extraction_history : list ExtractionHistory;
  category_sizes : list CategorySizes
}.

(** The row an ORM object stands for is the first one that passes the
    filter; assigning its attributes changes that row. *)
Fixpoint update_first {A} (test : A -> bool) (f : A -> A) (l : list A)
    : list A :=
  match l with
  | [] => []
  | x :: l' => if test x then f x :: l' else x :: update_first test f l'
  end.

Definition is_job (job_id : string) (r : Restaurant) : bool :=
  String.eqb (r_job_id r) job_id.

Definition is_phase (job_id : string) (phase : Z) (p : PhaseData) : bool :=
  String.eqb (p_job_id p) job_id && (p_phase p =? phase).

Definition is_sizes (job_id category_name : string) (c : CategorySizes)
    : bool :=
  String.eqb (cs_job_id c) job_id
  && String.eqb (cs_category_name c) category_name.

(** [db.query(Restaurant).filter(Restaurant.job_id == job_id).first()]. *)
Definition find_restaurant (db : database) (job_id : string)
    : option Restaurant :=
  find (is_job job_id) (restaurants db).

(** [db.query(PhaseData).filter(PhaseData.job_id == job_id,
    PhaseData.phase == phase).first()]. *)
Definition find_phase (db : database) (job_id : string) (phase : Z)
    : option PhaseData :=
  find (is_phase job_id phase) (phase_rows db).

(** [db.query(CategorySizes).filter(CategorySizes.job_id == job_id,
    CategorySizes.category_name == category_name).first()]. *)
Definition find_sizes (db : database) (job_id category_name : string)
    : option CategorySizes :=
  find (is_sizes job_id category_name) (category_sizes db).

(** The block [UPSERT PhaseData] of the extract routes. *)
Definition upsert_phase (db : database) (job_id : string) (phase : Z)
    (result : json) : list PhaseData :=
  match find_phase db job_id phase with
  | Some _ =>
      update_first (is_phase job_id phase)
        (fun p => mk_phase_data (p_job_id p) (p_phase p) result "success")
        (phase_rows db)
  | None =>
      (phase_rows db ++ [mk_phase_data job_id phase result "success"])%list
  end.

Definition log_action (db : database) (job_id : string) (phase : Z)
    (action : string) : list ExtractionHistory :=
  (extraction_history db ++ [mk_history job_id phase action "success"])%list.

(** The database statements of [extract_categories]: the job is created
    when it is not there. *)
Definition record_phase1 (db : database) (job_id restaurant_name : string)
    (result : json) : database :=
  let restaurants' :=
    match find_restaurant db job_id with
    | Some _ =>
        update_first (is_job job_id)
          (fun r => mk_restaurant (r_job_id r) (Some restaurant_name) 1 result
                      "phase1_complete")
          (restaurants db)
    | None =>
        (restaurants db
         ++ [mk_restaurant job_id (Some restaurant_name) 1 result
               "phase1_complete"])%list
    end in
  mk_database restaurants' (upsert_phase db job_id 1 result)
    (log_action db job_id 1 "extract") (category_sizes db).

(** The database statements of [extract_items], [extract_bases] and
    [extract_addons], for [phase] 2, 3 and 4 and the status
    [complete]. *)
Definition record_phase (phase : Z) (complete : string) (db : database)
    (job_id : string) (result : json) : reply database :=
  match find_restaurant db job_id with
  | Some _ =>
      Reply
        (mk_database
           (update_first (is_job job_id)
              (fun r => mk_restaurant (r_job_id r) (r_name r) phase result
                          complete)
              (restaurants db))
           (upsert_phase db job_id phase result)
           (log_action db job_id phase "extract")
           (category_sizes db))
  | None => Throw (HTTPException 404 "Job not found")
  end.

(** The database statements of the update routes: nothing at all for a job
    that is not in the database. *)
Definition record_edit (phase : Z) (db : database) (job_id : string)
    (data : json) : database :=
  match find_restaurant db job_id with
  | Some _ =>
      mk_database
        (update_first (is_job job_id)
           (fun r => mk_restaurant (r_job_id r) (r_name r) (r_phase r) data
                       (r_status r))
           (restaurants db))
        (match find_phase db job_id phase with
         | Some _ =>
             update_first (is_phase job_id phase)
               (fun p => mk_phase_data (p_job_id p) (p_phase p) data
                           (p_status p))
               (phase_rows db)
         | None => phase_rows db
         end)
        (log_action db job_id phase "manual_edit")
        (category_sizes db)
  | None => db
  end.

(** *** Reading and updating a job ([backend/api/routes/jobs.py]) *)

Record JobDetailResponse : Type := {
  job_status : string;
  current_phase : Z;
  job_restaurant_name : option string;
  category_count : Z;
  item_count : Z
}.

(** [get_job], without the key and the time stamps of the row.  An error
    while counting is not caught in the route. *)
Definition get_job (db : database) (job_id : string)
    : reply JobDetailResponse :=
  match find_restaurant db job_id with
  | None => Throw (HTTPException 404 ("Job " ++ job_id ++ " not found"))
  | Some restaurant =>
      counts ← of_res (get_job_counts (r_json restaurant));
      Reply {| job_status := r_status restaurant;
               current_phase := r_phase restaurant;
               job_restaurant_name := r_name restaurant;
               category_count := fst counts;
               item_count := snd counts |}
  end.

Record UpdateJobStatusRequest : Type := {
  request_status : string;
  request_current_phase : option Z
}.

(** [update_job_status]: the answer and the database after it. *)
Definition update_job_status (db : database) (job_id : string)
    (request : UpdateJobStatusRequest) : reply json * database :=
  match find_restaurant db job_id with
  | None =>
      (Throw (HTTPException 404 ("Job " ++ job_id ++ " not found")), db)
  | Some restaurant =>
      let phase :=
        match request_current_phase request with
        | Some current_phase => current_phase
        | None => r_phase restaurant
        end in
      (Reply (JObj [("success", JBool true);
                    ("job_id", JStr job_id);
                    ("status", JStr (request_status request));
                    ("current_phase", JInt phase);
                    ("message", JStr "Job status updated")]),
       mk_database
         (update_first (is_job job_id)
            (fun r =>
               mk_restaurant (r_job_id r) (r_name r)
                 (match request_current_phase request with
                  | Some current_phase => current_phase
                  | None => r_phase r
                  end)
                 (r_json r) (request_status request))
            (restaurants db))
         (phase_rows db) (extraction_history db) (category_sizes db))
  end.

(** *** The extract routes and the routes on sizes
    ([backend/api/routes/phase1.py] ... [phase4.py]) *)

Record PhaseResponse : Type := {
  phase_success : bool;
  phase_job_id : string;
  phase_data : pydict;
  phase_message : string
}.

Section ExtractRoutes.
Context `{Collaborators}.
Variable json_dumps : json -> string.
Variable path_str : path -> string.
Variable exception_str : raised -> string.

(** The [except] clauses of [extract_items], [extract_bases] and
    [extract_addons]. *)
Definition extract_handlers (label : string) (r : raised) : raised :=
  match r with
  | Python (FileNotFoundError _) => HTTPException 404 (exception_str r)
  | _ => HTTPException 500 (label ++ " failed: " ++ exception_str r)
  end.

(** What [extract_items], [extract_bases] and [extract_addons] do once the
    stage has returned the dict [result]: save it, update the database,
    answer. *)
Definition store_phase (phase : Z) (label complete : string) (target : path)
    (fs : disk) (db : database) (job_id : string) (result : pydict)
    : reply PhaseResponse * disk * database :=
  let fs := save_json json_dumps fs target (JObj result) in
  match record_phase phase complete db job_id (JObj result) with
  | Reply db' =>
      (Reply {| phase_success := true;
                phase_job_id := job_id;
                phase_data := result;
                phase_message := label ++ " extraction complete" |},
       fs, db')
  | Throw r => (Throw (extract_handlers label r), fs, db)
  end.

Definition store_items (fs : disk) (db : database) (job_id : string)
    (result : pydict) : reply PhaseResponse * disk * database :=
  store_phase 2 "Phase 2" "phase2_complete" (phase2_path job_id) fs db
    job_id result.

Definition store_bases (fs : disk) (db : database) (job_id : string)
    (result : pydict) : reply PhaseResponse * disk * database :=
  store_phase 3 "Phase 3" "phase3_complete" (phase3_path job_id) fs db
    job_id result.

Definition store_addons (fs : disk) (db : database) (job_id : string)
    (result : pydict) : reply PhaseResponse * disk * database :=
  store_phase 4 "Phase 4" "phase4_complete" (phase4_path job_id) fs db
    job_id result.

(** The same for [extract_categories], which saves the result twice. *)
Definition store_categories (fs : disk) (db : database)
    (job_id restaurant_name : string) (result : pydict)
    : reply PhaseResponse * disk * database :=
  let fs := save_json json_dumps fs (phase1_raw_path job_id) (JObj result) in
  let fs :=
    save_json json_dumps fs (phase1_reviewed_path job_id) (JObj result) in
  (Reply {| phase_success := true;
            phase_job_id := job_id;
            phase_data := result;
            phase_message := "Phase 1 extraction complete" |},
   fs, record_phase1 db job_id restaurant_name (JObj result)).

(** The routes themselves.  [stage] is what awaiting [run_phase1] ...
    [run_phase4] gives for the arguments of the call, a dict or an error;
    the stages write neither the files nor the database.  A stage that
    never returns gives no answer of the route either.  [job_id] of
    [extract_categories] is the identifier [new_job_id] made; the call of
    [set_restaurant_context], which only sets a context variable for the
    headers of the LLM client, is left out. *)
Definition extract_categories (stage : string -> string -> reply pydict)
    (fs : disk) (db : database) (job_id restaurant_name : string)
    (pdf : UploadFile) : reply PhaseResponse * disk * database :=
  let '(dest, _, fs) := save_pdf fs job_id pdf in
  match stage restaurant_name (path_str dest) with
  | Reply result => store_categories fs db job_id restaurant_name result
  | Throw r =>
      (Throw (HTTPException 500 ("Phase 1 failed: " ++ exception_str r)),
       fs, db)
  end.

Definition extract_items (stage : json -> json -> string -> reply pydict)
    (fs : disk) (db : database) (job_id : string)
    : reply PhaseResponse * disk * database :=
  let body :=
    reviewed_data ← load_json path_str fs (phase1_reviewed_path job_id);
    if negb (path_exists fs (pdf_path job_id))
    then Throw (HTTPException 404 "PDF not found")
    else
      restaurant_name ← of_res (py_getitem reviewed_data "restaurant_name");
      stage restaurant_name reviewed_data (path_str (pdf_path job_id)) in
  match body with
  | Reply result => store_items fs db job_id result
  | Throw r => (Throw (extract_handlers "Phase 2" r), fs, db)
  end.

Definition extract_bases (stage : json -> json -> string -> reply pydict)
    (fs : disk) (db : database) (job_id : string)
    : reply PhaseResponse * disk * database :=
  let body :=
    items_data ← load_json path_str fs (phase2_path job_id);
    if negb (path_exists fs (pdf_path job_id))
    then Throw (HTTPException 404 "PDF not found")
    else
      restaurant_name ← of_res (py_getitem items_data "restaurant_name");
      stage restaurant_name items_data (path_str (pdf_path job_id)) in
  match body with
  | Reply result => store_bases fs db job_id result
  | Throw r => (Throw (extract_handlers "Phase 3" r), fs, db)
  end.

Definition extract_addons
    (stage : json -> json -> json -> string -> reply pydict)
    (fs : disk) (db : database) (job_id : string)
    : reply PhaseResponse * disk * database :=
  let body :=
    items_data ← load_json path_str fs (phase2_path job_id);
    bases_data ← load_json path_str fs (phase3_path job_id);
    if negb (path_exists fs (pdf_path job_id))
    then Throw (HTTPException 404 "PDF not found")
    else
      restaurant_name ← of_res (py_getitem items_data "restaurant_name");
      stage restaurant_name items_data bases_data
        (path_str (pdf_path job_id)) in
  match body with
  | Reply result => store_addons fs db job_id result
  | Throw r => (Throw (extract_handlers "Phase 4" r), fs, db)
  end.

(** A PUT route with its statements on the database written out:
    [update_route] where [database] is [record_edit]. *)
Definition edit_route (validation : reply unit) (phase : Z) (target : path)
    (fs : disk) (db : database) (job_id : string)
    (request : UpdateDataRequest)
    : reply UpdateDataResponse * disk * database :=
  match validation with
  | Throw r =>
      (Throw (HTTPException 500 ("Update failed: " ++ exception_str r)),
       fs, db)
  | Reply _ =>
      let fs := save_json json_dumps fs target (JObj (request_data request))
      in
      (Reply (new_UpdateDataResponse job_id), fs,
       record_edit phase db job_id (JObj (request_data request)))
  end.

Definition edit_categories (fs : disk) (db : database) (job_id : string)
    (request : UpdateDataRequest)
    : reply UpdateDataResponse * disk * database :=
  edit_route (validate_categories (request_data request)) 1
    (phase1_reviewed_path job_id) fs db job_id request.

Definition edit_items (fs : disk) (db : database) (job_id : string)
    (request : UpdateDataRequest)
    : reply UpdateDataResponse * disk * database :=
  edit_route (validate_items (request_data request)) 2
    (phase2_path job_id) fs db job_id request.

Definition edit_bases (fs : disk) (db : database) (job_id : string)
    (request : UpdateDataRequest)
    : reply UpdateDataResponse * disk * database :=
  edit_route (validate_bases (request_data request)) 3
    (phase3_path job_id) fs db job_id request.

Definition edit_final_result (fs : disk) (db : database) (job_id : string)
    (request : UpdateDataRequest)
    : reply UpdateDataResponse * disk * database :=
  edit_route (validate_final_result (request_data request)) 4
    (phase4_path job_id) fs db job_id request.

(** [get_category_sizes]: the 404 for a missing job is raised inside the
    [try] and leaves as a 500. *)
Definition get_category_sizes (db : database) (job_id category_name : string)
    : reply json :=
  match find_restaurant db job_id with
  | None =>
      Throw (HTTPException 500
               ("Failed to get sizes: "
                ++ exception_str (HTTPException 404 "Job not found")))
  | Some _ =>
      let sizes :=
        match find_sizes db job_id category_name with
        | Some category_sizes => cs_sizes_json category_sizes
        | None => JArr []
        end in
      Reply (JObj [("job_id", JStr job_id);
                   ("category", JStr category_name);
                   ("sizes", sizes)])
  end.

(** [update_category_sizes]; [request] is the dict of the body. *)
Definition update_category_sizes (db : database)
    (job_id category_name : string) (request : pydict)
    : reply json * database :=
  match find_restaurant db job_id with
  | None =>
      (Throw (HTTPException 500
                ("Failed to update sizes: "
                 ++ exception_str (HTTPException 404 "Job not found"))),
       db)
  | Some _ =>
      let sizes := dict_get request "sizes" (JArr []) in
      let category_sizes' :=
        match find_sizes db job_id category_name with
        | Some _ =>
            update_first (is_sizes job_id category_name)
              (fun c =>
                 mk_category_sizes (cs_job_id c) (cs_category_name c) sizes)
              (category_sizes db)
        | None =>
            (category_sizes db
             ++ [mk_category_sizes job_id category_name sizes])%list
        end in
      (Reply (JObj [("job_id", JStr job_id);
                    ("category", JStr category_name);
                    ("status", JStr "updated")]),
       mk_database (restaurants db) (phase_rows db)
         (log_action db job_id 2 "update_sizes") category_sizes')
  end.
End ExtractRoutes.

(** The database has one row per job, one snapshot per job and phase and
    one row of sizes per job and category, and every snapshot, log entry
    and row of sizes belongs to a job. *)
Definition well_formed (db : database) : Prop :=
  NoDup (map r_job_id (restaurants db)) /\
  NoDup (map (fun p => (p_job_id p, p_phase p)) (phase_rows db)) /\
  NoDup (map (fun c => (cs_job_id c, cs_category_name c))
           (category_sizes db)) /\
  (forall p, p ∈ phase_rows db -> is_Some (find_restaurant db (p_job_id p))) /\
  (forall h, h ∈ extraction_history db ->
     is_Some (find_restaurant db (h_job_id h))) /\
  (forall c, c ∈ category_sizes db ->
     is_Some (find_restaurant db (cs_job_id c))).

(** [db'] continues [db]: the log of [db] is the beginning of the log of
    [db'], and the jobs of [db] are jobs of [db']. *)
Definition continues (db db' : database) : Prop :=
  extraction_history db `prefix_of` extraction_history db' /\
  forall job_id,
    is_Some (find_restaurant db job_id) ->
    is_Some (find_restaurant db' job_id).

(** ** Further sample inputs *)

Module Samples.
(** The rasterizer of [Demo], which also knows a PDF without pages. *)
Definition blank_images (pdf_path : string) : res (list string) :=
  if String.eqb pdf_path "blank.pdf" then Ok []
  else Demo.stub_images pdf_path.

Definition blank_stubs : Collaborators := {|
  model := pydict;
  model_validate := Demo.stub_validate;
  model_dump := fun d => d;
  categories_attr := Demo.stub_categories;
  json_loads := Demo.stub_loads;
  render := fun template _ => Ok template;
  convert_to_images := blank_images;
  py_repr := fun _ => "<repr>"
|}.

(** An answer that is not JSON. *)
Definition sorry : api_outcome := ApiResponse [Some "I am sorry"].

(** A category with two items, and a base with a price. *)
Definition two_items : pydict :=
  [("name_raw", JStr "Pizza");
   ("items", JArr [JStr "Margherita"; JStr "Marinara"])].

Definition priced_base : pydict :=
  [("name_raw", JStr "Pizza"); ("base_price", JInt 9)].

(** A page entry without categories whose page number is beyond the two
    pages of [menu.pdf]. *)
Definition page_three : json := page_entry (JInt 3) "categories" [].

(** A document without pages. *)
Definition no_pages : json := stage_document "Luigi" [].

(** Two uploads of the same bytes: one named in lower case, one in upper
    case. *)
Definition menu_upload : UploadFile :=
  mk_upload (Some "menu.pdf") "%PDF-1.7" 0.

Definition shouting_upload : UploadFile :=
  mk_upload (Some "MENU.PDF") "%PDF-1.7" 0.

(** The fields of [Demo.doc1], and a request to save them. *)
Definition doc1_fields : pydict :=
  [("restaurant_name", JStr "Luigi");
   ("pages", JArr [Demo.phase1_page 1; Demo.phase1_page 2])].

Definition doc1_request : UpdateDataRequest :=
  {| request_job_id := "job"; request_data := doc1_fields |}.

(** A request whose second page has no ["data"]. *)
Definition no_data_page : json := JObj [("page_number", JInt 2)].

Definition no_data_request : UpdateDataRequest :=
  {| request_job_id := "job";
     request_data :=
       [("restaurant_name", JStr "Luigi");
        ("pages", JArr [Demo.phase1_page 1; no_data_page])] |}.

(** A parser that also knows the text [DOC1] of [Demo.doc1], and a
    serializer that writes that text for every document with a restaurant
    name. *)
Definition route_loads (raw : string) : (nat * string) + json :=
  if String.eqb raw "DOC1" then inr Demo.doc1 else Demo.stub_loads raw.

Definition route_dumps (v : json) : string :=
  match v with
  | JObj (("restaurant_name", _) :: _) => "DOC1"
  | _ => "null"
  end.

Definition route_stubs : Collaborators := {|
  model := pydict;
  model_validate := Demo.stub_validate;
  model_dump := fun d => d;
  categories_attr := Demo.stub_categories;
  json_loads := route_loads;
  render := fun template _ => Ok template;
  convert_to_images := Demo.stub_images;
  py_repr := fun _ => "<repr>"
|}.

Definition show_path (p : path) : string :=
  match p with
  | UploadsFile name => "uploads/" ++ name
  | OutputsFile job_id name => "outputs/" ++ job_id ++ "/" ++ name
  end.

Definition show_raised (r : raised) : string :=
  match r with
  | HTTPException status_code detail =>
      string_of_Z status_code ++ ": " ++ detail
  | JSONDecodeError pos msg => decode_error_msg pos msg
  | Python _ => "error"
  end.

Definition show_dict_type (v : json) : string :=
  "Input should be a valid dictionary".

(** A disk with nothing but the raw file of phase 1 of job [job]. *)
Definition raw_only : disk :=
  write (fun _ => None) (phase1_raw_path "job") "DOC1".

(** Database statements that fail. *)
Definition database_down : reply unit :=
  Throw (Python (ValueError "database is down")).

(** A database with the job [job] after stage one, and the row of the
    job. *)
Definition job_row : Restaurant :=
  mk_restaurant "job" (Some "Luigi") 1 Demo.doc1 "phase1_complete".

Definition one_job : database :=
  mk_database [job_row] [mk_phase_data "job" 1 Demo.doc1 "success"]
    [mk_history "job" 1 "extract" "success"] [].

(** A disk with the PDF of [job] and its reviewed document of stage one. *)
Definition ready_disk : disk :=
  write (write (fun _ => None) (pdf_path "job") "%PDF-1.7")
    (phase1_reviewed_path "job") "DOC1".

(** What a route gets when it awaits a run that has come to its end. *)
Definition awaited (run : outcome json * world * list event)
    : reply pydict :=
  match fst (fst run) with
  | Returned (JObj d) => Reply d
  | Returned _ => Throw (Python TypeError)
  | Raised e => Throw (Python e)
  | Pending => Throw (Python (ValueError "still running"))
  end.

(** Stages one and two on [menu.pdf] with the provider that answers
    well, wherever the PDF of the job lies. *)
Definition menu_stage1 (restaurant_name pdf_path : string) : reply pydict :=
  awaited (@Phase1Extractor.extract_all_pages route_stubs 4 restaurant_name
             "menu.pdf" Demo.good_world).

Definition menu_stage2 (restaurant_name categories_payload : json)
    (pdf_path : string) : reply pydict :=
  match restaurant_name with
  | JStr name =>
      awaited (@Phase2Extractor.extract_all_pages route_stubs 4 name
                 categories_payload "menu.pdf" Demo.good_world)
  | _ => Throw (Python TypeError)
  end.

(** A request for new sizes, and one that only sets a status. *)
Definition two_sizes : pydict :=
  [("sizes", JArr [JStr "small"; JStr "large"])].

Definition reviewed_status : UpdateJobStatusRequest :=
  {| request_status := "reviewed"; request_current_phase := None |}.

(** A reviewed document of stage one for [menu.pdf] that an edit has left
    with a single page, numbered 2. *)
Definition renumbered_fields : pydict :=
  [("restaurant_name", JStr "Luigi"); ("pages", JArr [Demo.phase1_page 2])].

(** Two categories and one base of a page, as dicts, and the world in
    which the units of that page run in turn. *)
Definition two_categories : list pydict :=
  [[("name_raw", JStr "Pizza")]; [("name_raw", JStr "Pasta")]].

Definition one_base : list pydict := [[("name_raw", JStr "Pizza")]].

Definition in_turn_world : world :=
  Demo.start Demo.good_provider
    (turns Demo.good_provider 0 0
       (@Phase4Extractor.page_coros Demo.stubs "Luigi" (JInt 1) "page-one"
          two_categories one_base)).

(** The same edit as a request, with a serializer that writes the text
    [EDITED], a parser that reads that text as the edited document, and
    stage two on [menu.pdf] with that parser. *)
Definition renumbered_request : UpdateDataRequest :=
  {| request_job_id := "job"; request_data := renumbered_fields |}.

Definition edit_dumps (v : json) : string := "EDITED".

Definition edit_loads (raw : string) : (nat * string) + json :=
  if String.eqb raw "EDITED" then inr (JObj renumbered_fields)
  else Demo.stub_loads raw.

Definition edit_stubs : Collaborators := {|
  model := pydict;
  model_validate := Demo.stub_validate;
  model_dump := fun d => d;
  categories_attr := Demo.stub_categories;
  json_loads := edit_loads;
  render := fun template _ => Ok template;
  convert_to_images := Demo.stub_images;
  py_repr := fun _ => "<repr>"
|}.

Definition edit_stage2 (restaurant_name categories_payload : json)
    (pdf_path : string) : reply pydict :=
  match restaurant_name with
  | JStr name =>
      awaited (@Phase2Extractor.extract_all_pages edit_stubs 4 name
                 categories_payload "menu.pdf" Demo.good_world)
  | _ => Throw (Python TypeError)
  end.
End Samples.

(** * Properties *)

Local Open Scope list_scope.

(** ** The retry loop *)

Section RetryLoopFacts.
Context `{Collaborators}.

Lemma after_response_failure u attempt last_error next answer e :
  attempt_error u answer = Some e ->
  exists last_error',
    after_response u attempt last_error next (api_result answer)
    = if (attempt <? max_retries u - 1)%nat
      then AwaitSleep 1 (next last_error')
      else Raise e.
Proof.
  unfold attempt_error, after_response, on_decode_error, on_exception.
  destruct (api_result answer) as [choices|e0].
  - destruct (first_content choices) as [raw|e0].
    + destruct (json_loads raw) as [[pos msg]|data].
      * intros [= <-]. destruct (attempt <? max_retries u - 1)%nat; eauto.
      * destruct (model_validate (response_model u) data) as [v|e0];
          [discriminate|].
        intros [= <-]. eauto.
    + intros [= <-]. eauto.
  - intros [= <-]. eauto.
Qed.

Lemma after_response_success u attempt last_error next answer :
  attempt_error u answer = None ->
  exists dumped,
    after_response u attempt last_error next (api_result answer)
    = Ret (result_of u dumped).
Proof.
  unfold attempt_error, after_response.
  destruct (api_result answer) as [choices|e0]; [|discriminate].
  destruct (first_content choices) as [raw|e0]; [|discriminate].
  destruct (json_loads raw) as [[pos msg]|data]; [discriminate|].
  destruct (model_validate (response_model u) data) as [v|e0];
    [|discriminate].
  eauto.
Qed.

Lemma attempts_made_cons_call req tr :
  attempts_made (UCall req :: tr) = S (attempts_made tr).
Proof. reflexivity. Qed.

Lemma attempts_made_cons_sleep secs tr :
  attempts_made (USleep secs :: tr) = attempts_made tr.
Proof. reflexivity. Qed.

Lemma attempts_made_exhausted req n :
  attempts_made (exhausted_trace req n) = n.
Proof.
  induction n as [|[|n] IH]; [reflexivity..|].
  change (exhausted_trace req (S (S n)))
    with (UCall req :: USleep 1 :: exhausted_trace req (S n)).
  rewrite attempts_made_cons_call, attempts_made_cons_sleep, IH.
  reflexivity.
Qed.

Lemma attempts_from_S u remaining attempt last_error :
  attempts_from u (S remaining) attempt last_error
  = match build_prompt u with
    | Err e =>
        on_exception u attempt (attempts_from u remaining (S attempt)) e
    | Ok prompt =>
        generate (llm_request u prompt)
          (after_response u attempt last_error
             (attempts_from u remaining (S attempt)))
    end.
Proof. reflexivity. Qed.

(** When every remaining attempt fails, the loop makes exactly the
    remaining number of calls and raises the error of the last one. *)
Lemma attempts_from_exhausted u prompt api errs :
  build_prompt u = Ok prompt ->
  forall remaining attempt last_error calls0,
    (attempt + S remaining = max_retries u)%nat ->
    (forall k, (k <= remaining)%nat ->
       attempt_error u (api (calls0 + k)%nat (llm_request u prompt))
       = Some (errs (calls0 + k)%nat)) ->
    run_coro api calls0 (attempts_from u (S remaining) attempt last_error)
    = (Err (errs (calls0 + remaining)%nat),
       exhausted_trace (llm_request u prompt) (S remaining)).
Proof.
  intros Hprompt.
  induction remaining as [|remaining IH];
    intros attempt last_error calls0 Hsum Hfail;
    pose proof (Hfail 0%nat ltac:(lia)) as Hfirst;
    rewrite Nat.add_0_r in Hfirst.
  - rewrite attempts_from_S, Hprompt. unfold generate.
    cbn [run_coro].
    destruct (after_response_failure u attempt last_error
                (attempts_from u 0 (S attempt)) _ _ Hfirst) as [le' Heq].
    rewrite Heq.
    replace (attempt <? max_retries u - 1)%nat with false
      by (symmetry; apply Nat.ltb_ge; lia).
    rewrite Nat.add_0_r. reflexivity.
  - remember (S remaining) as rem' eqn:Hrem.
    rewrite attempts_from_S, Hprompt. unfold generate.
    cbn [run_coro].
    destruct (after_response_failure u attempt last_error
                (attempts_from u rem' (S attempt)) _ _ Hfirst)
      as [le' Heq].
    rewrite Heq.
    replace (attempt <? max_retries u - 1)%nat with true
      by (symmetry; apply Nat.ltb_lt; lia).
    cbn [run_coro]. subst rem'.
    rewrite (IH (S attempt) le' (S calls0)).
    + replace (S calls0 + remaining)%nat with (calls0 + S remaining)%nat
        by lia.
      reflexivity.
    + lia.
    + intros k Hk.
      replace (S calls0 + k)%nat with (calls0 + S k)%nat by lia.
      apply Hfail. lia.
Qed.

Lemma retry_loop_fails_after u prompt api calls0 n :
  max_retries u = S n ->
  build_prompt u = Ok prompt ->
  (forall k req, attempt_error u (api k req) <> None) ->
  fails_after api calls0 (retry_loop u) u prompt (S n).
Proof.
  intros Hmax Hprompt Hfail.
  set (errs := fun k =>
    match attempt_error u (api k (llm_request u prompt)) with
    | Some e => e
    | None => IndexError
    end).
  assert (Herrs : forall k,
    attempt_error u (api k (llm_request u prompt)) = Some (errs k)).
  { intros k. unfold errs.
    destruct (attempt_error u (api k (llm_request u prompt))) eqn:E;
      [reflexivity|]. exfalso. exact (Hfail _ _ E). }
  exists (errs (calls0 + n)%nat),
    (exhausted_trace (llm_request u prompt) (S n)).
  split; [|split].
  - unfold retry_loop. rewrite Hmax.
    apply (attempts_from_exhausted u prompt api errs Hprompt);
      [lia|intros; apply Herrs].
  - apply attempts_made_exhausted.
  - replace (S n - 1)%nat with n by lia. apply Herrs.
Qed.
End RetryLoopFacts.

(** C1. Retry exhaustion.  When every answer of the LLM provider is invalid
    JSON or fails in any other way (provider error, no content, schema
    violation), [extract_page] of phase 1 fails after exactly 2 calls,
    [extract_category] of phase 2 after exactly 3, and
    [extract_category_base] of phase 3 and [extract_category_addons] of
    phase 4 after exactly 2; the exception raised is the one captured on the
    last attempt (for invalid JSON, the [ValueError] that carries the last
    parse diagnostic), never the generic "All retry attempts failed". *)
Theorem retry_exhaustion `{Collaborators}
    (restaurant_name : string) (page_number : json) (page_image : string)
    (category category_base : pydict)
    (api : nat -> request -> api_outcome) (calls0 : nat)
    (p1 p2 p3 p4 : string) :
  (forall u k req, attempt_error u (api k req) <> None) ->
  phase1_prompt restaurant_name page_number = Ok p1 ->
  phase2_prompt restaurant_name page_number category = Ok p2 ->
  phase3_prompt restaurant_name page_number [("category", JObj category)]
    = Ok p3 ->
  phase4_prompt restaurant_name page_number [("category", JObj category)]
    [("category_base", JObj category_base)] = Ok p4 ->
  fails_after api calls0
    (Phase1Extractor.extract_page restaurant_name page_number page_image)
    (Phase1Extractor.unit_of restaurant_name page_number page_image) p1 2
  /\ fails_after api calls0
       (Phase2Extractor.extract_category restaurant_name page_number
          page_image category)
       (Phase2Extractor.unit_of restaurant_name page_number page_image
          category) p2 3
  /\ fails_after api calls0
       (Phase3Extractor.extract_category_base restaurant_name page_number
          page_image category)
       (Phase3Extractor.unit_of restaurant_name page_number page_image
          category) p3 2
  /\ fails_after api calls0
       (Phase4Extractor.extract_category_addons restaurant_name page_number
          page_image category category_base)
       (Phase4Extractor.unit_of restaurant_name page_number page_image
          category category_base) p4 2.
Proof.
  intros Hfail H1 H2 H3 H4.
  repeat split.
  - apply retry_loop_fails_after; [reflexivity|exact H1|intros; apply Hfail].
  - apply retry_loop_fails_after; [reflexivity|exact H2|intros; apply Hfail].
  - apply retry_loop_fails_after; [reflexivity|exact H3|intros; apply Hfail].
  - apply retry_loop_fails_after; [reflexivity|exact H4|intros; apply Hfail].
Qed.

(** ** The scheduler *)

Section SchedulerFacts.
Context {R : Type}.
Variable api : nat -> request -> api_outcome.

(** A property that steps preserve, and that gives [Q] whenever the gather
    ends, holds of every run. *)
Lemma run_schedule_rule (I : gstate R -> Prop)
    (Q : outcome (list R) -> gstate R -> Prop) :
  (forall g rs, I g -> results_of (tasks g) = Some rs -> Q (Returned rs) g) ->
  (forall g, I g -> Q Pending g) ->
  (forall i g e g', I g -> step api i g = (Some e, g') -> Q (Raised e) g') ->
  (forall i g g', I g -> step api i g = (None, g') -> I g') ->
  forall sched g out g' sched',
    I g -> run_schedule api sched g = (out, g', sched') -> Q out g'.
Proof.
  intros Hret Hpend Hraise Hstep.
  induction sched as [|i sched IH]; intros g out g' sched' HI Hrun;
    cbn [run_schedule] in Hrun.
  - destruct (results_of (tasks g)) as [rs|] eqn:Hres;
      inversion Hrun; subst; eauto.
  - destruct (results_of (tasks g)) as [rs|] eqn:Hres.
    + inversion Hrun; subst; eauto.
    + destruct (step api i g) as [[e|] g1] eqn:Hst.
      * inversion Hrun; subst; eauto.
      * eapply IH; [|exact Hrun]. eauto.
Qed.

(** What one step does, case by case. *)
Lemma step_cases i (g : gstate R) oe g' :
  step api i g = (oe, g') ->
  (oe = None /\ g' = g)
  \/ (exists c p, tasks g !! i = Some (Waiting c) /\ permits g = S p /\
        oe = None /\
        g' = mk_gstate (<[i := Running c]> (tasks g)) p (gcalls g)
               (glog g ++ [EvAcquire i]))
  \/ (exists r, tasks g !! i = Some (Running (Ret r)) /\ oe = None /\
        g' = mk_gstate (<[i := Finished r]> (tasks g)) (S (permits g))
               (gcalls g) (glog g ++ [EvDone i]))
  \/ (exists e, tasks g !! i = Some (Running (Raise e)) /\ oe = Some e /\
        g' = mk_gstate (<[i := Failed e]> (tasks g)) (S (permits g))
               (gcalls g) (glog g ++ [EvFail i e]))
  \/ (exists req k, tasks g !! i = Some (Running (AwaitGenerate req k)) /\
        oe = None /\
        g' = mk_gstate
               (<[i := Running (k (api (gcalls g) req))]> (tasks g))
               (permits g) (S (gcalls g))
               (glog g ++ [EvCall i req (api (gcalls g) req)]))
  \/ (exists secs k, tasks g !! i = Some (Running (AwaitSleep secs k)) /\
        oe = None /\
        g' = mk_gstate (<[i := Running k]> (tasks g)) (permits g) (gcalls g)
               (glog g ++ [EvSleep i secs])).
Proof.
  unfold step. intros Hst.
  destruct (tasks g !! i) as [[c|c|r|e]|] eqn:Hi.
  - destruct (permits g) as [|p] eqn:Hp; inversion Hst; subst.
    + left. auto.
    + right; left. eauto 10.
  - destruct c as [r|e|req k|secs k]; inversion Hst; subst.
    + do 2 right; left. eauto 10.
    + do 3 right; left. eauto 10.
    + do 4 right; left. eauto 10.
    + do 5 right. eauto 10.
  - inversion Hst; subst. left. auto.
  - inversion Hst; subst. left. auto.
  - inversion Hst; subst. left. auto.
Qed.

Lemma results_of_Some (ts : list (task R)) rs :
  results_of ts = Some rs -> ts = map Finished rs.
Proof.
  revert rs. induction ts as [|t ts IH]; intros rs Hres; cbn in Hres.
  - inversion Hres. reflexivity.
  - destruct t as [c|c|r|e]; try discriminate.
    destruct (results_of ts) as [rs'|]; [|discriminate].
    inversion Hres; subst. cbn. f_equal. apply IH. reflexivity.
Qed.

(** *** The log of a gather *)

Lemma gather_sizes_app evs evs' :
  gather_sizes (evs ++ evs') = gather_sizes evs ++ gather_sizes evs'.
Proof. apply omap_app. Qed.

Lemma answers_of_app i evs evs' :
  answers_of i (evs ++ evs') = answers_of i evs ++ answers_of i evs'.
Proof. apply omap_app. Qed.

(** A gather logs its invocation once, and a failure only as its last
    event, which is the exception it raises. *)
Lemma run_schedule_log n sched (g : gstate R) out g' sched' :
  gather_sizes (glog g) = [n] ->
  (forall i e, EvFail i e ∉ glog g) ->
  run_schedule api sched g = (out, g', sched') ->
  gather_sizes (glog g') = [n] /\
  (forall i e, EvFail i e ∈ glog g' -> out = Raised e).
Proof.
  intros Hsz Hnofail.
  apply (run_schedule_rule
    (fun g => gather_sizes (glog g) = [n] /\
              forall i e, EvFail i e ∉ glog g)
    (fun out g' => gather_sizes (glog g') = [n] /\
              forall i e, EvFail i e ∈ glog g' -> out = Raised e)).
  - intros g0 rs [H1 H2] _. split; [exact H1|]. intros i e Hin.
    exfalso. exact (H2 _ _ Hin).
  - intros g0 [H1 H2]. split; [exact H1|]. intros i e Hin.
    exfalso. exact (H2 _ _ Hin).
  - intros i g0 e g1 [H1 H2] Hst.
    destruct (step_cases _ _ _ _ Hst)
      as [[? ?]|[(?&?&?&?&?&?)|[(?&?&?&?)|[(e'&?&Hoe&?)|[(?&?&?&?&?)|
          (?&?&?&?&?)]]]]]; try discriminate.
    inversion Hoe; subst. cbn [glog]. split.
    + rewrite gather_sizes_app, H1. reflexivity.
    + intros j e0 Hin. apply elem_of_app in Hin as [Hin|Hin].
      * exfalso. exact (H2 _ _ Hin).
      * apply list_elem_of_singleton in Hin. inversion Hin. reflexivity.
  - intros i g0 g1 [H1 H2] Hst.
    destruct (step_cases _ _ _ _ Hst)
      as [[? ?]|[(?&?&?&?&?&?)|[(?&?&?&?)|[(e'&?&Hoe&?)|[(?&?&?&?&?)|
          (?&?&?&?&?)]]]]]; try discriminate; subst; cbn [glog];
      (split; [try exact H1; rewrite gather_sizes_app, H1; reflexivity|]);
      try exact H2;
      intros j e0 Hin; apply elem_of_app in Hin as [Hin|Hin];
      try (exact (H2 _ _ Hin));
      apply list_elem_of_singleton in Hin; discriminate.
  - split; assumption.
Qed.
End SchedulerFacts.

(** ** Results and units *)

Section ReplayFacts.
Context {R : Type}.
Variable api : nat -> request -> api_outcome.

Lemma replays_start max_concurrency (coros : list (coro R)) calls0 :
  replays coros (gather_start max_concurrency coros calls0).
Proof.
  split; cbn.
  - apply length_map.
  - intros i c t Hc Ht. rewrite list_lookup_fmap, Hc in Ht.
    inversion Ht; subst. cbn. auto.
Qed.

Lemma replays_update coros (g : gstate R) i t' ev p' calls' :
  replays coros g ->
  (forall j, j <> i -> answer_to j ev = None) ->
  (forall c, coros !! i = Some c ->
     task_replays c t' (answers_of i (glog g ++ [ev]))) ->
  replays coros
    (mk_gstate (<[i := t']> (tasks g)) p' calls' (glog g ++ [ev])).
Proof.
  intros [Hlen Hall] Hother Hnew. split; cbn [tasks glog].
  - rewrite length_insert. exact Hlen.
  - intros j c t Hc Ht. destruct (decide (j = i)) as [->|Hne].
    + rewrite list_lookup_insert_eq in Ht.
      * inversion Ht; subst. apply Hnew. exact Hc.
      * rewrite Hlen. apply lookup_lt_is_Some. eauto.
    + rewrite list_lookup_insert_ne in Ht by congruence.
      rewrite answers_of_app. cbn. rewrite (Hother j Hne). cbn.
      rewrite app_nil_r. eapply Hall; eauto.
Qed.

Lemma answers_of_snoc_other i evs ev :
  answer_to i ev = None -> answers_of i (evs ++ [ev]) = answers_of i evs.
Proof.
  intros Hev. rewrite answers_of_app. cbn. rewrite Hev. cbn.
  apply app_nil_r.
Qed.

Lemma answer_to_call_other i j req answer :
  j <> i -> answer_to j (EvCall i req answer) = None.
Proof.
  intros Hne. cbn. destruct (Nat.eqb_spec i j); [congruence|reflexivity].
Qed.

Lemma replays_step coros i (g g' : gstate R) oe :
  replays coros g -> step api i g = (oe, g') -> replays coros g'.
Proof.
  intros Hinv Hst. pose proof Hinv as [Hlen Hall].
  destruct (step_cases api _ _ _ _ Hst)
    as [[_ ->]|[(c&p&Hi&_&_&->)|[(r&Hi&_&->)|[(e&Hi&_&->)|
        [(req&k&Hi&_&->)|(secs&k&Hi&_&->)]]]]]; [exact Hinv|..];
    (apply replays_update;
      [exact Hinv
      |intros j Hne; try reflexivity; apply answer_to_call_other; exact Hne
      |intros c0 Hc0; pose proof (Hall _ _ _ Hc0 Hi) as Hold; cbn in Hold]).
  - destruct Hold as [-> Hnil].
    rewrite answers_of_snoc_other by reflexivity. rewrite Hnil.
    intros rest. reflexivity.
  - rewrite answers_of_snoc_other by reflexivity. cbn.
    specialize (Hold []). rewrite app_nil_r in Hold. exact Hold.
  - rewrite answers_of_snoc_other by reflexivity. cbn.
    specialize (Hold []). rewrite app_nil_r in Hold. exact Hold.
  - rewrite answers_of_app. cbn. rewrite Nat.eqb_refl. cbn.
    intros rest. rewrite <- app_assoc. rewrite Hold. reflexivity.
  - rewrite answers_of_snoc_other by reflexivity. cbn.
    intros rest. rewrite Hold. reflexivity.
Qed.

(** When the gather returns, the result at each position is the result of
    the coroutine at that position, replayed on the answers it received;
    when it raises, the exception is the one some unit ended with. *)
Lemma run_schedule_replays coros sched (g : gstate R) out g' sched' :
  replays coros g ->
  run_schedule api sched g = (out, g', sched') ->
  (forall rs, out = Returned rs ->
     length rs = length coros /\
     forall i c, coros !! i = Some c ->
       exists r, rs !! i = Some r /\
         replay c (answers_of i (glog g')) = Some (Ok r)) /\
  (forall e, out = Raised e ->
     exists i c, coros !! i = Some c /\
       replay c (answers_of i (glog g')) = Some (Err e)).
Proof.
  apply (run_schedule_rule api (replays coros)
    (fun out g' =>
      (forall rs, out = Returned rs ->
         length rs = length coros /\
         forall i c, coros !! i = Some c ->
           exists r, rs !! i = Some r /\
             replay c (answers_of i (glog g')) = Some (Ok r)) /\
      (forall e, out = Raised e ->
         exists i c, coros !! i = Some c /\
           replay c (answers_of i (glog g')) = Some (Err e)))).
  - intros g0 rs [Hlen Hall] Hres. split; [|discriminate].
    intros rs' [= <-]. apply results_of_Some in Hres.
    assert (Hlen' : length rs = length coros).
    { rewrite <- Hlen, Hres. symmetry. apply length_map. }
    split; [exact Hlen'|].
    intros i c Hc.
    destruct (lookup_lt_is_Some_2 rs i) as [r Hr].
    { rewrite Hlen'. apply lookup_lt_is_Some. eauto. }
    exists r. split; [exact Hr|].
    apply (Hall i c (Finished r) Hc).
    rewrite Hres, list_lookup_fmap, Hr. reflexivity.
  - intros g0 _. split; discriminate.
  - intros i g0 e g1 Hinv Hst. split; [discriminate|].
    intros e' [= <-].
    pose proof (replays_step _ _ _ _ _ Hinv Hst) as [Hlen1 Hall1].
    destruct Hinv as [Hlen Hall].
    destruct (step_cases api _ _ _ _ Hst)
      as [[? ?]|[(?&?&?&?&?&?)|[(?&?&?&?)|[(e'&Hi&Hoe&Hg)|[(?&?&?&?&?)|
          (?&?&?&?&?)]]]]]; try discriminate.
    inversion Hoe; subst e'.
    destruct (lookup_lt_is_Some_2 coros i) as [c Hc].
    { rewrite <- Hlen. apply lookup_lt_is_Some. eauto. }
    exists i, c. split; [exact Hc|].
    apply (Hall1 i c (Failed e) Hc). subst g1. cbn [tasks].
    apply list_lookup_insert_eq. apply lookup_lt_is_Some. eauto.
  - intros i g0 g1 Hinv Hst. eapply replays_step; eauto.
Qed.
End ReplayFacts.

(** ** The semaphore *)

Section SemaphoreFacts.
Context {R : Type}.
Variable api : nat -> request -> api_outcome.

Lemma active_cons (t : task R) ts :
  active (t :: ts) = (Nat.b2n (holds_permit t) + active ts)%nat.
Proof.
  unfold active. rewrite filter_cons.
  destruct (holds_permit t); case_decide; cbn; congruence.
Qed.

Lemma active_insert (ts : list (task R)) i t t' :
  ts !! i = Some t ->
  (active (<[i := t']> ts) + Nat.b2n (holds_permit t)
   = active ts + Nat.b2n (holds_permit t'))%nat.
Proof.
  revert i. induction ts as [|t0 ts IH]; intros i Hi; [discriminate|].
  destruct i as [|i]; cbn in Hi.
  - inversion Hi; subst.
    change (<[0%nat := t']> (t :: ts)) with (t' :: ts).
    rewrite !active_cons. lia.
  - change (<[S i := t']> (t0 :: ts)) with (t0 :: <[i := t']> ts).
    rewrite !active_cons. specialize (IH i Hi). lia.
Qed.

Lemma active_waiting (coros : list (coro R)) :
  active (map Waiting coros) = 0%nat.
Proof.
  induction coros as [|c coros IH]; [reflexivity|].
  cbn [map]. rewrite active_cons, IH. reflexivity.
Qed.

Lemma balanced_start max_concurrency (coros : list (coro R)) calls0 :
  balanced (Z.to_nat max_concurrency)
    (gather_start max_concurrency coros calls0).
Proof.
  unfold balanced, gather_start. cbn [tasks permits].
  rewrite active_waiting. reflexivity.
Qed.

Lemma balanced_step limit i (g g' : gstate R) oe :
  balanced limit g -> step api i g = (oe, g') -> balanced limit g'.
Proof.
  unfold balanced. intros Hbal Hst.
  destruct (step_cases api _ _ _ _ Hst)
    as [[_ ->]|[(c&p&Hi&Hp&_&->)|[(r&Hi&_&->)|[(e&Hi&_&->)|
        [(req&k&Hi&_&->)|(secs&k&Hi&_&->)]]]]]; [exact Hbal|..];
    cbn [tasks permits];
    match goal with
    | |- context [<[i := ?t']> (tasks g)] =>
        pose proof (active_insert (tasks g) i _ t' Hi) as Hact
    end; cbn in Hact; lia.
Qed.

(** At every point of a gather, at most [limit] tasks are inside
    [async with sem]. *)
Lemma run_schedule_balanced limit sched (g : gstate R) out g' sched' :
  balanced limit g ->
  run_schedule api sched g = (out, g', sched') ->
  (active (tasks g') <= limit)%nat.
Proof.
  apply (run_schedule_rule api (balanced limit)
    (fun _ g' => (active (tasks g') <= limit)%nat)).
  - unfold balanced. intros; lia.
  - unfold balanced. intros; lia.
  - intros i g0 e g1 Hbal Hst.
    pose proof (balanced_step _ _ _ _ _ Hbal Hst) as Hb. unfold balanced in Hb.
    lia.
  - intros i g0 g1 Hbal Hst. eapply balanced_step; eauto.
Qed.
End SemaphoreFacts.

(** ** [_bounded_gather] as a whole *)

Section GatherFacts.
Context {R : Type}.

Lemma bounded_gather_negative max_concurrency (coros : list (coro R)) w :
  max_concurrency < 0 ->
  _bounded_gather max_concurrency coros w = (Raised semaphore_error, w, []).
Proof.
  intros Hneg. unfold _bounded_gather.
  destruct (Z.ltb_spec max_concurrency 0); [reflexivity|lia].
Qed.

Lemma bounded_gather_run max_concurrency (coros : list (coro R)) w out w'
    evs :
  _bounded_gather max_concurrency coros w = (out, w', evs) ->
  (max_concurrency < 0 /\ out = Raised semaphore_error /\ evs = [])
  \/ (0 <= max_concurrency /\
      exists g sched',
        run_schedule (provider w) (schedule w)
          (gather_start max_concurrency coros (calls w)) = (out, g, sched')
        /\ evs = glog g).
Proof.
  unfold _bounded_gather.
  destruct (Z.ltb_spec max_concurrency 0) as [Hneg|Hpos].
  - intros [= <- <- <-]. left. auto.
  - destruct (run_schedule _ _ _) as [[out0 g] sched'] eqn:Hrun.
    intros [= <- <- <-]. right. split; [exact Hpos|]. eauto.
Qed.


(** A gather that returns was one invocation, over all its coroutines. *)
Lemma bounded_gather_sizes max_concurrency (coros : list (coro R)) w rs w'
    evs :
  _bounded_gather max_concurrency coros w = (Returned rs, w', evs) ->
  gather_sizes evs = [length coros].
Proof.
  intros Hrun.
  destruct (bounded_gather_run _ _ _ _ _ _ Hrun)
    as [(_&?&_)|(_&g&sched'&Hsched&->)]; [discriminate|].
  eapply (run_schedule_log _ (length coros)); [| |exact Hsched].
  - reflexivity.
  - intros j e0 Hj. cbn in Hj. apply list_elem_of_singleton in Hj.
    discriminate.
Qed.

Lemma bounded_gather_results max_concurrency (coros : list (coro R)) w rs
    w' evs :
  _bounded_gather max_concurrency coros w = (Returned rs, w', evs) ->
  length rs = length coros /\
  forall i c, coros !! i = Some c ->
    exists r, rs !! i = Some r /\
      replay c (answers_of i evs) = Some (Ok r).
Proof.
  intros Hrun.
  destruct (bounded_gather_run _ _ _ _ _ _ Hrun)
    as [(_&?&_)|(_&g&sched'&Hsched&->)]; [discriminate|].
  eapply run_schedule_replays in Hsched as [Hret _];
    [|apply replays_start].
  apply Hret. reflexivity.
Qed.

(** The exception a gather raises is the semaphore's refusal or the
    exception one of its units ended with. *)
Lemma bounded_gather_raised max_concurrency (coros : list (coro R)) w e w'
    evs :
  _bounded_gather max_concurrency coros w = (Raised e, w', evs) ->
  (max_concurrency < 0 /\ e = semaphore_error)
  \/ exists i c, coros !! i = Some c /\
       replay c (answers_of i evs) = Some (Err e).
Proof.
  intros Hrun.
  destruct (bounded_gather_run _ _ _ _ _ _ Hrun)
    as [(Hneg&Hout&_)|(_&g&sched'&Hsched&->)].
  - left. inversion Hout. auto.
  - right. eapply run_schedule_replays in Hsched as [_ Hraise];
      [|apply replays_start].
    apply Hraise. reflexivity.
Qed.
End GatherFacts.

Lemma bounded_gather_every_unit max_concurrency (coros : list (coro json))
    w rs w' evs :
  _bounded_gather max_concurrency coros w = (Returned rs, w', evs) ->
  every_unit_returned coros rs.
Proof.
  intros Hrun.
  destruct (bounded_gather_results _ _ _ _ _ _ Hrun) as [Hlen Hres].
  split; [exact Hlen|].
  intros i c Hc. destruct (Hres i c Hc) as (r & Hr & Hrep). eauto.
Qed.

(** C2. Order preservation.  Whatever the schedule, and so whatever the
    order in which the units complete, the list [_bounded_gather] returns
    has one result per submitted coroutine, and the result at position [i]
    is the result of the coroutine at position [i], run on the answers the
    provider gave to that coroutine. *)
Theorem bounded_gather_preserves_order {R : Type} (max_concurrency : Z)
    (coros : list (coro R)) (w : world) (rs : list R) (w' : world)
    (evs : list event) :
  _bounded_gather max_concurrency coros w = (Returned rs, w', evs) ->
  length rs = length coros /\
  forall i c, coros !! i = Some c ->
    exists r, rs !! i = Some r /\
      replay c (answers_of i evs) = Some (Ok r).
Proof. apply bounded_gather_results. Qed.

(** ** Stage drivers *)

Section LoopFacts.
Context {P : Type}.
Variable max_concurrency : Z.
Variable inputs : P -> res (json * list (coro json)).

Lemma page_loop_nil acc w :
  page_loop max_concurrency inputs [] acc w = (Returned acc, w, []).
Proof. reflexivity. Qed.

Lemma page_loop_cons p pages acc w :
  page_loop max_concurrency inputs (p :: pages) acc w
  = match inputs p with
    | Err e => (Raised e, w, [])
    | Ok (page_number, coros) =>
        match _bounded_gather max_concurrency coros w with
        | (Returned results, w1, evs1) =>
            let '(out, w2, evs2) :=
              page_loop max_concurrency inputs pages
                (acc ++ [page_entry page_number "categories" results]) w1 in
            (out, w2, evs1 ++ evs2)
        | (Raised e, w1, evs1) => (Raised e, w1, evs1)
        | (Pending, w1, evs1) => (Pending, w1, evs1)
        end
    end.
Proof.
  cbn [page_loop]. unfold mbind, M_bind, lift.
  destruct (inputs p) as [[page_number coros]|e]; [|reflexivity].
  destruct (_bounded_gather max_concurrency coros w) as [[[rs|e|] w1] evs1];
    try reflexivity.
  destruct (page_loop _ _ _ _ w1) as [[out w2] evs2]. reflexivity.
Qed.


Lemma entry_size_page_entry page_number results :
  entry_size (page_entry page_number "categories" results) = length results.
Proof. reflexivity. Qed.

(** When the loop returns, every page was processed, in order, by one
    gather each. *)
Lemma page_loop_returned pages acc w all w' evs :
  page_loop max_concurrency inputs pages acc w = (Returned all, w', evs) ->
  exists new,
    all = acc ++ new /\
    Forall2 (page_done inputs) pages new /\
    gather_sizes evs = map entry_size new.
Proof.
  revert acc w all w' evs.
  induction pages as [|p pages IH]; intros acc w all w' evs Hrun.
  - rewrite page_loop_nil in Hrun. inversion Hrun; subst.
    exists []. rewrite app_nil_r. repeat split. constructor.
  - rewrite page_loop_cons in Hrun.
    destruct (inputs p) as [[page_number coros]|e0] eqn:Hin;
      [|discriminate].
    destruct (_bounded_gather max_concurrency coros w)
      as [[[rs|e1|] w1] evs1] eqn:Hg; try discriminate.
    destruct (page_loop _ _ _ _ w1) as [[out2 w2] evs2] eqn:Hrest.
    inversion Hrun; subst.
    destruct (IH _ _ _ _ _ Hrest) as (new & Hall & Hforall & Hsizes).
    exists (page_entry page_number "categories" rs :: new).
    split; [|split].
    + rewrite Hall, <- app_assoc. reflexivity.
    + constructor; [|exact Hforall].
      exists page_number, coros, rs.
      split; [exact Hin|]. split; [reflexivity|].
      eapply bounded_gather_every_unit; eauto.
    + rewrite gather_sizes_app, Hsizes.
      rewrite (bounded_gather_sizes _ _ _ _ _ _ Hg).
      cbn [map]. rewrite entry_size_page_entry.
      destruct (bounded_gather_results _ _ _ _ _ _ Hg) as [-> _].
      reflexivity.
Qed.
End LoopFacts.

Section StageFacts.
Context {P : Type}.
Variable max_concurrency : Z.
Variable restaurant_name : string.
Variable images : res (list string).
Variable pages : res (list P).
Variable inputs : list string -> P -> res (json * list (coro json)).

Lemma stage_run_cases w :
  stage_run max_concurrency restaurant_name images pages inputs w
  = match images with
    | Err e => (Raised e, w, [])
    | Ok imgs =>
        match pages with
        | Err e => (Raised e, w, [])
        | Ok ps =>
            match page_loop max_concurrency (inputs imgs) ps [] w with
            | (Returned all_pages, w', evs) =>
                (Returned (stage_document restaurant_name all_pages), w',
                 evs)
            | (Raised e, w', evs) => (Raised e, w', evs)
            | (Pending, w', evs) => (Pending, w', evs)
            end
        end
    end.
Proof.
  unfold stage_run, mbind, M_bind, lift, mret, M_ret.
  destruct images as [imgs|e]; [|reflexivity].
  destruct pages as [ps|e]; [|reflexivity].
  destruct (page_loop _ _ _ _ w) as [[[all_pages|e|] w'] evs];
    try reflexivity.
  rewrite app_nil_r. reflexivity.
Qed.


Lemma stage_run_returned w doc w' evs :
  stage_run max_concurrency restaurant_name images pages inputs w
  = (Returned doc, w', evs) ->
  exists imgs ps new,
    images = Ok imgs /\ pages = Ok ps /\
    doc = stage_document restaurant_name new /\
    Forall2 (page_done (inputs imgs)) ps new /\
    gather_sizes evs = map entry_size new.
Proof.
  rewrite stage_run_cases. intros Hrun.
  destruct images as [imgs|e0]; [|discriminate].
  destruct pages as [ps|e0]; [|discriminate].
  destruct (page_loop _ _ _ _ w) as [[[all_pages|e0|] w1] evs1] eqn:Hloop;
    inversion Hrun; subst.
  destruct (page_loop_returned _ _ _ _ _ _ _ _ Hloop)
    as (new & Hall & Hforall & Hsizes).
  exists imgs, ps, new. cbn in Hall. subst all_pages. auto.
Qed.
End StageFacts.

(** The drivers of phases 2, 3 and 4 are instances of [stage_run]. *)
Section DriverShapes.
Context `{Collaborators}.
Variable max_concurrency : Z.
Variable restaurant_name : string.

Lemma phase2_pages_loop_shape images pages acc w :
  Phase2Extractor.pages_loop max_concurrency restaurant_name images pages
    acc w
  = page_loop max_concurrency (phase2_units restaurant_name images) pages
      acc w.
Proof.
  revert acc w. induction pages as [|page pages IH]; intros acc w;
    [reflexivity|].
  rewrite page_loop_cons. cbn [Phase2Extractor.pages_loop].
  unfold phase2_units, Phase2Extractor.extract_page, mbind, M_bind, lift,
    mret, M_ret.
  destruct (Phase2Extractor.page_inputs images page)
    as [[[page_number img_b64] cats]|e]; cbn; [|reflexivity].
  destruct (_bounded_gather _ _ w) as [[[rs|e|] w1] evs1]; try reflexivity.
  rewrite IH.
  destruct (page_loop _ _ _ _ w1) as [[out w2] evs2].
  rewrite app_nil_r. reflexivity.
Qed.

Lemma phase3_pages_loop_shape images pages acc w :
  Phase3Extractor.pages_loop max_concurrency restaurant_name images pages
    acc w
  = page_loop max_concurrency (phase3_units restaurant_name images) pages
      acc w.
Proof.
  revert acc w. induction pages as [|page pages IH]; intros acc w;
    [reflexivity|].
  rewrite page_loop_cons. cbn [Phase3Extractor.pages_loop].
  unfold phase3_units, Phase3Extractor.extract_page, mbind, M_bind, lift,
    mret, M_ret.
  destruct (Phase3Extractor.page_inputs images page)
    as [[[page_number img_b64] cats]|e]; cbn; [|reflexivity].
  destruct (_bounded_gather _ _ w) as [[[rs|e|] w1] evs1]; try reflexivity.
  rewrite IH.
  destruct (page_loop _ _ _ _ w1) as [[out w2] evs2].
  rewrite app_nil_r. reflexivity.
Qed.

Lemma phase4_pages_loop_shape images pages acc w :
  Phase4Extractor.pages_loop max_concurrency restaurant_name images pages
    acc w
  = page_loop max_concurrency (phase4_units restaurant_name images) pages
      acc w.
Proof.
  revert acc w. induction pages as [|[page_items page_bases] pages IH];
    intros acc w; [reflexivity|].
  rewrite page_loop_cons. cbn [Phase4Extractor.pages_loop].
  unfold phase4_units, Phase4Extractor.extract_page, mbind, M_bind, lift,
    mret, M_ret. cbn [fst snd].
  destruct (Phase4Extractor.page_inputs images page_items page_bases)
    as [[[[page_number img_b64] cats] bases]|e]; cbn; [|reflexivity].
  destruct (_bounded_gather _ _ w) as [[[rs|e|] w1] evs1]; try reflexivity.
  rewrite IH.
  destruct (page_loop _ _ _ _ w1) as [[out w2] evs2].
  rewrite app_nil_r. reflexivity.
Qed.

Lemma phase2_stage_shape categories_payload pdf_path w :
  Phase2Extractor.extract_all_pages max_concurrency restaurant_name
    categories_payload pdf_path w
  = stage_run max_concurrency restaurant_name (convert_to_images pdf_path)
      (py_getitem categories_payload "pages" ≫= py_iter)
      (phase2_units restaurant_name) w.
Proof.
  unfold Phase2Extractor.extract_all_pages, stage_run.
  set (pages := py_getitem categories_payload "pages" ≫= py_iter).
  unfold mbind, M_bind, lift, mret, M_ret.
  destruct (convert_to_images pdf_path) as [imgs|e]; [|reflexivity].
  destruct pages as [ps|e]; [|reflexivity].
  rewrite phase2_pages_loop_shape. reflexivity.
Qed.

Lemma phase3_stage_shape items_payload pdf_path w :
  Phase3Extractor.extract_all_pages max_concurrency restaurant_name
    items_payload pdf_path w
  = stage_run max_concurrency restaurant_name (convert_to_images pdf_path)
      (py_getitem items_payload "pages" ≫= py_iter)
      (phase3_units restaurant_name) w.
Proof.
  unfold Phase3Extractor.extract_all_pages, stage_run.
  set (pages := py_getitem items_payload "pages" ≫= py_iter).
  unfold mbind, M_bind, lift, mret, M_ret.
  destruct (convert_to_images pdf_path) as [imgs|e]; [|reflexivity].
  destruct pages as [ps|e]; [|reflexivity].
  rewrite phase3_pages_loop_shape. reflexivity.
Qed.

Lemma phase4_stage_shape items_payload bases_payload pdf_path w :
  Phase4Extractor.extract_all_pages max_concurrency restaurant_name
    items_payload bases_payload pdf_path w
  = stage_run max_concurrency restaurant_name (convert_to_images pdf_path)
      (Phase4Extractor.zipped_pages items_payload bases_payload)
      (phase4_units restaurant_name) w.
Proof.
  unfold Phase4Extractor.extract_all_pages, stage_run.
  set (pages := Phase4Extractor.zipped_pages items_payload bases_payload).
  unfold mbind, M_bind, lift, mret, M_ret.
  destruct (convert_to_images pdf_path) as [imgs|e]; [|reflexivity].
  destruct pages as [ps|e]; [|reflexivity].
  rewrite phase4_pages_loop_shape. reflexivity.
Qed.

(** Phase 1 gathers once, over the pages. *)
Lemma phase1_stage_cases pdf_path w :
  Phase1Extractor.extract_all_pages max_concurrency restaurant_name
    pdf_path w
  = match convert_to_images pdf_path with
    | Err e => (Raised e, w, [])
    | Ok images =>
        match _bounded_gather max_concurrency
                (Phase1Extractor.page_coros restaurant_name images) w with
        | (Returned pages, w', evs) =>
            (Returned (stage_document restaurant_name pages), w', evs)
        | (Raised e, w', evs) => (Raised e, w', evs)
        | (Pending, w', evs) => (Pending, w', evs)
        end
    end.
Proof.
  unfold Phase1Extractor.extract_all_pages, mbind, M_bind, lift, mret,
    M_ret.
  destruct (convert_to_images pdf_path) as [images|e]; [|reflexivity].
  destruct (_bounded_gather _ _ w) as [[[pages|e|] w'] evs];
    try reflexivity.
  rewrite app_nil_r. reflexivity.
Qed.
End DriverShapes.

Section FanOutFacts.
Context `{Collaborators}.

Lemma bounded_gather_sizes_any {R} max_concurrency (coros : list (coro R))
    w :
  0 <= max_concurrency ->
  gather_sizes (snd (_bounded_gather max_concurrency coros w))
  = [length coros].
Proof.
  intros Hpos.
  destruct (_bounded_gather max_concurrency coros w) as [[out w'] evs]
    eqn:Hrun.
  destruct (bounded_gather_run _ _ _ _ _ _ Hrun)
    as [(Hneg&_)|(_&g&sched'&Hsched&->)]; [lia|].
  cbn [snd].
  eapply (run_schedule_log _ (length coros)); [| |exact Hsched].
  - reflexivity.
  - intros j e0 Hj. cbn in Hj. apply list_elem_of_singleton in Hj.
    discriminate.
Qed.

Lemma length_enumerate {A} start (xs : list A) :
  length (enumerate start xs) = length xs.
Proof.
  revert start. induction xs as [|x xs IH]; intros start; cbn;
    [reflexivity|]. rewrite IH. reflexivity.
Qed.

Lemma enumerate_lookup {A} start (xs : list A) i x :
  xs !! i = Some x ->
  enumerate start xs !! i = Some (start + Z.of_nat i, x).
Proof.
  revert start i. induction xs as [|x0 xs IH]; intros start i Hi;
    [discriminate|].
  destruct i as [|i]; cbn in Hi.
  - inversion Hi; subst. cbn. do 2 f_equal. lia.
  - change (enumerate start (x0 :: xs) !! S i)
      with (enumerate (start + 1) xs !! i).
    rewrite (IH (start + 1) i Hi). do 2 f_equal. lia.
Qed.

Lemma length_page_coros restaurant_name images :
  length (Phase1Extractor.page_coros restaurant_name images)
  = length images.
Proof.
  unfold Phase1Extractor.page_coros.
  rewrite length_map. apply length_enumerate.
Qed.

Lemma phase1_gather_sizes max_concurrency restaurant_name pdf_path images w :
  convert_to_images pdf_path = Ok images ->
  0 <= max_concurrency ->
  gather_sizes
    (snd (Phase1Extractor.extract_all_pages max_concurrency restaurant_name
            pdf_path w))
  = [length images].
Proof.
  intros Himg Hpos. rewrite phase1_stage_cases, Himg.
  pose proof (bounded_gather_sizes_any max_concurrency
                (Phase1Extractor.page_coros restaurant_name images) w Hpos)
    as Hsz.
  rewrite length_page_coros in Hsz.
  destruct (_bounded_gather _ _ w) as [[[pages|e|] w'] evs]; exact Hsz.
Qed.

Lemma pages_of_stage_document restaurant_name pages :
  pages_of (stage_document restaurant_name pages) = Some pages.
Proof. reflexivity. Qed.

Lemma stage_run_gathers {P} max_concurrency restaurant_name images
    (pages : res (list P)) inputs w doc w' evs :
  stage_run max_concurrency restaurant_name images pages inputs w
  = (Returned doc, w', evs) ->
  exists entries,
    pages_of doc = Some entries /\ gather_sizes evs = map entry_size entries.
Proof.
  intros Hrun.
  destruct (stage_run_returned _ _ _ _ _ _ _ _ _ Hrun)
    as (imgs & ps & new & _ & _ & -> & _ & Hsz).
  exists new. split; [reflexivity|exact Hsz].
Qed.
End FanOutFacts.

(** C3, amended.  Phase 1 launches all its units (the pages) under a single
    [_bounded_gather] invocation.  Phases 2 to 4 process the pages one after
    another, with one [_bounded_gather] invocation per page over the
    categories of that page.  Within every invocation at most
    [max_concurrency] units are inside the semaphore at a time, and
    [max_concurrency] is the process-wide setting [MAX_CONCURRENCY], which
    defaults to 4. *)
Theorem fan_out_per_page `{Collaborators} (max_concurrency : Z)
    (restaurant_name pdf_path : string) :
  (forall images w,
     convert_to_images pdf_path = Ok images ->
     0 <= max_concurrency ->
     gather_sizes
       (snd (Phase1Extractor.extract_all_pages max_concurrency
               restaurant_name pdf_path w))
     = [length images])
  /\ (forall payload w doc w' evs,
        Phase2Extractor.extract_all_pages max_concurrency restaurant_name
          payload pdf_path w = (Returned doc, w', evs) ->
        exists entries,
          pages_of doc = Some entries /\
          gather_sizes evs = map entry_size entries)
  /\ (forall payload w doc w' evs,
        Phase3Extractor.extract_all_pages max_concurrency restaurant_name
          payload pdf_path w = (Returned doc, w', evs) ->
        exists entries,
          pages_of doc = Some entries /\
          gather_sizes evs = map entry_size entries)
  /\ (forall items_payload bases_payload w doc w' evs,
        Phase4Extractor.extract_all_pages max_concurrency restaurant_name
          items_payload bases_payload pdf_path w = (Returned doc, w', evs) ->
        exists entries,
          pages_of doc = Some entries /\
          gather_sizes evs = map entry_size entries)
  /\ (forall (api : nat -> request -> api_outcome) sched
             (coros : list (coro json)) calls0,
        (active
           (tasks (snd (fst (run_schedule api sched
                               (gather_start max_concurrency coros
                                  calls0)))))
         <= Z.to_nat max_concurrency)%nat)
  /\ (init_max_concurrency None (get_settings None) = 4 /\
      forall env items_payload bases_payload w,
        run_phase1 env restaurant_name pdf_path w
        = Phase1Extractor.extract_all_pages (default_limit env)
            restaurant_name pdf_path w /\
        run_phase2 env restaurant_name items_payload pdf_path w
        = Phase2Extractor.extract_all_pages (default_limit env)
            restaurant_name items_payload pdf_path w /\
        run_phase3 env restaurant_name items_payload pdf_path w
        = Phase3Extractor.extract_all_pages (default_limit env)
            restaurant_name items_payload pdf_path w /\
        run_phase4 env restaurant_name items_payload bases_payload pdf_path
          w
        = Phase4Extractor.extract_all_pages (default_limit env)
            restaurant_name items_payload bases_payload pdf_path w).
Proof.
  split; [|split; [|split; [|split; [|split]]]].
  - intros images w. apply phase1_gather_sizes.
  - intros payload w doc w' evs. rewrite phase2_stage_shape.
    apply stage_run_gathers.
  - intros payload w doc w' evs. rewrite phase3_stage_shape.
    apply stage_run_gathers.
  - intros items_payload bases_payload w doc w' evs.
    rewrite phase4_stage_shape. apply stage_run_gathers.
  - intros api sched coros calls0.
    destruct (run_schedule api sched _) as [[out g] sched'] eqn:Hrun.
    cbn [fst snd].
    eapply run_schedule_balanced; [|exact Hrun]. apply balanced_start.
  - split; [reflexivity|]. intros env items_payload bases_payload w.
    repeat split.
Qed.


(** ** Page numbers *)

Section AlignmentFacts.
Context `{Collaborators}.

(** A unit that returns, returns [result_of] of a validated dump. *)
Lemma replay_attempts_from_ok u remaining :
  forall attempt last_error answers r,
    replay (attempts_from u remaining attempt last_error) answers
    = Some (Ok r) ->
    exists dumped, r = result_of u dumped.
Proof.
  induction remaining as [|remaining IH];
    intros attempt last_error answers r Hrep.
  - cbn in Hrep. destruct answers; discriminate.
  - rewrite attempts_from_S in Hrep.
    destruct (build_prompt u) as [prompt|e].
    + unfold generate in Hrep. cbn [replay] in Hrep.
      destruct answers as [|answer answers]; [discriminate|].
      destruct (attempt_error u answer) as [e|] eqn:Herr.
      * destruct (after_response_failure u attempt last_error
                    (attempts_from u remaining (S attempt)) _ _ Herr)
          as [le' Heq].
        rewrite Heq in Hrep.
        destruct (attempt <? max_retries u - 1)%nat; cbn in Hrep.
        -- eapply IH; eauto.
        -- destruct answers; discriminate.
      * destruct (after_response_success u attempt last_error
                    (attempts_from u remaining (S attempt)) _ Herr)
          as [dumped Heq].
        rewrite Heq in Hrep. cbn in Hrep.
        destruct answers; [|discriminate].
        inversion Hrep. eauto.
    + unfold on_exception in Hrep.
      destruct (attempt <? max_retries u - 1)%nat; cbn in Hrep.
      * eapply IH; eauto.
      * destruct answers; discriminate.
Qed.

Lemma pages_of_iter doc pages :
  pages_of doc = Some pages ->
  py_getitem doc "pages" ≫= py_iter = Ok pages.
Proof.
  unfold pages_of, py_getitem. destruct doc as [| | | | | |d]; try discriminate.
  destruct (dict_lookup "pages" d) as [[| | | | |l|]|]; try discriminate.
  intros [= <-]. reflexivity.
Qed.

Lemma phase1_aligned max_concurrency restaurant_name pdf_path images w doc
    w' evs :
  convert_to_images pdf_path = Ok images ->
  Phase1Extractor.extract_all_pages max_concurrency restaurant_name pdf_path
    w = (Returned doc, w', evs) ->
  aligned (length images) doc.
Proof.
  intros Himg. rewrite phase1_stage_cases, Himg.
  destruct (_bounded_gather _ _ w) as [[[pages|e|] w1] evs1] eqn:Hg;
    intros [= <- <- <-].
  destruct (bounded_gather_results _ _ _ _ _ _ Hg) as [Hlen Hres].
  rewrite length_page_coros in Hlen.
  exists pages. split; [reflexivity|]. split; [exact Hlen|].
  intros i page Hpage.
  destruct (lookup_lt_is_Some_2 images i) as [img Himg_i].
  { rewrite <- Hlen. apply lookup_lt_is_Some. eauto. }
  destruct (Hres i (Phase1Extractor.extract_page restaurant_name
                      (JInt (1 + Z.of_nat i)) img))
    as (r & Hr & Hrep).
  { unfold Phase1Extractor.page_coros.
    rewrite list_lookup_fmap, (enumerate_lookup 1 images i img Himg_i).
    reflexivity. }
  rewrite Hpage in Hr. inversion Hr; subst r.
  apply replay_attempts_from_ok in Hrep as [dumped ->].
  cbn. do 2 f_equal. lia.
Qed.

(** A stage built on [page_loop] keeps the page numbers of the pages it
    iterates, when the inputs of a page carry its page number. *)
Lemma stage_run_aligned {P} (page_number_of : P -> res json)
    max_concurrency restaurant_name images (ps : list P) inputs w doc w'
    evs :
  (forall imgs p page_number coros,
     inputs imgs p = Ok (page_number, coros) ->
     page_number_of p = Ok page_number) ->
  (forall i p, ps !! i = Some p ->
     page_number_of p = Ok (JInt (Z.of_nat i + 1))) ->
  stage_run max_concurrency restaurant_name images (Ok ps) inputs w
  = (Returned doc, w', evs) ->
  aligned (length ps) doc.
Proof.
  intros Hinputs Hnum Hrun.
  destruct (stage_run_returned _ _ _ _ _ _ _ _ _ Hrun)
    as (imgs & ps' & new & _ & [= <-] & -> & Hforall & _).
  exists new. split; [reflexivity|].
  split; [symmetry; eapply Forall2_length; eauto|].
  intros i q Hq.
  destruct (Forall2_lookup_r _ _ _ _ _ Hforall Hq)
    as (p & Hp & page_number & coros & results & Hin & -> & _).
  apply Hinputs in Hin. rewrite (Hnum i p Hp) in Hin.
  inversion Hin; subst. reflexivity.
Qed.

Lemma phase2_units_page_number restaurant_name imgs p page_number coros :
  phase2_units restaurant_name imgs p = Ok (page_number, coros) ->
  py_getitem p "page_number" = Ok page_number.
Proof.
  unfold phase2_units, Phase2Extractor.page_inputs.
  destruct (py_getitem p "page_number") as [pn|e]; cbn; [|discriminate].
  destruct (image_for imgs pn) as [img|e]; cbn; [|discriminate].
  destruct (py_getitem p "data") as [data|e]; cbn; [|discriminate].
  destruct (model_validate Categories data) as [obj|e]; cbn;
    [|discriminate].
  intros [= <- _]. reflexivity.
Qed.

Lemma phase3_units_page_number restaurant_name imgs p page_number coros :
  phase3_units restaurant_name imgs p = Ok (page_number, coros) ->
  py_getitem p "page_number" = Ok page_number.
Proof.
  unfold phase3_units, Phase3Extractor.page_inputs.
  destruct (py_getitem p "page_number") as [pn|e]; cbn; [|discriminate].
  destruct (image_for imgs pn) as [img|e]; cbn; [|discriminate].
  destruct (py_getitem p "categories" ≫= py_iter) as [cats|e]; cbn;
    [|discriminate].
  destruct (res_map _ cats) as [dumps|e]; cbn; [|discriminate].
  intros [= <- _]. reflexivity.
Qed.

Lemma phase4_units_page_number restaurant_name imgs pair page_number coros :
  phase4_units restaurant_name imgs pair = Ok (page_number, coros) ->
  py_getitem (fst pair) "page_number" = Ok page_number.
Proof.
  unfold phase4_units, Phase4Extractor.page_inputs.
  destruct (py_getitem (fst pair) "page_number") as [pn|e]; cbn;
    [|discriminate].
  destruct (image_for imgs pn) as [img|e]; cbn; [|discriminate].
  destruct (py_getitem (fst pair) "categories" ≫= py_iter) as [cats|e];
    cbn; [|discriminate].
  destruct (res_map _ cats) as [dumps|e]; cbn; [|discriminate].
  destruct (py_getitem (snd pair) "categories" ≫= py_iter) as [bases|e];
    cbn; [|discriminate].
  destruct (res_map _ bases) as [bdumps|e]; cbn; [|discriminate].
  intros [= <- _]. reflexivity.
Qed.

Lemma zipped_pages_of items_payload bases_payload items_pages bases_pages :
  pages_of items_payload = Some items_pages ->
  pages_of bases_payload = Some bases_pages ->
  Phase4Extractor.zipped_pages items_payload bases_payload
  = Ok (zip items_pages bases_pages).
Proof.
  unfold pages_of, Phase4Extractor.zipped_pages, py_getitem.
  destruct items_payload as [| | | | | |d1]; try discriminate.
  destruct (dict_lookup "pages" d1) as [[| | | | |l1|]|]; try discriminate.
  destruct bases_payload as [| | | | | |d2]; try discriminate.
  destruct (dict_lookup "pages" d2) as [[| | | | |l2|]|]; try discriminate.
  intros [= <-] [= <-]. reflexivity.
Qed.
End AlignmentFacts.

(** ** Positional pairing in phase 4 *)

Section PairingFacts.
Context `{Collaborators}.

Lemma res_map_Forall2 {A B} (f : A -> res B) xs ys :
  res_map f xs = Ok ys -> Forall2 (fun x y => f x = Ok y) xs ys.
Proof.
  revert ys. induction xs as [|x xs IH]; intros ys Hmap; cbn in Hmap.
  - inversion Hmap. constructor.
  - destruct (f x) as [y|e] eqn:Hfx; [|discriminate].
    destruct (res_map f xs) as [ys'|e]; [|discriminate].
    inversion Hmap; subst. constructor; auto.
Qed.

Lemma page_coros_lookup restaurant_name page_number page_image
    (cats bases : list pydict) j c :
  Phase4Extractor.page_coros restaurant_name page_number page_image cats
    bases !! j = Some c
  <-> exists cat base,
        cats !! j = Some cat /\ bases !! j = Some base /\
        c = Phase4Extractor.extract_category_addons restaurant_name
              page_number page_image cat base.
Proof.
  unfold Phase4Extractor.page_coros. rewrite list_lookup_fmap. split.
  - destruct (zip cats bases !! j) as [[cat base]|] eqn:Hz; [|discriminate].
    intros [= <-].
    apply lookup_zip_with_Some in Hz as (x & y & [= <- <-] & Hx & Hy).
    eauto.
  - intros (cat & base & Hc & Hb & ->).
    assert (Hz : zip cats bases !! j = Some (cat, base)).
    { apply lookup_zip_with_Some. eauto. }
    rewrite Hz. reflexivity.
Qed.

Lemma phase4_page_inputs_Ok images page_items page_bases page_number img
    cats bases :
  Phase4Extractor.page_inputs images page_items page_bases
  = Ok (page_number, img, cats, bases) ->
  py_getitem page_items "page_number" = Ok page_number /\
  image_for images page_number = Ok img /\
  exists raw_cats raw_bases,
    py_getitem page_items "categories" ≫= py_iter = Ok raw_cats /\
    py_getitem page_bases "categories" ≫= py_iter = Ok raw_bases /\
    Forall2 (fun raw d => validated_dump CategoryWithItems raw = Ok d)
      raw_cats cats /\
    Forall2 (fun raw d => validated_dump CategoryBase raw = Ok d)
      raw_bases bases.
Proof.
  unfold Phase4Extractor.page_inputs.
  destruct (py_getitem page_items "page_number") as [pn|e] eqn:Hpn; cbn;
    [|discriminate].
  destruct (image_for images pn) as [im|e] eqn:Him; cbn; [|discriminate].
  destruct (py_getitem page_items "categories" ≫= py_iter) as [rc|e]
    eqn:Hrc; cbn; [|discriminate].
  destruct (res_map _ rc) as [dc|e] eqn:Hdc; cbn; [|discriminate].
  destruct (py_getitem page_bases "categories" ≫= py_iter) as [rb|e]
    eqn:Hrb; cbn; [|discriminate].
  destruct (res_map _ rb) as [db|e] eqn:Hdb; cbn; [|discriminate].
  intros [= <- <- <- <-].
  split; [reflexivity|]. split; [exact Him|].
  exists rc, rb. auto using res_map_Forall2.
Qed.

Lemma zipped_pages_Ok items_payload bases_payload pairs :
  Phase4Extractor.zipped_pages items_payload bases_payload = Ok pairs ->
  exists items_pages bases_pages,
    py_getitem items_payload "pages" ≫= py_iter = Ok items_pages /\
    py_getitem bases_payload "pages" ≫= py_iter = Ok bases_pages /\
    pairs = zip items_pages bases_pages.
Proof.
  unfold Phase4Extractor.zipped_pages.
  destruct (py_getitem items_payload "pages") as [ip|e]; cbn;
    [|discriminate].
  destruct (py_getitem bases_payload "pages") as [bp|e]; cbn;
    [|discriminate].
  destruct (py_iter ip) as [il|e]; cbn; [|discriminate].
  destruct (py_iter bp) as [bl|e]; cbn; [|discriminate].
  intros [= <-]. eauto.
Qed.
End PairingFacts.

(** ** Validation of the loaded documents *)

Section ValidationFacts.
Context `{Collaborators}.

Lemma res_map_fails {A B} (f : A -> res B) xs x e0 :
  x ∈ xs -> f x = Err e0 ->
  exists x' e, x' ∈ xs /\ f x' = Err e /\ res_map f xs = Err e.
Proof.
  induction xs as [|y xs IH]; intros Hin Hfx.
  - apply elem_of_nil in Hin. contradiction.
  - cbn [res_map]. destruct (f y) as [z|e] eqn:Hfy.
    + apply elem_of_cons in Hin as [->|Hin]; [congruence|].
      destruct (IH Hin Hfx) as (x' & e & Hx' & Hfx' & Hmap).
      exists x', e. rewrite Hmap. repeat split; auto.
      apply elem_of_cons. auto.
    + exists y, e. repeat split; auto. apply elem_of_cons. auto.
Qed.

Lemma page_loop_stops {P} max_concurrency
    (inputs : P -> res (json * list (coro json))) pre p post e :
  inputs p = Err e ->
  forall acc w,
    page_loop max_concurrency inputs (pre ++ p :: post) acc w
    = then_raise e (page_loop max_concurrency inputs pre acc w).
Proof.
  intros Hin. induction pre as [|q pre IH]; intros acc w.
  - cbn [app]. rewrite page_loop_cons, Hin. reflexivity.
  - change ((q :: pre) ++ p :: post) with (q :: (pre ++ p :: post)).
    rewrite !page_loop_cons.
    destruct (inputs q) as [[page_number coros]|e0]; [|reflexivity].
    destruct (_bounded_gather max_concurrency coros w)
      as [[[rs|e1|] w1] evs1]; try reflexivity.
    rewrite IH.
    destruct (page_loop max_concurrency inputs pre _ w1)
      as [[[all|e2|] w2] evs2]; reflexivity.
Qed.

Lemma stage_run_stops {P} max_concurrency restaurant_name imgs
    (pre : list P) p post inputs e w :
  inputs imgs p = Err e ->
  stage_run max_concurrency restaurant_name (Ok imgs)
    (Ok (pre ++ p :: post)) inputs w
  = then_raise e (page_loop max_concurrency (inputs imgs) pre [] w).
Proof.
  intros Hin. rewrite stage_run_cases, (page_loop_stops _ _ _ _ _ _ Hin).
  destruct (page_loop max_concurrency (inputs imgs) pre [] w)
    as [[[all|e2|] w2] evs2]; reflexivity.
Qed.

Lemma phase2_units_invalid restaurant_name images p page_number img data e :
  py_getitem p "page_number" = Ok page_number ->
  image_for images page_number = Ok img ->
  py_getitem p "data" = Ok data ->
  model_validate Categories data = Err e ->
  phase2_units restaurant_name images p = Err e.
Proof.
  intros Hpn Himg Hdata Hval.
  unfold phase2_units, Phase2Extractor.page_inputs.
  rewrite Hpn. cbn. rewrite Himg. cbn. rewrite Hdata. cbn.
  rewrite Hval. reflexivity.
Qed.

Lemma phase3_units_invalid restaurant_name images p page_number img cats e :
  py_getitem p "page_number" = Ok page_number ->
  image_for images page_number = Ok img ->
  py_getitem p "categories" ≫= py_iter = Ok cats ->
  res_map (validated_dump CategoryWithItems) cats = Err e ->
  phase3_units restaurant_name images p = Err e.
Proof.
  intros Hpn Himg Hcats Hval.
  unfold phase3_units, Phase3Extractor.page_inputs.
  rewrite Hpn. cbn. rewrite Himg. cbn. rewrite Hcats. cbn.
  rewrite Hval. reflexivity.
Qed.

Lemma phase4_units_invalid_category restaurant_name images p b page_number
    img cats e :
  py_getitem p "page_number" = Ok page_number ->
  image_for images page_number = Ok img ->
  py_getitem p "categories" ≫= py_iter = Ok cats ->
  res_map (validated_dump CategoryWithItems) cats = Err e ->
  phase4_units restaurant_name images (p, b) = Err e.
Proof.
  intros Hpn Himg Hcats Hval.
  unfold phase4_units, Phase4Extractor.page_inputs. cbn [fst snd].
  rewrite Hpn. cbn. rewrite Himg. cbn. rewrite Hcats. cbn.
  rewrite Hval. reflexivity.
Qed.

Lemma phase4_units_invalid_base restaurant_name images p b page_number img
    cats dumps bases e :
  py_getitem p "page_number" = Ok page_number ->
  image_for images page_number = Ok img ->
  py_getitem p "categories" ≫= py_iter = Ok cats ->
  res_map (validated_dump CategoryWithItems) cats = Ok dumps ->
  py_getitem b "categories" ≫= py_iter = Ok bases ->
  res_map (validated_dump CategoryBase) bases = Err e ->
  phase4_units restaurant_name images (p, b) = Err e.
Proof.
  intros Hpn Himg Hcats Hdumps Hbases Hval.
  unfold phase4_units, Phase4Extractor.page_inputs. cbn [fst snd].
  rewrite Hpn. cbn. rewrite Himg. cbn. rewrite Hcats. cbn.
  rewrite Hdumps. cbn. rewrite Hbases. cbn. rewrite Hval. reflexivity.
Qed.
End ValidationFacts.

(** C7, amended.  Each of phases 2 to 4 validates a page of the loaded
    document when its loop reaches that page, before it builds the units of
    that page: phase 2 validates the page's data against [Categories],
    phase 3 every category of the page against [CategoryWithItems], phase 4
    every category of the phase 2 page against [CategoryWithItems] and then
    every base of the phase 3 page against [CategoryBase], for the page
    pairs of the positional zip.  When that validation fails, the stage does
    what it does for the pages before and then raises the validation error:
    it builds no unit for the page and returns no document. *)
Theorem revalidation_per_page `{Collaborators} (max_concurrency : Z)
    (restaurant_name pdf_path : string) (images : list string) :
  convert_to_images pdf_path = Ok images ->
  (forall payload pre p post page_number img data e w,
     py_getitem payload "pages" ≫= py_iter = Ok (pre ++ p :: post) ->
     py_getitem p "page_number" = Ok page_number ->
     image_for images page_number = Ok img ->
     py_getitem p "data" = Ok data ->
     model_validate Categories data = Err e ->
     Phase2Extractor.extract_all_pages max_concurrency restaurant_name
       payload pdf_path w
     = then_raise e
         (Phase2Extractor.pages_loop max_concurrency restaurant_name images
            pre [] w))
  /\ (forall payload pre p post page_number img cats cat e0 w,
        py_getitem payload "pages" ≫= py_iter = Ok (pre ++ p :: post) ->
        py_getitem p "page_number" = Ok page_number ->
        image_for images page_number = Ok img ->
        py_getitem p "categories" ≫= py_iter = Ok cats ->
        cat ∈ cats ->
        validated_dump CategoryWithItems cat = Err e0 ->
        exists cat' e,
          cat' ∈ cats /\ validated_dump CategoryWithItems cat' = Err e /\
          Phase3Extractor.extract_all_pages max_concurrency restaurant_name
            payload pdf_path w
          = then_raise e
              (Phase3Extractor.pages_loop max_concurrency restaurant_name
                 images pre [] w))
  /\ (forall items_payload bases_payload pre p b post page_number img cats
             cat e0 w,
        Phase4Extractor.zipped_pages items_payload bases_payload
        = Ok (pre ++ (p, b) :: post) ->
        py_getitem p "page_number" = Ok page_number ->
        image_for images page_number = Ok img ->
        py_getitem p "categories" ≫= py_iter = Ok cats ->
        cat ∈ cats ->
        validated_dump CategoryWithItems cat = Err e0 ->
        exists cat' e,
          cat' ∈ cats /\ validated_dump CategoryWithItems cat' = Err e /\
          Phase4Extractor.extract_all_pages max_concurrency restaurant_name
            items_payload bases_payload pdf_path w
          = then_raise e
              (Phase4Extractor.pages_loop max_concurrency restaurant_name
                 images pre [] w))
  /\ (forall items_payload bases_payload pre p b post page_number img cats
             dumps bases base e0 w,
        Phase4Extractor.zipped_pages items_payload bases_payload
        = Ok (pre ++ (p, b) :: post) ->
        py_getitem p "page_number" = Ok page_number ->
        image_for images page_number = Ok img ->
        py_getitem p "categories" ≫= py_iter = Ok cats ->
        res_map (validated_dump CategoryWithItems) cats = Ok dumps ->
        py_getitem b "categories" ≫= py_iter = Ok bases ->
        base ∈ bases ->
        validated_dump CategoryBase base = Err e0 ->
        exists base' e,
          base' ∈ bases /\ validated_dump CategoryBase base' = Err e /\
          Phase4Extractor.extract_all_pages max_concurrency restaurant_name
            items_payload bases_payload pdf_path w
          = then_raise e
              (Phase4Extractor.pages_loop max_concurrency restaurant_name
                 images pre [] w)).
Proof.
  intros Himg. split; [|split; [|split]].
  - intros payload pre p post page_number img data e w Hpages Hpn Hi Hdata
      Hval.
    rewrite phase2_stage_shape, Himg, Hpages, phase2_pages_loop_shape.
    apply stage_run_stops. eapply phase2_units_invalid; eauto.
  - intros payload pre p post page_number img cats cat e0 w Hpages Hpn Hi
      Hcats Hin Hval.
    destruct (res_map_fails _ _ _ _ Hin Hval) as (cat' & e & Hin' & He & Hm).
    exists cat', e. split; [exact Hin'|]. split; [exact He|].
    rewrite phase3_stage_shape, Himg, Hpages, phase3_pages_loop_shape.
    apply stage_run_stops. eapply phase3_units_invalid; eauto.
  - intros items_payload bases_payload pre p b post page_number img cats cat
      e0 w Hpages Hpn Hi Hcats Hin Hval.
    destruct (res_map_fails _ _ _ _ Hin Hval) as (cat' & e & Hin' & He & Hm).
    exists cat', e. split; [exact Hin'|]. split; [exact He|].
    rewrite phase4_stage_shape, Himg, Hpages, phase4_pages_loop_shape.
    apply stage_run_stops. eapply phase4_units_invalid_category; eauto.
  - intros items_payload bases_payload pre p b post page_number img cats
      dumps bases base e0 w Hpages Hpn Hi Hcats Hdumps Hbases Hin Hval.
    destruct (res_map_fails _ _ _ _ Hin Hval)
      as (base' & e & Hin' & He & Hm).
    exists base', e. split; [exact Hin'|]. split; [exact He|].
    rewrite phase4_stage_shape, Himg, Hpages, phase4_pages_loop_shape.
    apply stage_run_stops. eapply phase4_units_invalid_base; eauto.
Qed.

(** ** Validation failures in the retry loop *)

Section RetryUniformity.
Context `{Collaborators}.

Lemma run_coro_generate {R} api calls0 req (k : api_outcome -> coro R) :
  run_coro api calls0 (AwaitGenerate req k)
  = (fst (run_coro api (S calls0) (k (api calls0 req))),
     UCall req :: snd (run_coro api (S calls0) (k (api calls0 req)))).
Proof.
  cbn [run_coro]. destruct (run_coro api (S calls0) _). reflexivity.
Qed.

Lemma run_coro_sleep {R} api calls0 secs (k : coro R) :
  run_coro api calls0 (AwaitSleep secs k)
  = (fst (run_coro api calls0 k), USleep secs :: snd (run_coro api calls0 k)).
Proof. cbn [run_coro]. destruct (run_coro api calls0 k). reflexivity. Qed.

(** The calls and sleeps of a unit, and whether it fails, depend only on
    which of its attempts fail, not on how they fail. *)
Lemma attempts_from_uniform u api1 api2 remaining :
  forall attempt le1 le2 calls1 calls2,
    (forall k req,
       is_Some (attempt_error u (api1 (calls1 + k)%nat req))
       <-> is_Some (attempt_error u (api2 (calls2 + k)%nat req))) ->
    snd (run_coro api1 calls1 (attempts_from u remaining attempt le1))
    = snd (run_coro api2 calls2 (attempts_from u remaining attempt le2))
    /\ (failed (fst (run_coro api1 calls1
                       (attempts_from u remaining attempt le1)))
        <-> failed (fst (run_coro api2 calls2
                           (attempts_from u remaining attempt le2)))).
Proof.
  induction remaining as [|remaining IH];
    intros attempt le1 le2 calls1 calls2 Hsame.
  - cbn. split; [reflexivity|]. unfold failed. split; eauto.
  - rewrite !attempts_from_S.
    destruct (build_prompt u) as [prompt|e].
    + unfold generate. rewrite !run_coro_generate. cbn [fst snd].
      pose proof (Hsame 0%nat (llm_request u prompt)) as H0.
      rewrite !Nat.add_0_r in H0.
      assert (Hnext : forall k req,
        is_Some (attempt_error u (api1 (S calls1 + k)%nat req))
        <-> is_Some (attempt_error u (api2 (S calls2 + k)%nat req))).
      { intros k req.
        replace (S calls1 + k)%nat with (calls1 + S k)%nat by lia.
        replace (S calls2 + k)%nat with (calls2 + S k)%nat by lia.
        apply Hsame. }
      destruct (attempt_error u (api1 calls1 (llm_request u prompt)))
        as [e1|] eqn:H1;
        destruct (attempt_error u (api2 calls2 (llm_request u prompt)))
          as [e2|] eqn:H2.
      * destruct (after_response_failure u attempt le1
                    (attempts_from u remaining (S attempt)) _ _ H1)
          as [le1' ->].
        destruct (after_response_failure u attempt le2
                    (attempts_from u remaining (S attempt)) _ _ H2)
          as [le2' ->].
        destruct (attempt <? max_retries u - 1)%nat.
        -- rewrite !run_coro_sleep. cbn [fst snd].
           destruct (IH (S attempt) le1' le2' (S calls1) (S calls2) Hnext)
             as [Htr Hfail].
           rewrite Htr. split; [reflexivity|exact Hfail].
        -- cbn. split; [reflexivity|]. unfold failed. split; eauto.
      * exfalso. destruct H0 as [H0 _].
        destruct (H0 (mk_is_Some _ _ eq_refl)) as [x Hx]. discriminate.
      * exfalso. destruct H0 as [_ H0].
        destruct (H0 (mk_is_Some _ _ eq_refl)) as [x Hx]. discriminate.
      * destruct (after_response_success u attempt le1
                    (attempts_from u remaining (S attempt)) _ H1)
          as [d1 ->].
        destruct (after_response_success u attempt le2
                    (attempts_from u remaining (S attempt)) _ H2)
          as [d2 ->].
        cbn. split; [reflexivity|].
        unfold failed. split; intros [e He]; discriminate.
    + unfold on_exception.
      destruct (attempt <? max_retries u - 1)%nat.
      * rewrite !run_coro_sleep. cbn [fst snd].
        destruct (IH (S attempt) (Some e) (Some e) calls1 calls2 Hsame)
          as [Htr Hfail].
        rewrite Htr. split; [reflexivity|exact Hfail].
      * cbn. split; [reflexivity|]. unfold failed. split; eauto.
Qed.
End RetryUniformity.

(** ** Item counting *)

Section CountingFacts.

Lemma items_in_cons g gs :
  items_in (g :: gs) = Z.of_nat (length (group_items g)) + items_in gs.
Proof.
  unfold items_in. cbn [map concat]. rewrite length_app. lia.
Qed.

Lemma group_size_to_json g :
  group_size (group_to_json g) = Ok (Z.of_nat (length (group_items g))).
Proof. reflexivity. Qed.

Lemma count_groups_to_json gs n :
  count_groups (map group_to_json gs) n = Ok (n + items_in gs).
Proof.
  revert n. induction gs as [|g gs IH]; intros n.
  - cbn. f_equal. unfold items_in. cbn. lia.
  - cbn [map count_groups]. rewrite group_size_to_json. cbn.
    rewrite IH, items_in_cons. f_equal. lia.
Qed.

Lemma count_category_to_json c n :
  count_category (category_to_json c) n = Ok (n + category_total c).
Proof.
  unfold count_category, category_to_json, category_total. cbn.
  rewrite count_groups_to_json. cbn.
  rewrite count_groups_to_json. f_equal. lia.
Qed.

Lemma count_categories_to_json cs n :
  count_categories (map category_to_json cs) n
  = Ok (n + sum_Z (map category_total cs)).
Proof.
  revert n. induction cs as [|c cs IH]; intros n.
  - cbn. f_equal. lia.
  - cbn [map count_categories]. rewrite count_category_to_json. cbn.
    rewrite IH. cbn [sum_Z]. f_equal. lia.
Qed.

Lemma page_to_json_categories pn cs :
  py_get (page_to_json (pn, cs)) "categories" (JArr [])
  = Ok (JArr (map category_to_json cs)).
Proof. reflexivity. Qed.

Lemma count_pages_cons page pages ncat nitem :
  count_pages (page :: pages) ncat nitem
  = (categories ← py_get page "categories" (JArr []);
     n ← py_len categories;
     cats ← py_iter categories;
     item_count ← count_categories cats nitem;
     count_pages pages (ncat + n) item_count).
Proof. reflexivity. Qed.

Lemma res_bind_Ok {A B} (a : A) (f : A -> res B) : Ok a ≫= f = f a.
Proof. reflexivity. Qed.

Lemma count_pages_to_json pages ncat nitem :
  count_pages (map page_to_json pages) ncat nitem
  = Ok (ncat + sum_Z (map (fun p => Z.of_nat (length (snd p))) pages),
        nitem
        + sum_Z (map (fun p => sum_Z (map category_total (snd p))) pages)).
Proof.
  revert ncat nitem. induction pages as [|[pn cs] pages IH];
    intros ncat nitem.
  - cbn. do 2 f_equal; lia.
  - cbn [map]. rewrite count_pages_cons, page_to_json_categories.
    rewrite res_bind_Ok. cbn [py_len py_iter]. rewrite !res_bind_Ok.
    rewrite count_categories_to_json, res_bind_Ok, IH, length_map.
    cbn [sum_Z snd]. do 2 f_equal; lia.
Qed.
End CountingFacts.

(** C9.  The item count [get_job] reports sums both groupings: a category
    record adds to the running count the number of items of all its
    category-level groups plus the number of items of all its
    subcategory-level groups, and the count of a document is the sum over
    its categories. *)
Theorem item_count_sums_both_groupings :
  (forall (c : category_record) (n : Z),
     count_category (category_to_json c) n
     = Ok (n + items_in (category_items c)
             + items_in (subcategory_items c)))
  /\ (forall restaurant_name (pages : list (json * list category_record)),
        get_job_counts
          (stage_document restaurant_name (map page_to_json pages))
        = Ok (sum_Z (map (fun p => Z.of_nat (length (snd p))) pages),
              sum_Z (map (fun p => sum_Z (map category_total (snd p)))
                       pages))).
Proof.
  split.
  - intros c n. rewrite count_category_to_json. unfold category_total.
    f_equal. lia.
  - intros restaurant_name pages. unfold get_job_counts, stage_document.
    cbn [py_truthy length Nat.eqb negb].
    cbn [py_get dict_get dict_lookup String.eqb Ascii.eqb Bool.eqb].
    cbn [mbind res_bind py_iter].
    rewrite count_pages_to_json. reflexivity.
Qed.

(** ** Lists of different lengths in phase 4 *)

Section TruncationFacts.
Context `{Collaborators}.

Lemma zip_take_min {A B} (l : list A) (k : list B) :
  zip (take (Nat.min (length l) (length k)) l) (take (Nat.min (length l) (length k)) k)
  = zip l k.
Proof. apply zip_with_take_both'; lia. Qed.

Lemma page_coros_truncated restaurant_name page_number page_image
    (cats bases : list pydict) :
  Phase4Extractor.page_coros restaurant_name page_number page_image cats
    bases
  = Phase4Extractor.page_coros restaurant_name page_number page_image
      (take (Nat.min (length cats) (length bases)) cats)
      (take (Nat.min (length cats) (length bases)) bases).
Proof.
  unfold Phase4Extractor.page_coros. rewrite zip_take_min. reflexivity.
Qed.

Lemma length_phase4_page_coros restaurant_name page_number page_image
    (cats bases : list pydict) :
  length (Phase4Extractor.page_coros restaurant_name page_number page_image
            cats bases)
  = Nat.min (length cats) (length bases).
Proof.
  unfold Phase4Extractor.page_coros.
  rewrite length_map, length_zip_with. reflexivity.
Qed.

Lemma phase4_extract_page_returned max_concurrency restaurant_name
    page_number page_image cats bases w entry w' evs :
  Phase4Extractor.extract_page max_concurrency restaurant_name page_number
    page_image cats bases w = (Returned entry, w', evs) ->
  exists results,
    entry = page_entry page_number "categories" results /\
    length results = Nat.min (length cats) (length bases).
Proof.
  unfold Phase4Extractor.extract_page, mbind, M_bind, mret, M_ret.
  destruct (_bounded_gather _ _ w) as [[[rs|e|] w1] evs1] eqn:Hg;
    intros [= <- <- <-].
  exists rs. split; [reflexivity|].
  destruct (bounded_gather_results _ _ _ _ _ _ Hg) as [-> _].
  apply length_phase4_page_coros.
Qed.
Lemma phase4_units_Ok restaurant_name images pair page_number coros :
  phase4_units restaurant_name images pair = Ok (page_number, coros) ->
  exists img cats bases,
    Phase4Extractor.page_inputs images (fst pair) (snd pair)
    = Ok (page_number, img, cats, bases) /\
    coros = Phase4Extractor.page_coros restaurant_name page_number img cats
              bases.
Proof.
  unfold phase4_units.
  destruct (Phase4Extractor.page_inputs images (fst pair) (snd pair))
    as [[[[pn img] cats] bases]|e]; cbn; [|discriminate].
  intros [= <- <-]. eauto.
Qed.

(** The entry of a page pair has as many results as the shorter of the two
    lists of the pair. *)
Lemma phase4_page_done_size restaurant_name images pair entry :
  page_done (phase4_units restaurant_name images) pair entry ->
  exists raw_cats raw_bases,
    py_getitem (fst pair) "categories" ≫= py_iter = Ok raw_cats /\
    py_getitem (snd pair) "categories" ≫= py_iter = Ok raw_bases /\
    entry_size entry = Nat.min (length raw_cats) (length raw_bases).
Proof.
  intros (page_number & coros & results & Hunits & -> & Hlen & _).
  apply phase4_units_Ok in Hunits as (img & cats & bases & Hin & ->).
  apply phase4_page_inputs_Ok in Hin
    as (_ & _ & raw_cats & raw_bases & Hrc & Hrb & Hfc & Hfb).
  exists raw_cats, raw_bases. split; [exact Hrc|]. split; [exact Hrb|].
  rewrite entry_size_page_entry, Hlen, length_phase4_page_coros.
  rewrite (Forall2_length _ _ _ Hfc), (Forall2_length _ _ _ Hfb).
  reflexivity.
Qed.
End TruncationFacts.

(** C10.  When the lists phase 4 pairs differ in length, the mismatch
    raises nothing and the excess is dropped.  For a page, [extract_page]
    does what it does on the two lists cut to the length of the shorter one,
    and the page entry it returns has that many results.  For the
    documents, [extract_all_pages] does what it does on the two documents
    cut to the page count of the shorter one, and the document it returns
    has that many pages; the entry of each page pair has as many results as
    the shorter of the pair's two [categories] lists. *)
Theorem length_mismatch_truncates `{Collaborators} (max_concurrency : Z)
    (restaurant_name pdf_path : string) :
  (forall page_number page_image (cats bases : list pydict) w,
     Phase4Extractor.extract_page max_concurrency restaurant_name
       page_number page_image cats bases w
     = Phase4Extractor.extract_page max_concurrency restaurant_name
         page_number page_image
         (take (Nat.min (length cats) (length bases)) cats)
         (take (Nat.min (length cats) (length bases)) bases) w)
  /\ (forall page_number page_image (cats bases : list pydict) w entry w'
             evs,
        Phase4Extractor.extract_page max_concurrency restaurant_name
          page_number page_image cats bases w = (Returned entry, w', evs) ->
        exists results,
          entry = page_entry page_number "categories" results /\
          length results = Nat.min (length cats) (length bases))
  /\ (forall name2 name3 (items_pages bases_pages : list json) w,
        Phase4Extractor.extract_all_pages max_concurrency restaurant_name
          (stage_document name2 items_pages)
          (stage_document name3 bases_pages) pdf_path w
        = Phase4Extractor.extract_all_pages max_concurrency restaurant_name
            (stage_document name2
               (take (Nat.min (length items_pages) (length bases_pages))
                  items_pages))
            (stage_document name3
               (take (Nat.min (length items_pages) (length bases_pages))
                  bases_pages)) pdf_path w)
  /\ (forall items_payload bases_payload items_pages bases_pages w doc w'
             evs,
        pages_of items_payload = Some items_pages ->
        pages_of bases_payload = Some bases_pages ->
        Phase4Extractor.extract_all_pages max_concurrency restaurant_name
          items_payload bases_payload pdf_path w = (Returned doc, w', evs) ->
        exists pages,
          pages_of doc = Some pages /\
          length pages = Nat.min (length items_pages) (length bases_pages))
  /\ (forall items_payload bases_payload w doc w' evs,
        Phase4Extractor.extract_all_pages max_concurrency restaurant_name
          items_payload bases_payload pdf_path w = (Returned doc, w', evs) ->
        exists pairs entries,
          Phase4Extractor.zipped_pages items_payload bases_payload
          = Ok pairs /\
          pages_of doc = Some entries /\
          Forall2
            (fun pair entry =>
               exists raw_cats raw_bases,
                 py_getitem (fst pair) "categories" ≫= py_iter
                 = Ok raw_cats /\
                 py_getitem (snd pair) "categories" ≫= py_iter
                 = Ok raw_bases /\
                 entry_size entry
                 = Nat.min (length raw_cats) (length raw_bases))
            pairs entries).
Proof.
  split; [|split; [|split; [|split]]].
  - intros page_number page_image cats bases w.
    unfold Phase4Extractor.extract_page.
    rewrite <- page_coros_truncated. reflexivity.
  - intros page_number page_image cats bases w entry w' evs.
    apply phase4_extract_page_returned.
  - intros name2 name3 items_pages bases_pages w.
    rewrite !phase4_stage_shape.
    rewrite !(zipped_pages_of _ _ _ _ (pages_of_stage_document _ _)
                (pages_of_stage_document _ _)).
    rewrite zip_take_min. reflexivity.
  - intros items_payload bases_payload items_pages bases_pages w doc w' evs
      Hitems Hbases.
    rewrite phase4_stage_shape, (zipped_pages_of _ _ _ _ Hitems Hbases).
    intros Hrun.
    destruct (stage_run_returned _ _ _ _ _ _ _ _ _ Hrun)
      as (imgs & ps & new & _ & [= <-] & -> & Hforall & _).
    exists new. split; [reflexivity|].
    rewrite <- (Forall2_length _ _ _ Hforall).
    apply length_zip_with.
  - intros items_payload bases_payload w doc w' evs.
    rewrite phase4_stage_shape. intros Hrun.
    destruct (stage_run_returned _ _ _ _ _ _ _ _ _ Hrun)
      as (imgs & ps & new & _ & Hps & -> & Hforall & _).
    exists ps, new. split; [exact Hps|]. split; [reflexivity|].
    eapply Forall2_impl; [exact Hforall|].
    intros pair entry. apply phase4_page_done_size.
Qed.

(** * Further properties of the extraction core *)

Section RetrySuccessFacts.
Context `{Collaborators}.

Lemma after_response_valid u attempt last_error next raw rest data validated :
  json_loads raw = inr data ->
  model_validate (response_model u) data = Ok validated ->
  after_response u attempt last_error next
    (api_result (ApiResponse (Some raw :: rest)))
  = Ret (result_of u (model_dump validated)).
Proof.
  intros Hloads Hvalid. cbn. rewrite Hloads, Hvalid. reflexivity.
Qed.

Lemma attempts_from_first_success u prompt api raw rest data validated :
  build_prompt u = Ok prompt ->
  json_loads raw = inr data ->
  model_validate (response_model u) data = Ok validated ->
  forall k remaining attempt last_error calls0,
    (attempt + S remaining = max_retries u)%nat ->
    (k <= remaining)%nat ->
    (forall j, (j < k)%nat ->
       attempt_error u (api (calls0 + j)%nat (llm_request u prompt))
       <> None) ->
    api (calls0 + k)%nat (llm_request u prompt)
    = ApiResponse (Some raw :: rest) ->
    run_coro api calls0 (attempts_from u (S remaining) attempt last_error)
    = (Ok (result_of u (model_dump validated)),
       exhausted_trace (llm_request u prompt) (S k)).
Proof.
  intros Hprompt Hloads Hvalid.
  induction k as [|k IH];
    intros remaining attempt last_error calls0 Hsum Hk Hfail Hgood.
  - rewrite attempts_from_S, Hprompt. unfold generate. cbn [run_coro].
    rewrite Nat.add_0_r in Hgood. rewrite Hgood.
    rewrite (after_response_valid _ _ _ _ _ _ _ _ Hloads Hvalid).
    reflexivity.
  - destruct remaining as [|remaining]; [lia|].
    rewrite attempts_from_S, Hprompt. unfold generate. cbn [run_coro].
    destruct (attempt_error u (api calls0 (llm_request u prompt)))
      as [e|] eqn:Hfirst.
    2:{ exfalso. apply (Hfail 0%nat); [lia|].
        rewrite Nat.add_0_r. exact Hfirst. }
    destruct (after_response_failure u attempt last_error
                (attempts_from u (S remaining) (S attempt)) _ _ Hfirst)
      as [le' Heq].
    rewrite Heq.
    replace (attempt <? max_retries u - 1)%nat with true
      by (symmetry; apply Nat.ltb_lt; lia).
    cbn [run_coro].
    rewrite (IH remaining (S attempt) le' (S calls0)); [reflexivity|lia|lia| |].
    + intros j Hj. replace (S calls0 + j)%nat with (calls0 + S j)%nat by lia.
      apply Hfail. lia.
    + replace (S calls0 + k)%nat with (calls0 + S k)%nat by lia. exact Hgood.
Qed.
End RetrySuccessFacts.

(** A unit stops at its first valid answer.  When the answers to its first
    [k] calls fail, in whatever way, and the answer to the next call parses
    and validates, with [k] below [max_retries], the unit returns the dump
    of that answer after exactly [k + 1] calls with one second of sleep
    between two calls; it asks for no further answer. *)
Theorem retry_stops_at_first_success `{Collaborators} (u : unit_of_work)
    (prompt : string) (api : nat -> request -> api_outcome) (calls0 k : nat)
    (raw : string) (rest : list (option string)) (data : json)
    (validated : model) :
  build_prompt u = Ok prompt ->
  (k < max_retries u)%nat ->
  (forall j, (j < k)%nat ->
     attempt_error u (api (calls0 + j)%nat (llm_request u prompt)) <> None) ->
  api (calls0 + k)%nat (llm_request u prompt)
  = ApiResponse (Some raw :: rest) ->
  json_loads raw = inr data ->
  model_validate (response_model u) data = Ok validated ->
  run_coro api calls0 (retry_loop u)
  = (Ok (result_of u (model_dump validated)),
     exhausted_trace (llm_request u prompt) (S k)).
Proof.
  intros Hprompt Hk Hfail Hgood Hloads Hvalid. unfold retry_loop.
  destruct (max_retries u) as [|n] eqn:Hmax; [lia|].
  apply (attempts_from_first_success u prompt api raw rest data validated
           Hprompt Hloads Hvalid k n 0%nat None calls0);
    [lia|lia|exact Hfail|exact Hgood].
Qed.

Section DeadlockFacts.
Context {R : Type}.
Variable api : nat -> request -> api_outcome.

Lemma results_of_waiting (c : coro R) coros :
  results_of (map Waiting (c :: coros)) = None.
Proof. reflexivity. Qed.

(** Without a permit no waiting task ever starts. *)
Lemma run_schedule_no_permit sched (c : coro R) coros calls0 log :
  run_schedule api sched (mk_gstate (map Waiting (c :: coros)) 0 calls0 log)
  = (Pending, mk_gstate (map Waiting (c :: coros)) 0 calls0 log, []).
Proof.
  induction sched as [|i sched IH]; [reflexivity|].
  cbn [run_schedule tasks]. rewrite results_of_waiting.
  unfold step. cbn [tasks permits].
  rewrite list_lookup_fmap.
  destruct ((c :: coros) !! i) as [c'|]; cbn [fmap option_fmap option_map];
    exact IH.
Qed.
End DeadlockFacts.

Section TurnFacts.
Context {R : Type}.
Variable api : nat -> request -> api_outcome.

Lemma results_of_finished (rs : list R) :
  results_of (map Finished rs) = Some rs.
Proof.
  induction rs as [|r rs IH]; [reflexivity|]. cbn. rewrite IH. reflexivity.
Qed.

Lemma results_of_unfinished (ts : list (task R)) i t :
  ts !! i = Some t -> (forall r, t <> Finished r) -> results_of ts = None.
Proof.
  revert i. induction ts as [|t0 ts IH]; intros i Hi Hne; [discriminate|].
  destruct i as [|i]; cbn in Hi.
  - inversion Hi; subst. destruct t; try reflexivity.
    exfalso. eapply Hne. reflexivity.
  - cbn. destruct t0; try reflexivity. rewrite (IH i Hi Hne). reflexivity.
Qed.

(** A task that holds a permit and is scheduled alone runs its coroutine to
    the end: it finishes and gives the permit back, or makes the gather
    raise. *)
Lemma run_schedule_running (c : coro R) :
  forall i (g : gstate R) sched,
    tasks g !! i = Some (Running c) ->
    exists g',
      run_schedule api
        (replicate (S (length (snd (run_coro api (gcalls g) c)))) i ++ sched)
        g
      = match fst (run_coro api (gcalls g) c) with
        | Ok r => run_schedule api sched g'
        | Err e => (Raised e, g', sched)
        end /\
      (forall r, fst (run_coro api (gcalls g) c) = Ok r ->
         tasks g' = <[i := Finished r]> (tasks g) /\
         permits g' = S (permits g) /\
         gcalls g'
         = (gcalls g + attempts_made (snd (run_coro api (gcalls g) c)))%nat).
Proof.
  induction c as [r|e|req k IH|secs k IH]; intros i g sched Hi;
    pose proof (results_of_unfinished _ _ _ Hi ltac:(discriminate)) as Hres.
  - eexists. split.
    + cbn [run_coro snd fst length replicate app run_schedule].
      rewrite Hres. unfold step. rewrite Hi. reflexivity.
    + cbn. intros r0 [= <-]. rewrite Nat.add_0_r. auto.
  - eexists. split.
    + cbn [run_coro snd fst length replicate app run_schedule].
      rewrite Hres. unfold step. rewrite Hi. reflexivity.
    + cbn. discriminate.
  - set (g1 := mk_gstate (<[i := Running (k (api (gcalls g) req))]> (tasks g))
                 (permits g) (S (gcalls g))
                 (glog g ++ [EvCall i req (api (gcalls g) req)])).
    assert (Hi1 : tasks g1 !! i = Some (Running (k (api (gcalls g) req)))).
    { cbn. apply list_lookup_insert_eq. apply lookup_lt_is_Some. eauto. }
    destruct (IH (api (gcalls g) req) i g1 sched Hi1) as (g' & Hrun & Hok).
    exists g'. rewrite run_coro_generate. cbn [fst snd length].
    split.
    + cbn [replicate app run_schedule]. rewrite Hres. unfold step.
      rewrite Hi. fold g1. exact Hrun.
    + intros r Hr. destruct (Hok r Hr) as (Ht & Hp & Hc).
      rewrite Ht, Hp, Hc. cbn [tasks permits gcalls g1].
      rewrite list_insert_insert_eq, attempts_made_cons_call.
      repeat split. lia.
  - set (g1 := mk_gstate (<[i := Running k]> (tasks g)) (permits g)
                 (gcalls g) (glog g ++ [EvSleep i secs])).
    assert (Hi1 : tasks g1 !! i = Some (Running k)).
    { cbn. apply list_lookup_insert_eq. apply lookup_lt_is_Some. eauto. }
    destruct (IH i g1 sched Hi1) as (g' & Hrun & Hok).
    exists g'. rewrite run_coro_sleep. cbn [fst snd length].
    split.
    + cbn [replicate app run_schedule]. rewrite Hres. unfold step.
      rewrite Hi. fold g1. exact Hrun.
    + intros r Hr. destruct (Hok r Hr) as (Ht & Hp & Hc).
      rewrite Ht, Hp, Hc. cbn [tasks permits gcalls g1].
      rewrite list_insert_insert_eq, attempts_made_cons_sleep.
      repeat split.
Qed.

(** The same for a waiting task, when a permit is free. *)
Lemma run_schedule_turn (c : coro R) i (g : gstate R) p sched :
  tasks g !! i = Some (Waiting c) ->
  permits g = S p ->
  exists g',
    run_schedule api
      (replicate (2 + length (snd (run_coro api (gcalls g) c))) i ++ sched) g
    = match fst (run_coro api (gcalls g) c) with
      | Ok r => run_schedule api sched g'
      | Err e => (Raised e, g', sched)
      end /\
    (forall r, fst (run_coro api (gcalls g) c) = Ok r ->
       tasks g' = <[i := Finished r]> (tasks g) /\
       permits g' = S p /\
       gcalls g'
       = (gcalls g + attempts_made (snd (run_coro api (gcalls g) c)))%nat).
Proof.
  intros Hi Hp.
  pose proof (results_of_unfinished _ _ _ Hi ltac:(discriminate)) as Hres.
  set (g1 := mk_gstate (<[i := Running c]> (tasks g)) p (gcalls g)
               (glog g ++ [EvAcquire i])).
  assert (Hi1 : tasks g1 !! i = Some (Running c)).
  { cbn. apply list_lookup_insert_eq. apply lookup_lt_is_Some. eauto. }
  destruct (run_schedule_running c i g1 sched Hi1) as (g' & Hrun & Hok).
  exists g'. split.
  - change (2 + ?n)%nat with (S (S n)).
    cbn [replicate app run_schedule]. rewrite Hres. unfold step.
    rewrite Hi, Hp. fold g1. exact Hrun.
  - intros r Hr. destruct (Hok r Hr) as (Ht & Hp' & Hc).
    rewrite Ht, Hp', Hc. cbn [tasks permits gcalls g1].
    rewrite list_insert_insert_eq. auto.
Qed.

Lemma run_schedule_turns (todo : list (coro R)) :
  forall (done : list R) p calls0 log sched,
    exists g' sched',
      run_schedule api (turns api calls0 (length done) todo ++ sched)
        (mk_gstate (map Finished done ++ map Waiting todo) (S p) calls0 log)
      = (outcome_of ((done ++.) <$> run_in_turn api calls0 todo), g', sched').
Proof.
  induction todo as [|c todo IH]; intros done p calls0 log sched.
  - cbn [turns map app run_in_turn]. rewrite app_nil_r.
    eexists _, _.
    destruct sched; cbn [run_schedule tasks];
      rewrite results_of_finished; cbn; rewrite app_nil_r; reflexivity.
  - set (g := mk_gstate (map Finished done ++ map Waiting (c :: todo)) (S p)
                calls0 log).
    assert (Hi : tasks g !! length done = Some (Waiting c)).
    { cbn. rewrite lookup_app_r by (rewrite length_map; lia).
      rewrite length_map, Nat.sub_diag. reflexivity. }
    cbn [turns]. rewrite <- app_assoc.
    destruct (run_schedule_turn c (length done) g p
                (turns api
                   (calls0 + attempts_made (snd (run_coro api calls0 c)))
                   (S (length done)) todo ++ sched) Hi eq_refl)
      as (g' & Hrun & Hok).
    cbn [gcalls g] in Hrun, Hok. rewrite Hrun.
    cbn [run_in_turn].
    destruct (run_coro api calls0 c) as [[r|e] tr] eqn:Hc; cbn [fst snd] in *.
    + destruct (Hok r eq_refl) as (Ht & Hp & Hcalls).
      destruct g' as [ts' p' calls' log']. cbn [tasks permits gcalls] in *.
      subst ts' p' calls'.
      replace (<[length done := Finished r]>
                 (map Finished done ++ map Waiting (c :: todo)))
        with (map Finished (done ++ [r]) ++ map Waiting todo).
      2:{ rewrite map_app, <- app_assoc. cbn [map app].
          rewrite insert_app_r_alt by (rewrite length_map; lia).
          rewrite length_map, Nat.sub_diag. reflexivity. }
      replace (S (length done)) with (length (done ++ [r]))
        by (rewrite length_app; cbn; lia).
      destruct (IH (done ++ [r]) p (calls0 + attempts_made tr)%nat log' sched)
        as (g2 & sched2 & Hrun2).
      rewrite Hrun2. exists g2, sched2. f_equal. f_equal.
      destruct (run_in_turn api (calls0 + attempts_made tr) todo) as [rs|e];
        cbn; [|reflexivity].
      rewrite <- app_assoc. reflexivity.
    + eexists _, _. reflexivity.
Qed.
End TurnFacts.

(** With a limit of 0 the semaphore never admits a unit: whatever the
    schedule, a gather over at least one coroutine calls the provider not
    once and never completes.  The constructors read an explicit limit of
    0 as no limit given, so this limit can only come from the setting; a
    setting of 0 is taken as it is. *)
Theorem no_permit_no_progress {R : Type} (coros : list (coro R)) (w : world) :
  (coros <> [] ->
   _bounded_gather 0 coros w
   = (Pending, mk_world (provider w) (calls w) [],
      [EvGather (length coros)]))
  /\ (forall settings,
        init_max_concurrency (Some 0) settings = MAX_CONCURRENCY settings)
  /\ init_max_concurrency None (get_settings (Some 0)) = 0.
Proof.
  split; [|split; [intros settings|]; reflexivity].
  intros Hne. destruct coros as [|c coros]; [congruence|].
  unfold _bounded_gather, gather_start. cbn [Z.ltb Z.compare Z.to_nat].
  rewrite run_schedule_no_permit. reflexivity.
Qed.

(** With a limit of at least 1 a gather can always complete.  Under the
    schedule that lets the units run one after the other it returns the
    results of all units in submission order, or raises the exception of
    the first unit that fails: what running the coroutines in turn
    gives. *)
Theorem one_permit_suffices {R : Type} (max_concurrency : Z)
    (coros : list (coro R)) (w : world) (later : list nat) :
  0 < max_concurrency ->
  schedule w = turns (provider w) (calls w) 0 coros ++ later ->
  fst (fst (_bounded_gather max_concurrency coros w))
  = outcome_of (run_in_turn (provider w) (calls w) coros).
Proof.
  intros Hpos Hsched. unfold _bounded_gather, gather_start.
  destruct (Z.ltb_spec max_concurrency 0) as [Hneg|_]; [lia|].
  destruct (Z.to_nat max_concurrency) as [|p] eqn:Hp; [lia|].
  rewrite Hsched.
  destruct (run_schedule_turns (provider w) coros [] p (calls w)
              [EvGather (length coros)] later) as (g' & sched' & Hrun).
  cbn [length map app] in Hrun. rewrite Hrun. cbn [fst].
  destruct (run_in_turn (provider w) (calls w) coros); reflexivity.
Qed.

Section ImageFacts.
Context `{Collaborators}.

Lemma list_index_front {A} (l : list A) i x :
  l !! i = Some x -> list_index l (Z.of_nat i) = Ok x.
Proof.
  intros Hi. unfold list_index.
  pose proof (lookup_lt_Some _ _ _ Hi) as Hlt.
  destruct (Z.ltb_spec (Z.of_nat i) 0); [lia|].
  destruct (Z.leb_spec 0 (Z.of_nat i)); [|lia].
  destruct (Z.ltb_spec (Z.of_nat i) (Z.of_nat (length l))); [|lia].
  cbn. rewrite Nat2Z.id, Hi. reflexivity.
Qed.

Lemma list_index_back {A} (l : list A) i x :
  l !! i = Some x ->
  list_index l (Z.of_nat i - Z.of_nat (length l)) = Ok x.
Proof.
  intros Hi. unfold list_index.
  pose proof (lookup_lt_Some _ _ _ Hi) as Hlt.
  destruct (Z.ltb_spec (Z.of_nat i - Z.of_nat (length l)) 0); [|lia].
  replace (Z.of_nat i - Z.of_nat (length l) + Z.of_nat (length l))
    with (Z.of_nat i) by lia.
  destruct (Z.leb_spec 0 (Z.of_nat i)); [|lia].
  destruct (Z.ltb_spec (Z.of_nat i) (Z.of_nat (length l))); [|lia].
  cbn. rewrite Nat2Z.id, Hi. reflexivity.
Qed.

Lemma list_index_outside {A} (l : list A) z :
  Z.of_nat (length l) <= z \/ z < - Z.of_nat (length l) ->
  list_index l z = Err IndexError.
Proof.
  intros Hout. unfold list_index.
  destruct (Z.ltb_spec z 0).
  - destruct (Z.leb_spec 0 (z + Z.of_nat (length l))); [lia|]. reflexivity.
  - destruct (Z.leb_spec 0 z); [|lia].
    destruct (Z.ltb_spec z (Z.of_nat (length l))); [lia|]. reflexivity.
Qed.
End ImageFacts.

(** The image of a page is [images[page_number - 1]], with Python's
    indexing and no check of the page number.  Page number [i + 1] selects
    image [i]; a page number that is 0 or negative selects an image counted
    from the end (0 the last one); only a page number beyond the page count
    in either direction raises [IndexError], and then the inputs of the
    page raise it in phases 2, 3 and 4, before any validation. *)
Theorem page_image_lookup `{Collaborators} (images : list string) :
  (forall i img, images !! i = Some img ->
     image_for images (JInt (Z.of_nat i + 1)) = Ok img)
  /\ (forall i img, images !! i = Some img ->
        image_for images (JInt (Z.of_nat i + 1 - Z.of_nat (length images)))
        = Ok img)
  /\ (forall n page other,
        Z.of_nat (length images) < n \/ n <= - Z.of_nat (length images) ->
        py_getitem page "page_number" = Ok (JInt n) ->
        image_for images (JInt n) = Err IndexError /\
        Phase2Extractor.page_inputs images page = Err IndexError /\
        Phase3Extractor.page_inputs images page = Err IndexError /\
        Phase4Extractor.page_inputs images page other = Err IndexError).
Proof.
  split; [|split].
  - intros i img Hi. unfold image_for.
    replace (Z.of_nat i + 1 - 1) with (Z.of_nat i) by lia.
    apply list_index_front. exact Hi.
  - intros i img Hi. unfold image_for.
    replace (Z.of_nat i + 1 - Z.of_nat (length images) - 1)
      with (Z.of_nat i - Z.of_nat (length images)) by lia.
    apply list_index_back. exact Hi.
  - intros n page other Hout Hpn.
    assert (Himg : image_for images (JInt n) = Err IndexError).
    { unfold image_for. apply list_index_outside. lia. }
    split; [exact Himg|].
    unfold Phase2Extractor.page_inputs, Phase3Extractor.page_inputs,
      Phase4Extractor.page_inputs.
    rewrite Hpn. cbn [mbind res_bind]. rewrite Himg. auto.
Qed.

Section BudgetFacts.
Context {R : Type}.
Variable api : nat -> request -> api_outcome.

Lemma calls_within_mono (c : coro R) n m :
  (n <= m)%nat -> calls_within n c -> calls_within m c.
Proof.
  revert n m. induction c as [r|e|req k IH|secs k IH]; intros n m Hle Hc;
    cbn in *; auto.
  - destruct n as [|n]; [contradiction|]. destruct m as [|m]; [lia|].
    intros answer. apply (IH answer n m); [lia|apply Hc].
  - eapply IH; eauto.
Qed.

Lemma sum_list_insert (bs : list nat) i b b' :
  bs !! i = Some b ->
  (sum_list (<[i := b']> bs) + b = sum_list bs + b')%nat.
Proof.
  revert i. induction bs as [|b0 bs IH]; intros i Hi; [discriminate|].
  destruct i as [|i]; cbn in Hi.
  - inversion Hi; subst. cbn. lia.
  - change (<[S i := b']> (b0 :: bs)) with (b0 :: <[i := b']> bs).
    cbn [sum_list sum_list_with]. specialize (IH i Hi). lia.
Qed.

Lemma covered_step bound i (g g' : gstate R) oe :
  covered bound g -> step api i g = (oe, g') -> covered bound g'.
Proof.
  intros (bs & Hall & Hsum) Hst.
  destruct (step_cases api _ _ _ _ Hst)
    as [[_ ->]|[(c&p&Hi&_&_&->)|[(r&Hi&_&->)|[(e&Hi&_&->)|
        [(req&k&Hi&_&->)|(secs&k&Hi&_&->)]]]]];
    [exists bs; auto|..];
    destruct (Forall2_lookup_l _ _ _ _ _ Hall Hi) as (b & Hb & Hc);
    cbn [tasks gcalls].
  - exists bs. split; [|exact Hsum].
    rewrite <- (list_insert_id bs i b Hb).
    apply Forall2_insert; [exact Hall|].
    intros c0 [= <-]. apply Hc. reflexivity.
  - exists bs. split; [|exact Hsum].
    rewrite <- (list_insert_id bs i b Hb).
    apply Forall2_insert; [exact Hall|]. intros c0 Hc0. discriminate Hc0.
  - exists bs. split; [|exact Hsum].
    rewrite <- (list_insert_id bs i b Hb).
    apply Forall2_insert; [exact Hall|]. intros c0 Hc0. discriminate Hc0.
  - specialize (Hc _ eq_refl). cbn in Hc.
    destruct b as [|b]; [contradiction|].
    exists (<[i := b]> bs). split.
    + apply Forall2_insert; [exact Hall|].
      intros c0 [= <-]. apply Hc.
    + pose proof (sum_list_insert bs i (S b) b Hb). cbn [gcalls]. lia.
  - specialize (Hc _ eq_refl). cbn in Hc.
    exists bs. split; [|exact Hsum].
    rewrite <- (list_insert_id bs i b Hb).
    apply Forall2_insert; [exact Hall|].
    intros c0 [= <-]. exact Hc.
Qed.

Lemma sum_list_replicate n k :
  sum_list (replicate k n) = (n * k)%nat.
Proof. induction k as [|k IH]; cbn; lia. Qed.

(** A gather whose coroutines call at most [n] times each makes at most
    [n] calls per coroutine. *)
Lemma run_schedule_calls n max_concurrency (coros : list (coro R)) calls0
    sched out g' sched' :
  Forall (calls_within n) coros ->
  run_schedule api sched (gather_start max_concurrency coros calls0)
  = (out, g', sched') ->
  (gcalls g' <= calls0 + n * length coros)%nat.
Proof.
  intros Hcoros.
  apply (run_schedule_rule api (covered (calls0 + n * length coros))
           (fun _ g' => (gcalls g' <= calls0 + n * length coros)%nat)).
  - intros g rs (bs & _ & Hsum) _. lia.
  - intros g (bs & _ & Hsum). lia.
  - intros i g e g1 Hcov Hst.
    destruct (covered_step _ _ _ _ _ Hcov Hst) as (bs & _ & Hsum). lia.
  - intros i g g1 Hcov Hst. eapply covered_step; eauto.
  - exists (replicate (length coros) n). split.
    + cbn [gather_start tasks].
      clear -Hcoros. induction Hcoros as [|c coros Hc _ IH]; cbn;
        constructor; [|exact IH].
      intros c0 [= <-]. exact Hc.
    + cbn [gather_start gcalls]. rewrite sum_list_replicate. lia.
Qed.
End BudgetFacts.

Section RequestFacts.
Context {R : Type}.
Variable api : nat -> request -> api_outcome.
Variable Q : nat -> request -> Prop.

Lemma proper_step i (g g' : gstate R) oe :
  proper Q g -> step api i g = (oe, g') -> proper Q g'.
Proof.
  intros [Hts Hlog] Hst.
  destruct (step_cases api _ _ _ _ Hst)
    as [[_ ->]|[(c&p&Hi&_&_&->)|[(r&Hi&_&->)|[(e&Hi&_&->)|
        [(req&k&Hi&_&->)|(secs&k&Hi&_&->)]]]]];
    [split; assumption|..];
    pose proof (Hts _ _ _ Hi eq_refl) as Hc; cbn in Hc;
    (split; cbn [tasks glog];
     [intros j t c0 Hj Hpc; destruct (decide (j = i)) as [->|Hne];
      [rewrite list_lookup_insert_eq in Hj
         by (apply lookup_lt_is_Some; eauto);
       inversion Hj; subst t; cbn in Hpc; inversion Hpc; subst c0
      |rewrite list_lookup_insert_ne in Hj by congruence;
       eapply Hts; eauto]
     |intros j req0 answer0 Hin; apply elem_of_app in Hin as [Hin|Hin];
      [eapply Hlog; eauto
      |apply list_elem_of_singleton in Hin; inversion Hin; subst]]).
  - exact Hc.
  - apply Hc.
  - apply Hc.
  - exact Hc.
Qed.

(** Every request task [i] sends is one its coroutine may send. *)
Lemma run_schedule_requests max_concurrency (coros : list (coro R)) calls0
    sched out g' sched' :
  (forall i c, coros !! i = Some c -> sends_only (Q i) c) ->
  run_schedule api sched (gather_start max_concurrency coros calls0)
  = (out, g', sched') ->
  forall i req answer, EvCall i req answer ∈ glog g' -> Q i req.
Proof.
  intros Hcoros.
  apply (run_schedule_rule api (proper Q)
           (fun _ g' => forall i req answer,
              EvCall i req answer ∈ glog g' -> Q i req)).
  - intros g rs [_ Hlog] _. exact Hlog.
  - intros g [_ Hlog]. exact Hlog.
  - intros i g e g1 Hp Hst.
    destruct (proper_step _ _ _ _ Hp Hst) as [_ Hlog]. exact Hlog.
  - intros i g g1 Hp Hst. eapply proper_step; eauto.
  - split; cbn [gather_start tasks glog].
    + intros i t c Hi Hpc. rewrite list_lookup_fmap in Hi.
      destruct (coros !! i) as [c'|] eqn:Hc; [|discriminate].
      inversion Hi; subst t. cbn in Hpc. inversion Hpc; subst c'.
      eapply Hcoros; eauto.
    + intros i req answer Hin. apply list_elem_of_singleton in Hin.
      discriminate.
Qed.
End RequestFacts.

Section UnitFacts.
Context `{Collaborators}.

(** After a response the loop returns, raises, or sleeps one second and
    goes on with the next attempt. *)
Lemma after_response_shape u attempt last_error next response :
  (exists r, after_response u attempt last_error next response = Ret r)
  \/ (exists e, after_response u attempt last_error next response = Raise e)
  \/ (exists last_error',
        after_response u attempt last_error next response
        = AwaitSleep 1 (next last_error')).
Proof.
  unfold after_response, on_decode_error, on_exception.
  destruct response as [choices|e].
  - destruct (first_content choices) as [raw|e].
    + destruct (json_loads raw) as [[pos msg]|data].
      * destruct (attempt <? max_retries u - 1)%nat; eauto.
      * destruct (model_validate (response_model u) data) as [v|e]; eauto.
        destruct (attempt <? max_retries u - 1)%nat; eauto.
    + destruct (attempt <? max_retries u - 1)%nat; eauto.
  - destruct (attempt <? max_retries u - 1)%nat; eauto.
Qed.

Lemma attempts_from_calls_within u remaining :
  forall attempt last_error,
    calls_within remaining (attempts_from u remaining attempt last_error).
Proof.
  induction remaining as [|remaining IH]; intros attempt last_error;
    [exact I|].
  rewrite attempts_from_S.
  destruct (build_prompt u) as [prompt|e].
  - unfold generate. cbn [calls_within]. intros answer.
    destruct (after_response_shape u attempt last_error
                (attempts_from u remaining (S attempt)) (api_result answer))
      as [[r ->]|[[e ->]|[le' ->]]]; cbn; auto.
  - unfold on_exception.
    destruct (attempt <? max_retries u - 1)%nat; [|exact I].
    cbn [calls_within].
    apply (calls_within_mono _ remaining); [lia|apply IH].
Qed.

Lemma retry_loop_calls_within u :
  calls_within (max_retries u) (retry_loop u).
Proof. apply attempts_from_calls_within. Qed.

Lemma attempts_from_sends_only u remaining :
  forall attempt last_error,
    sends_only (request_of u) (attempts_from u remaining attempt last_error).
Proof.
  induction remaining as [|remaining IH]; intros attempt last_error;
    [exact I|].
  rewrite attempts_from_S.
  destruct (build_prompt u) as [prompt|e] eqn:Hprompt.
  - unfold generate. cbn [sends_only]. split.
    + exists prompt. auto.
    + intros answer.
      destruct (after_response_shape u attempt last_error
                  (attempts_from u remaining (S attempt))
                  (api_result answer))
        as [[r ->]|[[e ->]|[le' ->]]]; cbn; auto.
  - unfold on_exception.
    destruct (attempt <? max_retries u - 1)%nat; [|exact I].
    cbn [sends_only]. apply IH.
Qed.

Lemma retry_loop_sends_only u : sends_only (request_of u) (retry_loop u).
Proof. apply attempts_from_sends_only. Qed.

Lemma run_coro_calls_within {R} api (c : coro R) :
  forall n calls0,
    calls_within n c ->
    (attempts_made (snd (run_coro api calls0 c)) <= n)%nat.
Proof.
  induction c as [r|e|req k IH|secs k IH]; intros n calls0 Hc.
  - cbn. lia.
  - cbn. lia.
  - rewrite run_coro_generate. cbn [snd].
    rewrite attempts_made_cons_call. cbn in Hc.
    destruct n as [|n]; [contradiction|].
    specialize (IH (api calls0 req) n (S calls0) (Hc _)). lia.
  - rewrite run_coro_sleep. cbn [snd]. rewrite attempts_made_cons_sleep.
    apply IH. exact Hc.
Qed.
End UnitFacts.

Section CallFacts.
Context `{Collaborators}.

Lemma sum_list_gather_sizes_app evs evs' :
  sum_list (gather_sizes (evs ++ evs'))
  = (sum_list (gather_sizes evs) + sum_list (gather_sizes evs'))%nat.
Proof.
  rewrite gather_sizes_app.
  induction (gather_sizes evs) as [|k ks IH]; cbn; [reflexivity|].
  cbn in IH. rewrite IH. lia.
Qed.

Lemma bounded_gather_calls {R} n max_concurrency (coros : list (coro R)) w
    out w' evs :
  Forall (calls_within n) coros ->
  _bounded_gather max_concurrency coros w = (out, w', evs) ->
  (calls w' <= calls w + n * sum_list (gather_sizes evs))%nat.
Proof.
  intros Hcoros Hrun.
  pose proof (bounded_gather_sizes_any max_concurrency coros w) as Hsz.
  rewrite Hrun in Hsz. cbn [snd] in Hsz.
  unfold _bounded_gather in Hrun.
  destruct (Z.ltb_spec max_concurrency 0) as [Hneg|Hpos].
  - inversion Hrun; subst. lia.
  - rewrite (Hsz Hpos).
    destruct (run_schedule _ _ _) as [[out0 g] sched'] eqn:Hsched.
    inversion Hrun; subst. cbn [calls].
    pose proof (run_schedule_calls _ n _ _ _ _ _ _ _ Hcoros Hsched).
    cbn. lia.
Qed.

Lemma page_loop_calls {P} n max_concurrency
    (inputs : P -> res (json * list (coro json))) pages :
  (forall p page_number coros,
     inputs p = Ok (page_number, coros) -> Forall (calls_within n) coros) ->
  forall acc w out w' evs,
    page_loop max_concurrency inputs pages acc w = (out, w', evs) ->
    (calls w' <= calls w + n * sum_list (gather_sizes evs))%nat.
Proof.
  intros Hinputs. induction pages as [|p pages IH];
    intros acc w out w' evs Hrun.
  - rewrite page_loop_nil in Hrun. inversion Hrun; subst. lia.
  - rewrite page_loop_cons in Hrun.
    destruct (inputs p) as [[page_number coros]|e0] eqn:Hin.
    2:{ inversion Hrun; subst. lia. }
    destruct (_bounded_gather max_concurrency coros w)
      as [[[rs|e1|] w1] evs1] eqn:Hg;
      pose proof (bounded_gather_calls n _ _ _ _ _ _
                    (Hinputs _ _ _ Hin) Hg) as Hfirst.
    + destruct (page_loop _ _ _ _ w1) as [[out2 w2] evs2] eqn:Hrest.
      inversion Hrun; subst.
      pose proof (IH _ _ _ _ _ Hrest).
      rewrite sum_list_gather_sizes_app. lia.
    + inversion Hrun; subst. exact Hfirst.
    + inversion Hrun; subst. exact Hfirst.
Qed.

Lemma stage_run_calls {P} n max_concurrency restaurant_name images
    (pages : res (list P)) inputs w out w' evs :
  (forall imgs p page_number coros,
     inputs imgs p = Ok (page_number, coros) ->
     Forall (calls_within n) coros) ->
  stage_run max_concurrency restaurant_name images pages inputs w
  = (out, w', evs) ->
  (calls w' <= calls w + n * sum_list (gather_sizes evs))%nat.
Proof.
  intros Hinputs. rewrite stage_run_cases. intros Hrun.
  destruct images as [imgs|e0]; [|inversion Hrun; subst; lia].
  destruct pages as [ps|e0]; [|inversion Hrun; subst; lia].
  destruct (page_loop _ _ _ _ w) as [[[all_pages|e0|] w1] evs1] eqn:Hloop;
    inversion Hrun; subst;
    eapply page_loop_calls; eauto.
Qed.

Lemma Forall_map_calls_within {A} n (f : A -> coro json) xs :
  (forall x, calls_within n (f x)) -> Forall (calls_within n) (map f xs).
Proof.
  intros Hf. induction xs as [|x xs IH]; cbn; constructor; auto.
Qed.

Lemma phase2_units_calls restaurant_name imgs p page_number coros :
  phase2_units restaurant_name imgs p = Ok (page_number, coros) ->
  Forall (calls_within 3) coros.
Proof.
  unfold phase2_units.
  destruct (Phase2Extractor.page_inputs imgs p) as [[[pn img] cats]|e];
    cbn; [|discriminate].
  intros [= <- <-]. apply Forall_map_calls_within. intros cat.
  apply (retry_loop_calls_within
           (Phase2Extractor.unit_of restaurant_name pn img cat)).
Qed.

Lemma phase3_units_calls restaurant_name imgs p page_number coros :
  phase3_units restaurant_name imgs p = Ok (page_number, coros) ->
  Forall (calls_within 2) coros.
Proof.
  unfold phase3_units.
  destruct (Phase3Extractor.page_inputs imgs p) as [[[pn img] cats]|e];
    cbn; [|discriminate].
  intros [= <- <-]. apply Forall_map_calls_within. intros cat.
  apply (retry_loop_calls_within
           (Phase3Extractor.unit_of restaurant_name pn img cat)).
Qed.

Lemma phase4_units_calls restaurant_name imgs p page_number coros :
  phase4_units restaurant_name imgs p = Ok (page_number, coros) ->
  Forall (calls_within 2) coros.
Proof.
  unfold phase4_units.
  destruct (Phase4Extractor.page_inputs imgs (fst p) (snd p))
    as [[[[pn img] cats] bases]|e]; cbn; [|discriminate].
  intros [= <- <-]. unfold Phase4Extractor.page_coros.
  apply Forall_map_calls_within. intros [cat base].
  apply (retry_loop_calls_within
           (Phase4Extractor.unit_of restaurant_name pn img cat base)).
Qed.

Lemma phase1_calls max_concurrency restaurant_name pdf_path w out w' evs :
  Phase1Extractor.extract_all_pages max_concurrency restaurant_name pdf_path
    w = (out, w', evs) ->
  (calls w' <= calls w + 2 * sum_list (gather_sizes evs))%nat.
Proof.
  rewrite phase1_stage_cases. intros Hrun.
  destruct (convert_to_images pdf_path) as [images|e0];
    [|inversion Hrun; subst; lia].
  destruct (_bounded_gather _ _ w) as [[[pages|e0|] w1] evs1] eqn:Hg;
    inversion Hrun; subst;
    (eapply (bounded_gather_calls 2); [|exact Hg]);
    unfold Phase1Extractor.page_coros;
    apply Forall_map_calls_within; intros [page_idx img];
    apply (retry_loop_calls_within
             (Phase1Extractor.unit_of restaurant_name (JInt page_idx) img)).
Qed.
End CallFacts.

(** The provider is called at most [max_retries] times per unit.  A unit
    that runs alone makes at most [max_retries] calls, and a stage, whatever
    its outcome and whatever the schedule, makes at most 2 (phases 1, 3 and
    4) or 3 (phase 2) calls per unit it handed to a gather. *)
Theorem provider_calls_bounded `{Collaborators} (max_concurrency : Z)
    (restaurant_name pdf_path : string) :
  (forall u api calls0,
     (attempts_made (snd (run_coro api calls0 (retry_loop u)))
      <= max_retries u)%nat)
  /\ (forall w out w' evs,
        Phase1Extractor.extract_all_pages max_concurrency restaurant_name
          pdf_path w = (out, w', evs) ->
        (calls w' <= calls w + 2 * sum_list (gather_sizes evs))%nat)
  /\ (forall payload w out w' evs,
        Phase2Extractor.extract_all_pages max_concurrency restaurant_name
          payload pdf_path w = (out, w', evs) ->
        (calls w' <= calls w + 3 * sum_list (gather_sizes evs))%nat)
  /\ (forall payload w out w' evs,
        Phase3Extractor.extract_all_pages max_concurrency restaurant_name
          payload pdf_path w = (out, w', evs) ->
        (calls w' <= calls w + 2 * sum_list (gather_sizes evs))%nat)
  /\ (forall items_payload bases_payload w out w' evs,
        Phase4Extractor.extract_all_pages max_concurrency restaurant_name
          items_payload bases_payload pdf_path w = (out, w', evs) ->
        (calls w' <= calls w + 2 * sum_list (gather_sizes evs))%nat).
Proof.
  split; [|split; [|split; [|split]]].
  - intros u api calls0. apply run_coro_calls_within.
    apply retry_loop_calls_within.
  - intros w out w' evs. apply phase1_calls.
  - intros payload w out w' evs. rewrite phase2_stage_shape.
    apply stage_run_calls. intros imgs p pn coros.
    apply phase2_units_calls.
  - intros payload w out w' evs. rewrite phase3_stage_shape.
    apply stage_run_calls. intros imgs p pn coros.
    apply phase3_units_calls.
  - intros items_payload bases_payload w out w' evs.
    rewrite phase4_stage_shape.
    apply stage_run_calls. intros imgs p pn coros.
    apply phase4_units_calls.
Qed.

Section RequestMatchFacts.
Context `{Collaborators}.

Lemma bounded_gather_requests {R} (Q : nat -> request -> Prop)
    max_concurrency (coros : list (coro R)) w out w' evs :
  (forall i c, coros !! i = Some c -> sends_only (Q i) c) ->
  _bounded_gather max_concurrency coros w = (out, w', evs) ->
  forall i req answer, EvCall i req answer ∈ evs -> Q i req.
Proof.
  intros Hcoros Hrun i req answer Hin.
  destruct (bounded_gather_run _ _ _ _ _ _ Hrun)
    as [(_&_&->)|(_&g&sched'&Hsched&->)].
  - apply elem_of_nil in Hin. contradiction.
  - eapply run_schedule_requests; eauto.
Qed.

Lemma sends_only_impl {R} (Q Q' : request -> Prop) (c : coro R) :
  sends_only Q c -> (forall req, Q req -> Q' req) -> sends_only Q' c.
Proof.
  intros Hc Himpl. induction c as [r|e|req k IH|secs k IH]; cbn in *; auto.
  destruct Hc as [Hq Hk]. split; auto.
Qed.

Lemma extract_page_log {R} max_concurrency (coros : list (coro R))
    (f : list R -> json) w out w' evs :
  (category_results ← _bounded_gather max_concurrency coros;
   mret (f category_results)) w = (out, w', evs) ->
  exists out0, _bounded_gather max_concurrency coros w = (out0, w', evs).
Proof.
  unfold mbind, M_bind, mret, M_ret.
  destruct (_bounded_gather max_concurrency coros w) as [[[rs|e|] w1] evs1];
    intros [= <- <- <-]; rewrite ?app_nil_r; eauto.
Qed.
End RequestMatchFacts.

(** Every request goes out with the prompt and the image of its own unit.
    In phase 1 every call of task [i] carries the prompt of page [i + 1],
    the image of that page as a PNG data URL and the [Categories] schema; in
    the page gathers of phases 2, 3 and 4 every call of task [j] carries the
    prompt of the category (and base) at index [j], the image of the page
    and the schema of the phase.  A retry sends the same request again. *)
Theorem requests_match_units `{Collaborators} (max_concurrency : Z)
    (restaurant_name : string) :
  (forall pdf_path images w out w' evs i req answer,
     convert_to_images pdf_path = Ok images ->
     Phase1Extractor.extract_all_pages max_concurrency restaurant_name
       pdf_path w = (out, w', evs) ->
     EvCall i req answer ∈ evs ->
     exists img prompt,
       images !! i = Some img /\
       phase1_prompt restaurant_name (JInt (Z.of_nat i + 1)) = Ok prompt /\
       req = mk_request prompt ("data:image/png;base64," ++ img)
               Categories)
  /\ (forall page_number img cats w out w' evs j req answer,
        Phase2Extractor.extract_page max_concurrency restaurant_name
          page_number img cats w = (out, w', evs) ->
        EvCall j req answer ∈ evs ->
        exists cat prompt,
          cats !! j = Some cat /\
          phase2_prompt restaurant_name page_number cat = Ok prompt /\
          req = mk_request prompt ("data:image/png;base64," ++ img)
                  CategoryWithItems)
  /\ (forall page_number img cats w out w' evs j req answer,
        Phase3Extractor.extract_page max_concurrency restaurant_name
          page_number img cats w = (out, w', evs) ->
        EvCall j req answer ∈ evs ->
        exists cat prompt,
          cats !! j = Some cat /\
          phase3_prompt restaurant_name page_number
            [("category", JObj cat)] = Ok prompt /\
          req = mk_request prompt ("data:image/png;base64," ++ img)
                  CategoryBase)
  /\ (forall page_number img cats bases w out w' evs j req answer,
        Phase4Extractor.extract_page max_concurrency restaurant_name
          page_number img cats bases w = (out, w', evs) ->
        EvCall j req answer ∈ evs ->
        exists cat base prompt,
          cats !! j = Some cat /\ bases !! j = Some base /\
          phase4_prompt restaurant_name page_number
            [("category", JObj cat)] [("category_base", JObj base)]
          = Ok prompt /\
          req = mk_request prompt ("data:image/png;base64," ++ img)
                  CategoryItemAddons).
Proof.
  split; [|split; [|split]].
  - intros pdf_path images w out w' evs i req answer Himg Hrun Hin.
    rewrite phase1_stage_cases, Himg in Hrun.
    assert (Hg : exists out0,
      _bounded_gather max_concurrency
        (Phase1Extractor.page_coros restaurant_name images) w
      = (out0, w', evs)).
    { destruct (_bounded_gather _ _ w) as [[[pages|e|] w1] evs1];
        inversion Hrun; subst; eauto. }
    destruct Hg as [out0 Hg].
    apply (bounded_gather_requests
             (fun i req => exists img prompt,
                images !! i = Some img /\
                phase1_prompt restaurant_name (JInt (Z.of_nat i + 1))
                = Ok prompt /\
                req = mk_request prompt ("data:image/png;base64," ++ img)
                        Categories)
             _ _ _ _ _ _) with (3 := Hin) (2 := Hg).
    intros k c Hk. unfold Phase1Extractor.page_coros in Hk.
    rewrite list_lookup_fmap in Hk.
    destruct (lookup_lt_is_Some_2 images k) as [img Himg'].
    { rewrite <- (length_enumerate 1).
      destruct (enumerate 1 images !! k) eqn:Hen; [|discriminate].
      apply lookup_lt_is_Some. eauto. }
    rewrite (enumerate_lookup 1 images k img Himg') in Hk.
    inversion Hk; subst c.
    eapply sends_only_impl; [apply retry_loop_sends_only|].
    intros req0 (prompt & Hprompt & ->). exists img, prompt.
    replace (Z.of_nat k + 1) with (1 + Z.of_nat k) by lia. auto.
  - intros page_number img cats w out w' evs j req answer Hrun Hin.
    destruct (extract_page_log _ _ _ _ _ _ _ Hrun) as [out0 Hg].
    apply (bounded_gather_requests
             (fun j req => exists cat prompt,
                cats !! j = Some cat /\
                phase2_prompt restaurant_name page_number cat = Ok prompt /\
                req = mk_request prompt ("data:image/png;base64," ++ img)
                        CategoryWithItems)
             _ _ _ _ _ _) with (3 := Hin) (2 := Hg).
    intros k c Hk. rewrite list_lookup_fmap in Hk.
    destruct (cats !! k) as [cat|] eqn:Hcat; [|discriminate].
    inversion Hk; subst c.
    eapply sends_only_impl; [apply retry_loop_sends_only|].
    intros req0 (prompt & Hprompt & ->). exists cat, prompt. auto.
  - intros page_number img cats w out w' evs j req answer Hrun Hin.
    destruct (extract_page_log _ _ _ _ _ _ _ Hrun) as [out0 Hg].
    apply (bounded_gather_requests
             (fun j req => exists cat prompt,
                cats !! j = Some cat /\
                phase3_prompt restaurant_name page_number
                  [("category", JObj cat)] = Ok prompt /\
                req = mk_request prompt ("data:image/png;base64," ++ img)
                        CategoryBase)
             _ _ _ _ _ _) with (3 := Hin) (2 := Hg).
    intros k c Hk. rewrite list_lookup_fmap in Hk.
    destruct (cats !! k) as [cat|] eqn:Hcat; [|discriminate].
    inversion Hk; subst c.
    eapply sends_only_impl; [apply retry_loop_sends_only|].
    intros req0 (prompt & Hprompt & ->). exists cat, prompt. auto.
  - intros page_number img cats bases w out w' evs j req answer Hrun Hin.
    destruct (extract_page_log _ _ _ _ _ _ _ Hrun) as [out0 Hg].
    apply (bounded_gather_requests
             (fun j req => exists cat base prompt,
                cats !! j = Some cat /\ bases !! j = Some base /\
                phase4_prompt restaurant_name page_number
                  [("category", JObj cat)] [("category_base", JObj base)]
                = Ok prompt /\
                req = mk_request prompt ("data:image/png;base64," ++ img)
                        CategoryItemAddons)
             _ _ _ _ _ _) with (3 := Hin) (2 := Hg).
    intros k c Hk. apply page_coros_lookup in Hk
      as (cat & base & Hcat & Hbase & ->).
    eapply sends_only_impl; [apply retry_loop_sends_only|].
    intros req0 (prompt & Hprompt & ->). exists cat, base, prompt. auto.
Qed.

(** Two prompt variables are constant in the pipeline.  Phases 3 and 4
    hand the prompt builder the category wrapped in a one-key dict, and the
    builder looks for ["items"] and ["base_price"] in the dict it is given:
    so [items_count] is always 0 and [has_pricing] always false, whatever
    the category holds.  Called on an unwrapped dict the builder gives the
    number of items and the truth value of the base price. *)
Theorem wrapped_prompt_variables `{Collaborators} (restaurant_name : string)
    (page_number : json) (page_image : string) :
  (forall category,
     build_prompt
       (Phase3Extractor.unit_of restaurant_name page_number page_image
          category)
     = render "phase3.j2"
         [("restaurant_name", JStr restaurant_name);
          ("page_number", page_number);
          ("category", JObj [("category", JObj category)]);
          ("items_count", JInt 0)])
  /\ (forall category category_base,
        build_prompt
          (Phase4Extractor.unit_of restaurant_name page_number page_image
             category category_base)
        = render "phase4.j2"
            [("restaurant_name", JStr restaurant_name);
             ("page_number", page_number);
             ("category", JObj [("category", JObj category)]);
             ("category_base", JObj [("category_base", JObj category_base)]);
             ("has_pricing", JBool false)])
  /\ (forall category items,
        dict_lookup "items" category = Some (JArr items) ->
        phase3_prompt restaurant_name page_number category
        = render "phase3.j2"
            [("restaurant_name", JStr restaurant_name);
             ("page_number", page_number);
             ("category", JObj category);
             ("items_count", JInt (Z.of_nat (length items)))])
  /\ (forall category category_base price,
        dict_lookup "base_price" category_base = Some price ->
        phase4_prompt restaurant_name page_number category category_base
        = render "phase4.j2"
            [("restaurant_name", JStr restaurant_name);
             ("page_number", page_number);
             ("category", JObj category);
             ("category_base", JObj category_base);
             ("has_pricing", JBool (py_truthy price))]).
Proof.
  split; [|split; [|split]].
  - intros category. reflexivity.
  - intros category category_base. reflexivity.
  - intros category items Hitems. unfold phase3_prompt, dict_get.
    rewrite Hitems. reflexivity.
  - intros category category_base price Hprice.
    unfold phase4_prompt, dict_get. rewrite Hprice. reflexivity.
Qed.

Section CountFacts.
Context `{Collaborators}.

Lemma count_pages_no_categories pages ncat nitem :
  Forall (fun page => exists d,
            page = JObj d /\ dict_lookup "categories" d = None) pages ->
  count_pages pages ncat nitem = Ok (ncat, nitem).
Proof.
  intros Hall. revert ncat nitem.
  induction Hall as [|page pages (d & -> & Hd) _ IH]; intros ncat nitem;
    [reflexivity|].
  rewrite count_pages_cons. unfold py_get, dict_get. rewrite Hd.
  cbn. rewrite IH. do 2 f_equal. lia.
Qed.

Lemma phase1_pages_shape max_concurrency restaurant_name pdf_path w doc w'
    evs :
  Phase1Extractor.extract_all_pages max_concurrency restaurant_name pdf_path
    w = (Returned doc, w', evs) ->
  exists pages,
    doc = stage_document restaurant_name pages /\
    Forall (fun page => exists page_number dumped,
              page = JObj [("page_number", page_number);
                           ("data", JObj dumped)]) pages.
Proof.
  rewrite phase1_stage_cases. intros Hrun.
  destruct (convert_to_images pdf_path) as [images|e0]; [|discriminate].
  destruct (_bounded_gather _ _ w) as [[[pages|e0|] w1] evs1] eqn:Hg;
    inversion Hrun; subst.
  exists pages. split; [reflexivity|].
  destruct (bounded_gather_results _ _ _ _ _ _ Hg) as [Hlen Hres].
  apply Forall_lookup_2. intros i page Hi.
  destruct (lookup_lt_is_Some_2
              (Phase1Extractor.page_coros restaurant_name images) i)
    as [c Hc].
  { rewrite <- Hlen. apply lookup_lt_is_Some. eauto. }
  destruct (Hres i c Hc) as (r & Hr & Hrep).
  rewrite Hi in Hr. inversion Hr; subst r.
  unfold Phase1Extractor.page_coros in Hc. rewrite list_lookup_fmap in Hc.
  destruct (enumerate 1 images !! i) as [[page_idx img]|]; [|discriminate].
  inversion Hc; subst c.
  apply replay_attempts_from_ok in Hrep as [dumped ->].
  cbn. eauto.
Qed.
End CountFacts.

(** A document of phase 1 counts as empty in [get_job].  Its pages keep the
    categories under ["data"], and [get_job] reads ["categories"] of each
    page: for every document phase 1 returns, the category count and the
    item count are both 0. *)
Theorem phase1_document_counts_nothing `{Collaborators} (max_concurrency : Z)
    (restaurant_name pdf_path : string) (w : world) (doc : json)
    (w' : world) (evs : list event) :
  Phase1Extractor.extract_all_pages max_concurrency restaurant_name pdf_path
    w = (Returned doc, w', evs) ->
  get_job_counts doc = Ok (0, 0).
Proof.
  intros Hrun.
  destruct (phase1_pages_shape _ _ _ _ _ _ _ Hrun) as (pages & -> & Hall).
  unfold get_job_counts, stage_document.
  cbn [py_truthy length Nat.eqb negb].
  cbn [py_get dict_get dict_lookup String.eqb Ascii.eqb Bool.eqb].
  cbn [mbind res_bind py_iter].
  apply count_pages_no_categories.
  eapply Forall_impl; [exact Hall|].
  intros page (pn & dumped & ->). eexists. split; reflexivity.
Qed.

Section ExhaustionFacts.
Context `{Collaborators}.

Lemma replay_attempts_from u prompt :
  build_prompt u = Ok prompt ->
  forall remaining attempt last_error answers result,
    (attempt + S remaining = max_retries u)%nat ->
    replay (attempts_from u (S remaining) attempt last_error) answers
    = Some result ->
    match result with
    | Err e =>
        length answers = S remaining /\
        Forall (fun a => attempt_error u a <> None) answers /\
        exists a, last answers = Some a /\ attempt_error u a = Some e
    | Ok r =>
        exists front a,
          answers = front ++ [a] /\
          (length answers <= S remaining)%nat /\
          Forall (fun a => attempt_error u a <> None) front /\
          attempt_error u a = None
    end.
Proof.
  intros Hprompt.
  induction remaining as [|remaining IH];
    intros attempt last_error answers result Hsum Hrep;
    rewrite attempts_from_S, Hprompt in Hrep; unfold generate in Hrep;
    cbn [replay] in Hrep;
    (destruct answers as [|a answers]; [discriminate|]);
    destruct (attempt_error u a) as [e'|] eqn:Ha.
  - destruct (after_response_failure u attempt last_error
                (attempts_from u 0 (S attempt)) _ _ Ha) as [le' Heq].
    rewrite Heq in Hrep.
    replace (attempt <? max_retries u - 1)%nat with false in Hrep
      by (symmetry; apply Nat.ltb_ge; lia).
    cbn [replay] in Hrep. destruct answers; [|discriminate].
    inversion Hrep; subst result. split; [reflexivity|]. split.
    + constructor; [congruence|constructor].
    + exists a. auto.
  - destruct (after_response_success u attempt last_error
                (attempts_from u 0 (S attempt)) _ Ha) as [dumped Heq].
    rewrite Heq in Hrep. cbn [replay] in Hrep.
    destruct answers; [|discriminate]. inversion Hrep; subst result.
    exists [], a. cbn. repeat split; [lia|constructor|exact Ha].
  - destruct (after_response_failure u attempt last_error
                (attempts_from u (S remaining) (S attempt)) _ _ Ha)
      as [le' Heq].
    rewrite Heq in Hrep.
    replace (attempt <? max_retries u - 1)%nat with true in Hrep
      by (symmetry; apply Nat.ltb_lt; lia).
    cbn [replay] in Hrep.
    specialize (IH (S attempt) le' answers result ltac:(lia) Hrep).
    destruct result as [r|e].
    + destruct IH as (front & a0 & -> & Hlen & Hfront & Ha0).
      exists (a :: front), a0. cbn [app length] in *.
      repeat split; [lia| |exact Ha0].
      constructor; [congruence|exact Hfront].
    + destruct IH as (Hlen & Hall & a0 & Hlast & Ha0).
      split; [cbn; lia|]. split.
      * constructor; [congruence|exact Hall].
      * exists a0. split; [|exact Ha0].
        rewrite last_cons, Hlast. reflexivity.
  - destruct (after_response_success u attempt last_error
                (attempts_from u (S remaining) (S attempt)) _ Ha)
      as [dumped Heq].
    rewrite Heq in Hrep. cbn [replay] in Hrep.
    destruct answers; [|discriminate]. inversion Hrep; subst result.
    exists [], a. cbn. repeat split; [lia|constructor|exact Ha].
Qed.
End ExhaustionFacts.

(** A unit never gives up early.  If a unit whose prompt renders ends with
    an exception, the provider gave it exactly [max_retries] answers, every
    one of them failed, and the exception is the error of the last one.  If
    it returns, every answer but the last failed, the last one is valid, and
    there were at most [max_retries] answers. *)
Theorem unit_fails_only_when_exhausted `{Collaborators} :
  (forall u prompt answers e,
     build_prompt u = Ok prompt ->
     (0 < max_retries u)%nat ->
     replay (retry_loop u) answers = Some (Err e) ->
     length answers = max_retries u /\
     Forall (fun a => attempt_error u a <> None) answers /\
     exists a, last answers = Some a /\ attempt_error u a = Some e)
  /\ (forall u prompt answers r,
        build_prompt u = Ok prompt ->
        (0 < max_retries u)%nat ->
        replay (retry_loop u) answers = Some (Ok r) ->
        exists front a,
          answers = front ++ [a] /\
          (length answers <= max_retries u)%nat /\
          Forall (fun a => attempt_error u a <> None) front /\
          attempt_error u a = None)
  /\ (forall max_concurrency us w e w' evs,
        0 <= max_concurrency ->
        Forall (fun u => succeeds (build_prompt u) /\ (0 < max_retries u)%nat)
          us ->
        _bounded_gather max_concurrency (map retry_loop us) w
        = (Raised e, w', evs) ->
        exists i u a,
          us !! i = Some u /\
          length (answers_of i evs) = max_retries u /\
          Forall (fun a => attempt_error u a <> None) (answers_of i evs) /\
          last (answers_of i evs) = Some a /\
          attempt_error u a = Some e).
Proof.
  split; [|split].
  - intros u prompt answers e Hprompt Hpos Hrep. unfold retry_loop in Hrep.
    destruct (max_retries u) as [|n] eqn:Hmax; [lia|].
    apply (replay_attempts_from u prompt Hprompt n 0%nat None answers
             (Err e)); [lia|exact Hrep].
  - intros u prompt answers r Hprompt Hpos Hrep. unfold retry_loop in Hrep.
    destruct (max_retries u) as [|n] eqn:Hmax; [lia|].
    apply (replay_attempts_from u prompt Hprompt n 0%nat None answers
             (Ok r)); [lia|exact Hrep].
  - intros max_concurrency us w e w' evs Hlimit Hus Hrun.
    destruct (bounded_gather_raised _ _ _ _ _ _ Hrun)
      as [[Hneg _]|(i & c & Hc & Hrep)]; [lia|].
    rewrite list_lookup_fmap in Hc.
    destruct (us !! i) as [u|] eqn:Hu; [|discriminate].
    inversion Hc; subst c.
    destruct (Forall_lookup_1 _ _ _ _ Hus Hu) as [[prompt Hprompt] Hpos].
    unfold retry_loop in Hrep.
    destruct (max_retries u) as [|n] eqn:Hmax; [lia|].
    destruct (replay_attempts_from u prompt Hprompt n 0%nat None
                (answers_of i evs) (Err e) ltac:(lia) Hrep)
      as (Hlen & Hall & a & Hlast & Ha).
    exists i, u, a. rewrite Hmax. auto.
Qed.

Section RoundTripFacts.
Context `{Collaborators}.

Lemma after_response_validated u attempt last_error next answer :
  attempt_error u answer = None ->
  exists data v,
    model_validate (response_model u) data = Ok v /\
    after_response u attempt last_error next (api_result answer)
    = Ret (result_of u (model_dump v)).
Proof.
  unfold attempt_error, after_response.
  destruct (api_result answer) as [choices|e0]; [|discriminate].
  destruct (first_content choices) as [raw|e0]; [|discriminate].
  destruct (json_loads raw) as [[pos msg]|data]; [discriminate|].
  destruct (model_validate (response_model u) data) as [v|e0] eqn:Hv;
    [|discriminate].
  eauto.
Qed.

(** What a unit returns is [result_of] the dump of a validated instance. *)
Lemma replay_attempts_from_validated u remaining :
  forall attempt last_error answers r,
    replay (attempts_from u remaining attempt last_error) answers
    = Some (Ok r) ->
    exists data v,
      model_validate (response_model u) data = Ok v /\
      r = result_of u (model_dump v).
Proof.
  induction remaining as [|remaining IH];
    intros attempt last_error answers r Hrep.
  - cbn in Hrep. destruct answers; discriminate.
  - rewrite attempts_from_S in Hrep.
    destruct (build_prompt u) as [prompt|e].
    + unfold generate in Hrep. cbn [replay] in Hrep.
      destruct answers as [|answer answers]; [discriminate|].
      destruct (attempt_error u answer) as [e|] eqn:Herr.
      * destruct (after_response_failure u attempt last_error
                    (attempts_from u remaining (S attempt)) _ _ Herr)
          as [le' Heq].
        rewrite Heq in Hrep.
        destruct (attempt <? max_retries u - 1)%nat; cbn in Hrep.
        -- eapply IH; eauto.
        -- destruct answers; discriminate.
      * destruct (after_response_validated u attempt last_error
                    (attempts_from u remaining (S attempt)) _ Herr)
          as (data & v & Hv & Heq).
        rewrite Heq in Hrep. cbn in Hrep.
        destruct answers; [|discriminate].
        inversion Hrep. eauto.
    + unfold on_exception in Hrep.
      destruct (attempt <? max_retries u - 1)%nat; cbn in Hrep.
      * eapply IH; eauto.
      * destruct answers; discriminate.
Qed.

Lemma res_map_succeeds {A B} (f : A -> res B) xs :
  Forall (fun x => succeeds (f x)) xs -> succeeds (res_map f xs).
Proof.
  induction 1 as [|x xs [y Hy] _ [ys IH]]; [exists []; reflexivity|].
  exists (y :: ys). cbn. rewrite Hy, IH. reflexivity.
Qed.

(** The results of units of one schema are dumps of that schema. *)
Lemma every_unit_dump_of s (us : list unit_of_work) results :
  Forall (fun u => response_model u = s /\ result_of u = JObj) us ->
  every_unit_returned (map retry_loop us) results ->
  Forall (dump_of s) results.
Proof.
  intros Hus [Hlen Hres]. apply Forall_lookup_2. intros i r Hr.
  destruct (lookup_lt_is_Some_2 us i) as [u Hu].
  { rewrite <- (length_map retry_loop), <- Hlen.
    apply lookup_lt_is_Some. eauto. }
  destruct (Hres i (retry_loop u)) as (r' & answers & Hr' & Hrep).
  { rewrite list_lookup_fmap, Hu. reflexivity. }
  rewrite Hr in Hr'. inversion Hr'; subst r'.
  apply replay_attempts_from_validated in Hrep as (data & v & Hv & ->).
  destruct (Forall_lookup_1 _ _ _ _ Hus Hu) as [Hs Hres_of].
  rewrite Hres_of. rewrite Hs in Hv. exists data, v. auto.
Qed.

Variable round_trip :
  forall s data v,
    model_validate s data = Ok v ->
    succeeds (model_validate s (JObj (model_dump v))).

Lemma dumps_revalidate s results :
  Forall (dump_of s) results ->
  succeeds (res_map (validated_dump s) results).
Proof.
  intros Hall. apply res_map_succeeds.
  eapply Forall_impl; [exact Hall|].
  intros r (data & v & Hv & ->). unfold validated_dump.
  destruct (round_trip _ _ _ Hv) as [v' ->]. eexists. reflexivity.
Qed.

(** An entry of a document of phase 2 or 3: its page number has an image,
    and its results are dumps of schema [s]. *)
Lemma phase2_page_done restaurant_name images p q :
  page_done (phase2_units restaurant_name images) p q ->
  exists page_number img results,
    q = page_entry page_number "categories" results /\
    image_for images page_number = Ok img /\
    Forall (dump_of CategoryWithItems) results.
Proof.
  intros (pn & coros & results & Hunits & -> & Hevery).
  unfold phase2_units in Hunits.
  destruct (Phase2Extractor.page_inputs images p) as [[[pn' img] cats]|e]
    eqn:Hin; cbn in Hunits; [|discriminate].
  inversion Hunits; subst pn' coros.
  exists pn, img, results. split; [reflexivity|]. split.
  - unfold Phase2Extractor.page_inputs in Hin.
    destruct (py_getitem p "page_number") as [pn0|]; cbn in Hin;
      [|discriminate].
    destruct (image_for images pn0) as [img0|] eqn:Himg; cbn in Hin;
      [|discriminate].
    destruct (py_getitem p "data") as [data|]; cbn in Hin; [|discriminate].
    destruct (model_validate Categories data); cbn in Hin; [|discriminate].
    inversion Hin; subst. exact Himg.
  - apply (every_unit_dump_of CategoryWithItems
             (map (Phase2Extractor.unit_of restaurant_name pn img) cats)).
    + apply Forall_forall. intros u Hu.
      apply list_elem_of_fmap in Hu as (cat & -> & _). split; reflexivity.
    + rewrite <- list_fmap_compose. exact Hevery.
Qed.

Lemma phase3_page_done restaurant_name images p q :
  page_done (phase3_units restaurant_name images) p q ->
  exists page_number img results,
    q = page_entry page_number "categories" results /\
    image_for images page_number = Ok img /\
    Forall (dump_of CategoryBase) results.
Proof.
  intros (pn & coros & results & Hunits & -> & Hevery).
  unfold phase3_units in Hunits.
  destruct (Phase3Extractor.page_inputs images p) as [[[pn' img] cats]|e]
    eqn:Hin; cbn in Hunits; [|discriminate].
  inversion Hunits; subst pn' coros.
  exists pn, img, results. split; [reflexivity|]. split.
  - unfold Phase3Extractor.page_inputs in Hin.
    destruct (py_getitem p "page_number") as [pn0|]; cbn in Hin;
      [|discriminate].
    destruct (image_for images pn0) as [img0|] eqn:Himg; cbn in Hin;
      [|discriminate].
    destruct (py_getitem p "categories" ≫= py_iter) as [raw|]; cbn in Hin;
      [|discriminate].
    destruct (res_map _ raw); cbn in Hin; [|discriminate].
    inversion Hin; subst. exact Himg.
  - apply (every_unit_dump_of CategoryBase
             (map (Phase3Extractor.unit_of restaurant_name pn img) cats)).
    + apply Forall_forall. intros u Hu.
      apply list_elem_of_fmap in Hu as (cat & -> & _). split; reflexivity.
    + rewrite <- list_fmap_compose. exact Hevery.
Qed.

Lemma page_entry_inputs3 images page_number img results :
  image_for images page_number = Ok img ->
  Forall (dump_of CategoryWithItems) results ->
  succeeds (Phase3Extractor.page_inputs images
              (page_entry page_number "categories" results)).
Proof.
  intros Himg Hres. unfold Phase3Extractor.page_inputs, page_entry.
  cbn [py_getitem dict_lookup String.eqb Ascii.eqb Bool.eqb mbind res_bind
       py_iter].
  rewrite Himg.
  destruct (dumps_revalidate _ _ Hres) as [cats ->]. eexists. reflexivity.
Qed.

Lemma page_entry_inputs4 images page_number img results page_number' bases :
  image_for images page_number = Ok img ->
  Forall (dump_of CategoryWithItems) results ->
  Forall (dump_of CategoryBase) bases ->
  succeeds (Phase4Extractor.page_inputs images
              (page_entry page_number "categories" results)
              (page_entry page_number' "categories" bases)).
Proof.
  intros Himg Hres Hbases. unfold Phase4Extractor.page_inputs, page_entry.
  cbn [py_getitem dict_lookup String.eqb Ascii.eqb Bool.eqb mbind res_bind
       py_iter].
  rewrite Himg.
  destruct (dumps_revalidate _ _ Hres) as [cats ->].
  destruct (dumps_revalidate _ _ Hbases) as [bs ->]. eexists. reflexivity.
Qed.

Lemma phase1_pages_validated max_concurrency restaurant_name pdf_path images
    w doc w' evs :
  convert_to_images pdf_path = Ok images ->
  Phase1Extractor.extract_all_pages max_concurrency restaurant_name pdf_path
    w = (Returned doc, w', evs) ->
  exists pages,
    pages_of doc = Some pages /\
    forall i page, pages !! i = Some page ->
      exists data,
        page = JObj [("page_number", JInt (Z.of_nat i + 1)); ("data", data)]
        /\ dump_of Categories data /\ is_Some (images !! i).
Proof.
  intros Himg. rewrite phase1_stage_cases, Himg.
  destruct (_bounded_gather _ _ w) as [[[pages|e|] w1] evs1] eqn:Hg;
    intros [= <- <- <-].
  destruct (bounded_gather_results _ _ _ _ _ _ Hg) as [Hlen Hres].
  rewrite length_page_coros in Hlen.
  exists pages. split; [reflexivity|].
  intros i page Hpage.
  destruct (lookup_lt_is_Some_2 images i) as [img Himg_i].
  { rewrite <- Hlen. apply lookup_lt_is_Some. eauto. }
  destruct (Hres i (Phase1Extractor.extract_page restaurant_name
                      (JInt (1 + Z.of_nat i)) img))
    as (r & Hr & Hrep).
  { unfold Phase1Extractor.page_coros.
    rewrite list_lookup_fmap, (enumerate_lookup 1 images i img Himg_i).
    reflexivity. }
  rewrite Hpage in Hr. inversion Hr; subst r.
  apply replay_attempts_from_validated in Hrep as (data & v & Hv & ->).
  exists (JObj (model_dump v)). split; [|split].
  - replace (Z.of_nat i + 1) with (1 + Z.of_nat i) by lia. reflexivity.
  - exists data, v. auto.
  - eauto.
Qed.
End RoundTripFacts.

(** Re-validation cannot fail on a document nobody edited.  Provided the
    dump of a validated instance validates again under the same schema, the
    page inputs of phase 2 succeed on every page of a document phase 1
    returned for the same PDF, those of phase 3 on every page of a document
    phase 2 returned, and those of phase 4 on every page pair of documents
    phases 2 and 3 returned. *)
Theorem unedited_documents_revalidate `{Collaborators} (max_concurrency : Z)
    (restaurant_name pdf_path : string) (images : list string) :
  (forall s data v,
     model_validate s data = Ok v ->
     succeeds (model_validate s (JObj (model_dump v)))) ->
  convert_to_images pdf_path = Ok images ->
  (forall w doc1 w' evs pages,
     Phase1Extractor.extract_all_pages max_concurrency restaurant_name
       pdf_path w = (Returned doc1, w', evs) ->
     pages_of doc1 = Some pages ->
     Forall (fun page => succeeds (Phase2Extractor.page_inputs images page))
       pages)
  /\ (forall payload w doc2 w' evs pages,
        Phase2Extractor.extract_all_pages max_concurrency restaurant_name
          payload pdf_path w = (Returned doc2, w', evs) ->
        pages_of doc2 = Some pages ->
        Forall (fun page =>
                  succeeds (Phase3Extractor.page_inputs images page)) pages)
  /\ (forall payload2 payload3 w2 w3 doc2 doc3 w2' w3' evs2 evs3,
        Phase2Extractor.extract_all_pages max_concurrency restaurant_name
          payload2 pdf_path w2 = (Returned doc2, w2', evs2) ->
        Phase3Extractor.extract_all_pages max_concurrency restaurant_name
          payload3 pdf_path w3 = (Returned doc3, w3', evs3) ->
        exists pairs,
          Phase4Extractor.zipped_pages doc2 doc3 = Ok pairs /\
          Forall (fun pair =>
                    succeeds (Phase4Extractor.page_inputs images (fst pair)
                                (snd pair))) pairs).
Proof.
  intros Hround Himg. split; [|split].
  - intros w doc1 w' evs pages Hrun Hpages.
    destruct (phase1_pages_validated _ _ _ _ _ _ _ _ Himg Hrun)
      as (pages' & Hpages' & Hall).
    rewrite Hpages in Hpages'. inversion Hpages'; subst pages'.
    apply Forall_lookup_2. intros i page Hi.
    destruct (Hall i page Hi) as (data & -> & (d0 & v & Hv & ->) & [img Him]).
    unfold Phase2Extractor.page_inputs.
    cbn [py_getitem dict_lookup String.eqb Ascii.eqb Bool.eqb mbind
         res_bind].
    unfold image_for. replace (Z.of_nat i + 1 - 1) with (Z.of_nat i) by lia.
    rewrite (list_index_front images i img Him).
    destruct (Hround _ _ _ Hv) as [v' ->]. eexists. reflexivity.
  - intros payload w doc2 w' evs pages Hrun Hpages.
    rewrite phase2_stage_shape in Hrun.
    destruct (stage_run_returned _ _ _ _ _ _ _ _ _ Hrun)
      as (imgs & ps & new & Himgs & _ & -> & Hdone & _).
    rewrite Himg in Himgs. inversion Himgs; subst imgs.
    cbn in Hpages. inversion Hpages; subst pages.
    clear -Hdone Hround. induction Hdone as [|p q ps new Hpq _ IH];
      constructor; [|exact IH].
    destruct (phase2_page_done _ _ _ _ Hpq) as (pn & img & rs & -> & Hi & Hr).
    eapply page_entry_inputs3; eauto.
  - intros payload2 payload3 w2 w3 doc2 doc3 w2' w3' evs2 evs3 Hrun2 Hrun3.
    rewrite phase2_stage_shape in Hrun2.
    rewrite phase3_stage_shape in Hrun3.
    destruct (stage_run_returned _ _ _ _ _ _ _ _ _ Hrun2)
      as (imgs2 & ps2 & new2 & Himgs2 & _ & -> & Hdone2 & _).
    destruct (stage_run_returned _ _ _ _ _ _ _ _ _ Hrun3)
      as (imgs3 & ps3 & new3 & Himgs3 & _ & -> & Hdone3 & _).
    rewrite Himg in Himgs2, Himgs3.
    inversion Himgs2; subst imgs2. inversion Himgs3; subst imgs3.
    exists (zip new2 new3). split; [reflexivity|].
    assert (H2 : Forall (fun q => exists pn img rs,
                  q = page_entry pn "categories" rs /\
                  image_for images pn = Ok img /\
                  Forall (dump_of CategoryWithItems) rs) new2).
    { clear -Hdone2. induction Hdone2 as [|p q ps new Hpq _ IH];
        constructor; [|exact IH]. eapply phase2_page_done; eauto. }
    assert (H3 : Forall (fun q => exists pn img rs,
                  q = page_entry pn "categories" rs /\
                  image_for images pn = Ok img /\
                  Forall (dump_of CategoryBase) rs) new3).
    { clear -Hdone3. induction Hdone3 as [|p q ps new Hpq _ IH];
        constructor; [|exact IH]. eapply phase3_page_done; eauto. }
    clear -H2 H3 Hround. revert new3 H3.
    induction H2 as [|q2 new2 (pn & img & rs & -> & Hi & Hr) _ IH];
      intros new3 H3; [constructor|].
    destruct H3 as [|q3 new3 (pn3 & img3 & rs3 & -> & _ & Hr3) H3];
      [constructor|].
    cbn [zip zip_with]. constructor; [|apply IH; exact H3].
    cbn [fst snd]. eapply page_entry_inputs4; eauto.
Qed.

Section EmptyFacts.
Context `{Collaborators}.

Lemma stage_run_no_pages {P} max_concurrency restaurant_name images
    (inputs : list string -> P -> res (json * list (coro json))) w :
  stage_run max_concurrency restaurant_name (Ok images) (Ok []) inputs w
  = (Returned (stage_document restaurant_name []), w, []).
Proof. rewrite stage_run_cases, page_loop_nil. reflexivity. Qed.

Lemma zip_nil_either {A B} (l : list A) (k : list B) :
  l = [] \/ k = [] -> zip l k = [].
Proof. intros [->| ->]; [reflexivity|]. destruct l; reflexivity. Qed.
End EmptyFacts.

(** Nothing to do is not an error.  For a PDF without pages phase 1
    returns a document without pages, after one gather over no unit; phases
    2, 3 and 4 return a document without pages for an input document
    without pages (phase 4: when either input has none), calling nothing.
    A negative limit makes phase 1 raise the semaphore's [ValueError] even
    then, while phases 2 to 4, which build their semaphore per page, do not
    notice it. *)
Theorem empty_documents `{Collaborators} (max_concurrency : Z)
    (restaurant_name pdf_path : string) :
  (forall w,
     convert_to_images pdf_path = Ok [] -> 0 <= max_concurrency ->
     Phase1Extractor.extract_all_pages max_concurrency restaurant_name
       pdf_path w
     = (Returned (stage_document restaurant_name []),
        mk_world (provider w) (calls w) (schedule w), [EvGather 0]))
  /\ (forall images w,
        convert_to_images pdf_path = Ok images -> max_concurrency < 0 ->
        Phase1Extractor.extract_all_pages max_concurrency restaurant_name
          pdf_path w
        = (Raised semaphore_error, w, []))
  /\ (forall images payload w,
        convert_to_images pdf_path = Ok images ->
        pages_of payload = Some [] ->
        Phase2Extractor.extract_all_pages max_concurrency restaurant_name
          payload pdf_path w
        = (Returned (stage_document restaurant_name []), w, []))
  /\ (forall images payload w,
        convert_to_images pdf_path = Ok images ->
        pages_of payload = Some [] ->
        Phase3Extractor.extract_all_pages max_concurrency restaurant_name
          payload pdf_path w
        = (Returned (stage_document restaurant_name []), w, []))
  /\ (forall images items_payload bases_payload items_pages bases_pages w,
        convert_to_images pdf_path = Ok images ->
        pages_of items_payload = Some items_pages ->
        pages_of bases_payload = Some bases_pages ->
        items_pages = [] \/ bases_pages = [] ->
        Phase4Extractor.extract_all_pages max_concurrency restaurant_name
          items_payload bases_payload pdf_path w
        = (Returned (stage_document restaurant_name []), w, [])).
Proof.
  split; [|split; [|split; [|split]]].
  - intros w Himg Hpos. rewrite phase1_stage_cases, Himg.
    unfold _bounded_gather.
    destruct (Z.ltb_spec max_concurrency 0); [lia|].
    destruct (schedule w); reflexivity.
  - intros images w Himg Hneg. rewrite phase1_stage_cases, Himg.
    rewrite bounded_gather_negative by exact Hneg. reflexivity.
  - intros images payload w Himg Hpages.
    rewrite phase2_stage_shape, Himg, (pages_of_iter _ _ Hpages).
    apply stage_run_no_pages.
  - intros images payload w Himg Hpages.
    rewrite phase3_stage_shape, Himg, (pages_of_iter _ _ Hpages).
    apply stage_run_no_pages.
  - intros images items_payload bases_payload items_pages bases_pages w
      Himg Hi Hb Hnil.
    rewrite phase4_stage_shape, Himg, (zipped_pages_of _ _ _ _ Hi Hb).
    rewrite (zip_nil_either _ _ Hnil).
    apply stage_run_no_pages.
Qed.

(** * Properties of the HTTP layer *)

(** ** The disk *)

Section DiskFacts.

Lemma path_eqb_refl p : path_eqb p p = true.
Proof.
  destruct p as [n|j n]; cbn; rewrite ?String.eqb_refl; reflexivity.
Qed.

Lemma write_same fs p content : write fs p content p = Some content.
Proof. unfold write. rewrite path_eqb_refl. reflexivity. Qed.

Lemma write_other fs p content q :
  path_eqb q p = false -> write fs p content q = fs q.
Proof. unfold write. intros ->. reflexivity. Qed.
End DiskFacts.

(** ** Uploads *)

Section UploadFacts.

Lemma endswith_spec s suffix :
  endswith s suffix = true <-> exists stem, s = (stem ++ suffix)%string.
Proof.
  split.
  - induction s as [|c s IH]; cbn [endswith]; intros Hend.
    + rewrite orb_false_r in Hend. apply String.eqb_eq in Hend.
      exists "". exact Hend.
    + apply orb_true_iff in Hend as [Heq|Hrest].
      * apply String.eqb_eq in Heq. exists "". exact Heq.
      * destruct (IH Hrest) as [stem ->]. exists (String c stem).
        reflexivity.
  - intros [stem ->]. induction stem as [|c stem IH].
    + cbn [append]. destruct suffix; cbn [endswith];
        rewrite String.eqb_refl; reflexivity.
    + cbn [append endswith]. rewrite IH. apply orb_true_r.
Qed.

Lemma size_check n max_file_size_mb :
  QArith_base.Qle_bool
    (QArith_base.Qmake (Z.of_nat n) (Z.to_pos (1024 * 1024)))
    (QArith_base.inject_Z max_file_size_mb)
  = (Z.of_nat n <=? max_file_size_mb * 1048576).
Proof.
  unfold QArith_base.Qle_bool, QArith_base.inject_Z. cbn.
  rewrite Z.mul_1_r. reflexivity.
Qed.

Lemma validate_pdf_upload_cases max_file_size_mb pdf :
  position pdf = 0%nat ->
  validate_pdf_upload max_file_size_mb pdf
  = match filename pdf with
    | None => Throw (Python AttributeError)
    | Some name =>
        if negb (endswith name ".pdf")
        then Throw (HTTPException 400 "Only PDF files are allowed")
        else if Z.of_nat (String.length (file_bytes pdf))
                <=? max_file_size_mb * 1048576
        then Reply pdf
        else Throw (HTTPException 400
                      ("File too large. Max size: "
                       ++ string_of_Z max_file_size_mb ++ "MB")%string)
    end.
Proof.
  intros Hpos. unfold validate_pdf_upload.
  destruct pdf as [name bytes pos]. cbn in Hpos. subst pos.
  cbn [filename file_bytes position read seek string_drop].
  destruct name as [name|]; [|reflexivity].
  destruct (endswith name ".pdf"); [|reflexivity]. cbn [negb].
  rewrite size_check.
  destruct (Z.of_nat (String.length bytes) <=? max_file_size_mb * 1048576);
    reflexivity.
Qed.
End UploadFacts.

(** An upload passes [validate_pdf_upload] exactly when its name ends with
    [.pdf], in this case of the letters, and it has at most
    [MAX_FILE_SIZE_MB] times [1024 * 1024] bytes; the name is checked first.
    The upload that comes back is rewound: [save_pdf] then writes all its
    bytes to the PDF path of the job, and [validate_job_exists] finds the
    job. *)
Theorem pdf_upload_validation (max_file_size_mb : Z) (pdf : UploadFile) :
  position pdf = 0%nat ->
  ((exists pdf', validate_pdf_upload max_file_size_mb pdf = Reply pdf')
   <-> (exists stem, filename pdf = Some (stem ++ ".pdf")%string) /\
       Z.of_nat (String.length (file_bytes pdf))
       <= max_file_size_mb * 1048576)
  /\ (forall pdf',
        validate_pdf_upload max_file_size_mb pdf = Reply pdf' ->
        pdf' = pdf /\
        forall fs job_id,
          save_pdf fs job_id pdf'
          = (pdf_path job_id, snd (read pdf),
             write fs (pdf_path job_id) (file_bytes pdf)) /\
          validate_job_exists (snd (save_pdf fs job_id pdf')) job_id
          = Reply job_id)
  /\ (forall name,
        filename pdf = Some name ->
        endswith name ".pdf" = false ->
        validate_pdf_upload max_file_size_mb pdf
        = Throw (HTTPException 400 "Only PDF files are allowed")).
Proof.
  intros Hpos. rewrite (validate_pdf_upload_cases _ _ Hpos).
  split; [|split].
  - split.
    + intros [pdf' Hok].
      destruct (filename pdf) as [name|]; [|discriminate].
      destruct (endswith name ".pdf") eqn:Hend; [|discriminate].
      cbn [negb] in Hok.
      destruct (Z.leb_spec (Z.of_nat (String.length (file_bytes pdf)))
                  (max_file_size_mb * 1048576)); [|discriminate].
      split; [|assumption].
      apply endswith_spec in Hend as [stem ->]. eauto.
    + intros [[stem Hname] Hsize]. rewrite Hname.
      replace (endswith (stem ++ ".pdf")%string ".pdf") with true
        by (symmetry; apply endswith_spec; eauto).
      cbn [negb].
      destruct (Z.leb_spec (Z.of_nat (String.length (file_bytes pdf)))
                  (max_file_size_mb * 1048576)); [eauto|lia].
  - intros pdf' Hok.
    destruct (filename pdf) as [name|]; [|discriminate].
    destruct (endswith name ".pdf"); [|discriminate]. cbn [negb] in Hok.
    destruct (_ <=? _); [|discriminate].
    inversion Hok; subst pdf'. split; [reflexivity|].
    intros fs job_id. unfold save_pdf, validate_job_exists, path_exists.
    destruct pdf as [name' bytes pos]. cbn in Hpos. subst pos.
    cbn [read position file_bytes filename string_drop snd].
    unfold write. rewrite path_eqb_refl. split; reflexivity.
  - intros name Hname Hend. rewrite Hname, Hend. reflexivity.
Qed.

Section UpdateFacts.
Context `{Collaborators}.

Lemma py_contains_getitem key v x :
  py_getitem v key = Ok x -> py_contains key v = Ok true.
Proof.
  destruct v as [| | | | | |d]; try discriminate. cbn.
  destruct (dict_lookup key d); [reflexivity|discriminate].
Qed.

Lemma validate_data_pages_Reply pages :
  validate_data_pages pages = Reply tt
  <-> Forall (fun page => exists data,
                py_getitem page "data" = Ok data /\
                succeeds (model_validate Categories data)) pages.
Proof.
  induction pages as [|page pages IH]; cbn [validate_data_pages].
  - split; [constructor|reflexivity].
  - split.
    + intros Hok.
      destruct (py_contains "data" page) as [[|]|e]; cbn in Hok;
        try discriminate.
      destruct (py_getitem page "data") as [data|e] eqn:Hdata; cbn in Hok;
        [|discriminate].
      destruct (model_validate Categories data) as [v|e] eqn:Hv; cbn in Hok;
        [|discriminate].
      constructor; [|apply IH; exact Hok].
      exists data. split; [exact Hdata|]. exists v. exact Hv.
    + intros Hall. inversion Hall as [|? ? (data & Hdata & v & Hv) Hrest];
        subst.
      rewrite (py_contains_getitem _ _ _ Hdata). cbn.
      rewrite Hdata. cbn. rewrite Hv. cbn. apply IH. exact Hrest.
Qed.

Lemma validate_each_Reply s cats :
  validate_each s cats = Reply tt
  <-> Forall (fun cat => succeeds (model_validate s cat)) cats.
Proof.
  induction cats as [|cat cats IH]; cbn [validate_each].
  - split; [constructor|reflexivity].
  - split.
    + intros Hok.
      destruct (model_validate s cat) as [v|e] eqn:Hv; cbn in Hok;
        [|discriminate].
      constructor; [exists v; exact Hv|apply IH; exact Hok].
    + intros Hall. inversion Hall as [|? ? [v Hv] Hrest]; subst.
      rewrite Hv. cbn. apply IH. exact Hrest.
Qed.

Lemma validate_category_pages_Reply s pages :
  validate_category_pages s pages = Reply tt
  <-> Forall (fun page => exists cats,
                py_getitem page "categories" ≫= py_iter = Ok cats /\
                Forall (fun cat => succeeds (model_validate s cat)) cats)
        pages.
Proof.
  induction pages as [|page pages IH]; cbn [validate_category_pages].
  - split; [constructor|reflexivity].
  - split.
    + intros Hok.
      destruct (py_contains "categories" page) as [[|]|e]; cbn in Hok;
        try discriminate.
      destruct (py_getitem page "categories" ≫= py_iter) as [cats|e]
        eqn:Hcats; cbn in Hok; [|discriminate].
      destruct (validate_each s cats) as [[]|r] eqn:Heach; cbn in Hok;
        [|discriminate].
      constructor; [|apply IH; exact Hok].
      exists cats. split; [exact Hcats|].
      apply validate_each_Reply. exact Heach.
    + intros Hall. inversion Hall as [|? ? (cats & Hcats & Hvalid) Hrest];
        subst.
      destruct (py_getitem page "categories") as [x|e] eqn:Hget;
        [|discriminate].
      rewrite (py_contains_getitem _ _ _ Hget). cbn.
      cbn in Hcats. rewrite Hcats. cbn.
      apply validate_each_Reply in Hvalid. rewrite Hvalid. cbn.
      apply IH. exact Hrest.
Qed.

Lemma of_res_bind_Reply {A B} (r : res A) (k : A -> reply B) b :
  (a ← of_res r; k a) = Reply b <-> exists a, r = Ok a /\ k a = Reply b.
Proof.
  destruct r as [a|e]; cbn.
  - split; [eauto|]. intros (a' & [= <-] & Hk). exact Hk.
  - split; [discriminate|]. intros (a' & Hr & _). discriminate.
Qed.

Lemma validated_dumps_succeed s cats :
  Forall (fun cat => succeeds (model_validate s cat)) cats ->
  succeeds (res_map (validated_dump s) cats).
Proof.
  intros Hall. apply res_map_succeeds.
  eapply Forall_impl; [exact Hall|].
  intros cat [v Hv]. unfold validated_dump. rewrite Hv.
  eexists. reflexivity.
Qed.
End UpdateFacts.

(** What the update routes accept, the next stage can read.
    [update_categories] accepts a request exactly when its pages can be
    iterated and the ["data"] of every page validates against [Categories],
    [update_items] and [update_bases] exactly when the categories of every
    page validate against [CategoryWithItems] ([update_bases] does not
    validate against [CategoryBase]).  On a page of an accepted request the
    page inputs of the next stage can then fail only on the page number and
    its image. *)
Theorem accepted_updates_revalidate `{Collaborators} (data : pydict) :
  (validate_categories data = Reply tt
   <-> exists pages,
         py_getitem (JObj data) "pages" ≫= py_iter = Ok pages /\
         Forall (fun page => exists d,
                   py_getitem page "data" = Ok d /\
                   succeeds (model_validate Categories d)) pages)
  /\ (validate_items data = Reply tt
      <-> exists pages,
            py_getitem (JObj data) "pages" ≫= py_iter = Ok pages /\
            Forall (fun page => exists cats,
                      py_getitem page "categories" ≫= py_iter = Ok cats /\
                      Forall (fun cat =>
                                succeeds
                                  (model_validate CategoryWithItems cat))
                        cats) pages)
  /\ (validate_bases data = Reply tt
      <-> exists pages,
            py_getitem (JObj data) "pages" ≫= py_iter = Ok pages /\
            Forall (fun page => exists cats,
                      py_getitem page "categories" ≫= py_iter = Ok cats /\
                      Forall (fun cat =>
                                succeeds
                                  (model_validate CategoryWithItems cat))
                        cats) pages)
  /\ (forall pages page images,
        validate_categories data = Reply tt ->
        py_getitem (JObj data) "pages" ≫= py_iter = Ok pages ->
        page ∈ pages ->
        succeeds (py_getitem page "page_number" ≫= image_for images) ->
        succeeds (Phase2Extractor.page_inputs images page))
  /\ (forall pages page images,
        validate_items data = Reply tt ->
        py_getitem (JObj data) "pages" ≫= py_iter = Ok pages ->
        page ∈ pages ->
        succeeds (py_getitem page "page_number" ≫= image_for images) ->
        succeeds (Phase3Extractor.page_inputs images page)).
Proof.
  assert (H1 : validate_categories data = Reply tt
   <-> exists pages,
         py_getitem (JObj data) "pages" ≫= py_iter = Ok pages /\
         Forall (fun page => exists d,
                   py_getitem page "data" = Ok d /\
                   succeeds (model_validate Categories d)) pages).
  { unfold validate_categories. rewrite of_res_bind_Reply.
    split; intros (pages & Hp & Hv); exists pages; split; auto;
      apply validate_data_pages_Reply; exact Hv. }
  assert (H2 : validate_items data = Reply tt
      <-> exists pages,
            py_getitem (JObj data) "pages" ≫= py_iter = Ok pages /\
            Forall (fun page => exists cats,
                      py_getitem page "categories" ≫= py_iter = Ok cats /\
                      Forall (fun cat =>
                                succeeds
                                  (model_validate CategoryWithItems cat))
                        cats) pages).
  { unfold validate_items. rewrite of_res_bind_Reply.
    split; intros (pages & Hp & Hv); exists pages; split; auto;
      apply validate_category_pages_Reply; exact Hv. }
  split; [exact H1|]. split; [exact H2|]. split; [exact H2|]. split.
  - intros pages page images Hok Hpages Hin [img Himg].
    apply H1 in Hok as (pages' & Hpages' & Hall).
    rewrite Hpages in Hpages'. inversion Hpages'; subst pages'.
    rewrite Forall_forall in Hall.
    destruct (Hall page Hin) as (d & Hd & v & Hv).
    unfold Phase2Extractor.page_inputs.
    destruct (py_getitem page "page_number") as [pn|e]; [|discriminate].
    cbn in Himg |- *. rewrite Himg. cbn. rewrite Hd. cbn. rewrite Hv. cbn.
    eexists. reflexivity.
  - intros pages page images Hok Hpages Hin [img Himg].
    apply H2 in Hok as (pages' & Hpages' & Hall).
    rewrite Hpages in Hpages'. inversion Hpages'; subst pages'.
    rewrite Forall_forall in Hall.
    destruct (Hall page Hin) as (cats & Hcats & Hvalid).
    unfold Phase3Extractor.page_inputs.
    destruct (py_getitem page "page_number") as [pn|e]; [|discriminate].
    cbn in Himg |- *. rewrite Himg. cbn.
    change (match py_getitem page "categories" with
            | Ok a => py_iter a
            | Err e => Err e
            end) with (py_getitem page "categories" ≫= py_iter).
    rewrite Hcats. cbn.
    destruct (validated_dumps_succeed _ _ Hvalid) as [dumps ->]. cbn.
    eexists. reflexivity.
Qed.

Section StatusFacts.
Context `{Collaborators}.

Lemma validate_data_pages_app pre post :
  validate_data_pages pre = Reply tt ->
  validate_data_pages (pre ++ post) = validate_data_pages post.
Proof.
  induction pre as [|page pre IH]; [reflexivity|].
  cbn [app validate_data_pages]. intros Hok.
  destruct (py_contains "data" page) as [[|]|e]; cbn in Hok |- *;
    try discriminate.
  destruct (py_getitem page "data") as [d|e]; cbn in Hok |- *;
    [|discriminate].
  destruct (model_validate Categories d) as [v|e]; cbn in Hok |- *;
    [|discriminate].
  apply IH. exact Hok.
Qed.

Lemma validate_category_pages_app s pre post :
  validate_category_pages s pre = Reply tt ->
  validate_category_pages s (pre ++ post) = validate_category_pages s post.
Proof.
  induction pre as [|page pre IH]; [reflexivity|].
  cbn [app validate_category_pages]. intros Hok.
  destruct (py_contains "categories" page) as [[|]|e]; cbn in Hok |- *;
    try discriminate.
  destruct (py_getitem page "categories" ≫= py_iter) as [cats|e];
    cbn in Hok |- *; [|discriminate].
  destruct (validate_each s cats) as [[]|r]; cbn in Hok |- *;
    [|discriminate].
  apply IH. exact Hok.
Qed.
End StatusFacts.

(** The status 400 of the update routes is never sent.  The
    [HTTPException] with status 400 that the validation loop raises for a
    page without its key is raised inside the [try] whose
    [except Exception] turns every exception into status 500: such a
    request is answered with status 500, its detail built from the text of
    the 400 exception, and nothing is written. *)
Theorem invalid_structure_answers_500 `{Collaborators}
    (json_dumps : json -> string) (exception_str : raised -> string)
    (fs : disk) (job_id : string) (request : UpdateDataRequest)
    (database : reply unit) (pre : list json) (page : json)
    (post : list json) :
  py_getitem (JObj (request_data request)) "pages" ≫= py_iter
  = Ok (pre ++ page :: post) ->
  (validate_data_pages pre = Reply tt ->
   py_contains "data" page = Ok false ->
   update_categories json_dumps exception_str fs job_id request database
   = (Throw (HTTPException 500
               ("Update failed: "
                ++ exception_str
                     (HTTPException 400 "Invalid payload structure"))%string),
      fs))
  /\ (validate_category_pages CategoryWithItems pre = Reply tt ->
      py_contains "categories" page = Ok false ->
      update_items json_dumps exception_str fs job_id request database
      = (Throw (HTTPException 500
                  ("Update failed: "
                   ++ exception_str
                        (HTTPException 400 "Invalid payload structure"))%string),
         fs)
      /\ update_bases json_dumps exception_str fs job_id request database
         = (Throw (HTTPException 500
                     ("Update failed: "
                      ++ exception_str
                           (HTTPException 400
                              "Invalid payload structure"))%string),
            fs)).
Proof.
  intros Hpages. split.
  - intros Hpre Hpage.
    unfold update_categories, update_route, validate_categories.
    rewrite Hpages. cbn [of_res mbind reply_bind].
    rewrite (validate_data_pages_app _ _ Hpre).
    cbn [validate_data_pages]. rewrite Hpage. reflexivity.
  - intros Hpre Hpage.
    unfold update_items, update_bases, update_route, validate_items,
      validate_bases.
    rewrite Hpages. cbn [of_res mbind reply_bind].
    rewrite (validate_category_pages_app _ _ _ Hpre).
    cbn [validate_category_pages]. rewrite Hpage. split; reflexivity.
Qed.

(** [update_final_result] validates nothing in a stage document.  It
    validates the entries of a top-level ["categories"] key and nothing
    else, and the documents of the stages keep their categories inside
    ["pages"]: every document phase 4 returns, and every request data
    without that key, is saved as it is, whatever its pages hold. *)
Theorem final_result_not_validated `{Collaborators}
    (json_dumps : json -> string) (exception_str : raised -> string) :
  (forall data, dict_lookup "categories" data = None ->
     validate_final_result data = Reply tt)
  /\ (forall max_concurrency restaurant_name items_payload bases_payload
             pdf_path w doc w' evs,
        Phase4Extractor.extract_all_pages max_concurrency restaurant_name
          items_payload bases_payload pdf_path w = (Returned doc, w', evs) ->
        exists data, doc = JObj data /\ validate_final_result data = Reply tt)
  /\ (forall fs job_id request,
        dict_lookup "categories" (request_data request) = None ->
        update_final_result json_dumps exception_str fs job_id request
          (Reply tt)
        = (Reply (new_UpdateDataResponse job_id),
           save_json json_dumps fs (phase4_path job_id)
             (JObj (request_data request))))
  /\ (forall data cats,
        dict_lookup "categories" data = Some (JArr cats) ->
        (validate_final_result data = Reply tt
         <-> Forall (fun cat =>
                       succeeds (model_validate CategoryItemAddons cat))
               cats)).
Proof.
  split; [|split; [|split]].
  - intros data Hnone. unfold validate_final_result. cbn. rewrite Hnone.
    reflexivity.
  - intros max_concurrency restaurant_name items_payload bases_payload
      pdf_path w doc w' evs Hrun.
    rewrite phase4_stage_shape in Hrun.
    destruct (stage_run_returned _ _ _ _ _ _ _ _ _ Hrun)
      as (imgs & ps & new & _ & _ & -> & _).
    eexists. split; [reflexivity|]. reflexivity.
  - intros fs job_id request Hnone.
    unfold update_final_result, update_route, validate_final_result.
    cbn. rewrite Hnone. reflexivity.
  - intros data cats Hcats. unfold validate_final_result. cbn.
    rewrite Hcats. cbn. apply validate_each_Reply.
Qed.

(** [get_categories] reads the reviewed file when there is one, and looks
    at the raw file only when there is none.  A reviewed file that holds a
    JSON object is the response; one that does not parse is answered with
    status 500 even when the raw file is sound; and status 404 is sent
    exactly when neither file exists. *)
Theorem reviewed_before_raw `{Collaborators} (path_str : path -> string)
    (exception_str : raised -> string) (dict_type_error : json -> string)
    (fs : disk) (job_id : string) :
  (forall text d,
     fs (phase1_reviewed_path job_id) = Some text ->
     json_loads text = inr (JObj d) ->
     get_categories path_str exception_str dict_type_error fs job_id
     = Reply {| get_success := true; get_job_id := job_id; get_data := d |})
  /\ (forall text pos msg,
        fs (phase1_reviewed_path job_id) = Some text ->
        json_loads text = inl (pos, msg) ->
        get_categories path_str exception_str dict_type_error fs job_id
        = Throw (HTTPException 500 (exception_str (JSONDecodeError pos msg))))
  /\ (forall text d,
        fs (phase1_reviewed_path job_id) = None ->
        fs (phase1_raw_path job_id) = Some text ->
        json_loads text = inr (JObj d) ->
        get_categories path_str exception_str dict_type_error fs job_id
        = Reply {| get_success := true; get_job_id := job_id;
                   get_data := d |})
  /\ ((exists detail,
         get_categories path_str exception_str dict_type_error fs job_id
         = Throw (HTTPException 404 detail))
      <-> fs (phase1_reviewed_path job_id) = None /\
          fs (phase1_raw_path job_id) = None)
  /\ (fs (phase1_reviewed_path job_id) = None ->
      fs (phase1_raw_path job_id) = None ->
      get_categories path_str exception_str dict_type_error fs job_id
      = Throw (HTTPException 404 "Phase 1 data not found")).
Proof.
  unfold get_categories, load_json.
  split; [|split; [|split; [|split]]].
  - intros text d -> ->. reflexivity.
  - intros text pos msg -> ->. reflexivity.
  - intros text d -> -> ->. reflexivity.
  - split.
    + intros [detail Hget].
      destruct (fs (phase1_reviewed_path job_id)) as [text|].
      * exfalso. destruct (json_loads text) as [[pos msg]|data];
          [discriminate Hget|].
        destruct data; discriminate Hget.
      * split; [reflexivity|].
        destruct (fs (phase1_raw_path job_id)) as [text|]; [|reflexivity].
        exfalso. destruct (json_loads text) as [[pos msg]|data];
          [discriminate Hget|].
        destruct data; discriminate Hget.
    + intros [-> ->]. eexists. reflexivity.
  - intros -> ->. reflexivity.
Qed.

(** An accepted update is what [get_categories] returns next.
    [update_categories] writes the data of an accepted request to the
    reviewed file and leaves every other file, the raw file among them, as
    it was; it has done so even when the database statements that follow
    fail and the answer is status 500.  A request that is not accepted
    leaves the disk untouched.  When [json.loads] reads back what
    [json.dumps] wrote, [get_categories] then returns the data of the
    request. *)
Theorem update_then_get `{Collaborators} (json_dumps : json -> string)
    (path_str : path -> string) (exception_str : raised -> string)
    (dict_type_error : json -> string) (fs : disk) (job_id : string)
    (request : UpdateDataRequest) (database : reply unit) :
  (validate_categories (request_data request) = Reply tt ->
   snd (update_categories json_dumps exception_str fs job_id request
          database)
   = save_json json_dumps fs (phase1_reviewed_path job_id)
       (JObj (request_data request)) /\
   (forall p,
      path_eqb p (phase1_reviewed_path job_id) = false ->
      snd (update_categories json_dumps exception_str fs job_id request
             database) p = fs p) /\
   snd (update_categories json_dumps exception_str fs job_id request
          database) (phase1_raw_path job_id)
   = fs (phase1_raw_path job_id))
  /\ (forall r,
        validate_categories (request_data request) = Throw r ->
        update_categories json_dumps exception_str fs job_id request
          database
        = (Throw (HTTPException 500
                    ("Update failed: " ++ exception_str r)%string), fs))
  /\ (validate_categories (request_data request) = Reply tt ->
      json_loads (json_dumps (JObj (request_data request)))
      = inr (JObj (request_data request)) ->
      get_categories path_str exception_str dict_type_error
        (snd (update_categories json_dumps exception_str fs job_id request
                database)) job_id
      = Reply {| get_success := true; get_job_id := job_id;
                 get_data := request_data request |}).
Proof.
  assert (Hdisk : validate_categories (request_data request) = Reply tt ->
    snd (update_categories json_dumps exception_str fs job_id request
           database)
    = save_json json_dumps fs (phase1_reviewed_path job_id)
        (JObj (request_data request))).
  { intros Hok. unfold update_categories, update_route. rewrite Hok.
    destruct database; reflexivity. }
  split; [|split].
  - intros Hok. split; [exact (Hdisk Hok)|]. rewrite (Hdisk Hok). split.
    + intros p Hp. unfold save_json. apply write_other. exact Hp.
    + unfold save_json. apply write_other.
      unfold path_eqb, phase1_raw_path, phase1_reviewed_path.
      rewrite String.eqb_refl. reflexivity.
  - intros r Hr. unfold update_categories, update_route. rewrite Hr.
    reflexivity.
  - intros Hok Hround. rewrite (Hdisk Hok).
    unfold get_categories, load_json, save_json.
    rewrite write_same, Hround. reflexivity.
Qed.

(** ** The database and the routes that write it *)

Section TableFacts.
Context {A K : Type}.
Variable key : A -> K.
Variable test : A -> bool.
Variable f : A -> A.

Lemma map_update_first l :
  (forall x, key (f x) = key x) ->
  map key (update_first test f l) = map key l.
Proof.
  intros Hkey. induction l as [|x l IH]; [reflexivity|].
  cbn [update_first]. destruct (test x); cbn [map].
  - rewrite Hkey. reflexivity.
  - rewrite IH. reflexivity.
Qed.

Lemma find_update_first l :
  (forall x, test (f x) = test x) ->
  find test (update_first test f l) = f <$> find test l.
Proof.
  intros Htest. induction l as [|x l IH]; [reflexivity|].
  cbn [update_first find]. destruct (test x) eqn:Hx; cbn [find].
  - rewrite Htest, Hx. reflexivity.
  - rewrite Hx. exact IH.
Qed.

Lemma find_update_first_other (test' : A -> bool) l :
  (forall x, test' (f x) = test' x) ->
  (forall x, test x = true -> test' x = false) ->
  find test' (update_first test f l) = find test' l.
Proof.
  intros Hsame Hdisjoint. induction l as [|x l IH]; [reflexivity|].
  cbn [update_first find]. destruct (test x) eqn:Hx; cbn [find].
  - rewrite Hsame, (Hdisjoint x Hx). reflexivity.
  - rewrite IH. reflexivity.
Qed.

Lemma elem_of_update_first l y :
  y ∈ update_first test f l -> y ∈ l \/ exists x, x ∈ l /\ y = f x.
Proof.
  induction l as [|x l IH]; cbn [update_first]; intros Hin.
  - apply elem_of_nil in Hin. contradiction.
  - destruct (test x).
    + apply elem_of_cons in Hin as [->|Hin].
      * right. exists x. split; [left|reflexivity].
      * left. right. exact Hin.
    + apply elem_of_cons in Hin as [->|Hin]; [left; left|].
      destruct (IH Hin) as [Hl|(x' & Hx' & ->)].
      * left. right. exact Hl.
      * right. exists x'. split; [right; exact Hx'|reflexivity].
Qed.

Lemma find_app_None l extra :
  find test l = None -> find test (l ++ extra) = find test extra.
Proof.
  induction l as [|x l IH]; [reflexivity|]. cbn [find app].
  destruct (test x); [discriminate|]. exact IH.
Qed.

Lemma find_app_Some l extra x :
  find test l = Some x -> find test (l ++ extra) = Some x.
Proof.
  induction l as [|x0 l IH]; [discriminate|]. cbn [find app].
  destruct (test x0); [auto|]. exact IH.
Qed.

Lemma find_snoc_other l x :
  test x = false -> find test (l ++ [x]) = find test l.
Proof.
  intros Hx. induction l as [|y l IH]; cbn [app find].
  - rewrite Hx. reflexivity.
  - destruct (test y); [reflexivity|exact IH].
Qed.

Lemma find_None_not_elem l k :
  (forall x, test x = false -> key x <> k) ->
  find test l = None -> k ∉ map key l.
Proof.
  intros Htest. induction l as [|x l IH]; cbn [find map]; intros Hfind Hin.
  - apply elem_of_nil in Hin. contradiction.
  - destruct (test x) eqn:Hx; [discriminate|].
    apply elem_of_cons in Hin as [Heq|Hin].
    + apply (Htest x Hx). symmetry. exact Heq.
    + exact (IH Hfind Hin).
Qed.

Lemma NoDup_snoc (ks : list K) k : NoDup ks -> k ∉ ks -> NoDup (ks ++ [k]).
Proof.
  intros Hnd Hk. apply NoDup_app. split; [exact Hnd|]. split.
  - intros x Hx Hin. apply list_elem_of_singleton in Hin. subst. auto.
  - apply NoDup_singleton.
Qed.
End TableFacts.

Section DatabaseFacts.

Lemma is_job_other job_id j r :
  j <> job_id -> is_job job_id r = true -> is_job j r = false.
Proof.
  unfold is_job. intros Hne Hr. apply String.eqb_eq in Hr.
  apply String.eqb_neq. congruence.
Qed.

Lemma is_phase_other job_id phase j ph p :
  j <> job_id \/ ph <> phase ->
  is_phase job_id phase p = true -> is_phase j ph p = false.
Proof.
  unfold is_phase. intros Hne Hp. apply andb_true_iff in Hp as [Hj Hph].
  apply String.eqb_eq in Hj. apply Z.eqb_eq in Hph.
  apply andb_false_iff. destruct Hne as [Hne|Hne].
  - left. apply String.eqb_neq. congruence.
  - right. apply Z.eqb_neq. congruence.
Qed.

Lemma is_sizes_other job_id category_name j c x :
  j <> job_id \/ c <> category_name ->
  is_sizes job_id category_name x = true -> is_sizes j c x = false.
Proof.
  unfold is_sizes. intros Hne Hx. apply andb_true_iff in Hx as [Hj Hc].
  apply String.eqb_eq in Hj. apply String.eqb_eq in Hc.
  apply andb_false_iff. destruct Hne as [Hne|Hne].
  - left. apply String.eqb_neq. congruence.
  - right. apply String.eqb_neq. congruence.
Qed.

Lemma is_phase_refl job_id phase result status :
  is_phase job_id phase (mk_phase_data job_id phase result status) = true.
Proof.
  unfold is_phase. cbn. rewrite String.eqb_refl, Z.eqb_refl. reflexivity.
Qed.

Lemma is_sizes_refl job_id category_name sizes :
  is_sizes job_id category_name
    (mk_category_sizes job_id category_name sizes) = true.
Proof. unfold is_sizes. cbn. rewrite !String.eqb_refl. reflexivity. Qed.

Lemma find_restaurant_None db job_id :
  find_restaurant db job_id = None ->
  job_id ∉ map r_job_id (restaurants db).
Proof.
  apply find_None_not_elem. intros r Hr. apply String.eqb_neq. exact Hr.
Qed.

Lemma find_phase_None db job_id phase :
  find_phase db job_id phase = None ->
  (job_id, phase) ∉ map (fun p => (p_job_id p, p_phase p)) (phase_rows db).
Proof.
  apply find_None_not_elem. intros p Hp Heq. inversion Heq as [[Hj Hph]].
  unfold is_phase in Hp. rewrite Hj, Hph, String.eqb_refl, Z.eqb_refl in Hp.
  discriminate.
Qed.

Lemma find_sizes_None db job_id category_name :
  find_sizes db job_id category_name = None ->
  (job_id, category_name)
  ∉ map (fun c => (cs_job_id c, cs_category_name c)) (category_sizes db).
Proof.
  apply find_None_not_elem. intros c Hc Heq. inversion Heq as [[Hj Hn]].
  unfold is_sizes in Hc. rewrite Hj, Hn, !String.eqb_refl in Hc.
  discriminate.
Qed.

Lemma find_is_job rs job_id r :
  find (is_job job_id) rs = Some r -> r_job_id r = job_id /\ r ∈ rs.
Proof.
  induction rs as [|r0 rs IH]; cbn [find]; [discriminate|].
  unfold is_job at 1.
  destruct (String.eqb_spec (r_job_id r0) job_id) as [Heq|Hne].
  - intros [= <-]. split; [exact Heq|left].
  - intros Hfind. destruct (IH Hfind). split; [assumption|right; assumption].
Qed.

(** A job that is found stays found when the rows keep their identifiers
    and when rows are added. *)
Lemma find_job_kept rs rs' job_id :
  map r_job_id rs' = map r_job_id rs \/ (exists extra, rs' = rs ++ extra) ->
  is_Some (find (is_job job_id) rs) -> is_Some (find (is_job job_id) rs').
Proof.
  intros [Hkeys|[extra ->]] [r Hr].
  - revert rs' Hkeys. induction rs as [|r0 rs IH]; [discriminate|].
    intros [|r0' rs'] Hkeys; [discriminate|].
    cbn [map] in Hkeys. inversion Hkeys as [[Hk0 Hks]].
    cbn [find] in Hr |- *. unfold is_job at 1. unfold is_job in Hr at 1.
    rewrite Hk0.
    destruct (String.eqb (r_job_id r0) job_id); [eauto|].
    apply IH; assumption.
  - rewrite (find_app_Some _ _ _ _ Hr). eauto.
Qed.

(** The row of the job after an assignment to it, and the other rows. *)
Lemma updated_restaurant_lookup rs job_id f r :
  (forall x, r_job_id (f x) = r_job_id x) ->
  find (is_job job_id) rs = Some r ->
  find (is_job job_id) (update_first (is_job job_id) f rs) = Some (f r) /\
  forall j, j <> job_id ->
    find (is_job j) (update_first (is_job job_id) f rs) = find (is_job j) rs.
Proof.
  intros Hf Hfind. split.
  - rewrite find_update_first, Hfind; [reflexivity|].
    intros x. unfold is_job. rewrite Hf. reflexivity.
  - intros j Hne. apply find_update_first_other.
    + intros x. unfold is_job. rewrite Hf. reflexivity.
    + intros x. apply is_job_other. exact Hne.
Qed.

(** The snapshot of the phase after [upsert_phase], and the others. *)
Lemma upsert_phase_lookup db job_id phase result :
  (exists p, find (is_phase job_id phase) (upsert_phase db job_id phase result)
             = Some p
             /\ p_json p = result /\ p_status p = "success") /\
  (forall j ph, j <> job_id \/ ph <> phase ->
     find (is_phase j ph) (upsert_phase db job_id phase result)
     = find_phase db j ph).
Proof.
  unfold upsert_phase.
  destruct (find_phase db job_id phase) as [p0|] eqn:Hfind; split.
  - unfold find_phase in Hfind. rewrite find_update_first, Hfind;
      [|intros x; reflexivity].
    eexists. split; [reflexivity|]. split; reflexivity.
  - intros j ph Hne. apply find_update_first_other; [intros x; reflexivity|].
    intros x. apply is_phase_other. exact Hne.
  - unfold find_phase in Hfind. rewrite (find_app_None _ _ _ Hfind).
    cbn [find]. rewrite is_phase_refl.
    eexists. split; [reflexivity|]. split; reflexivity.
  - intros j ph Hne. apply find_snoc_other.
    apply (is_phase_other job_id phase); [exact Hne|apply is_phase_refl].
Qed.

Lemma get_job_same db db' job_id :
  find_restaurant db' job_id = find_restaurant db job_id ->
  get_job db' job_id = get_job db job_id.
Proof. intros Hfind. unfold get_job. rewrite Hfind. reflexivity. Qed.
End DatabaseFacts.

Section WellFormedFacts.

Lemma continues_refl db : continues db db.
Proof. split; [reflexivity|auto]. Qed.

(** The frame of every database statement of the routes: rows of jobs keep
    their identifiers or are added, and what is added elsewhere belongs to
    a job. *)
Lemma well_formed_step db rs' ps' hs' cs' :
  well_formed db ->
  NoDup (map r_job_id rs') ->
  (forall j, is_Some (find (is_job j) (restaurants db)) ->
     is_Some (find (is_job j) rs')) ->
  NoDup (map (fun p => (p_job_id p, p_phase p)) ps') ->
  NoDup (map (fun c => (cs_job_id c, cs_category_name c)) cs') ->
  (forall p, p ∈ ps' ->
     is_Some (find (is_job (p_job_id p)) (restaurants db))
     \/ is_Some (find (is_job (p_job_id p)) rs')) ->
  (forall h, h ∈ hs' ->
     h ∈ extraction_history db
     \/ is_Some (find (is_job (h_job_id h)) rs')) ->
  (forall c, c ∈ cs' ->
     is_Some (find (is_job (cs_job_id c)) (restaurants db))
     \/ is_Some (find (is_job (cs_job_id c)) rs')) ->
  extraction_history db `prefix_of` hs' ->
  well_formed (mk_database rs' ps' hs' cs')
  /\ continues db (mk_database rs' ps' hs' cs').
Proof.
  intros (_ & _ & _ & _ & Hhist & _) Hrs Hkept Hps Hcs Hfk Hh Hc Hpre.
  split; [|split; [exact Hpre|exact Hkept]].
  split; [exact Hrs|]. split; [exact Hps|]. split; [exact Hcs|].
  unfold find_restaurant. cbn [restaurants phase_rows extraction_history
                                 category_sizes].
  split; [|split].
  - intros p Hp.
    destruct (Hfk p Hp) as [Hold|Hnew]; [apply Hkept; exact Hold|exact Hnew].
  - intros h Hin.
    destruct (Hh h Hin) as [Hold|Hnew]; [|exact Hnew].
    apply Hkept. apply (Hhist h Hold).
  - intros c Hin.
    destruct (Hc c Hin) as [Hold|Hnew]; [apply Hkept; exact Hold|exact Hnew].
Qed.

(** The snapshots after [upsert_phase]: still one per job and phase, each
    of a job that was there or of [job_id]. *)
Lemma upsert_phase_rows db job_id phase result :
  well_formed db ->
  NoDup (map (fun p => (p_job_id p, p_phase p))
           (upsert_phase db job_id phase result)) /\
  forall p, p ∈ upsert_phase db job_id phase result ->
    is_Some (find (is_job (p_job_id p)) (restaurants db))
    \/ p_job_id p = job_id.
Proof.
  intros (_ & Hps & _ & Hfk & _). unfold upsert_phase.
  destruct (find_phase db job_id phase) as [p0|] eqn:Hfind.
  - split.
    + rewrite (map_update_first (fun p => (p_job_id p, p_phase p)));
        [exact Hps|reflexivity].
    + intros p Hp. left.
      apply elem_of_update_first in Hp as [Hp|(x & Hx & ->)];
        [apply (Hfk p Hp)|apply (Hfk x Hx)].
  - split.
    + rewrite map_app. cbn [map]. apply NoDup_snoc; [exact Hps|].
      apply find_phase_None. exact Hfind.
    + intros p Hp. apply elem_of_app in Hp as [Hp|Hp].
      * left. apply (Hfk p Hp).
      * apply list_elem_of_singleton in Hp. subst p. right. reflexivity.
Qed.

Lemma log_action_rows db job_id phase action h :
  h ∈ log_action db job_id phase action ->
  h ∈ extraction_history db \/ h_job_id h = job_id.
Proof.
  unfold log_action. intros Hin. apply elem_of_app in Hin as [Hin|Hin];
    [left; exact Hin|].
  apply list_elem_of_singleton in Hin. subst h. right. reflexivity.
Qed.

Lemma log_action_prefix db job_id phase action :
  extraction_history db `prefix_of` log_action db job_id phase action.
Proof. unfold log_action. apply prefix_app_r. reflexivity. Qed.

Lemma updated_restaurants db job_id f :
  (forall r, r_job_id (f r) = r_job_id r) ->
  well_formed db ->
  is_Some (find_restaurant db job_id) ->
  NoDup (map r_job_id (update_first (is_job job_id) f (restaurants db))) /\
  (forall j, is_Some (find (is_job j) (restaurants db)) ->
     is_Some (find (is_job j)
                (update_first (is_job job_id) f (restaurants db)))) /\
  is_Some (find (is_job job_id)
             (update_first (is_job job_id) f (restaurants db))).
Proof.
  intros Hf (Hrs & _) Hjob.
  assert (Hkeys : map r_job_id
                    (update_first (is_job job_id) f (restaurants db))
                  = map r_job_id (restaurants db))
    by (apply map_update_first; exact Hf).
  split; [rewrite Hkeys; exact Hrs|].
  assert (Hkept : forall j, is_Some (find (is_job j) (restaurants db)) ->
     is_Some (find (is_job j)
                (update_first (is_job job_id) f (restaurants db)))).
  { intros j. apply find_job_kept. left. exact Hkeys. }
  split; [exact Hkept|]. apply Hkept. exact Hjob.
Qed.

Lemma record_phase1_keeps db job_id restaurant_name result :
  well_formed db ->
  well_formed (record_phase1 db job_id restaurant_name result)
  /\ continues db (record_phase1 db job_id restaurant_name result).
Proof.
  intros Hwf. unfold record_phase1.
  destruct (upsert_phase_rows db job_id 1 result Hwf) as [Hps Hfk].
  pose proof Hwf as (_ & _ & Hcs & _ & _ & Hcfk).
  destruct (find_restaurant db job_id) as [r|] eqn:Hfind.
  - destruct (updated_restaurants db job_id
                (fun r => mk_restaurant (r_job_id r) (Some restaurant_name) 1
                            result "phase1_complete")
                ltac:(reflexivity) Hwf) as (Hrs & Hkept & Hjob).
    { rewrite Hfind. eauto. }
    apply (well_formed_step db); try assumption.
    + intros p Hp. destruct (Hfk p Hp) as [Hold | ->]; [left; exact Hold|].
      right. exact Hjob.
    + intros h Hh. destruct (log_action_rows _ _ _ _ _ Hh) as [Hold | ->];
        [left; exact Hold|right; exact Hjob].
    + intros c Hc. left. apply (Hcfk c Hc).
    + apply log_action_prefix.
  - assert (Hjob : is_Some (find (is_job job_id)
                     (restaurants db
                      ++ [mk_restaurant job_id (Some restaurant_name) 1
                            result "phase1_complete"]))).
    { unfold find_restaurant in Hfind. rewrite (find_app_None _ _ _ Hfind).
      cbn. unfold is_job. cbn. rewrite String.eqb_refl. eauto. }
    apply (well_formed_step db); try assumption.
    + rewrite map_app. cbn [map]. apply NoDup_snoc; [apply Hwf|].
      apply find_restaurant_None. exact Hfind.
    + intros j. apply find_job_kept. right. eauto.
    + intros p Hp. destruct (Hfk p Hp) as [Hold | ->]; [left; exact Hold|].
      right. exact Hjob.
    + intros h Hh. destruct (log_action_rows _ _ _ _ _ Hh) as [Hold | ->];
        [left; exact Hold|right; exact Hjob].
    + intros c Hc. left. apply (Hcfk c Hc).
    + apply log_action_prefix.
Qed.

Lemma record_phase_keeps phase complete db job_id result db' :
  well_formed db ->
  record_phase phase complete db job_id result = Reply db' ->
  well_formed db' /\ continues db db'.
Proof.
  intros Hwf. unfold record_phase.
  destruct (find_restaurant db job_id) as [r|] eqn:Hfind; [|discriminate].
  intros [= <-].
  destruct (upsert_phase_rows db job_id phase result Hwf) as [Hps Hfk].
  pose proof Hwf as (_ & _ & Hcs & _ & _ & Hcfk).
  destruct (updated_restaurants db job_id
              (fun r => mk_restaurant (r_job_id r) (r_name r) phase result
                          complete)
              ltac:(reflexivity) Hwf) as (Hrs & Hkept & Hjob).
  { rewrite Hfind. eauto. }
  apply (well_formed_step db); try assumption.
  - intros p Hp. destruct (Hfk p Hp) as [Hold | ->]; [left; exact Hold|].
    right. exact Hjob.
  - intros h Hh. destruct (log_action_rows _ _ _ _ _ Hh) as [Hold | ->];
      [left; exact Hold|right; exact Hjob].
  - intros c Hc. left. apply (Hcfk c Hc).
  - apply log_action_prefix.
Qed.

Lemma record_edit_keeps phase db job_id data :
  well_formed db ->
  well_formed (record_edit phase db job_id data)
  /\ continues db (record_edit phase db job_id data).
Proof.
  intros Hwf. unfold record_edit.
  destruct (find_restaurant db job_id) as [r|] eqn:Hfind;
    [|split; [exact Hwf|apply continues_refl]].
  destruct (updated_restaurants db job_id
              (fun r => mk_restaurant (r_job_id r) (r_name r) (r_phase r)
                          data (r_status r))
              ltac:(reflexivity) Hwf) as (Hrs & Hkept & Hjob).
  { rewrite Hfind. eauto. }
  pose proof Hwf as (_ & Hps & Hcs & Hfk & _ & Hcfk).
  apply (well_formed_step db); try assumption.
  - destruct (find_phase db job_id phase); [|exact Hps].
    rewrite (map_update_first (fun p => (p_job_id p, p_phase p)));
      [exact Hps|reflexivity].
  - intros p Hp. left.
    destruct (find_phase db job_id phase); [|apply (Hfk p Hp)].
    apply elem_of_update_first in Hp as [Hp|(x & Hx & ->)];
      [apply (Hfk p Hp)|apply (Hfk x Hx)].
  - intros h Hh. destruct (log_action_rows _ _ _ _ _ Hh) as [Hold | ->];
      [left; exact Hold|right; exact Hjob].
  - intros c Hc. left. apply (Hcfk c Hc).
  - apply log_action_prefix.
Qed.

Lemma update_job_status_keeps db job_id request :
  well_formed db ->
  well_formed (snd (update_job_status db job_id request))
  /\ continues db (snd (update_job_status db job_id request)).
Proof.
  intros Hwf. unfold update_job_status.
  destruct (find_restaurant db job_id) as [r|] eqn:Hfind; cbn [snd];
    [|split; [exact Hwf|apply continues_refl]].
  destruct (updated_restaurants db job_id
              (fun r =>
                 mk_restaurant (r_job_id r) (r_name r)
                   (match request_current_phase request with
                    | Some current_phase => current_phase
                    | None => r_phase r
                    end)
                   (r_json r) (request_status request))
              ltac:(reflexivity) Hwf) as (Hrs & Hkept & Hjob).
  { rewrite Hfind. eauto. }
  pose proof Hwf as (_ & Hps & Hcs & Hfk & _ & Hcfk).
  apply (well_formed_step db); try assumption.
  - intros p Hp. left. apply (Hfk p Hp).
  - intros h Hh. left. exact Hh.
  - intros c Hc. left. apply (Hcfk c Hc).
  - reflexivity.
Qed.

Lemma update_category_sizes_keeps (exception_str : raised -> string) db
    job_id category_name request :
  well_formed db ->
  well_formed
    (snd (update_category_sizes exception_str db job_id category_name
            request))
  /\ continues db
       (snd (update_category_sizes exception_str db job_id category_name
               request)).
Proof.
  intros Hwf. unfold update_category_sizes.
  destruct (find_restaurant db job_id) as [r|] eqn:Hfind; cbn [snd];
    [|split; [exact Hwf|apply continues_refl]].
  pose proof Hwf as (Hrs & Hps & Hcs & Hfk & _ & Hcfk).
  assert (Hjob : is_Some (find (is_job job_id) (restaurants db)))
    by (unfold find_restaurant in Hfind; rewrite Hfind; eauto).
  apply (well_formed_step db); try assumption.
  - auto.
  - destruct (find_sizes db job_id category_name) as [c0|] eqn:Hsizes.
    + rewrite (map_update_first
                 (fun c => (cs_job_id c, cs_category_name c)));
        [exact Hcs|reflexivity].
    + rewrite map_app. cbn [map]. apply NoDup_snoc; [exact Hcs|].
      apply find_sizes_None. exact Hsizes.
  - intros p Hp. left. apply (Hfk p Hp).
  - intros h Hh. destruct (log_action_rows _ _ _ _ _ Hh) as [Hold | ->];
      [left; exact Hold|right; exact Hjob].
  - intros c Hc. left.
    destruct (find_sizes db job_id category_name).
    + apply elem_of_update_first in Hc as [Hc|(x & Hx & ->)];
        [apply (Hcfk c Hc)|apply (Hcfk x Hx)].
    + apply elem_of_app in Hc as [Hc|Hc]; [apply (Hcfk c Hc)|].
      apply list_elem_of_singleton in Hc. subst c. exact Hjob.
  - apply log_action_prefix.
Qed.
End WellFormedFacts.

Section RouteFacts.
Context `{Collaborators}.
Variable json_dumps : json -> string.
Variable path_str : path -> string.
Variable exception_str : raised -> string.

(** An extract route of stages two to four either stores the result of the
    stage or answers with an error and changes nothing. *)
Lemma store_phase_cases phase label complete target fs db job_id result :
  (exists db',
     record_phase phase complete db job_id (JObj result) = Reply db' /\
     store_phase json_dumps exception_str phase label complete target fs db
       job_id result
     = (Reply {| phase_success := true;
                 phase_job_id := job_id;
                 phase_data := result;
                 phase_message := label ++ " extraction complete" |},
        save_json json_dumps fs target (JObj result), db'))
  \/ (find_restaurant db job_id = None /\
      store_phase json_dumps exception_str phase label complete target fs db
        job_id result
      = (Throw (HTTPException 500
                  (label ++ " failed: "
                   ++ exception_str (HTTPException 404 "Job not found"))),
         save_json json_dumps fs target (JObj result), db)).
Proof.
  unfold store_phase, record_phase.
  destruct (find_restaurant db job_id) as [r|] eqn:Hfind.
  - left. eexists. split; reflexivity.
  - right. split; reflexivity.
Qed.

Lemma store_phase_keeps phase label complete target fs db job_id result :
  well_formed db ->
  well_formed
    (snd (store_phase json_dumps exception_str phase label complete target
            fs db job_id result))
  /\ continues db
       (snd (store_phase json_dumps exception_str phase label complete
               target fs db job_id result)).
Proof.
  intros Hwf.
  destruct (store_phase_cases phase label complete target fs db job_id
              result) as [(db' & Hrec & ->)|(_ & ->)]; cbn [snd].
  - exact (record_phase_keeps _ _ _ _ _ _ Hwf Hrec).
  - split; [exact Hwf|apply continues_refl].
Qed.

(** The shape of the three later extract routes: the body up to the call
    of the stage, then [store_phase] or the handlers. *)
Lemma extract_route_keeps phase label complete target fs db job_id
    (body : reply pydict) :
  well_formed db ->
  let after :=
    match body with
    | Reply result =>
        store_phase json_dumps exception_str phase label complete target fs
          db job_id result
    | Throw r => (Throw (extract_handlers exception_str label r), fs, db)
    end in
  well_formed (snd after) /\ continues db (snd after).
Proof.
  intros Hwf after. subst after. destruct body as [result|r].
  - apply store_phase_keeps. exact Hwf.
  - split; [exact Hwf|apply continues_refl].
Qed.

Lemma edit_route_keeps validation phase target fs db job_id request :
  well_formed db ->
  well_formed
    (snd (edit_route json_dumps exception_str validation phase target fs db
            job_id request))
  /\ continues db
       (snd (edit_route json_dumps exception_str validation phase target fs
               db job_id request)).
Proof.
  intros Hwf. unfold edit_route. destruct validation as [[]|r]; cbn [snd].
  - apply record_edit_keeps. exact Hwf.
  - split; [exact Hwf|apply continues_refl].
Qed.
End RouteFacts.

(** The routes keep the database in shape.  When there is one row per job,
    one snapshot per job and phase and one row of sizes per job and
    category, and every snapshot, log entry and row of sizes belongs to a
    job, the same holds after each extract route, each update route, the
    route on the status of a job and the route that sets sizes, whatever
    the stage returned and whether the route answered or failed.  None of
    them loses a job or touches an entry of the extraction log: the old log
    is the beginning of the new one. *)
Theorem database_stays_well_formed `{Collaborators}
    (json_dumps : json -> string) (path_str : path -> string)
    (exception_str : raised -> string) (fs : disk) (db : database)
    (job_id : string) :
  well_formed db ->
  (forall stage restaurant_name pdf,
     let db' :=
       snd (extract_categories json_dumps path_str exception_str stage fs db
              job_id restaurant_name pdf) in
     well_formed db' /\ continues db db')
  /\ (forall stage,
        let db' :=
          snd (extract_items json_dumps path_str exception_str stage fs db
                 job_id) in
        well_formed db' /\ continues db db')
  /\ (forall stage,
        let db' :=
          snd (extract_bases json_dumps path_str exception_str stage fs db
                 job_id) in
        well_formed db' /\ continues db db')
  /\ (forall stage,
        let db' :=
          snd (extract_addons json_dumps path_str exception_str stage fs db
                 job_id) in
        well_formed db' /\ continues db db')
  /\ (forall request,
        let db1 :=
          snd (edit_categories json_dumps exception_str fs db job_id
                 request) in
        let db2 :=
          snd (edit_items json_dumps exception_str fs db job_id request) in
        let db3 :=
          snd (edit_bases json_dumps exception_str fs db job_id request) in
        let db4 :=
          snd (edit_final_result json_dumps exception_str fs db job_id
                 request) in
        (well_formed db1 /\ continues db db1)
        /\ (well_formed db2 /\ continues db db2)
        /\ (well_formed db3 /\ continues db db3)
        /\ (well_formed db4 /\ continues db db4))
  /\ (forall request,
        let db' := snd (update_job_status db job_id request) in
        well_formed db' /\ continues db db')
  /\ (forall category_name request,
        let db' :=
          snd (update_category_sizes exception_str db job_id category_name
                 request) in
        well_formed db' /\ continues db db').
Proof.
  intros Hwf. repeat split_and.
  - intros stage restaurant_name pdf db'. subst db'.
    unfold extract_categories, save_pdf. destruct (read pdf) as [content pdf'].
    destruct (stage restaurant_name _) as [result|r]; cbn [snd].
    + apply record_phase1_keeps. exact Hwf.
    + split; [exact Hwf|apply continues_refl].
  - intros stage. apply extract_route_keeps. exact Hwf.
  - intros stage. apply extract_route_keeps. exact Hwf.
  - intros stage. apply extract_route_keeps. exact Hwf.
  - intros request. cbn zeta. repeat split_and;
      apply edit_route_keeps; exact Hwf.
  - intros request. apply update_job_status_keeps. exact Hwf.
  - intros category_name request. apply update_category_sizes_keeps.
    exact Hwf.
Qed.

Section RecordFacts.

(** The row of the job after the database statements of an extract route
    of stages two to four, and the rows of the other jobs. *)
Lemma record_phase_found phase complete db job_id result r :
  find_restaurant db job_id = Some r ->
  exists db',
    record_phase phase complete db job_id result = Reply db'
    /\ find_restaurant db' job_id
       = Some (mk_restaurant (r_job_id r) (r_name r) phase result complete)
    /\ get_job db' job_id
       = (counts ← of_res (get_job_counts result);
          Reply {| job_status := complete;
                   current_phase := phase;
                   job_restaurant_name := r_name r;
                   category_count := fst counts;
                   item_count := snd counts |})
    /\ (forall j, j <> job_id ->
          find_restaurant db' j = find_restaurant db j).
Proof.
  intros Hfind. unfold record_phase. rewrite Hfind.
  eexists. split; [reflexivity|].
  destruct (updated_restaurant_lookup (restaurants db) job_id
              (fun r => mk_restaurant (r_job_id r) (r_name r) phase result
                          complete) r
              ltac:(reflexivity) Hfind) as [Hjob Hrest].
  split; [exact Hjob|]. split; [|exact Hrest].
  unfold get_job, find_restaurant. cbn [restaurants]. rewrite Hjob.
  reflexivity.
Qed.

(** The same for [extract_categories], which makes the row when it is not
    there. *)
Lemma record_phase1_found db job_id restaurant_name result :
  find_restaurant (record_phase1 db job_id restaurant_name result) job_id
  = Some (mk_restaurant job_id (Some restaurant_name) 1 result
            "phase1_complete")
  /\ forall j, j <> job_id ->
       find_restaurant (record_phase1 db job_id restaurant_name result) j
       = find_restaurant db j.
Proof.
  unfold record_phase1, find_restaurant at 1 3. cbn [restaurants].
  fold (find_restaurant db job_id).
  destruct (find_restaurant db job_id) as [r|] eqn:Hfind.
  - destruct (updated_restaurant_lookup (restaurants db) job_id
                (fun r => mk_restaurant (r_job_id r)
                            (Some restaurant_name) 1 result
                            "phase1_complete") r
                ltac:(reflexivity) Hfind) as [Hjob Hrest].
    split; [|exact Hrest]. rewrite Hjob.
    destruct (find_is_job _ _ _ Hfind) as [-> _]. reflexivity.
  - split.
    + unfold find_restaurant in Hfind.
      rewrite (find_app_None _ _ _ Hfind). cbn [find].
      unfold is_job. cbn. rewrite String.eqb_refl. reflexivity.
    + intros j Hne. apply find_snoc_other. unfold is_job. cbn.
      apply String.eqb_neq. congruence.
Qed.
End RecordFacts.

(** What an extraction stores can be read back.  After the database
    statements of [extract_categories] the job is there with the restaurant
    name, phase 1 and status [phase1_complete], whether or not it was there
    before.  After those of [extract_items], [extract_bases] and
    [extract_addons] on a job that is in the database, the job keeps its
    name and has the new phase, status and document, so [get_job] reports
    them with the counts of the new document.  In both cases the snapshot
    of the phase holds the new document with status [success]; the rows of
    other jobs and the snapshots of other phases read as before. *)
Theorem extraction_is_recorded (db : database) (job_id : string) :
  (forall restaurant_name result,
     let db' := record_phase1 db job_id restaurant_name result in
     find_restaurant db' job_id
     = Some (mk_restaurant job_id (Some restaurant_name) 1 result
               "phase1_complete")
     /\ (exists p, find_phase db' job_id 1 = Some p
                   /\ p_json p = result /\ p_status p = "success")
     /\ (forall j, j <> job_id ->
           find_restaurant db' j = find_restaurant db j
           /\ get_job db' j = get_job db j)
     /\ (forall j ph, j <> job_id \/ ph <> 1 ->
           find_phase db' j ph = find_phase db j ph))
  /\ (forall phase complete result db',
        record_phase phase complete db job_id result = Reply db' ->
        (exists r, find_restaurant db job_id = Some r
                   /\ find_restaurant db' job_id
                      = Some (mk_restaurant (r_job_id r) (r_name r) phase
                                result complete)
                   /\ get_job db' job_id
                      = (counts ← of_res (get_job_counts result);
                         Reply {| job_status := complete;
                                  current_phase := phase;
                                  job_restaurant_name := r_name r;
                                  category_count := fst counts;
                                  item_count := snd counts |}))
        /\ (exists p, find_phase db' job_id phase = Some p
                      /\ p_json p = result /\ p_status p = "success")
        /\ (forall j, j <> job_id ->
              find_restaurant db' j = find_restaurant db j
              /\ get_job db' j = get_job db j)
        /\ (forall j ph, j <> job_id \/ ph <> phase ->
              find_phase db' j ph = find_phase db j ph)).
Proof.
  split.
  - intros restaurant_name result db'. subst db'.
    destruct (upsert_phase_lookup db job_id 1 result) as [Hsnap Hothers].
    destruct (record_phase1_found db job_id restaurant_name result)
      as [Hjob Hrest].
    split; [exact Hjob|]. split; [exact Hsnap|]. split; [|exact Hothers].
    intros j Hne. split; [apply Hrest, Hne|].
    apply get_job_same, Hrest, Hne.
  - intros phase complete result db' Hrec.
    destruct (find_restaurant db job_id) as [r|] eqn:Hfind;
      [|unfold record_phase in Hrec; rewrite Hfind in Hrec; discriminate].
    destruct (record_phase_found phase complete db job_id result r Hfind)
      as (db'' & Hrec' & Hjob & Hget & Hrest).
    rewrite Hrec in Hrec'. inversion Hrec'; subst db''; clear Hrec'.
    destruct (upsert_phase_lookup db job_id phase result) as [Hsnap Hothers].
    assert (Hrows : phase_rows db' = upsert_phase db job_id phase result).
    { unfold record_phase in Hrec. rewrite Hfind in Hrec.
      inversion Hrec. reflexivity. }
    unfold find_phase at 1 2. rewrite Hrows.
    split; [|split; [exact Hsnap|split; [|exact Hothers]]].
    + exists r. split; [reflexivity|]. split; [exact Hjob|exact Hget].
    + intros j Hne. split; [apply Hrest, Hne|].
      apply get_job_same. apply Hrest, Hne.
Qed.

(** A job that is not in the database.  [get_job] and [update_job_status]
    answer 404.  The extract routes of stages two to four raise 404 for it
    inside their [try], so the client gets status 500 with that error in
    the detail; by then the result is on disk, and the database is as it
    was.  The routes on sizes answer 500 in the same way.  The update
    routes skip their database statements and answer as for any other job:
    when the data passes validation they save it and report success. *)
Theorem job_not_in_database `{Collaborators} (json_dumps : json -> string)
    (exception_str : raised -> string) (fs : disk) (db : database)
    (job_id : string) :
  find_restaurant db job_id = None ->
  get_job db job_id
  = Throw (HTTPException 404 ("Job " ++ job_id ++ " not found"))
  /\ (forall request,
        update_job_status db job_id request
        = (Throw (HTTPException 404 ("Job " ++ job_id ++ " not found")), db))
  /\ (forall result,
        store_items json_dumps exception_str fs db job_id result
        = (Throw (HTTPException 500
                    ("Phase 2 failed: "
                     ++ exception_str (HTTPException 404 "Job not found"))),
           save_json json_dumps fs (phase2_path job_id) (JObj result), db)
        /\ store_bases json_dumps exception_str fs db job_id result
           = (Throw (HTTPException 500
                       ("Phase 3 failed: "
                        ++ exception_str
                             (HTTPException 404 "Job not found"))),
              save_json json_dumps fs (phase3_path job_id) (JObj result), db)
        /\ store_addons json_dumps exception_str fs db job_id result
           = (Throw (HTTPException 500
                       ("Phase 4 failed: "
                        ++ exception_str
                             (HTTPException 404 "Job not found"))),
              save_json json_dumps fs (phase4_path job_id) (JObj result),
              db))
  /\ (forall category_name request,
        get_category_sizes exception_str db job_id category_name
        = Throw (HTTPException 500
                   ("Failed to get sizes: "
                    ++ exception_str (HTTPException 404 "Job not found")))
        /\ update_category_sizes exception_str db job_id category_name
             request
           = (Throw (HTTPException 500
                       ("Failed to update sizes: "
                        ++ exception_str
                             (HTTPException 404 "Job not found"))),
              db))
  /\ (forall request,
        (validate_categories (request_data request) = Reply tt ->
         edit_categories json_dumps exception_str fs db job_id request
         = (Reply (new_UpdateDataResponse job_id),
            save_json json_dumps fs (phase1_reviewed_path job_id)
              (JObj (request_data request)), db))
        /\ (validate_items (request_data request) = Reply tt ->
            edit_items json_dumps exception_str fs db job_id request
            = (Reply (new_UpdateDataResponse job_id),
               save_json json_dumps fs (phase2_path job_id)
                 (JObj (request_data request)), db))
        /\ (validate_bases (request_data request) = Reply tt ->
            edit_bases json_dumps exception_str fs db job_id request
            = (Reply (new_UpdateDataResponse job_id),
               save_json json_dumps fs (phase3_path job_id)
                 (JObj (request_data request)), db))
        /\ (validate_final_result (request_data request) = Reply tt ->
            edit_final_result json_dumps exception_str fs db job_id request
            = (Reply (new_UpdateDataResponse job_id),
               save_json json_dumps fs (phase4_path job_id)
                 (JObj (request_data request)), db))).
Proof.
  intros Hfind. repeat split_and.
  - unfold get_job. rewrite Hfind. reflexivity.
  - intros request. unfold update_job_status. rewrite Hfind. reflexivity.
  - intros result.
    unfold store_items, store_bases, store_addons, store_phase, record_phase.
    rewrite Hfind. cbn [extract_handlers]. repeat split.
  - intros category_name request.
    unfold get_category_sizes, update_category_sizes. rewrite Hfind.
    split; reflexivity.
  - intros request.
    unfold edit_categories, edit_items, edit_bases, edit_final_result,
      edit_route, record_edit.
    rewrite Hfind.
    repeat split; intros ->; reflexivity.
Qed.

(** An edit replaces the current document of the job.  For a job that is in
    the database, the database statements of an update route put the edited
    data into the row of the job and leave its name, phase and status, so
    [get_job] counts the categories and items of the edited data under the
    phase the job had.  A snapshot of the edited phase gets the data too;
    when there is none, none is made.  Other jobs and the snapshots of
    other phases read as before. *)
Theorem edit_replaces_current_document (db : database) (job_id : string)
    (phase : Z) (data : json) (r : Restaurant) :
  find_restaurant db job_id = Some r ->
  let db' := record_edit phase db job_id data in
  find_restaurant db' job_id
  = Some (mk_restaurant (r_job_id r) (r_name r) (r_phase r) data (r_status r))
  /\ get_job db' job_id
     = (counts ← of_res (get_job_counts data);
        Reply {| job_status := r_status r;
                 current_phase := r_phase r;
                 job_restaurant_name := r_name r;
                 category_count := fst counts;
                 item_count := snd counts |})
  /\ find_phase db' job_id phase
     = ((fun p => mk_phase_data (p_job_id p) (p_phase p) data (p_status p))
          <$> find_phase db job_id phase)
  /\ (forall j, j <> job_id ->
        find_restaurant db' j = find_restaurant db j
        /\ get_job db' j = get_job db j)
  /\ (forall j ph, j <> job_id \/ ph <> phase ->
        find_phase db' j ph = find_phase db j ph).
Proof.
  intros Hfind db'. subst db'. unfold record_edit. rewrite Hfind.
  destruct (updated_restaurant_lookup (restaurants db) job_id
              (fun r => mk_restaurant (r_job_id r) (r_name r) (r_phase r)
                          data (r_status r)) r
              ltac:(reflexivity) Hfind) as [Hjob Hrest].
  split; [exact Hjob|]. split; [|split; [|split]].
  - unfold get_job, find_restaurant. cbn [restaurants]. rewrite Hjob.
    reflexivity.
  - unfold find_phase at 1. cbn [phase_rows].
    destruct (find_phase db job_id phase) as [p0|] eqn:Hp.
    + unfold find_phase in Hp. rewrite find_update_first, Hp;
        [reflexivity|intros x; reflexivity].
    + exact Hp.
  - intros j Hne. split; [apply Hrest, Hne|].
    apply get_job_same. apply Hrest, Hne.
  - intros j ph Hne. unfold find_phase at 1. cbn [phase_rows].
    destruct (find_phase db job_id phase); [|reflexivity].
    apply find_update_first_other; [intros x; reflexivity|].
    intros x. apply is_phase_other. exact Hne.
Qed.

Section FileFacts.
Context `{Collaborators}.
Variable json_dumps : json -> string.
Variable path_str : path -> string.
Variable exception_str : raised -> string.
Variable dict_type_error : json -> string.

Lemma path_eqb_neq p q : p <> q -> path_eqb p q = false.
Proof.
  intros Hne. destruct p as [n|j n], q as [m|k m]; cbn; try reflexivity.
  - apply String.eqb_neq. congruence.
  - apply andb_false_iff.
    destruct (String.eqb_spec j k) as [->|Hjk]; [right|left; reflexivity].
    apply String.eqb_neq. congruence.
Qed.

Lemma save_json_other fs target data p :
  p <> target -> save_json json_dumps fs target data p = fs p.
Proof. intros Hne. apply write_other, path_eqb_neq, Hne. Qed.

(** A file that was saved loads again when [json.loads] reads what
    [json.dumps] wrote. *)
Lemma load_saved fs target data :
  json_loads (json_dumps data) = inr data ->
  load_json path_str (save_json json_dumps fs target data) target
  = Reply data.
Proof.
  intros Hround. unfold load_json, save_json. rewrite write_same, Hround.
  reflexivity.
Qed.

Lemma load_missing fs p :
  fs p = None ->
  load_json path_str fs p
  = Throw (Python (FileNotFoundError ("File not found: " ++ path_str p))).
Proof. intros Hnone. unfold load_json. rewrite Hnone. reflexivity. Qed.

Lemma store_phase_disk phase label complete target fs db job_id result :
  snd (fst (store_phase json_dumps exception_str phase label complete target
              fs db job_id result))
  = save_json json_dumps fs target (JObj result).
Proof.
  destruct (store_phase_cases json_dumps exception_str phase label complete
              target fs db job_id result) as [(db' & _ & ->)|(_ & ->)];
    reflexivity.
Qed.

Lemma store_phase_failure phase label complete target fs db job_id result r :
  fst (fst (store_phase json_dumps exception_str phase label complete target
              fs db job_id result)) = Throw r ->
  snd (store_phase json_dumps exception_str phase label complete target fs db
         job_id result) = db.
Proof.
  destruct (store_phase_cases json_dumps exception_str phase label complete
              target fs db job_id result) as [(db' & _ & ->)|(_ & ->)];
    cbn [fst snd]; [discriminate|reflexivity].
Qed.

(** The later extract routes after their body: the only file written is the
    target, and an error leaves the database as it was. *)
Lemma extract_route_frame phase label complete target fs db job_id
    (body : reply pydict) :
  let after :=
    match body with
    | Reply result =>
        store_phase json_dumps exception_str phase label complete target fs
          db job_id result
    | Throw r => (Throw (extract_handlers exception_str label r), fs, db)
    end in
  (forall p, p <> target -> snd (fst after) p = fs p)
  /\ (forall r, fst (fst after) = Throw r -> snd after = db).
Proof.
  intros after. subst after. destruct body as [result|r0]; split.
  - intros p Hne. rewrite store_phase_disk. apply save_json_other, Hne.
  - intros r. apply store_phase_failure.
  - reflexivity.
  - reflexivity.
Qed.

Lemma edit_route_frame validation phase target fs db job_id request :
  let after :=
    edit_route json_dumps exception_str validation phase target fs db job_id
      request in
  (forall p, p <> target -> snd (fst after) p = fs p)
  /\ (forall r, fst (fst after) = Throw r -> snd after = db).
Proof.
  intros after. subst after. unfold edit_route.
  destruct validation as [[]|r0]; cbn [fst snd]; split;
    try reflexivity; try discriminate.
  intros p Hne. apply save_json_other, Hne.
Qed.
End FileFacts.

(** The inputs of the later extract routes.  When the document of the stage
    before is not on disk the route answers 404 with the message of
    [load_json], whether or not the PDF is there; [extract_addons] wants
    the documents of stages two and three.  When the documents load and the
    PDF of the job is missing, the 404 the route raises is caught by its
    own [except Exception], and the client gets status 500.  In all these
    cases the stage is not run, and the disk and the database stay as they
    were. *)
Theorem extract_input_errors `{Collaborators} (json_dumps : json -> string)
    (path_str : path -> string) (exception_str : raised -> string)
    (fs : disk) (db : database) (job_id : string) :
  (forall stage,
     fs (phase1_reviewed_path job_id) = None ->
     extract_items json_dumps path_str exception_str stage fs db job_id
     = (Throw (HTTPException 404
                 (exception_str
                    (Python (FileNotFoundError
                               ("File not found: "
                                ++ path_str (phase1_reviewed_path job_id)))))),
        fs, db))
  /\ (forall stage,
        fs (phase2_path job_id) = None ->
        extract_bases json_dumps path_str exception_str stage fs db job_id
        = (Throw (HTTPException 404
                    (exception_str
                       (Python (FileNotFoundError
                                  ("File not found: "
                                   ++ path_str (phase2_path job_id)))))),
           fs, db))
  /\ (forall stage,
        fs (phase2_path job_id) = None ->
        extract_addons json_dumps path_str exception_str stage fs db job_id
        = (Throw (HTTPException 404
                    (exception_str
                       (Python (FileNotFoundError
                                  ("File not found: "
                                   ++ path_str (phase2_path job_id)))))),
           fs, db))
  /\ (forall stage items_data,
        load_json path_str fs (phase2_path job_id) = Reply items_data ->
        fs (phase3_path job_id) = None ->
        extract_addons json_dumps path_str exception_str stage fs db job_id
        = (Throw (HTTPException 404
                    (exception_str
                       (Python (FileNotFoundError
                                  ("File not found: "
                                   ++ path_str (phase3_path job_id)))))),
           fs, db))
  /\ (fs (pdf_path job_id) = None ->
      (forall stage reviewed_data,
         load_json path_str fs (phase1_reviewed_path job_id)
         = Reply reviewed_data ->
         extract_items json_dumps path_str exception_str stage fs db job_id
         = (Throw (HTTPException 500
                     ("Phase 2 failed: "
                      ++ exception_str (HTTPException 404 "PDF not found"))),
            fs, db))
      /\ (forall stage items_data,
            load_json path_str fs (phase2_path job_id) = Reply items_data ->
            extract_bases json_dumps path_str exception_str stage fs db job_id
            = (Throw (HTTPException 500
                        ("Phase 3 failed: "
                         ++ exception_str
                              (HTTPException 404 "PDF not found"))),
               fs, db))
      /\ (forall stage items_data bases_data,
            load_json path_str fs (phase2_path job_id) = Reply items_data ->
            load_json path_str fs (phase3_path job_id) = Reply bases_data ->
            extract_addons json_dumps path_str exception_str stage fs db
              job_id
            = (Throw (HTTPException 500
                        ("Phase 4 failed: "
                         ++ exception_str
                              (HTTPException 404 "PDF not found"))),
               fs, db))).
Proof.
  repeat split_and.
  - intros stage Hnone. unfold extract_items.
    rewrite (load_missing path_str _ _ Hnone). reflexivity.
  - intros stage Hnone. unfold extract_bases.
    rewrite (load_missing path_str _ _ Hnone). reflexivity.
  - intros stage Hnone. unfold extract_addons.
    rewrite (load_missing path_str _ _ Hnone). reflexivity.
  - intros stage items_data Hitems Hnone. unfold extract_addons.
    rewrite Hitems, (load_missing path_str _ _ Hnone). reflexivity.
  - intros Hpdf. repeat split_and.
    + intros stage reviewed_data Hload. unfold extract_items, path_exists.
      rewrite Hload, Hpdf. reflexivity.
    + intros stage items_data Hload. unfold extract_bases, path_exists.
      rewrite Hload, Hpdf. reflexivity.
    + intros stage items_data bases_data Hitems Hbases.
      unfold extract_addons, path_exists.
      rewrite Hitems, Hbases, Hpdf. reflexivity.
Qed.

(** A route that answers with an error has changed no row.  For each
    extract route, each update route, the route on the status of a job and
    the route that sets sizes: when the answer is an error, the database
    after the route is the database before it. *)
Theorem errors_change_no_row `{Collaborators} (json_dumps : json -> string)
    (path_str : path -> string) (exception_str : raised -> string)
    (fs : disk) (db : database) (job_id : string) (r : raised) :
  (forall stage restaurant_name pdf,
     fst (fst (extract_categories json_dumps path_str exception_str stage fs
                 db job_id restaurant_name pdf)) = Throw r ->
     snd (extract_categories json_dumps path_str exception_str stage fs db
            job_id restaurant_name pdf) = db)
  /\ (forall stage,
        fst (fst (extract_items json_dumps path_str exception_str stage fs db
                    job_id)) = Throw r ->
        snd (extract_items json_dumps path_str exception_str stage fs db
               job_id) = db)
  /\ (forall stage,
        fst (fst (extract_bases json_dumps path_str exception_str stage fs db
                    job_id)) = Throw r ->
        snd (extract_bases json_dumps path_str exception_str stage fs db
               job_id) = db)
  /\ (forall stage,
        fst (fst (extract_addons json_dumps path_str exception_str stage fs
                    db job_id)) = Throw r ->
        snd (extract_addons json_dumps path_str exception_str stage fs db
               job_id) = db)
  /\ (forall request,
        (fst (fst (edit_categories json_dumps exception_str fs db job_id
                     request)) = Throw r ->
         snd (edit_categories json_dumps exception_str fs db job_id request)
         = db)
        /\ (fst (fst (edit_items json_dumps exception_str fs db job_id
                        request)) = Throw r ->
            snd (edit_items json_dumps exception_str fs db job_id request)
            = db)
        /\ (fst (fst (edit_bases json_dumps exception_str fs db job_id
                        request)) = Throw r ->
            snd (edit_bases json_dumps exception_str fs db job_id request)
            = db)
        /\ (fst (fst (edit_final_result json_dumps exception_str fs db job_id
                        request)) = Throw r ->
            snd (edit_final_result json_dumps exception_str fs db job_id
                   request) = db))
  /\ (forall request,
        fst (update_job_status db job_id request) = Throw r ->
        snd (update_job_status db job_id request) = db)
  /\ (forall category_name request,
        fst (update_category_sizes exception_str db job_id category_name
               request) = Throw r ->
        snd (update_category_sizes exception_str db job_id category_name
               request) = db).
Proof.
  repeat split_and.
  - intros stage restaurant_name pdf.
    unfold extract_categories, save_pdf. destruct (read pdf) as [content pdf'].
    destruct (stage restaurant_name _) as [result|r0]; cbn [fst snd];
      [discriminate|reflexivity].
  - intros stage. apply extract_route_frame.
  - intros stage. apply extract_route_frame.
  - intros stage. apply extract_route_frame.
  - intros request. repeat split_and; apply edit_route_frame.
  - intros request. unfold update_job_status.
    destruct (find_restaurant db job_id); cbn [fst snd];
      [discriminate|reflexivity].
  - intros category_name request. unfold update_category_sizes.
    destruct (find_restaurant db job_id); cbn [fst snd];
      [discriminate|reflexivity].
Qed.


Section ReadBackFacts.
Context `{Collaborators}.
Variable json_dumps : json -> string.
Variable path_str : path -> string.
Variable exception_str : raised -> string.

(** [store_phase] for a job that is in the database. *)
Lemma store_phase_found phase label complete target fs db job_id result r :
  find_restaurant db job_id = Some r ->
  exists db',
    store_phase json_dumps exception_str phase label complete target fs db
      job_id result
    = (Reply {| phase_success := true;
                phase_job_id := job_id;
                phase_data := result;
                phase_message := label ++ " extraction complete" |},
       save_json json_dumps fs target (JObj result), db')
    /\ get_job db' job_id
       = (counts ← of_res (get_job_counts (JObj result));
          Reply {| job_status := complete;
                   current_phase := phase;
                   job_restaurant_name := r_name r;
                   category_count := fst counts;
                   item_count := snd counts |}).
Proof.
  intros Hfind.
  destruct (record_phase_found phase complete db job_id (JObj result) r Hfind)
    as (db' & Hrec & _ & Hget & _).
  exists db'. split; [|exact Hget].
  unfold store_phase. rewrite Hrec. reflexivity.
Qed.
End ReadBackFacts.

(** An extraction that succeeds can be read back through the GET routes.
    Let [json.loads] read back what [json.dumps] writes for the result of
    the stage.  After [extract_categories] the PDF of the job holds the
    upload, [get_categories] returns the result, and [get_job] reports
    phase 1 for the restaurant with the counts of the result.  After
    [extract_items], [extract_bases] and [extract_addons] on a job that is
    in the database and whose inputs are on disk, the GET route of the
    stage returns the result and [get_job] reports the stage, its status
    and the counts of the result. *)
Theorem extract_then_get `{Collaborators} (json_dumps : json -> string)
    (path_str : path -> string) (exception_str : raised -> string)
    (dict_type_error : json -> string) (fs : disk) (db : database)
    (job_id : string) (result : pydict) :
  json_loads (json_dumps (JObj result)) = inr (JObj result) ->
  (forall stage restaurant_name pdf,
     stage restaurant_name (path_str (pdf_path job_id)) = Reply result ->
     exists fs' db',
       extract_categories json_dumps path_str exception_str stage fs db
         job_id restaurant_name pdf
       = (Reply {| phase_success := true;
                   phase_job_id := job_id;
                   phase_data := result;
                   phase_message := "Phase 1 extraction complete" |},
          fs', db')
       /\ fs' (pdf_path job_id) = Some (fst (read pdf))
       /\ get_categories path_str exception_str dict_type_error fs' job_id
          = Reply {| get_success := true; get_job_id := job_id;
                     get_data := result |}
       /\ get_job db' job_id
          = (counts ← of_res (get_job_counts (JObj result));
             Reply {| job_status := "phase1_complete";
                      current_phase := 1;
                      job_restaurant_name := Some restaurant_name;
                      category_count := fst counts;
                      item_count := snd counts |}))
  /\ (forall r restaurant_name,
        find_restaurant db job_id = Some r ->
        path_exists fs (pdf_path job_id) = true ->
        (forall stage reviewed_data,
           load_json path_str fs (phase1_reviewed_path job_id)
           = Reply reviewed_data ->
           py_getitem reviewed_data "restaurant_name" = Ok restaurant_name ->
           stage restaurant_name reviewed_data (path_str (pdf_path job_id))
           = Reply result ->
           exists fs' db',
             extract_items json_dumps path_str exception_str stage fs db
               job_id
             = (Reply {| phase_success := true;
                         phase_job_id := job_id;
                         phase_data := result;
                         phase_message := "Phase 2 extraction complete" |},
                fs', db')
             /\ get_items path_str exception_str dict_type_error fs' job_id
                = Reply {| get_success := true; get_job_id := job_id;
                           get_data := result |}
             /\ get_job db' job_id
                = (counts ← of_res (get_job_counts (JObj result));
                   Reply {| job_status := "phase2_complete";
                            current_phase := 2;
                            job_restaurant_name := r_name r;
                            category_count := fst counts;
                            item_count := snd counts |}))
        /\ (forall stage items_data,
              load_json path_str fs (phase2_path job_id) = Reply items_data ->
              py_getitem items_data "restaurant_name" = Ok restaurant_name ->
              stage restaurant_name items_data (path_str (pdf_path job_id))
              = Reply result ->
              exists fs' db',
                extract_bases json_dumps path_str exception_str stage fs db
                  job_id
                = (Reply {| phase_success := true;
                            phase_job_id := job_id;
                            phase_data := result;
                            phase_message := "Phase 3 extraction complete" |},
                   fs', db')
                /\ get_bases path_str exception_str dict_type_error fs' job_id
                   = Reply {| get_success := true; get_job_id := job_id;
                              get_data := result |}
                /\ get_job db' job_id
                   = (counts ← of_res (get_job_counts (JObj result));
                      Reply {| job_status := "phase3_complete";
                               current_phase := 3;
                               job_restaurant_name := r_name r;
                               category_count := fst counts;
                               item_count := snd counts |}))
        /\ (forall stage items_data bases_data,
              load_json path_str fs (phase2_path job_id) = Reply items_data ->
              load_json path_str fs (phase3_path job_id) = Reply bases_data ->
              py_getitem items_data "restaurant_name" = Ok restaurant_name ->
              stage restaurant_name items_data bases_data
                (path_str (pdf_path job_id)) = Reply result ->
              exists fs' db',
                extract_addons json_dumps path_str exception_str stage fs db
                  job_id
                = (Reply {| phase_success := true;
                            phase_job_id := job_id;
                            phase_data := result;
                            phase_message := "Phase 4 extraction complete" |},
                   fs', db')
                /\ get_final_result path_str exception_str dict_type_error
                     fs' job_id
                   = Reply {| get_success := true; get_job_id := job_id;
                              get_data := result |}
                /\ get_job db' job_id
                   = (counts ← of_res (get_job_counts (JObj result));
                      Reply {| job_status := "phase4_complete";
                               current_phase := 4;
                               job_restaurant_name := r_name r;
                               category_count := fst counts;
                               item_count := snd counts |}))).
Proof.
  intros Hround. split.
  - intros stage restaurant_name pdf Hstage.
    unfold extract_categories, save_pdf.
    destruct (read pdf) as [content pdf'] eqn:Hread. rewrite Hstage.
    unfold store_categories. eexists. eexists. split; [reflexivity|].
    split; [|split].
    + rewrite !save_json_other by discriminate. apply write_same.
    + unfold get_categories. rewrite (load_saved _ _ _ _ _ Hround).
      reflexivity.
    + destruct (record_phase1_found db job_id restaurant_name (JObj result))
        as [Hjob _].
      unfold get_job. rewrite Hjob. reflexivity.
  - intros r restaurant_name Hfind Hpdf. repeat split_and.
    + intros stage reviewed_data Hload Hname Hstage.
      destruct (store_phase_found json_dumps exception_str 2 "Phase 2"
                  "phase2_complete" (phase2_path job_id) fs db job_id result
                  r Hfind) as (db' & Hstore & Hget).
      eexists. exists db'. split; [|split; [|exact Hget]].
      * unfold extract_items. rewrite Hload, Hpdf. cbn [negb mbind reply_bind].
        rewrite Hname. cbn [of_res mbind reply_bind]. rewrite Hstage.
        exact Hstore.
      * unfold get_items. rewrite (load_saved _ _ _ _ _ Hround).
        reflexivity.
    + intros stage items_data Hload Hname Hstage.
      destruct (store_phase_found json_dumps exception_str 3 "Phase 3"
                  "phase3_complete" (phase3_path job_id) fs db job_id result
                  r Hfind) as (db' & Hstore & Hget).
      eexists. exists db'. split; [|split; [|exact Hget]].
      * unfold extract_bases. rewrite Hload, Hpdf. cbn [negb mbind reply_bind].
        rewrite Hname. cbn [of_res mbind reply_bind]. rewrite Hstage.
        exact Hstore.
      * unfold get_bases. rewrite (load_saved _ _ _ _ _ Hround).
        reflexivity.
    + intros stage items_data bases_data Hitems Hbases Hname Hstage.
      destruct (store_phase_found json_dumps exception_str 4 "Phase 4"
                  "phase4_complete" (phase4_path job_id) fs db job_id result
                  r Hfind) as (db' & Hstore & Hget).
      eexists. exists db'. split; [|split; [|exact Hget]].
      * unfold extract_addons. rewrite Hitems. cbn [mbind reply_bind].
        rewrite Hbases, Hpdf. cbn [negb mbind reply_bind].
        rewrite Hname. cbn [of_res mbind reply_bind]. rewrite Hstage.
        exact Hstore.
      * unfold get_final_result. rewrite (load_saved _ _ _ _ _ Hround).
        reflexivity.
Qed.

(** The sizes of a category are what was last set for it.  For a job that
    is in the database, [update_category_sizes] answers [updated], and
    [get_category_sizes] then returns the list under ["sizes"] of the
    request, or the empty list when the request has no such key.  The sizes
    of other categories and of other jobs, and what [get_job] reports, are
    as before; the update is logged as an action of phase 2.  A category
    whose sizes were never set has the empty list. *)
Theorem category_sizes_round_trip (exception_str : raised -> string)
    (db : database) (job_id category_name : string) (request : pydict)
    (r : Restaurant) :
  find_restaurant db job_id = Some r ->
  let db' :=
    snd (update_category_sizes exception_str db job_id category_name
           request) in
  fst (update_category_sizes exception_str db job_id category_name request)
  = Reply (JObj [("job_id", JStr job_id);
                 ("category", JStr category_name);
                 ("status", JStr "updated")])
  /\ get_category_sizes exception_str db' job_id category_name
     = Reply (JObj [("job_id", JStr job_id);
                    ("category", JStr category_name);
                    ("sizes", dict_get request "sizes" (JArr []))])
  /\ (forall j c, j <> job_id \/ c <> category_name ->
        get_category_sizes exception_str db' j c
        = get_category_sizes exception_str db j c)
  /\ (forall j, get_job db' j = get_job db j)
  /\ extraction_history db'
     = extraction_history db ++ [mk_history job_id 2 "update_sizes" "success"]
  /\ (find_sizes db job_id category_name = None ->
      get_category_sizes exception_str db job_id category_name
      = Reply (JObj [("job_id", JStr job_id);
                     ("category", JStr category_name);
                     ("sizes", JArr [])])).
Proof.
  intros Hfind db'. subst db'. unfold update_category_sizes.
  rewrite Hfind. cbn [fst snd]. split; [reflexivity|].
  unfold get_category_sizes, find_restaurant, find_sizes.
  cbn [restaurants category_sizes extraction_history].
  fold (find_restaurant db job_id). rewrite Hfind.
  fold (find_sizes db job_id category_name).
  split; [|split; [|split; [|split]]].
  - destruct (find_sizes db job_id category_name) as [c0|] eqn:Hsizes.
    + unfold find_sizes in Hsizes. rewrite find_update_first, Hsizes;
        [reflexivity|intros x; reflexivity].
    + unfold find_sizes in Hsizes. rewrite (find_app_None _ _ _ Hsizes).
      cbn [find]. rewrite is_sizes_refl. reflexivity.
  - intros j c Hne. destruct (find (is_job j) (restaurants db));
      [|reflexivity].
    do 3 f_equal.
    destruct (find_sizes db job_id category_name) as [c0|] eqn:Hsizes.
    + rewrite find_update_first_other; [reflexivity|intros x; reflexivity|].
      intros x. apply is_sizes_other. exact Hne.
    + rewrite find_snoc_other; [reflexivity|].
      apply (is_sizes_other job_id category_name); [exact Hne|].
      apply is_sizes_refl.
  - intros j. reflexivity.
  - reflexivity.
  - intros ->. reflexivity.
Qed.

(** A status update shows in [get_job] and nowhere else.  For a job that is
    in the database, [update_job_status] answers with the new status and
    phase, the phase being the old one when the request names none.
    [get_job] then reports them with the name and the counts the job had.
    Other jobs, the snapshots, the sizes and the extraction log are as
    before: a status update is not logged. *)
Theorem status_update_then_get (db : database) (job_id : string)
    (request : UpdateJobStatusRequest) (r : Restaurant) :
  find_restaurant db job_id = Some r ->
  let phase :=
    match request_current_phase request with
    | Some current_phase => current_phase
    | None => r_phase r
    end in
  let db' := snd (update_job_status db job_id request) in
  fst (update_job_status db job_id request)
  = Reply (JObj [("success", JBool true);
                 ("job_id", JStr job_id);
                 ("status", JStr (request_status request));
                 ("current_phase", JInt phase);
                 ("message", JStr "Job status updated")])
  /\ get_job db' job_id
     = (counts ← of_res (get_job_counts (r_json r));
        Reply {| job_status := request_status request;
                 current_phase := phase;
                 job_restaurant_name := r_name r;
                 category_count := fst counts;
                 item_count := snd counts |})
  /\ (forall j, j <> job_id -> get_job db' j = get_job db j)
  /\ phase_rows db' = phase_rows db
  /\ category_sizes db' = category_sizes db
  /\ extraction_history db' = extraction_history db.
Proof.
  intros Hfind phase db'. subst phase db'. unfold update_job_status.
  rewrite Hfind. cbn [fst snd]. split; [reflexivity|].
  destruct (updated_restaurant_lookup (restaurants db) job_id
              (fun r =>
                 mk_restaurant (r_job_id r) (r_name r)
                   (match request_current_phase request with
                    | Some current_phase => current_phase
                    | None => r_phase r
                    end)
                   (r_json r) (request_status request)) r
              ltac:(reflexivity) Hfind) as [Hjob Hrest].
  split; [|split; [|repeat split]].
  - unfold get_job, find_restaurant. cbn [restaurants]. rewrite Hjob.
    reflexivity.
  - intros j Hne. apply get_job_same. apply Hrest, Hne.
Qed.

(** * Page numbers, pairing and retries, stage by stage *)

(** ** Page numbers *)

Section NumberingFacts.
Context `{Collaborators}.

Lemma page_entry_number page_number key results :
  py_getitem (page_entry page_number key results) "page_number"
  = Ok page_number.
Proof. reflexivity. Qed.

(** A stage built on [page_loop] returns one entry per page it iterates,
    with the page number its inputs read from that page. *)
Lemma stage_run_numbered {P} (page_of : P -> json) max_concurrency
    restaurant_name images (pages : res (list P)) inputs w doc w' evs :
  (forall imgs p page_number coros,
     inputs imgs p = Ok (page_number, coros) ->
     py_getitem (page_of p) "page_number" = Ok page_number) ->
  stage_run max_concurrency restaurant_name images pages inputs w
  = (Returned doc, w', evs) ->
  exists ps, pages = Ok ps /\ numbered_like page_of ps doc.
Proof.
  intros Hinputs Hrun.
  destruct (stage_run_returned _ _ _ _ _ _ _ _ _ Hrun)
    as (imgs & ps & new & _ & -> & -> & Hforall & _).
  exists ps. split; [reflexivity|].
  exists new. split; [apply pages_of_stage_document|].
  eapply Forall2_impl; [exact Hforall|].
  intros p q (page_number & coros & results & Hin & -> & _).
  exists page_number. split; [|apply page_entry_number].
  eapply Hinputs. exact Hin.
Qed.

Lemma numbered_like_aligned {P} (page_of : P -> json) (ps : list P) doc :
  (forall i p, ps !! i = Some p ->
     py_getitem (page_of p) "page_number" = Ok (JInt (Z.of_nat i + 1))) ->
  numbered_like page_of ps doc ->
  aligned (length ps) doc.
Proof.
  intros Hnum (entries & Hpages & Hforall).
  exists entries. split; [exact Hpages|].
  split; [symmetry; eapply Forall2_length; eauto|].
  intros i entry Hentry.
  destruct (Forall2_lookup_r _ _ _ _ _ Hforall Hentry)
    as (p & Hp & page_number & Hin & Hout).
  rewrite (Hnum i p Hp) in Hin. inversion Hin; subst. exact Hout.
Qed.

Lemma zipped_pages_iter items_payload bases_payload items_pages
    bases_pages :
  py_getitem items_payload "pages" ≫= py_iter = Ok items_pages ->
  py_getitem bases_payload "pages" ≫= py_iter = Ok bases_pages ->
  Phase4Extractor.zipped_pages items_payload bases_payload
  = Ok (zip items_pages bases_pages).
Proof.
  unfold Phase4Extractor.zipped_pages.
  destruct (py_getitem items_payload "pages") as [ip|e]; cbn;
    [|discriminate].
  intros Hitems.
  destruct (py_getitem bases_payload "pages") as [bp|e]; cbn;
    [|discriminate].
  intros Hbases. rewrite Hitems, Hbases. reflexivity.
Qed.
End NumberingFacts.

(** C5.  Page numbers, stage by stage.  The document stage 1 returns for a
    PDF of [N] pages has exactly [N] entries, and the [page_number] of the
    entry at index [i] is [i + 1].  Stages 2, 3 and 4 return one entry per
    page of the document they were given (stage 4: per pair of the
    positional zip of its two documents) and copy the [page_number] of that
    page (stage 4: of the page of the stage 2 document); they compare it
    neither with the index nor with the page count of the PDF.  So the
    document of a later stage has [N] entries numbered in order when the
    documents it was given have, and not otherwise. *)
Theorem positional_alignment `{Collaborators} (max_concurrency : Z)
    (restaurant_name pdf_path : string) :
  (forall images w doc w' evs,
     convert_to_images pdf_path = Ok images ->
     Phase1Extractor.extract_all_pages max_concurrency restaurant_name
       pdf_path w = (Returned doc, w', evs) ->
     aligned (length images) doc)
  /\ (forall categories_payload w doc w' evs,
        Phase2Extractor.extract_all_pages max_concurrency restaurant_name
          categories_payload pdf_path w = (Returned doc, w', evs) ->
        exists pages,
          py_getitem categories_payload "pages" ≫= py_iter = Ok pages /\
          numbered_like (fun page => page) pages doc)
  /\ (forall items_payload w doc w' evs,
        Phase3Extractor.extract_all_pages max_concurrency restaurant_name
          items_payload pdf_path w = (Returned doc, w', evs) ->
        exists pages,
          py_getitem items_payload "pages" ≫= py_iter = Ok pages /\
          numbered_like (fun page => page) pages doc)
  /\ (forall items_payload bases_payload w doc w' evs,
        Phase4Extractor.extract_all_pages max_concurrency restaurant_name
          items_payload bases_payload pdf_path w = (Returned doc, w', evs) ->
        exists items_pages bases_pages,
          py_getitem items_payload "pages" ≫= py_iter = Ok items_pages /\
          py_getitem bases_payload "pages" ≫= py_iter = Ok bases_pages /\
          numbered_like fst (zip items_pages bases_pages) doc)
  /\ (forall n categories_payload w doc w' evs,
        aligned n categories_payload ->
        Phase2Extractor.extract_all_pages max_concurrency restaurant_name
          categories_payload pdf_path w = (Returned doc, w', evs) ->
        aligned n doc)
  /\ (forall n items_payload w doc w' evs,
        aligned n items_payload ->
        Phase3Extractor.extract_all_pages max_concurrency restaurant_name
          items_payload pdf_path w = (Returned doc, w', evs) ->
        aligned n doc)
  /\ (forall n items_payload bases_payload w doc w' evs,
        aligned n items_payload ->
        aligned n bases_payload ->
        Phase4Extractor.extract_all_pages max_concurrency restaurant_name
          items_payload bases_payload pdf_path w = (Returned doc, w', evs) ->
        aligned n doc).
Proof.
  assert (H2 : forall categories_payload w doc w' evs,
    Phase2Extractor.extract_all_pages max_concurrency restaurant_name
      categories_payload pdf_path w = (Returned doc, w', evs) ->
    exists pages,
      py_getitem categories_payload "pages" ≫= py_iter = Ok pages /\
      numbered_like (fun page => page) pages doc).
  { intros payload w doc w' evs. rewrite phase2_stage_shape.
    apply (stage_run_numbered (fun page => page)).
    intros imgs p pn coros. apply phase2_units_page_number. }
  assert (H3 : forall items_payload w doc w' evs,
    Phase3Extractor.extract_all_pages max_concurrency restaurant_name
      items_payload pdf_path w = (Returned doc, w', evs) ->
    exists pages,
      py_getitem items_payload "pages" ≫= py_iter = Ok pages /\
      numbered_like (fun page => page) pages doc).
  { intros payload w doc w' evs. rewrite phase3_stage_shape.
    apply (stage_run_numbered (fun page => page)).
    intros imgs p pn coros. apply phase3_units_page_number. }
  assert (H4 : forall items_payload bases_payload w doc w' evs,
    Phase4Extractor.extract_all_pages max_concurrency restaurant_name
      items_payload bases_payload pdf_path w = (Returned doc, w', evs) ->
    exists items_pages bases_pages,
      py_getitem items_payload "pages" ≫= py_iter = Ok items_pages /\
      py_getitem bases_payload "pages" ≫= py_iter = Ok bases_pages /\
      numbered_like fst (zip items_pages bases_pages) doc).
  { intros items_payload bases_payload w doc w' evs.
    rewrite phase4_stage_shape. intros Hrun.
    destruct (stage_run_numbered fst _ _ _ _ _ _ _ _ _
                (fun imgs p pn coros =>
                   phase4_units_page_number restaurant_name imgs p pn coros)
                Hrun) as (ps & Hps & Hnum).
    destruct (zipped_pages_Ok _ _ _ Hps) as (ip & bp & Hip & Hbp & ->).
    exists ip, bp. auto. }
  split; [|split; [exact H2|split; [exact H3|split; [exact H4|]]]].
  - intros images w doc w' evs Himg Hrun.
    eapply phase1_aligned; eauto.
  - split; [|split].
    + intros n payload w doc w' evs (pages & Hpages & <- & Hnum) Hrun.
      destruct (H2 _ _ _ _ _ Hrun) as (pages' & Hiter & Hlike).
      rewrite (pages_of_iter _ _ Hpages) in Hiter.
      inversion Hiter; subst pages'.
      apply (numbered_like_aligned (fun page => page)); assumption.
    + intros n payload w doc w' evs (pages & Hpages & <- & Hnum) Hrun.
      destruct (H3 _ _ _ _ _ Hrun) as (pages' & Hiter & Hlike).
      rewrite (pages_of_iter _ _ Hpages) in Hiter.
      inversion Hiter; subst pages'.
      apply (numbered_like_aligned (fun page => page)); assumption.
    + intros n items_payload bases_payload w doc w' evs
        (pages2 & Hpages2 & <- & Hnum2) (pages3 & Hpages3 & Hlen3 & _) Hrun.
      destruct (H4 _ _ _ _ _ _ Hrun) as (ip & bp & Hip & Hbp & Hlike).
      rewrite (pages_of_iter _ _ Hpages2) in Hip.
      rewrite (pages_of_iter _ _ Hpages3) in Hbp.
      inversion Hip; subst ip. inversion Hbp; subst bp.
      replace (length pages2) with (length (zip pages2 pages3))
        by (rewrite length_zip_with; lia).
      apply (numbered_like_aligned fst); [|exact Hlike].
      intros i [p2 p3] Hi.
      apply lookup_zip_with_Some in Hi as (x & y & [= <- <-] & Hx & Hy).
      cbn [fst]. apply Hnum2. exact Hx.
Qed.

(** ** Units of phase 4 *)

Section UnitPairingFacts.
Context `{Collaborators}.

(** With a permit and the schedule that lets the tasks run in turn, a
    gather ends with what running its coroutines in turn gives. *)
Lemma bounded_gather_in_turn {R} max_concurrency (coros : list (coro R)) w
    later :
  0 < max_concurrency ->
  schedule w = turns (provider w) (calls w) 0 coros ++ later ->
  exists w' evs,
    _bounded_gather max_concurrency coros w
    = (outcome_of (run_in_turn (provider w) (calls w) coros), w', evs).
Proof.
  intros Hpos Hsched. unfold _bounded_gather, gather_start.
  destruct (Z.ltb_spec max_concurrency 0) as [Hneg|_]; [lia|].
  destruct (Z.to_nat max_concurrency) as [|p] eqn:Hp; [lia|].
  rewrite Hsched.
  destruct (run_schedule_turns (provider w) coros [] p (calls w)
              [EvGather (length coros)] later) as (g' & sched' & Hrun).
  cbn [length map app] in Hrun. rewrite Hrun.
  destruct (run_in_turn (provider w) (calls w) coros);
    eexists _, _; reflexivity.
Qed.

(** What [extract_page] of phase 4 did when it has returned [entry]. *)
Lemma phase4_extract_page_results max_concurrency restaurant_name
    page_number page_image cats bases w entry w' evs :
  Phase4Extractor.extract_page max_concurrency restaurant_name page_number
    page_image cats bases w = (Returned entry, w', evs) ->
  exists results,
    entry = page_entry page_number "categories" results /\
    length results = Nat.min (length cats) (length bases) /\
    forall j cat base,
      cats !! j = Some cat -> bases !! j = Some base ->
      exists r,
        results !! j = Some r /\
        replay (Phase4Extractor.extract_category_addons restaurant_name
                  page_number page_image cat base) (answers_of j evs)
        = Some (Ok r).
Proof.
  unfold Phase4Extractor.extract_page, mbind, M_bind, mret, M_ret.
  destruct (_bounded_gather _ _ w) as [[[rs|e|] w1] evs1] eqn:Hg;
    intros [= <- <- <-].
  exists rs. split; [reflexivity|].
  destruct (bounded_gather_results _ _ _ _ _ _ Hg) as [Hlen Hres].
  split; [rewrite Hlen; apply length_phase4_page_coros|].
  intros j cat base Hcat Hbase. rewrite app_nil_r. apply Hres.
  apply page_coros_lookup. eauto.
Qed.

(** A page pair that [page_loop] of phase 4 has processed. *)
Lemma phase4_page_done_units restaurant_name images pair entry :
  page_done (phase4_units restaurant_name images) pair entry ->
  exists page_number img cats bases results,
    Phase4Extractor.page_inputs images (fst pair) (snd pair)
    = Ok (page_number, img, cats, bases) /\
    entry = page_entry page_number "categories" results /\
    length results = Nat.min (length cats) (length bases) /\
    forall j cat base,
      cats !! j = Some cat -> bases !! j = Some base ->
      exists r answers,
        results !! j = Some r /\
        replay (Phase4Extractor.extract_category_addons restaurant_name
                  page_number img cat base) answers = Some (Ok r).
Proof.
  intros (page_number & coros & results & Hunits & -> & Hlen & Hres).
  apply phase4_units_Ok in Hunits as (img & cats & bases & Hin & ->).
  exists page_number, img, cats, bases, results.
  split; [exact Hin|]. split; [reflexivity|].
  split; [rewrite Hlen; apply length_phase4_page_coros|].
  intros j cat base Hcat Hbase. apply Hres.
  apply page_coros_lookup. eauto.
Qed.
End UnitPairingFacts.

(** C6.  Phase 4 forms its units by position.  [extract_all_pages] runs
    its loop over the positional zip of the pages of the two documents; an
    iteration reads the page number and the image from the page of the
    phase 2 document, validates the categories of that page and the bases
    of the page of the phase 3 document, each list in its order, and calls
    [extract_page] on the two lists.  [extract_page] gathers one unit per
    index [j] below both lengths, the unit
    [extract_category_addons] on the category at index [j] and the base at
    index [j]: every request of task [j] carries the prompt built from that
    category and that base, and result [j] of the page entry is what that
    unit returned on the answers given to task [j].  With a permit and the
    tasks scheduled in turn the page does end, with the results of the
    units run in turn.  No field of a category or a base is compared. *)
Theorem positional_pairing `{Collaborators} (max_concurrency : Z)
    (restaurant_name : string) :
  (forall items_payload bases_payload pdf_path images items_pages
          bases_pages w,
     convert_to_images pdf_path = Ok images ->
     py_getitem items_payload "pages" ≫= py_iter = Ok items_pages ->
     py_getitem bases_payload "pages" ≫= py_iter = Ok bases_pages ->
     Phase4Extractor.extract_all_pages max_concurrency restaurant_name
       items_payload bases_payload pdf_path w
     = (all_pages ← Phase4Extractor.pages_loop max_concurrency
                      restaurant_name images (zip items_pages bases_pages)
                      [];
        mret (stage_document restaurant_name all_pages)) w)
  /\ (forall images page_items page_bases later all_pages page_number img
             cats bases w,
        Phase4Extractor.page_inputs images page_items page_bases
        = Ok (page_number, img, cats, bases) ->
        Phase4Extractor.pages_loop max_concurrency restaurant_name images
          ((page_items, page_bases) :: later) all_pages w
        = (page_result ← Phase4Extractor.extract_page max_concurrency
                           restaurant_name page_number img cats bases;
           Phase4Extractor.pages_loop max_concurrency restaurant_name images
             later (all_pages ++ [page_result])) w)
  /\ (forall images page_items page_bases page_number img cats bases,
        Phase4Extractor.page_inputs images page_items page_bases
        = Ok (page_number, img, cats, bases) ->
        py_getitem page_items "page_number" = Ok page_number /\
        image_for images page_number = Ok img /\
        exists raw_cats raw_bases,
          py_getitem page_items "categories" ≫= py_iter = Ok raw_cats /\
          py_getitem page_bases "categories" ≫= py_iter = Ok raw_bases /\
          Forall2 (fun raw d => validated_dump CategoryWithItems raw = Ok d)
            raw_cats cats /\
          Forall2 (fun raw d => validated_dump CategoryBase raw = Ok d)
            raw_bases bases)
  /\ (forall page_number img cats bases w out w' evs j req answer,
        Phase4Extractor.extract_page max_concurrency restaurant_name
          page_number img cats bases w = (out, w', evs) ->
        EvCall j req answer ∈ evs ->
        exists cat base prompt,
          cats !! j = Some cat /\ bases !! j = Some base /\
          phase4_prompt restaurant_name page_number
            [("category", JObj cat)] [("category_base", JObj base)]
          = Ok prompt /\
          req = mk_request prompt ("data:image/png;base64," ++ img)
                  CategoryItemAddons)
  /\ (forall page_number img cats bases w entry w' evs,
        Phase4Extractor.extract_page max_concurrency restaurant_name
          page_number img cats bases w = (Returned entry, w', evs) ->
        exists results,
          entry = page_entry page_number "categories" results /\
          length results = Nat.min (length cats) (length bases) /\
          forall j cat base,
            cats !! j = Some cat -> bases !! j = Some base ->
            exists r,
              results !! j = Some r /\
              replay (Phase4Extractor.extract_category_addons
                        restaurant_name page_number img cat base)
                (answers_of j evs) = Some (Ok r))
  /\ (forall page_number img cats bases w later,
        0 < max_concurrency ->
        schedule w
        = turns (provider w) (calls w) 0
            (map (fun '(cat, base) =>
                    Phase4Extractor.extract_category_addons restaurant_name
                      page_number img cat base) (zip cats bases)) ++ later ->
        fst (fst (Phase4Extractor.extract_page max_concurrency
                    restaurant_name page_number img cats bases w))
        = outcome_of
            (page_entry page_number "categories"
               <$> run_in_turn (provider w) (calls w)
                     (map (fun '(cat, base) =>
                             Phase4Extractor.extract_category_addons
                               restaurant_name page_number img cat base)
                        (zip cats bases))))
  /\ (forall items_payload bases_payload pdf_path w doc w' evs,
        Phase4Extractor.extract_all_pages max_concurrency restaurant_name
          items_payload bases_payload pdf_path w = (Returned doc, w', evs) ->
        exists images items_pages bases_pages entries,
          convert_to_images pdf_path = Ok images /\
          py_getitem items_payload "pages" ≫= py_iter = Ok items_pages /\
          py_getitem bases_payload "pages" ≫= py_iter = Ok bases_pages /\
          doc = stage_document restaurant_name entries /\
          Forall2
            (fun pair entry =>
               exists page_number img cats bases results,
                 Phase4Extractor.page_inputs images (fst pair) (snd pair)
                 = Ok (page_number, img, cats, bases) /\
                 entry = page_entry page_number "categories" results /\
                 length results = Nat.min (length cats) (length bases) /\
                 forall j cat base,
                   cats !! j = Some cat -> bases !! j = Some base ->
                   exists r answers,
                     results !! j = Some r /\
                     replay (Phase4Extractor.extract_category_addons
                               restaurant_name page_number img cat base)
                       answers = Some (Ok r))
            (zip items_pages bases_pages) entries).
Proof.
  repeat split_and.
  - intros items_payload bases_payload pdf_path images items_pages
      bases_pages w Himg Hitems Hbases.
    unfold Phase4Extractor.extract_all_pages.
    rewrite Himg, (zipped_pages_iter _ _ _ _ Hitems Hbases).
    unfold mbind, M_bind, lift, mret, M_ret.
    destruct (Phase4Extractor.pages_loop _ _ _ _ _ w)
      as [[[all_pages|e|] w1] evs1]; reflexivity.
  - intros images page_items page_bases later all_pages page_number img
      cats bases w Hin.
    cbn [Phase4Extractor.pages_loop]. rewrite Hin.
    unfold mbind, M_bind, lift, mret, M_ret.
    destruct (Phase4Extractor.extract_page _ _ _ _ _ _ w)
      as [[[page_result|e|] w1] evs1]; try reflexivity.
    destruct (Phase4Extractor.pages_loop _ _ _ _ _ w1)
      as [[out w2] evs2]. reflexivity.
  - intros images page_items page_bases page_number img cats bases.
    apply phase4_page_inputs_Ok.
  - intros page_number img cats bases w out w' evs j req answer Hrun Hin.
    destruct (extract_page_log _ _ _ _ _ _ _ Hrun) as [out0 Hg].
    apply (bounded_gather_requests
             (fun j req => exists cat base prompt,
                cats !! j = Some cat /\ bases !! j = Some base /\
                phase4_prompt restaurant_name page_number
                  [("category", JObj cat)] [("category_base", JObj base)]
                = Ok prompt /\
                req = mk_request prompt ("data:image/png;base64," ++ img)
                        CategoryItemAddons)
             _ _ _ _ _ _) with (3 := Hin) (2 := Hg).
    intros k c Hk. apply page_coros_lookup in Hk
      as (cat & base & Hcat & Hbase & ->).
    eapply sends_only_impl; [apply retry_loop_sends_only|].
    intros req0 (prompt & Hprompt & ->). exists cat, base, prompt. auto.
  - intros page_number img cats bases w entry w' evs.
    apply phase4_extract_page_results.
  - intros page_number img cats bases w later Hpos Hsched.
    destruct (bounded_gather_in_turn max_concurrency _ w later Hpos Hsched)
      as (w' & evs & Hg).
    unfold Phase4Extractor.extract_page, Phase4Extractor.page_coros, mbind,
      M_bind, mret, M_ret.
    rewrite Hg.
    destruct (run_in_turn (provider w) (calls w) _); reflexivity.
  - intros items_payload bases_payload pdf_path w doc w' evs.
    rewrite phase4_stage_shape. intros Hrun.
    destruct (stage_run_returned _ _ _ _ _ _ _ _ _ Hrun)
      as (imgs & ps & new & Himg & Hps & -> & Hforall & _).
    destruct (zipped_pages_Ok _ _ _ Hps) as (ip & bp & Hip & Hbp & ->).
    exists imgs, ip, bp, new.
    split; [exact Himg|]. split; [exact Hip|]. split; [exact Hbp|].
    split; [reflexivity|].
    eapply Forall2_impl; [exact Hforall|].
    intros pair entry. apply phase4_page_done_units.
Qed.

(** ** Failed attempts in the retry loop *)

Section RetryStepFacts.
Context `{Collaborators}.

Lemma run_coro_pair {R} api calls0 (c : coro R) :
  run_coro api calls0 c
  = (fst (run_coro api calls0 c), snd (run_coro api calls0 c)).
Proof. destruct (run_coro api calls0 c). reflexivity. Qed.

(** While the attempts fail and attempts remain, the loop calls the
    provider, sleeps one second and goes on with the next attempt. *)
Lemma attempts_from_failures u prompt api :
  build_prompt u = Ok prompt ->
  forall n remaining attempt last_error calls0,
    (attempt + n < max_retries u)%nat ->
    (n <= remaining)%nat ->
    (forall k, (k < n)%nat ->
       attempt_error u (api (calls0 + k)%nat (llm_request u prompt))
       <> None) ->
    exists last_error',
      run_coro api calls0 (attempts_from u remaining attempt last_error)
      = (fst (run_coro api (calls0 + n)
                (attempts_from u (remaining - n) (attempt + n)
                   last_error')),
         retried (llm_request u prompt) n
         ++ snd (run_coro api (calls0 + n)
                   (attempts_from u (remaining - n) (attempt + n)
                      last_error'))).
Proof.
  intros Hprompt.
  induction n as [|n IH]; intros remaining attempt last_error calls0 Hlt Hle
    Hfail.
  - exists last_error. rewrite !Nat.add_0_r, Nat.sub_0_r.
    apply run_coro_pair.
  - destruct remaining as [|remaining]; [lia|].
    destruct (attempt_error u (api calls0 (llm_request u prompt)))
      as [e|] eqn:Hfirst.
    2:{ exfalso. apply (Hfail 0%nat); [lia|].
        rewrite Nat.add_0_r. exact Hfirst. }
    destruct (after_response_failure u attempt last_error
                (attempts_from u remaining (S attempt)) _ _ Hfirst)
      as [le' Heq].
    destruct (IH remaining (S attempt) le' (S calls0)) as [le'' Hrest];
      [lia|lia| |].
    { intros k Hk. replace (S calls0 + k)%nat with (calls0 + S k)%nat by lia.
      apply Hfail. lia. }
    exists le''.
    rewrite attempts_from_S, Hprompt. unfold generate.
    rewrite run_coro_generate, Heq.
    replace (attempt <? max_retries u - 1)%nat with true
      by (symmetry; apply Nat.ltb_lt; lia).
    rewrite run_coro_sleep, Hrest. cbn [fst snd retried].
    replace (S calls0 + n)%nat with (calls0 + S n)%nat by lia.
    replace (S attempt + n)%nat with (attempt + S n)%nat by lia.
    cbn [Nat.sub]. reflexivity.
Qed.

(** An attempt that fails, after attempts that failed: the loop tries again
    when attempts remain, and raises the error of the attempt when it was
    the last one. *)
Lemma retry_loop_after_failure u prompt api calls0 a e :
  build_prompt u = Ok prompt ->
  (forall k, (k < a)%nat ->
     attempt_error u (api (calls0 + k)%nat (llm_request u prompt)) <> None) ->
  attempt_error u (api (calls0 + a)%nat (llm_request u prompt)) = Some e ->
  ((a + 1 < max_retries u)%nat ->
   exists tr,
     snd (run_coro api calls0 (retry_loop u))
     = retried (llm_request u prompt) (S a)
       ++ UCall (llm_request u prompt) :: tr)
  /\ ((a + 1 = max_retries u)%nat ->
      run_coro api calls0 (retry_loop u)
      = (Err e,
         retried (llm_request u prompt) a ++ [UCall (llm_request u prompt)])).
Proof.
  intros Hprompt Hbefore Hthis. unfold retry_loop. split; intros Ha.
  - destruct (attempts_from_failures u prompt api Hprompt (S a)
                (max_retries u) 0%nat None calls0) as [le' Hrun];
      [lia|lia| |].
    { intros k Hk. destruct (Nat.eq_dec k a) as [->|Hne].
      - rewrite Hthis. discriminate.
      - apply Hbefore. lia. }
    rewrite Hrun. cbn [snd].
    destruct (max_retries u - S a)%nat as [|m] eqn:Hm; [lia|].
    rewrite attempts_from_S, Hprompt. unfold generate.
    rewrite run_coro_generate. cbn [snd]. eexists. reflexivity.
  - destruct (attempts_from_failures u prompt api Hprompt a
                (max_retries u) 0%nat None calls0 ltac:(lia) ltac:(lia)
                Hbefore) as [le' Hrun].
    rewrite Hrun.
    replace (max_retries u - a)%nat with 1%nat by lia.
    rewrite (attempts_from_exhausted u prompt api (fun _ => e) Hprompt
               0%nat (0 + a)%nat le' (calls0 + a)%nat).
    + reflexivity.
    + lia.
    + intros k Hk. replace k with 0%nat by lia.
      rewrite Nat.add_0_r. exact Hthis.
Qed.

Lemma attempt_error_invalid u raw rest data e :
  json_loads raw = inr data ->
  model_validate (response_model u) data = Err e ->
  attempt_error u (ApiResponse (Some raw :: rest)) = Some e.
Proof.
  intros Hloads Hvalid. unfold attempt_error. cbn [api_result first_content].
  rewrite Hloads, Hvalid. reflexivity.
Qed.

Lemma attempt_error_unparsed u raw rest pos msg :
  json_loads raw = inl (pos, msg) ->
  attempt_error u (ApiResponse (Some raw :: rest))
  = Some (ValueError (invalid_json_message u (decode_error_msg pos msg))).
Proof.
  intros Hloads. unfold attempt_error. cbn [api_result first_content].
  rewrite Hloads. reflexivity.
Qed.
End RetryStepFacts.

(** C8.  A validation failure is retried like a parse failure.  Take a unit
    whose prompt renders, and let the answers to its first [a] calls fail
    in whatever way.  When the answer to the next call parses but fails
    schema validation, the loop sleeps one second and calls the provider
    again if attempts remain, and raises the validation error, after
    [a + 1] calls in all, if it was the last attempt.  When that answer
    does not parse, the loop does the same, the error of the last attempt
    being the [ValueError] built from the parse error.  So the calls and
    sleeps of a unit, and whether it fails, depend only on which attempts
    fail, not on how.  The units of the four phases are this loop. *)
Theorem validation_failure_retried `{Collaborators} (u : unit_of_work)
    (prompt : string) (api : nat -> request -> api_outcome) (calls0 a : nat)
    (raw : string) (rest : list (option string)) :
  build_prompt u = Ok prompt ->
  (forall k, (k < a)%nat ->
     attempt_error u (api (calls0 + k)%nat (llm_request u prompt)) <> None) ->
  api (calls0 + a)%nat (llm_request u prompt)
  = ApiResponse (Some raw :: rest) ->
  (forall data e,
     json_loads raw = inr data ->
     model_validate (response_model u) data = Err e ->
     ((a + 1 < max_retries u)%nat ->
      exists tr,
        snd (run_coro api calls0 (retry_loop u))
        = retried (llm_request u prompt) (S a)
          ++ UCall (llm_request u prompt) :: tr)
     /\ ((a + 1 = max_retries u)%nat ->
         run_coro api calls0 (retry_loop u)
         = (Err e,
            retried (llm_request u prompt) a
            ++ [UCall (llm_request u prompt)])))
  /\ (forall pos msg,
        json_loads raw = inl (pos, msg) ->
        ((a + 1 < max_retries u)%nat ->
         exists tr,
           snd (run_coro api calls0 (retry_loop u))
           = retried (llm_request u prompt) (S a)
             ++ UCall (llm_request u prompt) :: tr)
        /\ ((a + 1 = max_retries u)%nat ->
            run_coro api calls0 (retry_loop u)
            = (Err (ValueError
                      (invalid_json_message u (decode_error_msg pos msg))),
               retried (llm_request u prompt) a
               ++ [UCall (llm_request u prompt)])))
  /\ (forall api1 api2 calls1 calls2,
        (forall k req,
           is_Some (attempt_error u (api1 (calls1 + k)%nat req))
           <-> is_Some (attempt_error u (api2 (calls2 + k)%nat req))) ->
        snd (run_coro api1 calls1 (retry_loop u))
        = snd (run_coro api2 calls2 (retry_loop u))
        /\ (failed (fst (run_coro api1 calls1 (retry_loop u)))
            <-> failed (fst (run_coro api2 calls2 (retry_loop u)))))
  /\ (forall restaurant_name page_number page_image category category_base,
        Phase1Extractor.extract_page restaurant_name page_number page_image
        = retry_loop
            (Phase1Extractor.unit_of restaurant_name page_number page_image)
        /\ Phase2Extractor.extract_category restaurant_name page_number
             page_image category
           = retry_loop
               (Phase2Extractor.unit_of restaurant_name page_number
                  page_image category)
        /\ Phase3Extractor.extract_category_base restaurant_name page_number
             page_image category
           = retry_loop
               (Phase3Extractor.unit_of restaurant_name page_number
                  page_image category)
        /\ Phase4Extractor.extract_category_addons restaurant_name
             page_number page_image category category_base
           = retry_loop
               (Phase4Extractor.unit_of restaurant_name page_number
                  page_image category category_base)).
Proof.
  intros Hprompt Hbefore Hanswer. split; [|split; [|split]].
  - intros data e Hloads Hvalid.
    apply (retry_loop_after_failure u prompt api calls0 a e Hprompt Hbefore).
    rewrite Hanswer. eapply attempt_error_invalid; eauto.
  - intros pos msg Hloads.
    apply (retry_loop_after_failure u prompt api calls0 a _ Hprompt Hbefore).
    rewrite Hanswer. apply attempt_error_unparsed. exact Hloads.
  - intros api1 api2 calls1 calls2 Hsame. unfold retry_loop.
    apply attempts_from_uniform. exact Hsame.
  - intros restaurant_name page_number page_image category category_base.
    repeat split.
Qed.

(** * Concrete runs

    The properties above at concrete inputs, with the stub collaborators of
    [Demo]. *)

#[local] Existing Instance Demo.stubs.

Lemma retry_exhaustion_witness :
  fails_after Demo.garbage_provider 0
    (Phase1Extractor.extract_page "Luigi" (JInt 1) "page-one")
    (Phase1Extractor.unit_of "Luigi" (JInt 1) "page-one") "phase1.j2" 2
  /\ fails_after Demo.garbage_provider 0
       (Phase2Extractor.extract_category "Luigi" (JInt 1) "page-one"
          [("name_raw", JStr "Pizza")])
       (Phase2Extractor.unit_of "Luigi" (JInt 1) "page-one"
          [("name_raw", JStr "Pizza")])
       "phase2.j2" 3
  /\ fails_after Demo.garbage_provider 0
       (Phase3Extractor.extract_category_base "Luigi" (JInt 1) "page-one"
          [("name_raw", JStr "Pizza")])
       (Phase3Extractor.unit_of "Luigi" (JInt 1) "page-one"
          [("name_raw", JStr "Pizza")])
       "phase3.j2" 2
  /\ fails_after Demo.garbage_provider 0
       (Phase4Extractor.extract_category_addons "Luigi" (JInt 1) "page-one"
          [("name_raw", JStr "Pizza")] [("name_raw", JStr "Pizza")])
       (Phase4Extractor.unit_of "Luigi" (JInt 1) "page-one"
          [("name_raw", JStr "Pizza")] [("name_raw", JStr "Pizza")])
       "phase4.j2" 2.
Proof.
  apply (retry_exhaustion "Luigi" (JInt 1) "page-one"
           [("name_raw", JStr "Pizza")] [("name_raw", JStr "Pizza")]
           Demo.garbage_provider 0%nat).
  - intros u k req. vm_compute. discriminate.
  - reflexivity.
  - reflexivity.
  - reflexivity.
  - reflexivity.
Defined.

(** The failure of the phase 1 unit above, computed: two calls one second
    apart, and the last parse diagnostic in the message. *)
Example retry_exhaustion_run :
  run_coro Demo.garbage_provider 0
    (Phase1Extractor.extract_page "Luigi" (JInt 1) "page-one")
  = (Err (ValueError
       "LLM returned invalid JSON for page 1: JSON decode error at position 0: Expecting value"),
     [UCall (mk_request "phase1.j2" "data:image/png;base64,page-one"
               Categories);
      USleep 1;
      UCall (mk_request "phase1.j2" "data:image/png;base64,page-one"
               Categories)]).
Proof. vm_compute. reflexivity. Qed.

(** Units A, B, C with reversed latency under a round-robin schedule: C
    completes first and A last, and the results come back as A, B, C. *)
Lemma bounded_gather_preserves_order_witness :
  completion_order
    (snd (_bounded_gather 4 Demo.reversed_latency
            (Demo.start Demo.good_provider (Demo.rounds 6 3))))
  = [2; 1; 0]%nat
  /\ (length [JStr "A"; JStr "B"; JStr "C"] = length Demo.reversed_latency
      /\ forall i c, Demo.reversed_latency !! i = Some c ->
           exists r, [JStr "A"; JStr "B"; JStr "C"] !! i = Some r /\
             replay c
               (answers_of i
                  (snd (_bounded_gather 4 Demo.reversed_latency
                          (Demo.start Demo.good_provider
                             (Demo.rounds 6 3)))))
             = Some (Ok r)).
Proof.
  split; [vm_compute; reflexivity|].
  apply (bounded_gather_preserves_order 4 Demo.reversed_latency
           (Demo.start Demo.good_provider (Demo.rounds 6 3))
           [JStr "A"; JStr "B"; JStr "C"]
           (snd (fst (_bounded_gather 4 Demo.reversed_latency
                        (Demo.start Demo.good_provider
                           (Demo.rounds 6 3)))))).
  vm_compute. reflexivity.
Defined.

(** Phase 2 on a two-page document with two categories per page: four
    units, gathered two by two, one page after the other. *)
Lemma single_fan_out_counterexample :
  fst (fst Demo.phase2_run) = Returned Demo.doc2
  /\ gather_sizes (snd Demo.phase2_run) = [2; 2]%nat
  /\ gather_sizes (snd Demo.phase2_run) <> [4]%nat.
Proof.
  vm_compute. split; [reflexivity|]. split; [reflexivity|discriminate].
Qed.

Lemma fan_out_per_page_witness :
  gather_sizes (snd Demo.phase1_run) = [length Demo.menu_images]
  /\ (exists entries,
        pages_of Demo.doc2 = Some entries /\
        gather_sizes (snd Demo.phase2_run) = map entry_size entries)
  /\ (exists entries,
        pages_of Demo.doc2 = Some entries /\
        gather_sizes (snd Demo.phase3_run) = map entry_size entries)
  /\ (exists entries,
        pages_of Demo.doc2 = Some entries /\
        gather_sizes (snd Demo.phase4_run) = map entry_size entries).
Proof.
  destruct (fan_out_per_page 4 "Luigi" "menu.pdf")
    as (H1 & H2 & H3 & H4 & _).
  split; [|split; [|split]].
  - apply (H1 Demo.menu_images Demo.good_world);
      [vm_compute; reflexivity|lia].
  - apply (H2 Demo.doc1 Demo.good_world Demo.doc2
             (snd (fst Demo.phase2_run))).
    vm_compute. reflexivity.
  - apply (H3 Demo.doc2 Demo.good_world Demo.doc2
             (snd (fst Demo.phase3_run))).
    vm_compute. reflexivity.
  - apply (H4 Demo.doc2 Demo.doc2 Demo.good_world Demo.doc2
             (snd (fst Demo.phase4_run))).
    vm_compute. reflexivity.
Defined.


(** Phase 4 returns a document although the second page of the loaded
    phase 3 document holds a base that [CategoryBase] rejects: the page has
    no partner in the phase 2 document and is never read. *)
Lemma unvalidated_trailing_page_counterexample :
  validated_dump CategoryBase (JObj [])
  = Err (ValidationError "name_raw: Field required")
  /\ pages_of Demo.long_bases
     = Some [page_entry (JInt 1) "categories" [Demo.pizza; Demo.pasta];
             page_entry (JInt 2) "categories" [JObj []]]
  /\ fst (fst Demo.mismatch_run)
     = Returned
         (stage_document "Luigi"
            [page_entry (JInt 1) "categories" [Demo.pizza]]).
Proof. vm_compute. repeat split. Qed.

(** A page that fails validation stops each of phases 2 to 4: phase 2 after
    its first page, phases 3 and 4 before any unit. *)
Lemma revalidation_per_page_witness :
  Phase2Extractor.extract_all_pages 4 "Luigi" Demo.broken_doc1 "menu.pdf"
    Demo.good_world
  = then_raise (ValidationError "categories: Field required")
      (Phase2Extractor.pages_loop 4 "Luigi" Demo.menu_images
         [Demo.phase1_page 1] [] Demo.good_world)
  /\ (exists cat' e,
        cat' ∈ [Demo.pizza; JObj []] /\
        validated_dump CategoryWithItems cat' = Err e /\
        Phase3Extractor.extract_all_pages 4 "Luigi" Demo.broken_doc2
          "menu.pdf" Demo.good_world
        = then_raise e
            (Phase3Extractor.pages_loop 4 "Luigi" Demo.menu_images [] []
               Demo.good_world))
  /\ (exists cat' e,
        cat' ∈ [Demo.pizza; JObj []] /\
        validated_dump CategoryWithItems cat' = Err e /\
        Phase4Extractor.extract_all_pages 4 "Luigi" Demo.broken_doc2
          Demo.long_bases "menu.pdf" Demo.good_world
        = then_raise e
            (Phase4Extractor.pages_loop 4 "Luigi" Demo.menu_images [] []
               Demo.good_world))
  /\ (exists base' e,
        base' ∈ [JObj []] /\
        validated_dump CategoryBase base' = Err e /\
        Phase4Extractor.extract_all_pages 4 "Luigi" Demo.doc2
          Demo.long_bases "menu.pdf" Demo.good_world
        = then_raise e
            (Phase4Extractor.pages_loop 4 "Luigi" Demo.menu_images
               [(page_entry (JInt 1) "categories" [Demo.pizza; Demo.pizza],
                 page_entry (JInt 1) "categories"
                   [Demo.pizza; Demo.pasta])]
               [] Demo.good_world)).
Proof.
  destruct (revalidation_per_page 4 "Luigi" "menu.pdf" Demo.menu_images)
    as (Hphase2 & Hphase3 & Hphase4c & Hphase4b); [reflexivity|].
  split; [|split; [|split]].
  - apply (Hphase2 Demo.broken_doc1 [Demo.phase1_page 1] Demo.broken_page []
             (JInt 2) "page-two" (JObj []));
      vm_compute; reflexivity.
  - apply (Hphase3 Demo.broken_doc2 []
             (page_entry (JInt 1) "categories" [Demo.pizza; JObj []]) []
             (JInt 1) "page-one" [Demo.pizza; JObj []] (JObj [])
             (ValidationError "name_raw: Field required"));
      try (vm_compute; reflexivity).
    apply list_elem_of_lookup. exists 1%nat. reflexivity.
  - apply (Hphase4c Demo.broken_doc2 Demo.long_bases []
             (page_entry (JInt 1) "categories" [Demo.pizza; JObj []])
             (page_entry (JInt 1) "categories" [Demo.pizza; Demo.pasta]) []
             (JInt 1) "page-one" [Demo.pizza; JObj []] (JObj [])
             (ValidationError "name_raw: Field required"));
      try (vm_compute; reflexivity).
    apply list_elem_of_lookup. exists 1%nat. reflexivity.
  - apply (Hphase4b Demo.doc2 Demo.long_bases
             [(page_entry (JInt 1) "categories" [Demo.pizza; Demo.pizza],
               page_entry (JInt 1) "categories" [Demo.pizza; Demo.pasta])]
             (page_entry (JInt 2) "categories" [Demo.pizza; Demo.pizza])
             (page_entry (JInt 2) "categories" [JObj []]) []
             (JInt 2) "page-two" [Demo.pizza; Demo.pizza]
             [[("name_raw", JStr "Pizza")]; [("name_raw", JStr "Pizza")]]
             [JObj []] (JObj [])
             (ValidationError "name_raw: Field required"));
      try (vm_compute; reflexivity).
    apply list_elem_of_lookup. exists 0%nat. reflexivity.
Defined.

(** The run of phase 2 above, computed: the first page costs two calls,
    then the validation error of the second page is raised. *)
Example revalidation_run :
  fst (fst (Phase2Extractor.extract_all_pages 4 "Luigi" Demo.broken_doc1
              "menu.pdf" Demo.good_world))
  = Raised (ValidationError "categories: Field required")
  /\ calls (snd (fst (Phase2Extractor.extract_all_pages 4 "Luigi"
                        Demo.broken_doc1 "menu.pdf" Demo.good_world)))
     = 2%nat.
Proof. vm_compute. split; reflexivity. Qed.

(** Two category-level items and one subcategory of three items count as
    five. *)
Example item_count_two_plus_three :
  count_category (category_to_json Demo.two_plus_three) 0 = Ok 5
  /\ get_job_counts
       (stage_document "Luigi"
          [page_to_json (JInt 1, [Demo.two_plus_three])])
     = Ok (1, 5).
Proof. vm_compute. split; reflexivity. Qed.

(** One category against two bases, one page against two: phase 4 returns
    one page with one result. *)
Lemma length_mismatch_truncates_witness :
  (exists results,
     page_entry (JInt 1) "categories" [Demo.pizza]
     = page_entry (JInt 1) "categories" results /\
     length results
     = Nat.min (length [[("name_raw", JStr "Pizza")]])
         (length [[("name_raw", JStr "Pizza")];
                  [("name_raw", JStr "Pasta")]]))
  /\ exists pages,
       pages_of (stage_document "Luigi"
                   [page_entry (JInt 1) "categories" [Demo.pizza]])
       = Some pages /\
       length pages
       = Nat.min (length [page_entry (JInt 1) "categories" [Demo.pizza]])
           (length [page_entry (JInt 1) "categories"
                      [Demo.pizza; Demo.pasta];
                    page_entry (JInt 2) "categories" [JObj []]]).
Proof.
  destruct (length_mismatch_truncates 4 "Luigi" "menu.pdf")
    as (_ & Hpage & _ & Hdoc & _).
  split.
  - apply (Hpage (JInt 1) "page-one" [[("name_raw", JStr "Pizza")]]
             [[("name_raw", JStr "Pizza")]; [("name_raw", JStr "Pasta")]]
             Demo.good_world
             (page_entry (JInt 1) "categories" [Demo.pizza])
             (snd (fst Demo.mismatch_page_run))
             (snd Demo.mismatch_page_run)).
    vm_compute. reflexivity.
  - apply (Hdoc Demo.short_items Demo.long_bases
             [page_entry (JInt 1) "categories" [Demo.pizza]]
             [page_entry (JInt 1) "categories" [Demo.pizza; Demo.pasta];
              page_entry (JInt 2) "categories" [JObj []]]
             Demo.good_world
             (stage_document "Luigi"
                [page_entry (JInt 1) "categories" [Demo.pizza]])
             (snd (fst Demo.mismatch_run)) (snd Demo.mismatch_run));
      vm_compute; reflexivity.
Defined.

(** ** The further properties at concrete inputs *)

(** The phase 2 unit for Pizza with a provider whose first answer misses
    the required key: two calls one second apart, then the category. *)
Lemma retry_stops_at_first_success_witness :
  run_coro Demo.late_provider 0 (retry_loop Demo.pizza_unit)
  = (Ok Demo.pizza,
     exhausted_trace (llm_request Demo.pizza_unit "phase2.j2") 2).
Proof.
  apply (@retry_stops_at_first_success Demo.stubs Demo.pizza_unit "phase2.j2"
           Demo.late_provider 0%nat 1%nat "PIZZA" [] Demo.pizza
           ([("name_raw", JStr "Pizza")] : pydict)).
  - reflexivity.
  - vm_compute. lia.
  - intros j Hj. assert (j = 0%nat) as -> by lia. vm_compute. discriminate.
  - reflexivity.
  - reflexivity.
  - reflexivity.
Defined.

Lemma no_permit_no_progress_witness :
  _bounded_gather 0 Demo.reversed_latency
    (Demo.start Demo.good_provider (Demo.rounds 6 3))
  = (Pending, mk_world Demo.good_provider 0 [], [EvGather 3]).
Proof.
  destruct (no_permit_no_progress Demo.reversed_latency
              (Demo.start Demo.good_provider (Demo.rounds 6 3)))
    as [Hgather _].
  apply Hgather. discriminate.
Defined.

Lemma one_permit_suffices_witness :
  fst (fst (_bounded_gather 1 Demo.reversed_latency
              (Demo.start Demo.good_provider
                 (turns Demo.good_provider 0 0 Demo.reversed_latency))))
  = Returned [JStr "A"; JStr "B"; JStr "C"].
Proof.
  apply (one_permit_suffices 1 Demo.reversed_latency
           (Demo.start Demo.good_provider
              (turns Demo.good_provider 0 0 Demo.reversed_latency)) []).
  - lia.
  - vm_compute. reflexivity.
Defined.

(** The two images of [menu.pdf]: page 1 is the first, page 0 the last, and
    there is no page 3. *)
Lemma page_image_lookup_witness :
  image_for Demo.menu_images (JInt 1) = Ok "page-one"
  /\ image_for Demo.menu_images (JInt 0) = Ok "page-two"
  /\ Phase3Extractor.page_inputs Demo.menu_images Samples.page_three
     = Err IndexError.
Proof.
  destruct (page_image_lookup Demo.menu_images) as (H1 & H2 & H3).
  split; [|split].
  - apply (H1 0%nat "page-one"). reflexivity.
  - apply (H2 1%nat "page-two"). reflexivity.
  - destruct (H3 3 Samples.page_three JNull) as (_ & _ & H & _);
      [simpl; lia|reflexivity|exact H].
Defined.

(** The four stages with a provider that never answers JSON: phase 1 stops
    after 4 calls for its 2 units. *)
Lemma provider_calls_bounded_witness :
  (calls (snd (fst Demo.phase1_failure))
   <= calls Demo.garbage_world
      + 2 * sum_list (gather_sizes (snd Demo.phase1_failure)))%nat
  /\ (calls (snd (fst Demo.phase2_failure))
      <= calls Demo.garbage_world
         + 3 * sum_list (gather_sizes (snd Demo.phase2_failure)))%nat
  /\ (calls (snd (fst Demo.phase3_run))
      <= calls Demo.good_world
         + 2 * sum_list (gather_sizes (snd Demo.phase3_run)))%nat
  /\ (calls (snd (fst Demo.phase4_run))
      <= calls Demo.good_world
         + 2 * sum_list (gather_sizes (snd Demo.phase4_run)))%nat.
Proof.
  destruct (provider_calls_bounded 4 "Luigi" "menu.pdf")
    as (_ & H1 & H2 & H3 & H4).
  split; [|split; [|split]].
  - apply (H1 Demo.garbage_world (fst (fst Demo.phase1_failure))).
    vm_compute. reflexivity.
  - apply (H2 Demo.doc1 Demo.garbage_world (fst (fst Demo.phase2_failure))).
    vm_compute. reflexivity.
  - apply (H3 Demo.doc2 Demo.good_world (fst (fst Demo.phase3_run))).
    vm_compute. reflexivity.
  - apply (H4 Demo.doc2 Demo.doc2 Demo.good_world
             (fst (fst Demo.phase4_run))).
    vm_compute. reflexivity.
Defined.

(** The call of task 1 in phase 1 on [menu.pdf] carries the second page. *)
Lemma requests_match_units_witness :
  exists img prompt,
    Demo.menu_images !! 1%nat = Some img /\
    phase1_prompt "Luigi" (JInt (Z.of_nat 1 + 1)) = Ok prompt /\
    mk_request "phase1.j2" "data:image/png;base64,page-two" Categories
    = mk_request prompt ("data:image/png;base64," ++ img) Categories.
Proof.
  destruct (requests_match_units 4 "Luigi") as (H1 & _).
  apply (H1 "menu.pdf" Demo.menu_images Demo.good_world
           (fst (fst Demo.phase1_run)) (snd (fst Demo.phase1_run))
           (snd Demo.phase1_run) 1%nat _ (ApiResponse [Some "CATEGORIES"])).
  - reflexivity.
  - vm_compute. reflexivity.
  - vm_compute. apply list_elem_of_lookup. exists 4%nat. reflexivity.
Defined.

(** The builder on an unwrapped category with two items and on a base with
    a price. *)
Lemma wrapped_prompt_variables_witness :
  phase3_prompt "Luigi" (JInt 1) Samples.two_items
  = render "phase3.j2"
      [("restaurant_name", JStr "Luigi"); ("page_number", JInt 1);
       ("category", JObj Samples.two_items);
       ("items_count", JInt (Z.of_nat (length [JStr "Margherita";
                                               JStr "Marinara"])))]
  /\ phase4_prompt "Luigi" (JInt 1) Samples.two_items Samples.priced_base
     = render "phase4.j2"
         [("restaurant_name", JStr "Luigi"); ("page_number", JInt 1);
          ("category", JObj Samples.two_items);
          ("category_base", JObj Samples.priced_base);
          ("has_pricing", JBool (py_truthy (JInt 9)))].
Proof.
  destruct (wrapped_prompt_variables "Luigi" (JInt 1) "page-one")
    as (_ & _ & H3 & H4).
  split.
  - apply (H3 Samples.two_items). reflexivity.
  - apply (H4 Samples.two_items Samples.priced_base). reflexivity.
Defined.

Lemma phase1_document_counts_nothing_witness :
  get_job_counts Demo.doc1 = Ok (0, 0).
Proof.
  apply (phase1_document_counts_nothing 4 "Luigi" "menu.pdf" Demo.good_world
           Demo.doc1 (snd (fst Demo.phase1_run)) (snd Demo.phase1_run)).
  vm_compute. reflexivity.
Defined.

(** The phase 2 unit for Pizza fails on three answers that are not JSON. *)
Lemma unit_fails_only_when_exhausted_witness :
  length [Samples.sorry; Samples.sorry; Samples.sorry]
  = max_retries Demo.pizza_unit
  /\ Forall (fun a => attempt_error Demo.pizza_unit a <> None)
       [Samples.sorry; Samples.sorry; Samples.sorry]
  /\ exists a,
       last [Samples.sorry; Samples.sorry; Samples.sorry] = Some a /\
       attempt_error Demo.pizza_unit a
       = Some (ValueError
           "LLM returned invalid JSON for category 'Pizza' on page 1: JSON decode error at position 0: Expecting value").
Proof.
  destruct unit_fails_only_when_exhausted as (H1 & _).
  apply (H1 Demo.pizza_unit "phase2.j2").
  - reflexivity.
  - vm_compute. lia.
  - vm_compute. reflexivity.
Defined.

(** With the stub validator, which accepts again what it accepted, phase 3
    can read every page of the document of phase 2. *)
Lemma unedited_documents_revalidate_witness :
  Forall (fun page =>
            succeeds (Phase3Extractor.page_inputs Demo.menu_images page))
    [page_entry (JInt 1) "categories" [Demo.pizza; Demo.pizza];
     page_entry (JInt 2) "categories" [Demo.pizza; Demo.pizza]].
Proof.
  destruct (unedited_documents_revalidate 4 "Luigi" "menu.pdf"
              Demo.menu_images) as (_ & H2 & _).
  - intros s data v Hv. exists v.
    destruct data as [| | | | | |d]; try discriminate Hv.
    cbn in Hv |- *.
    destruct s; cbn in Hv |- *;
      match type of Hv with
      | context [dict_lookup ?k d] =>
          destruct (dict_lookup k d) as [[| | | | | |]|] eqn:Hk;
            try discriminate Hv; inversion Hv; subst; rewrite Hk;
            reflexivity
      end.
  - reflexivity.
  - apply (H2 Demo.doc1 Demo.good_world Demo.doc2
             (snd (fst Demo.phase2_run)) (snd Demo.phase2_run)).
    + vm_compute. reflexivity.
    + reflexivity.
Defined.

(** A PDF without pages, and a document without pages. *)
Lemma empty_documents_witness :
  @Phase1Extractor.extract_all_pages Samples.blank_stubs 4 "Luigi"
    "blank.pdf" Demo.good_world
  = (Returned Samples.no_pages,
     mk_world (provider Demo.good_world) (calls Demo.good_world)
       (schedule Demo.good_world), [EvGather 0])
  /\ @Phase3Extractor.extract_all_pages Samples.blank_stubs 4 "Luigi"
       Samples.no_pages "blank.pdf" Demo.good_world
     = (Returned Samples.no_pages, Demo.good_world, []).
Proof.
  destruct (@empty_documents Samples.blank_stubs 4 "Luigi" "blank.pdf")
    as (H1 & _ & _ & H3 & _).
  split.
  - apply (H1 Demo.good_world); [reflexivity|lia].
  - apply (H3 [] Samples.no_pages Demo.good_world); reflexivity.
Defined.

(** ** The properties of the HTTP layer at concrete inputs *)

(** [menu.pdf] is accepted and [MENU.PDF] is not. *)
Lemma pdf_upload_validation_witness :
  (exists pdf', validate_pdf_upload 50 Samples.menu_upload = Reply pdf')
  /\ validate_pdf_upload 50 Samples.shouting_upload
     = Throw (HTTPException 400 "Only PDF files are allowed").
Proof.
  split.
  - destruct (pdf_upload_validation 50 Samples.menu_upload eq_refl)
      as ([_ Haccept] & _).
    apply Haccept. split; [exists "menu"; reflexivity|simpl; lia].
  - destruct (pdf_upload_validation 50 Samples.shouting_upload eq_refl)
      as (_ & _ & Hname).
    apply (Hname "MENU.PDF"); reflexivity.
Defined.

(** The document of phase 1 is accepted by [update_categories], and phase 2
    can read its first page. *)
Lemma accepted_updates_revalidate_witness :
  succeeds (Phase2Extractor.page_inputs Demo.menu_images
              (Demo.phase1_page 1)).
Proof.
  destruct (accepted_updates_revalidate Samples.doc1_fields)
    as (_ & _ & _ & Hnext & _).
  apply (Hnext [Demo.phase1_page 1; Demo.phase1_page 2]).
  - vm_compute. reflexivity.
  - reflexivity.
  - apply list_elem_of_lookup. exists 0%nat. reflexivity.
  - eexists. vm_compute. reflexivity.
Defined.

(** A request whose second page has no data: status 500, and the disk as
    it was. *)
Lemma invalid_structure_answers_500_witness :
  update_categories Samples.route_dumps Samples.show_raised Samples.raw_only
    "job" Samples.no_data_request (Reply tt)
  = (Throw (HTTPException 500
              ("Update failed: "
               ++ Samples.show_raised
                    (HTTPException 400 "Invalid payload structure"))%string),
     Samples.raw_only).
Proof.
  destruct (invalid_structure_answers_500 Samples.route_dumps
              Samples.show_raised Samples.raw_only "job"
              Samples.no_data_request (Reply tt) [Demo.phase1_page 1]
              Samples.no_data_page []) as [Hcategories _].
  - reflexivity.
  - apply Hcategories.
    + vm_compute. reflexivity.
    + reflexivity.
Defined.

(** The document phase 4 returns for [menu.pdf] passes
    [update_final_result] without a validation. *)
Lemma final_result_not_validated_witness :
  exists data,
    fst (fst Demo.phase4_run) = Returned (JObj data) /\
    validate_final_result data = Reply tt.
Proof.
  destruct (final_result_not_validated Samples.route_dumps
              Samples.show_raised) as (_ & Hdoc & _).
  destruct (Hdoc 4 "Luigi" Demo.doc2 Demo.doc2 "menu.pdf" Demo.good_world
              (stage_document "Luigi"
                 [page_entry (JInt 1) "categories" [Demo.pizza; Demo.pizza];
                  page_entry (JInt 2) "categories" [Demo.pizza; Demo.pizza]])
              (snd (fst Demo.phase4_run)) (snd Demo.phase4_run))
    as (data & Hdata & Hvalid).
  - vm_compute. reflexivity.
  - exists data. split; [|exact Hvalid].
    rewrite <- Hdata. vm_compute. reflexivity.
Defined.

(** With only the raw file on the disk, [get_categories] returns it. *)
Lemma reviewed_before_raw_witness :
  @get_categories Samples.route_stubs Samples.show_path Samples.show_raised
    Samples.show_dict_type Samples.raw_only "job"
  = Reply {| get_success := true; get_job_id := "job";
             get_data := Samples.doc1_fields |}.
Proof.
  destruct (@reviewed_before_raw Samples.route_stubs Samples.show_path
              Samples.show_raised Samples.show_dict_type Samples.raw_only
              "job") as (_ & _ & Hraw & _).
  apply (Hraw "DOC1"); reflexivity.
Defined.

(** The document of phase 1 saved through [update_categories] while the
    database is down: status 500, and [get_categories] returns the
    document. *)
Lemma update_then_get_witness :
  fst (@update_categories Samples.route_stubs Samples.route_dumps
         Samples.show_raised (fun _ => None) "job" Samples.doc1_request
         Samples.database_down)
  = Throw (HTTPException 500 "Update failed: error")
  /\ @get_categories Samples.route_stubs Samples.show_path
       Samples.show_raised Samples.show_dict_type
       (snd (@update_categories Samples.route_stubs Samples.route_dumps
               Samples.show_raised (fun _ => None) "job"
               Samples.doc1_request Samples.database_down)) "job"
     = Reply {| get_success := true; get_job_id := "job";
                get_data := request_data Samples.doc1_request |}.
Proof.
  split; [vm_compute; reflexivity|].
  destruct (@update_then_get Samples.route_stubs Samples.route_dumps
              Samples.show_path Samples.show_raised Samples.show_dict_type
              (fun _ => None) "job" Samples.doc1_request
              Samples.database_down) as (_ & _ & Hget).
  apply Hget.
  - vm_compute. reflexivity.
  - reflexivity.
Defined.

(** ** The properties of the database at concrete inputs *)

Lemma one_job_well_formed : well_formed Samples.one_job.
Proof.
  unfold well_formed, Samples.one_job. cbn [restaurants phase_rows
    extraction_history category_sizes map].
  repeat split_and;
    try apply NoDup_singleton; try apply NoDup_nil_2.
  - intros p Hp. apply list_elem_of_singleton in Hp. subst p.
    vm_compute. eauto.
  - intros h Hh. apply list_elem_of_singleton in Hh. subst h.
    vm_compute. eauto.
  - intros c Hc. apply elem_of_nil in Hc. contradiction.
Qed.

(** Stage two on the job of [one_job] leaves a database in shape whose log
    begins with the old one. *)
Lemma database_stays_well_formed_witness :
  well_formed
    (snd (@extract_items Samples.route_stubs Samples.route_dumps
            Samples.show_path Samples.show_raised Samples.menu_stage2
            Samples.ready_disk Samples.one_job "job"))
  /\ continues Samples.one_job
       (snd (@extract_items Samples.route_stubs Samples.route_dumps
               Samples.show_path Samples.show_raised Samples.menu_stage2
               Samples.ready_disk Samples.one_job "job")).
Proof.
  destruct (@database_stays_well_formed Samples.route_stubs
              Samples.route_dumps Samples.show_path Samples.show_raised
              Samples.ready_disk Samples.one_job "job" one_job_well_formed)
    as (_ & Hitems & _).
  apply Hitems.
Defined.

(** After stage two is recorded for [job], its snapshot of stage one is
    still there. *)
Lemma extraction_is_recorded_witness :
  exists db',
    record_phase 2 "phase2_complete" Samples.one_job "job" Demo.doc2
    = Reply db'
    /\ find_phase db' "job" 1 = find_phase Samples.one_job "job" 1.
Proof.
  eexists. split; [reflexivity|].
  destruct (extraction_is_recorded Samples.one_job "job") as [_ Hlater].
  destruct (Hlater 2 "phase2_complete" Demo.doc2 _ eq_refl)
    as (_ & _ & _ & Hothers).
  apply Hothers. right. lia.
Defined.

(** A result of stage two for a job the database does not know. *)
Lemma job_not_in_database_witness :
  @store_items Samples.route_dumps Samples.show_raised Samples.ready_disk
    Samples.one_job "ghost" Samples.doc1_fields
  = (Throw (HTTPException 500 "Phase 2 failed: 404: Job not found"),
     save_json Samples.route_dumps Samples.ready_disk (phase2_path "ghost")
       (JObj Samples.doc1_fields),
     Samples.one_job).
Proof.
  destruct (@job_not_in_database Samples.route_stubs Samples.route_dumps
              Samples.show_raised Samples.ready_disk Samples.one_job "ghost"
              eq_refl) as (_ & _ & Hstore & _).
  destruct (Hstore Samples.doc1_fields) as [Hitems _]. exact Hitems.
Defined.

(** An edit of stage one with a document without pages: the job keeps
    phase 1 and counts nothing. *)
Lemma edit_replaces_current_document_witness :
  get_job (record_edit 1 Samples.one_job "job" Samples.no_pages) "job"
  = Reply {| job_status := "phase1_complete";
             current_phase := 1;
             job_restaurant_name := Some "Luigi";
             category_count := 0;
             item_count := 0 |}.
Proof.
  destruct (edit_replaces_current_document Samples.one_job "job" 1
              Samples.no_pages Samples.job_row eq_refl) as (_ & Hget & _).
  rewrite Hget. vm_compute. reflexivity.
Defined.

(** Stage two on an empty disk. *)
Lemma extract_input_errors_witness :
  @extract_items Samples.route_stubs Samples.route_dumps Samples.show_path
    Samples.show_raised Samples.menu_stage2 (fun _ => None) Samples.one_job
    "job"
  = (Throw (HTTPException 404
              (Samples.show_raised
                 (Python (FileNotFoundError
                            ("File not found: "
                             ++ Samples.show_path
                                  (phase1_reviewed_path "job")))))),
     fun _ => None, Samples.one_job).
Proof.
  destruct (@extract_input_errors Samples.route_stubs Samples.route_dumps
              Samples.show_path Samples.show_raised (fun _ => None)
              Samples.one_job "job") as (Hitems & _).
  apply Hitems. reflexivity.
Defined.

(** Stage two on an empty disk fails and leaves [one_job]. *)
Lemma errors_change_no_row_witness :
  snd (@extract_items Samples.route_stubs Samples.route_dumps
         Samples.show_path Samples.show_raised Samples.menu_stage2
         (fun _ => None) Samples.one_job "job")
  = Samples.one_job.
Proof.
  destruct (@errors_change_no_row Samples.route_stubs Samples.route_dumps
              Samples.show_path Samples.show_raised (fun _ => None)
              Samples.one_job "job"
              (HTTPException 404 "error")) as (_ & Hitems & _).
  apply Hitems. vm_compute. reflexivity.
Defined.


(** Stage one on the upload [menu.pdf] for a new job, read back. *)
Lemma extract_then_get_witness :
  @get_categories Samples.route_stubs Samples.show_path Samples.show_raised
    Samples.show_dict_type
    (snd (fst (@extract_categories Samples.route_dumps Samples.show_path
                 Samples.show_raised Samples.menu_stage1 (fun _ => None)
                 Samples.one_job "new" "Luigi" Samples.menu_upload)))
    "new"
  = Reply {| get_success := true; get_job_id := "new";
             get_data := Samples.doc1_fields |}.
Proof.
  destruct (@extract_then_get Samples.route_stubs Samples.route_dumps
              Samples.show_path Samples.show_raised Samples.show_dict_type
              (fun _ => None) Samples.one_job "new" Samples.doc1_fields
              eq_refl) as [Hfirst _].
  destruct (Hfirst Samples.menu_stage1 "Luigi" Samples.menu_upload)
    as (fs' & db' & Hroute & _ & Hget & _).
  - vm_compute. reflexivity.
  - rewrite Hroute. exact Hget.
Defined.

(** Two sizes set for the pizzas of [job], read back. *)
Lemma category_sizes_round_trip_witness :
  get_category_sizes Samples.show_raised
    (snd (update_category_sizes Samples.show_raised Samples.one_job "job"
            "Pizza" Samples.two_sizes)) "job" "Pizza"
  = Reply (JObj [("job_id", JStr "job");
                 ("category", JStr "Pizza");
                 ("sizes", JArr [JStr "small"; JStr "large"])]).
Proof.
  destruct (category_sizes_round_trip Samples.show_raised Samples.one_job
              "job" "Pizza" Samples.two_sizes Samples.job_row eq_refl)
    as (_ & Hget & _).
  exact Hget.
Defined.

(** The status of [job] set to [reviewed]: the phase stays 1, and the
    counts are those of the document of stage one. *)
Lemma status_update_then_get_witness :
  get_job (snd (update_job_status Samples.one_job "job"
                  Samples.reviewed_status)) "job"
  = Reply {| job_status := "reviewed";
             current_phase := 1;
             job_restaurant_name := Some "Luigi";
             category_count := 0;
             item_count := 0 |}.
Proof.
  destruct (status_update_then_get Samples.one_job "job"
              Samples.reviewed_status Samples.job_row eq_refl)
    as (_ & Hget & _).
  rewrite Hget. vm_compute. reflexivity.
Defined.

(** ** Page numbers, pairing and retries at concrete inputs *)

(** A reviewed document with one page, numbered 2, for the two pages of
    [menu.pdf]: [update_categories] accepts it, and phase 2 returns one
    entry, numbered 2.  Through the routes: the PUT of phase 1 answers
    with success, and the extract route of phase 2 that follows answers
    with that document. *)
Lemma edited_pages_counterexample :
  @convert_to_images Demo.stubs "menu.pdf" = Ok Demo.menu_images
  /\ length Demo.menu_images = 2%nat
  /\ @validate_categories Demo.stubs Samples.renumbered_fields = Reply tt
  /\ fst (fst (@Phase2Extractor.extract_all_pages Demo.stubs 4 "Luigi"
                 (JObj Samples.renumbered_fields) "menu.pdf"
                 Demo.good_world))
     = Returned
         (stage_document "Luigi"
            [page_entry (JInt 2) "categories" [Demo.pizza; Demo.pizza]])
  /\ ~ aligned (length Demo.menu_images)
         (stage_document "Luigi"
            [page_entry (JInt 2) "categories" [Demo.pizza; Demo.pizza]])
  /\ fst (@update_categories Samples.edit_stubs Samples.edit_dumps
            Samples.show_raised Samples.ready_disk "job"
            Samples.renumbered_request (Reply tt))
     = Reply (new_UpdateDataResponse "job")
  /\ fst (fst (@extract_items Samples.edit_stubs Samples.edit_dumps
                 Samples.show_path Samples.show_raised Samples.edit_stage2
                 (snd (@update_categories Samples.edit_stubs
                         Samples.edit_dumps Samples.show_raised
                         Samples.ready_disk "job"
                         Samples.renumbered_request (Reply tt)))
                 Samples.one_job "job"))
     = Reply {| phase_success := true;
                phase_job_id := "job";
                phase_data :=
                  [("restaurant_name", JStr "Luigi");
                   ("pages",
                    JArr [page_entry (JInt 2) "categories"
                            [Demo.pizza; Demo.pizza]])];
                phase_message := "Phase 2 extraction complete" |}.
Proof.
  split; [reflexivity|]. split; [reflexivity|].
  split; [vm_compute; reflexivity|]. split; [vm_compute; reflexivity|].
  split; [|split; vm_compute; reflexivity].
  intros (pages & Hpages & Hlen & _).
  rewrite pages_of_stage_document in Hpages.
  inversion Hpages; subst pages. discriminate Hlen.
Qed.

(** The four stages on [menu.pdf], each on the documents of the stages
    before: every document has two entries, numbered 1 and 2. *)
Lemma positional_alignment_witness :
  aligned (length Demo.menu_images) (Demo.doc1)
  /\ (exists doc, fst (fst Demo.phase2_run) = Returned doc
                  /\ aligned (length Demo.menu_images) doc)
  /\ (exists doc, fst (fst Demo.phase3_run) = Returned doc
                  /\ aligned (length Demo.menu_images) doc)
  /\ (exists doc, fst (fst Demo.phase4_run) = Returned doc
                  /\ aligned (length Demo.menu_images) doc).
Proof.
  destruct (@positional_alignment Demo.stubs 4 "Luigi" "menu.pdf")
    as (H1 & _ & _ & _ & H2 & H3 & H4).
  assert (A1 : aligned (length Demo.menu_images) Demo.doc1).
  { apply (H1 Demo.menu_images Demo.good_world Demo.doc1
             (snd (fst Demo.phase1_run)) (snd Demo.phase1_run));
      vm_compute; reflexivity. }
  assert (A2 : aligned (length Demo.menu_images) Demo.doc2).
  { apply (H2 _ Demo.doc1 Demo.good_world Demo.doc2
             (snd (fst Demo.phase2_run)) (snd Demo.phase2_run) A1).
    vm_compute. reflexivity. }
  assert (A3 : aligned (length Demo.menu_images) Demo.doc2).
  { apply (H3 _ Demo.doc2 Demo.good_world Demo.doc2
             (snd (fst Demo.phase3_run)) (snd Demo.phase3_run) A2).
    vm_compute. reflexivity. }
  split; [exact A1|]. split; [|split].
  - exists Demo.doc2. split; [vm_compute; reflexivity|exact A2].
  - exists Demo.doc2. split; [vm_compute; reflexivity|exact A3].
  - exists Demo.doc2. split; [vm_compute; reflexivity|].
    apply (H4 _ Demo.doc2 Demo.doc2 Demo.good_world Demo.doc2
             (snd (fst Demo.phase4_run)) (snd Demo.phase4_run) A2 A3).
    vm_compute. reflexivity.
Defined.

(** A page with two categories and one base, its units run in turn: one
    unit, that of the first category and the base. *)
Lemma positional_pairing_witness :
  fst (fst (@Phase4Extractor.extract_page Demo.stubs 1 "Luigi" (JInt 1)
              "page-one" Samples.two_categories Samples.one_base
              Samples.in_turn_world))
  = Returned (page_entry (JInt 1) "categories" [Demo.pizza]).
Proof.
  destruct (@positional_pairing Demo.stubs 1 "Luigi")
    as (_ & _ & _ & _ & _ & Hturn & _).
  rewrite (Hturn (JInt 1) "page-one" Samples.two_categories
             Samples.one_base Samples.in_turn_world []).
  - vm_compute. reflexivity.
  - lia.
  - vm_compute. reflexivity.
Defined.

(** The unit of phase 2 for the category Pizza, with three attempts.  When
    every answer parses but misses the required key, the first failure is
    followed by a second call, and the third failure raises the validation
    error; when no answer is JSON, the third failure raises the
    [ValueError] of the parse error after the same calls and sleeps. *)
Lemma validation_failure_retried_witness :
  (exists tr,
     snd (run_coro Demo.invalid_provider 0
            (@retry_loop Demo.stubs Demo.pizza_unit))
     = retried (@llm_request Demo.pizza_unit "phase2.j2") 1
       ++ UCall (@llm_request Demo.pizza_unit "phase2.j2") :: tr)
  /\ run_coro Demo.invalid_provider 0
       (@retry_loop Demo.stubs Demo.pizza_unit)
     = (Err (ValidationError "name_raw: Field required"),
        retried (@llm_request Demo.pizza_unit "phase2.j2") 2
        ++ [UCall (@llm_request Demo.pizza_unit "phase2.j2")])
  /\ run_coro Demo.garbage_provider 0
       (@retry_loop Demo.stubs Demo.pizza_unit)
     = (Err (ValueError
               (invalid_json_message Demo.pizza_unit
                  (decode_error_msg 0 "Expecting value"))),
        retried (@llm_request Demo.pizza_unit "phase2.j2") 2
        ++ [UCall (@llm_request Demo.pizza_unit "phase2.j2")]).
Proof.
  split; [|split].
  - destruct (@validation_failure_retried Demo.stubs Demo.pizza_unit
                "phase2.j2" Demo.invalid_provider 0 0 "EMPTY" [])
      as (Hinvalid & _).
    + reflexivity.
    + intros k Hk. lia.
    + reflexivity.
    + destruct (Hinvalid (JObj [])
                  (ValidationError "name_raw: Field required"))
        as [Hretry _]; [reflexivity|reflexivity|].
      apply Hretry. simpl. lia.
  - destruct (@validation_failure_retried Demo.stubs Demo.pizza_unit
                "phase2.j2" Demo.invalid_provider 0 2 "EMPTY" [])
      as (Hinvalid & _).
    + reflexivity.
    + intros k Hk. vm_compute. discriminate.
    + reflexivity.
    + destruct (Hinvalid (JObj [])
                  (ValidationError "name_raw: Field required"))
        as [_ Hlast]; [reflexivity|reflexivity|].
      apply Hlast. reflexivity.
  - destruct (@validation_failure_retried Demo.stubs Demo.pizza_unit
                "phase2.j2" Demo.garbage_provider 0 2 "I am sorry" [])
      as (_ & Hunparsed & _).
    + reflexivity.
    + intros k Hk. vm_compute. discriminate.
    + reflexivity.
    + destruct (Hunparsed 0%nat "Expecting value") as [_ Hlast];
        [reflexivity|].
      apply Hlast. reflexivity.
Defined.
